(** * libansnd: the host-side voice driver (src/ansndlib.c, include/ansndlib.h)

    A shallow embedding of the driver's voice registry, its parameter-block
    codec, the frequency/delay calculator, the streaming buffer exchange and
    the synchronization cycle, followed by the properties established about
    them.

    Conventions of the embedding.
    - Machine integers are [Z] with the wrap-around written out ([to_u16],
      [to_u32], ...); a 16-bit word of the parameter block is kept as its
      unsigned bit pattern.
    - [f32] is IEEE-754 binary32 (precision 24, emax 128) with
      round-to-nearest-even, as the PowerPC target evaluates [float]
      expressions; the operations are those of [SpecFloat].
    - Pointers into the two static arrays are indices ([option nat], [None]
      for NULL); function pointers are opaque identifiers.
    - A user callback is an event of the cycle's trace; what a streaming
      callback writes to its out-parameter is an input of the cycle.  User
      callbacks are assumed not to re-enter the library.
    - A store through a NULL parameter-block pointer is a fault: the
      function returns [None]. *)

From Stdlib Require Import ZArith Lia Bool List.
From Stdlib Require Import Floats.SpecFloat.
From stdpp Require Import base option list.
Import ListNotations.

#[local] Open Scope Z_scope.

(** ** Binary32 arithmetic *)

Module F32.

Definition prec : Z := 24.
Definition emax : Z := 128.

Definition f32 : Type := spec_float.

Definition zero : f32 := S754_zero false.
Definition one : f32 := binary_normalize prec emax 1 0 false.

(** Conversion of an integer: [(f32)z]. *)
Definition of_Z (z : Z) : f32 := binary_normalize prec emax z 0 false.

(** A literal [m * 2^e], rounded. *)
Definition of_scaled (m e : Z) : f32 := binary_normalize prec emax m e false.

Definition mul (x y : f32) : f32 := SFmul prec emax x y.
Definition div (x y : f32) : f32 := SFdiv prec emax x y.

(** [x < y] and [x > y]; both are false when an operand is a NaN. *)
Definition ltb (x y : f32) : bool := SFltb x y.
Definition gtb (x y : f32) : bool := SFltb y x.

(** Quotient of [m] by [d > 0] rounded to the nearest integer, ties to even. *)
Definition div_nearest_even (m d : Z) : Z :=
  let q := m / d in
  let r := m mod d in
  if 2 * r <? d then q
  else if d <? 2 * r then q + 1
  else if Z.even q then q else q + 1.

(** [lrintf]: the nearest integer in the default rounding mode.  The C
    library leaves the result unspecified for a NaN, an infinity, or a
    value outside the range of [long]; the model returns 0 for the first
    two and the mathematical integer for the third, which the callers
    then truncate to the width of the field they store. *)
Definition lrintf (x : f32) : Z :=
  match x with
  | S754_finite s m e =>
      let n := if 0 <=? e then Z.pos m * 2 ^ e
               else div_nearest_even (Z.pos m) (2 ^ (- e)) in
      if s then - n else n
  | _ => 0
  end.

(** Conversion of a float to an integer type: truncation toward zero. *)
Definition trunc (x : f32) : Z :=
  match x with
  | S754_finite s m e =>
      let n := if 0 <=? e then Z.pos m * 2 ^ e else Z.pos m / 2 ^ (- e) in
      if s then - n else n
  | _ => 0
  end.

End F32.

Abbreviation f32 := F32.f32.

#[global] Arguments F32.of_Z : simpl never.
#[global] Arguments F32.of_scaled : simpl never.
#[global] Arguments F32.mul : simpl never.
#[global] Arguments F32.div : simpl never.
#[global] Arguments F32.ltb : simpl never.
#[global] Arguments F32.gtb : simpl never.
#[global] Arguments F32.lrintf : simpl never.
#[global] Arguments F32.trunc : simpl never.

(** ** Machine integers and the conversion helpers *)

Definition to_u8  (z : Z) : Z := z mod 2 ^ 8.
Definition to_u16 (z : Z) : Z := z mod 2 ^ 16.
Definition to_u32 (z : Z) : Z := z mod 2 ^ 32.
Definition to_u64 (z : Z) : Z := z mod 2 ^ 64.

(** [HIGH(x)] and [LOW(x)]. *)
Definition HIGH (x : Z) : Z := to_u16 (Z.shiftr (Z.land x 0xFFFF0000) 16).
Definition LOW  (x : Z) : Z := to_u16 (Z.land x 0x0000FFFF).

(** [SAMPLES_TO_NIBBLES(x)], on [u32]. *)
Definition SAMPLES_TO_NIBBLES (x : Z) : Z := to_u32 ((x / 14) * 16 + x mod 14 + 2).

(** [f & X] used as a condition. *)
Definition flag_set (f X : Z) : bool := negb (Z.land f X =? 0).

(** [f |= X] and [f &= ~X] on a 16-bit word. *)
Definition flag_or (f X : Z) : Z := Z.lor f X.
Definition flag_clear (f X : Z) : Z := Z.land f (Z.lnot X).

(** ** Constants *)

Definition ANSND_MAX_VOICES : Z := 48.
Definition MAX_PARAMETER_BLOCKS : Z := ANSND_MAX_VOICES.
Definition ANSND_SOUND_BUFFER_SIZE : Z := 960.

Definition DSP_ACCL_FMT_ADPCM : Z := 0x0000.
Definition DSP_ACCL_FMT_SIGNED_8BIT : Z := 0x0019.
Definition DSP_ACCL_FMT_SIGNED_16BIT : Z := 0x000A.
Definition DSP_ACCL_GAIN_8BIT : Z := 0x0100.
Definition DSP_ACCL_GAIN_16BIT : Z := 0x0800.

Definition DSP_MAIL_COMMAND : Z := 0xFACE0000.
Definition DSP_MAIL_END : Z := 0x0000DEAD.
Definition DSP_MAIL_NEXT : Z := 0x00001111.
Definition DSP_MAIL_PREPARE : Z := 0x00002222.
Definition DSP_MAIL_MM_LOCATION : Z := 0x00003333.
Definition DSP_MAIL_RESTART : Z := 0x00004444.
Definition DSP_MAIL_YIELD : Z := 0x00005555.

Definition VOICE_FLAG_PITCH_CHANGE : Z := 0x2000.
Definition VOICE_FLAG_CONFIGURED : Z := 0x1000.
Definition VOICE_FLAG_USED : Z := 0x0800.
Definition VOICE_FLAG_UPDATED : Z := 0x0400.
Definition VOICE_FLAG_INITIALIZED : Z := 0x0200.
Definition VOICE_FLAG_ERASED : Z := 0x0100.
Definition VOICE_FLAG_RUNNING : Z := 0x0080.
Definition VOICE_FLAG_FINISHED : Z := 0x0040.
Definition VOICE_FLAG_PAUSED : Z := 0x0020.
Definition VOICE_FLAG_DELAY : Z := 0x0010.
Definition VOICE_FLAG_STREAMING : Z := 0x0008.
Definition VOICE_FLAG_LOOPED : Z := 0x0004.
Definition VOICE_FLAG_ADPCM : Z := 0x0002.
Definition VOICE_FLAG_STEREO : Z := 0x0001.

Definition ANSND_OUTPUT_SAMPLERATE_32KHZ : Z := 0.
Definition ANSND_OUTPUT_SAMPLERATE_48KHZ : Z := 1.
Definition ANSND_OUTPUT_SAMPLERATE_96KHZ : Z := 2.

Definition ANSND_VOICE_STATE_ERROR : Z := -1.
Definition ANSND_VOICE_STATE_STOPPED : Z := 0.
Definition ANSND_VOICE_STATE_FINISHED : Z := 1.
Definition ANSND_VOICE_STATE_PAUSED : Z := 2.
Definition ANSND_VOICE_STATE_RUNNING : Z := 3.
Definition ANSND_VOICE_STATE_ERASED : Z := 4.

Definition ANSND_VOICE_PCM_FORMAT_UNSET : Z := 0.
Definition ANSND_VOICE_PCM_FORMAT_SIGNED_8_PCM : Z := 1.
Definition ANSND_VOICE_PCM_FORMAT_SIGNED_16_PCM : Z := 2.

Definition ANSND_ERROR_OK : Z := 0.
Definition ANSND_ERROR_NOT_INITIALIZED : Z := -1.
Definition ANSND_ERROR_INVALID_CONFIGURATION : Z := -2.
Definition ANSND_ERROR_INVALID_INPUT : Z := -3.
Definition ANSND_ERROR_INVALID_SAMPLERATE : Z := -4.
Definition ANSND_ERROR_INVALID_MEMORY : Z := -5.
Definition ANSND_ERROR_ALL_VOICES_USED : Z := -6.
Definition ANSND_ERROR_VOICE_ID_NOT_ALLOCATED : Z := -7.
Definition ANSND_ERROR_VOICE_NOT_CONFIGURED : Z := -8.
Definition ANSND_ERROR_VOICE_NOT_INITIALIZED : Z := -9.
Definition ANSND_ERROR_VOICE_RUNNING : Z := -10.
Definition ANSND_ERROR_VOICE_ALREADY_LINKED : Z := -11.
Definition ANSND_ERROR_VOICE_NOT_LINKED : Z := -12.
Definition ANSND_ERROR_DSP_STALLED : Z := -13.

(** The hardware variant the library is compiled for.  On the GameCube
    ([HW_DOL]) sample data lives in auxiliary RAM, whose bounds
    [AR_GetBaseAddress()] and [AR_GetSize()] the platform reports; on the
    Wii ([HW_RVL]) an address is refused when it has a bit in common with
    libogc's [SYS_BASE_CACHED]. *)
Inductive platform : Type :=
| HW_DOL (ar_base ar_size : Z)
| HW_RVL.

Definition SYS_BASE_CACHED : Z := 0x80000000.

(** [ANSND_DSP_FREQ_32KHZ] and [ANSND_DSP_FREQ_48KHZ]. *)
Definition ANSND_DSP_FREQ_32KHZ (hw : platform) : f32 :=
  match hw with
  | HW_DOL _ _ => F32.div (F32.of_Z 54000000) (F32.of_Z 1686)
  | HW_RVL => F32.div (F32.of_Z 54000000) (F32.of_scaled 3375 (-1))
  end.

Definition ANSND_DSP_FREQ_48KHZ (hw : platform) : f32 :=
  match hw with
  | HW_DOL _ _ => F32.div (F32.of_Z 54000000) (F32.of_Z 1124)
  | HW_RVL => F32.div (F32.of_Z 54000000) (F32.of_Z 1125)
  end.

Definition ANSND_MAX_SAMPLERATE_32KHZ (hw : platform) : f32 :=
  F32.mul (ANSND_DSP_FREQ_32KHZ hw) (F32.of_Z 4).
Definition ANSND_MAX_SAMPLERATE_48KHZ (hw : platform) : f32 :=
  F32.mul (ANSND_DSP_FREQ_48KHZ hw) (F32.of_Z 4).

(** ** Data *)

Module PB.

(** [ansnd_parameter_block_t]: the 128-byte block shared with the DSP, one
    16-bit word per field, each kept as its unsigned bit pattern.  The two
    anonymous unions are overlapping storage, so each shared word is a
    single field. *)
Record t : Type := mk {
  sample_buffer : list Z;  (* 0x00: s16[16] *)
  words_10 : list Z;  (* 0x10: pcm.sample_buffer_2 / adpcm.decode_coefficients *)
  right_volume : Z;  (* 0x20 *)
  left_volume : Z;  (* 0x21 *)
  relative_frequency_high : Z;  (* 0x22 *)
  relative_frequency_low : Z;  (* 0x23 *)
  count_low : Z;  (* 0x24 *)
  delay : Z;  (* 0x25 *)
  flags : Z;  (* 0x26 *)
  sample_buffer_index : Z;  (* 0x27 *)
  sample_buffer_wrapping : Z;  (* 0x28 *)
  filter_step : Z;  (* 0x29 *)
  filter_step_512 : Z;  (* 0x2A *)
  correction_factor : Z;  (* 0x2B *)
  accelerator_format : Z;  (* 0x2C *)
  accelerator_start_high : Z;  (* 0x2D *)
  accelerator_start_low : Z;  (* 0x2E *)
  accelerator_end_high : Z;  (* 0x2F *)
  accelerator_end_low : Z;  (* 0x30 *)
  accelerator_current_high : Z;  (* 0x31 *)
  accelerator_current_low : Z;  (* 0x32 *)
  initial_predictor_scale : Z;  (* 0x33 *)
  initial_sample_history_1 : Z;  (* 0x34 *)
  initial_sample_history_2 : Z;  (* 0x35 *)
  accelerator_gain : Z;  (* 0x36 *)
  w37 : Z;  (* looping.padding[0] / streaming.next_buffer_start_high *)
  w38 : Z;  (* looping.padding[1] / streaming.next_buffer_start_low *)
  w39 : Z;  (* looping.padding[2] / streaming.next_buffer_end_high *)
  w3A : Z;  (* looping.padding[3] / streaming.next_buffer_end_low *)
  w3B : Z;  (* looping.loop_start_high / streaming.next_buffer_current_high *)
  w3C : Z;  (* looping.loop_start_low / streaming.next_buffer_current_low *)
  w3D : Z;  (* looping.loop_predictor_scale / streaming.next_buffer_predictor_scale *)
  w3E : Z;  (* looping.loop_sample_history_1 / streaming.next_buffer_sample_history_1 *)
  w3F : Z  (* looping.loop_sample_history_2 / streaming.next_buffer_sample_history_2 *)
}.

Definition set_sample_buffer (x : list Z) (r : t) : t :=
  {| sample_buffer := x; words_10 := words_10 r; right_volume := right_volume r;
     left_volume := left_volume r; relative_frequency_high := relative_frequency_high r;
     relative_frequency_low := relative_frequency_low r; count_low := count_low r;
     delay := delay r; flags := flags r; sample_buffer_index := sample_buffer_index r;
     sample_buffer_wrapping := sample_buffer_wrapping r; filter_step := filter_step r;
     filter_step_512 := filter_step_512 r; correction_factor := correction_factor r;
     accelerator_format := accelerator_format r;
     accelerator_start_high := accelerator_start_high r;
     accelerator_start_low := accelerator_start_low r;
     accelerator_end_high := accelerator_end_high r;
     accelerator_end_low := accelerator_end_low r;
     accelerator_current_high := accelerator_current_high r;
     accelerator_current_low := accelerator_current_low r;
     initial_predictor_scale := initial_predictor_scale r;
     initial_sample_history_1 := initial_sample_history_1 r;
     initial_sample_history_2 := initial_sample_history_2 r;
     accelerator_gain := accelerator_gain r; w37 := w37 r; w38 := w38 r; w39 := w39 r;
     w3A := w3A r; w3B := w3B r; w3C := w3C r; w3D := w3D r; w3E := w3E r; w3F := w3F r |}.

Definition set_words_10 (x : list Z) (r : t) : t :=
  {| sample_buffer := sample_buffer r; words_10 := x; right_volume := right_volume r;
     left_volume := left_volume r; relative_frequency_high := relative_frequency_high r;
     relative_frequency_low := relative_frequency_low r; count_low := count_low r;
     delay := delay r; flags := flags r; sample_buffer_index := sample_buffer_index r;
     sample_buffer_wrapping := sample_buffer_wrapping r; filter_step := filter_step r;
     filter_step_512 := filter_step_512 r; correction_factor := correction_factor r;
     accelerator_format := accelerator_format r;
     accelerator_start_high := accelerator_start_high r;
     accelerator_start_low := accelerator_start_low r;
     accelerator_end_high := accelerator_end_high r;
     accelerator_end_low := accelerator_end_low r;
     accelerator_current_high := accelerator_current_high r;
     accelerator_current_low := accelerator_current_low r;
     initial_predictor_scale := initial_predictor_scale r;
     initial_sample_history_1 := initial_sample_history_1 r;
     initial_sample_history_2 := initial_sample_history_2 r;
     accelerator_gain := accelerator_gain r; w37 := w37 r; w38 := w38 r; w39 := w39 r;
     w3A := w3A r; w3B := w3B r; w3C := w3C r; w3D := w3D r; w3E := w3E r; w3F := w3F r |}.

Definition set_right_volume (x : Z) (r : t) : t :=
  {| sample_buffer := sample_buffer r; words_10 := words_10 r; right_volume := x;
     left_volume := left_volume r; relative_frequency_high := relative_frequency_high r;
     relative_frequency_low := relative_frequency_low r; count_low := count_low r;
     delay := delay r; flags := flags r; sample_buffer_index := sample_buffer_index r;
     sample_buffer_wrapping := sample_buffer_wrapping r; filter_step := filter_step r;
     filter_step_512 := filter_step_512 r; correction_factor := correction_factor r;
     accelerator_format := accelerator_format r;
     accelerator_start_high := accelerator_start_high r;
     accelerator_start_low := accelerator_start_low r;
     accelerator_end_high := accelerator_end_high r;
     accelerator_end_low := accelerator_end_low r;
     accelerator_current_high := accelerator_current_high r;
     accelerator_current_low := accelerator_current_low r;
     initial_predictor_scale := initial_predictor_scale r;
     initial_sample_history_1 := initial_sample_history_1 r;
     initial_sample_history_2 := initial_sample_history_2 r;
     accelerator_gain := accelerator_gain r; w37 := w37 r; w38 := w38 r; w39 := w39 r;
     w3A := w3A r; w3B := w3B r; w3C := w3C r; w3D := w3D r; w3E := w3E r; w3F := w3F r |}.

Definition set_left_volume (x : Z) (r : t) : t :=
  {| sample_buffer := sample_buffer r; words_10 := words_10 r; right_volume := right_volume r;
     left_volume := x; relative_frequency_high := relative_frequency_high r;
     relative_frequency_low := relative_frequency_low r; count_low := count_low r;
     delay := delay r; flags := flags r; sample_buffer_index := sample_buffer_index r;
     sample_buffer_wrapping := sample_buffer_wrapping r; filter_step := filter_step r;
     filter_step_512 := filter_step_512 r; correction_factor := correction_factor r;
     accelerator_format := accelerator_format r;
     accelerator_start_high := accelerator_start_high r;
     accelerator_start_low := accelerator_start_low r;
     accelerator_end_high := accelerator_end_high r;
     accelerator_end_low := accelerator_end_low r;
     accelerator_current_high := accelerator_current_high r;
     accelerator_current_low := accelerator_current_low r;
     initial_predictor_scale := initial_predictor_scale r;
     initial_sample_history_1 := initial_sample_history_1 r;
     initial_sample_history_2 := initial_sample_history_2 r;
     accelerator_gain := accelerator_gain r; w37 := w37 r; w38 := w38 r; w39 := w39 r;
     w3A := w3A r; w3B := w3B r; w3C := w3C r; w3D := w3D r; w3E := w3E r; w3F := w3F r |}.

Definition set_relative_frequency_high (x : Z) (r : t) : t :=
  {| sample_buffer := sample_buffer r; words_10 := words_10 r; right_volume := right_volume r;
     left_volume := left_volume r; relative_frequency_high := x;
     relative_frequency_low := relative_frequency_low r; count_low := count_low r;
     delay := delay r; flags := flags r; sample_buffer_index := sample_buffer_index r;
     sample_buffer_wrapping := sample_buffer_wrapping r; filter_step := filter_step r;
     filter_step_512 := filter_step_512 r; correction_factor := correction_factor r;
     accelerator_format := accelerator_format r;
     accelerator_start_high := accelerator_start_high r;
     accelerator_start_low := accelerator_start_low r;
     accelerator_end_high := accelerator_end_high r;
     accelerator_end_low := accelerator_end_low r;
     accelerator_current_high := accelerator_current_high r;
     accelerator_current_low := accelerator_current_low r;
     initial_predictor_scale := initial_predictor_scale r;
     initial_sample_history_1 := initial_sample_history_1 r;
     initial_sample_history_2 := initial_sample_history_2 r;
     accelerator_gain := accelerator_gain r; w37 := w37 r; w38 := w38 r; w39 := w39 r;
     w3A := w3A r; w3B := w3B r; w3C := w3C r; w3D := w3D r; w3E := w3E r; w3F := w3F r |}.

Definition set_relative_frequency_low (x : Z) (r : t) : t :=
  {| sample_buffer := sample_buffer r; words_10 := words_10 r; right_volume := right_volume r;
     left_volume := left_volume r; relative_frequency_high := relative_frequency_high r;
     relative_frequency_low := x; count_low := count_low r; delay := delay r; flags := flags r;
     sample_buffer_index := sample_buffer_index r;
     sample_buffer_wrapping := sample_buffer_wrapping r; filter_step := filter_step r;
     filter_step_512 := filter_step_512 r; correction_factor := correction_factor r;
     accelerator_format := accelerator_format r;
     accelerator_start_high := accelerator_start_high r;
     accelerator_start_low := accelerator_start_low r;
     accelerator_end_high := accelerator_end_high r;
     accelerator_end_low := accelerator_end_low r;
     accelerator_current_high := accelerator_current_high r;
     accelerator_current_low := accelerator_current_low r;
     initial_predictor_scale := initial_predictor_scale r;
     initial_sample_history_1 := initial_sample_history_1 r;
     initial_sample_history_2 := initial_sample_history_2 r;
     accelerator_gain := accelerator_gain r; w37 := w37 r; w38 := w38 r; w39 := w39 r;
     w3A := w3A r; w3B := w3B r; w3C := w3C r; w3D := w3D r; w3E := w3E r; w3F := w3F r |}.

Definition set_delay (x : Z) (r : t) : t :=
  {| sample_buffer := sample_buffer r; words_10 := words_10 r; right_volume := right_volume r;
     left_volume := left_volume r; relative_frequency_high := relative_frequency_high r;
     relative_frequency_low := relative_frequency_low r; count_low := count_low r; delay := x;
     flags := flags r; sample_buffer_index := sample_buffer_index r;
     sample_buffer_wrapping := sample_buffer_wrapping r; filter_step := filter_step r;
     filter_step_512 := filter_step_512 r; correction_factor := correction_factor r;
     accelerator_format := accelerator_format r;
     accelerator_start_high := accelerator_start_high r;
     accelerator_start_low := accelerator_start_low r;
     accelerator_end_high := accelerator_end_high r;
     accelerator_end_low := accelerator_end_low r;
     accelerator_current_high := accelerator_current_high r;
     accelerator_current_low := accelerator_current_low r;
     initial_predictor_scale := initial_predictor_scale r;
     initial_sample_history_1 := initial_sample_history_1 r;
     initial_sample_history_2 := initial_sample_history_2 r;
     accelerator_gain := accelerator_gain r; w37 := w37 r; w38 := w38 r; w39 := w39 r;
     w3A := w3A r; w3B := w3B r; w3C := w3C r; w3D := w3D r; w3E := w3E r; w3F := w3F r |}.

Definition set_flags (x : Z) (r : t) : t :=
  {| sample_buffer := sample_buffer r; words_10 := words_10 r; right_volume := right_volume r;
     left_volume := left_volume r; relative_frequency_high := relative_frequency_high r;
     relative_frequency_low := relative_frequency_low r; count_low := count_low r;
     delay := delay r; flags := x; sample_buffer_index := sample_buffer_index r;
     sample_buffer_wrapping := sample_buffer_wrapping r; filter_step := filter_step r;
     filter_step_512 := filter_step_512 r; correction_factor := correction_factor r;
     accelerator_format := accelerator_format r;
     accelerator_start_high := accelerator_start_high r;
     accelerator_start_low := accelerator_start_low r;
     accelerator_end_high := accelerator_end_high r;
     accelerator_end_low := accelerator_end_low r;
     accelerator_current_high := accelerator_current_high r;
     accelerator_current_low := accelerator_current_low r;
     initial_predictor_scale := initial_predictor_scale r;
     initial_sample_history_1 := initial_sample_history_1 r;
     initial_sample_history_2 := initial_sample_history_2 r;
     accelerator_gain := accelerator_gain r; w37 := w37 r; w38 := w38 r; w39 := w39 r;
     w3A := w3A r; w3B := w3B r; w3C := w3C r; w3D := w3D r; w3E := w3E r; w3F := w3F r |}.

Definition set_sample_buffer_index (x : Z) (r : t) : t :=
  {| sample_buffer := sample_buffer r; words_10 := words_10 r; right_volume := right_volume r;
     left_volume := left_volume r; relative_frequency_high := relative_frequency_high r;
     relative_frequency_low := relative_frequency_low r; count_low := count_low r;
     delay := delay r; flags := flags r; sample_buffer_index := x;
     sample_buffer_wrapping := sample_buffer_wrapping r; filter_step := filter_step r;
     filter_step_512 := filter_step_512 r; correction_factor := correction_factor r;
     accelerator_format := accelerator_format r;
     accelerator_start_high := accelerator_start_high r;
     accelerator_start_low := accelerator_start_low r;
     accelerator_end_high := accelerator_end_high r;
     accelerator_end_low := accelerator_end_low r;
     accelerator_current_high := accelerator_current_high r;
     accelerator_current_low := accelerator_current_low r;
     initial_predictor_scale := initial_predictor_scale r;
     initial_sample_history_1 := initial_sample_history_1 r;
     initial_sample_history_2 := initial_sample_history_2 r;
     accelerator_gain := accelerator_gain r; w37 := w37 r; w38 := w38 r; w39 := w39 r;
     w3A := w3A r; w3B := w3B r; w3C := w3C r; w3D := w3D r; w3E := w3E r; w3F := w3F r |}.

Definition set_sample_buffer_wrapping (x : Z) (r : t) : t :=
  {| sample_buffer := sample_buffer r; words_10 := words_10 r; right_volume := right_volume r;
     left_volume := left_volume r; relative_frequency_high := relative_frequency_high r;
     relative_frequency_low := relative_frequency_low r; count_low := count_low r;
     delay := delay r; flags := flags r; sample_buffer_index := sample_buffer_index r;
     sample_buffer_wrapping := x; filter_step := filter_step r;
     filter_step_512 := filter_step_512 r; correction_factor := correction_factor r;
     accelerator_format := accelerator_format r;
     accelerator_start_high := accelerator_start_high r;
     accelerator_start_low := accelerator_start_low r;
     accelerator_end_high := accelerator_end_high r;
     accelerator_end_low := accelerator_end_low r;
     accelerator_current_high := accelerator_current_high r;
     accelerator_current_low := accelerator_current_low r;
     initial_predictor_scale := initial_predictor_scale r;
     initial_sample_history_1 := initial_sample_history_1 r;
     initial_sample_history_2 := initial_sample_history_2 r;
     accelerator_gain := accelerator_gain r; w37 := w37 r; w38 := w38 r; w39 := w39 r;
     w3A := w3A r; w3B := w3B r; w3C := w3C r; w3D := w3D r; w3E := w3E r; w3F := w3F r |}.

Definition set_filter_step (x : Z) (r : t) : t :=
  {| sample_buffer := sample_buffer r; words_10 := words_10 r; right_volume := right_volume r;
     left_volume := left_volume r; relative_frequency_high := relative_frequency_high r;
     relative_frequency_low := relative_frequency_low r; count_low := count_low r;
     delay := delay r; flags := flags r; sample_buffer_index := sample_buffer_index r;
     sample_buffer_wrapping := sample_buffer_wrapping r; filter_step := x;
     filter_step_512 := filter_step_512 r; correction_factor := correction_factor r;
     accelerator_format := accelerator_format r;
     accelerator_start_high := accelerator_start_high r;
     accelerator_start_low := accelerator_start_low r;
     accelerator_end_high := accelerator_end_high r;
     accelerator_end_low := accelerator_end_low r;
     accelerator_current_high := accelerator_current_high r;
     accelerator_current_low := accelerator_current_low r;
     initial_predictor_scale := initial_predictor_scale r;
     initial_sample_history_1 := initial_sample_history_1 r;
     initial_sample_history_2 := initial_sample_history_2 r;
     accelerator_gain := accelerator_gain r; w37 := w37 r; w38 := w38 r; w39 := w39 r;
     w3A := w3A r; w3B := w3B r; w3C := w3C r; w3D := w3D r; w3E := w3E r; w3F := w3F r |}.

Definition set_filter_step_512 (x : Z) (r : t) : t :=
  {| sample_buffer := sample_buffer r; words_10 := words_10 r; right_volume := right_volume r;
     left_volume := left_volume r; relative_frequency_high := relative_frequency_high r;
     relative_frequency_low := relative_frequency_low r; count_low := count_low r;
     delay := delay r; flags := flags r; sample_buffer_index := sample_buffer_index r;
     sample_buffer_wrapping := sample_buffer_wrapping r; filter_step := filter_step r;
     filter_step_512 := x; correction_factor := correction_factor r;
     accelerator_format := accelerator_format r;
     accelerator_start_high := accelerator_start_high r;
     accelerator_start_low := accelerator_start_low r;
     accelerator_end_high := accelerator_end_high r;
     accelerator_end_low := accelerator_end_low r;
     accelerator_current_high := accelerator_current_high r;
     accelerator_current_low := accelerator_current_low r;
     initial_predictor_scale := initial_predictor_scale r;
     initial_sample_history_1 := initial_sample_history_1 r;
     initial_sample_history_2 := initial_sample_history_2 r;
     accelerator_gain := accelerator_gain r; w37 := w37 r; w38 := w38 r; w39 := w39 r;
     w3A := w3A r; w3B := w3B r; w3C := w3C r; w3D := w3D r; w3E := w3E r; w3F := w3F r |}.

Definition set_correction_factor (x : Z) (r : t) : t :=
  {| sample_buffer := sample_buffer r; words_10 := words_10 r; right_volume := right_volume r;
     left_volume := left_volume r; relative_frequency_high := relative_frequency_high r;
     relative_frequency_low := relative_frequency_low r; count_low := count_low r;
     delay := delay r; flags := flags r; sample_buffer_index := sample_buffer_index r;
     sample_buffer_wrapping := sample_buffer_wrapping r; filter_step := filter_step r;
     filter_step_512 := filter_step_512 r; correction_factor := x;
     accelerator_format := accelerator_format r;
     accelerator_start_high := accelerator_start_high r;
     accelerator_start_low := accelerator_start_low r;
     accelerator_end_high := accelerator_end_high r;
     accelerator_end_low := accelerator_end_low r;
     accelerator_current_high := accelerator_current_high r;
     accelerator_current_low := accelerator_current_low r;
     initial_predictor_scale := initial_predictor_scale r;
     initial_sample_history_1 := initial_sample_history_1 r;
     initial_sample_history_2 := initial_sample_history_2 r;
     accelerator_gain := accelerator_gain r; w37 := w37 r; w38 := w38 r; w39 := w39 r;
     w3A := w3A r; w3B := w3B r; w3C := w3C r; w3D := w3D r; w3E := w3E r; w3F := w3F r |}.

Definition set_accelerator_format (x : Z) (r : t) : t :=
  {| sample_buffer := sample_buffer r; words_10 := words_10 r; right_volume := right_volume r;
     left_volume := left_volume r; relative_frequency_high := relative_frequency_high r;
     relative_frequency_low := relative_frequency_low r; count_low := count_low r;
     delay := delay r; flags := flags r; sample_buffer_index := sample_buffer_index r;
     sample_buffer_wrapping := sample_buffer_wrapping r; filter_step := filter_step r;
     filter_step_512 := filter_step_512 r; correction_factor := correction_factor r;
     accelerator_format := x; accelerator_start_high := accelerator_start_high r;
     accelerator_start_low := accelerator_start_low r;
     accelerator_end_high := accelerator_end_high r;
     accelerator_end_low := accelerator_end_low r;
     accelerator_current_high := accelerator_current_high r;
     accelerator_current_low := accelerator_current_low r;
     initial_predictor_scale := initial_predictor_scale r;
     initial_sample_history_1 := initial_sample_history_1 r;
     initial_sample_history_2 := initial_sample_history_2 r;
     accelerator_gain := accelerator_gain r; w37 := w37 r; w38 := w38 r; w39 := w39 r;
     w3A := w3A r; w3B := w3B r; w3C := w3C r; w3D := w3D r; w3E := w3E r; w3F := w3F r |}.

Definition set_accelerator_start_high (x : Z) (r : t) : t :=
  {| sample_buffer := sample_buffer r; words_10 := words_10 r; right_volume := right_volume r;
     left_volume := left_volume r; relative_frequency_high := relative_frequency_high r;
     relative_frequency_low := relative_frequency_low r; count_low := count_low r;
     delay := delay r; flags := flags r; sample_buffer_index := sample_buffer_index r;
     sample_buffer_wrapping := sample_buffer_wrapping r; filter_step := filter_step r;
     filter_step_512 := filter_step_512 r; correction_factor := correction_factor r;
     accelerator_format := accelerator_format r; accelerator_start_high := x;
     accelerator_start_low := accelerator_start_low r;
     accelerator_end_high := accelerator_end_high r;
     accelerator_end_low := accelerator_end_low r;
     accelerator_current_high := accelerator_current_high r;
     accelerator_current_low := accelerator_current_low r;
     initial_predictor_scale := initial_predictor_scale r;
     initial_sample_history_1 := initial_sample_history_1 r;
     initial_sample_history_2 := initial_sample_history_2 r;
     accelerator_gain := accelerator_gain r; w37 := w37 r; w38 := w38 r; w39 := w39 r;
     w3A := w3A r; w3B := w3B r; w3C := w3C r; w3D := w3D r; w3E := w3E r; w3F := w3F r |}.

Definition set_accelerator_start_low (x : Z) (r : t) : t :=
  {| sample_buffer := sample_buffer r; words_10 := words_10 r; right_volume := right_volume r;
     left_volume := left_volume r; relative_frequency_high := relative_frequency_high r;
     relative_frequency_low := relative_frequency_low r; count_low := count_low r;
     delay := delay r; flags := flags r; sample_buffer_index := sample_buffer_index r;
     sample_buffer_wrapping := sample_buffer_wrapping r; filter_step := filter_step r;
     filter_step_512 := filter_step_512 r; correction_factor := correction_factor r;
     accelerator_format := accelerator_format r;
     accelerator_start_high := accelerator_start_high r; accelerator_start_low := x;
     accelerator_end_high := accelerator_end_high r;
     accelerator_end_low := accelerator_end_low r;
     accelerator_current_high := accelerator_current_high r;
     accelerator_current_low := accelerator_current_low r;
     initial_predictor_scale := initial_predictor_scale r;
     initial_sample_history_1 := initial_sample_history_1 r;
     initial_sample_history_2 := initial_sample_history_2 r;
     accelerator_gain := accelerator_gain r; w37 := w37 r; w38 := w38 r; w39 := w39 r;
     w3A := w3A r; w3B := w3B r; w3C := w3C r; w3D := w3D r; w3E := w3E r; w3F := w3F r |}.

Definition set_accelerator_end_high (x : Z) (r : t) : t :=
  {| sample_buffer := sample_buffer r; words_10 := words_10 r; right_volume := right_volume r;
     left_volume := left_volume r; relative_frequency_high := relative_frequency_high r;
     relative_frequency_low := relative_frequency_low r; count_low := count_low r;
     delay := delay r; flags := flags r; sample_buffer_index := sample_buffer_index r;
     sample_buffer_wrapping := sample_buffer_wrapping r; filter_step := filter_step r;
     filter_step_512 := filter_step_512 r; correction_factor := correction_factor r;
     accelerator_format := accelerator_format r;
     accelerator_start_high := accelerator_start_high r;
     accelerator_start_low := accelerator_start_low r; accelerator_end_high := x;
     accelerator_end_low := accelerator_end_low r;
     accelerator_current_high := accelerator_current_high r;
     accelerator_current_low := accelerator_current_low r;
     initial_predictor_scale := initial_predictor_scale r;
     initial_sample_history_1 := initial_sample_history_1 r;
     initial_sample_history_2 := initial_sample_history_2 r;
     accelerator_gain := accelerator_gain r; w37 := w37 r; w38 := w38 r; w39 := w39 r;
     w3A := w3A r; w3B := w3B r; w3C := w3C r; w3D := w3D r; w3E := w3E r; w3F := w3F r |}.

Definition set_accelerator_end_low (x : Z) (r : t) : t :=
  {| sample_buffer := sample_buffer r; words_10 := words_10 r; right_volume := right_volume r;
     left_volume := left_volume r; relative_frequency_high := relative_frequency_high r;
     relative_frequency_low := relative_frequency_low r; count_low := count_low r;
     delay := delay r; flags := flags r; sample_buffer_index := sample_buffer_index r;
     sample_buffer_wrapping := sample_buffer_wrapping r; filter_step := filter_step r;
     filter_step_512 := filter_step_512 r; correction_factor := correction_factor r;
     accelerator_format := accelerator_format r;
     accelerator_start_high := accelerator_start_high r;
     accelerator_start_low := accelerator_start_low r;
     accelerator_end_high := accelerator_end_high r; accelerator_end_low := x;
     accelerator_current_high := accelerator_current_high r;
     accelerator_current_low := accelerator_current_low r;
     initial_predictor_scale := initial_predictor_scale r;
     initial_sample_history_1 := initial_sample_history_1 r;
     initial_sample_history_2 := initial_sample_history_2 r;
     accelerator_gain := accelerator_gain r; w37 := w37 r; w38 := w38 r; w39 := w39 r;
     w3A := w3A r; w3B := w3B r; w3C := w3C r; w3D := w3D r; w3E := w3E r; w3F := w3F r |}.

Definition set_accelerator_current_high (x : Z) (r : t) : t :=
  {| sample_buffer := sample_buffer r; words_10 := words_10 r; right_volume := right_volume r;
     left_volume := left_volume r; relative_frequency_high := relative_frequency_high r;
     relative_frequency_low := relative_frequency_low r; count_low := count_low r;
     delay := delay r; flags := flags r; sample_buffer_index := sample_buffer_index r;
     sample_buffer_wrapping := sample_buffer_wrapping r; filter_step := filter_step r;
     filter_step_512 := filter_step_512 r; correction_factor := correction_factor r;
     accelerator_format := accelerator_format r;
     accelerator_start_high := accelerator_start_high r;
     accelerator_start_low := accelerator_start_low r;
     accelerator_end_high := accelerator_end_high r;
     accelerator_end_low := accelerator_end_low r; accelerator_current_high := x;
     accelerator_current_low := accelerator_current_low r;
     initial_predictor_scale := initial_predictor_scale r;
     initial_sample_history_1 := initial_sample_history_1 r;
     initial_sample_history_2 := initial_sample_history_2 r;
     accelerator_gain := accelerator_gain r; w37 := w37 r; w38 := w38 r; w39 := w39 r;
     w3A := w3A r; w3B := w3B r; w3C := w3C r; w3D := w3D r; w3E := w3E r; w3F := w3F r |}.

Definition set_accelerator_current_low (x : Z) (r : t) : t :=
  {| sample_buffer := sample_buffer r; words_10 := words_10 r; right_volume := right_volume r;
     left_volume := left_volume r; relative_frequency_high := relative_frequency_high r;
     relative_frequency_low := relative_frequency_low r; count_low := count_low r;
     delay := delay r; flags := flags r; sample_buffer_index := sample_buffer_index r;
     sample_buffer_wrapping := sample_buffer_wrapping r; filter_step := filter_step r;
     filter_step_512 := filter_step_512 r; correction_factor := correction_factor r;
     accelerator_format := accelerator_format r;
     accelerator_start_high := accelerator_start_high r;
     accelerator_start_low := accelerator_start_low r;
     accelerator_end_high := accelerator_end_high r;
     accelerator_end_low := accelerator_end_low r;
     accelerator_current_high := accelerator_current_high r; accelerator_current_low := x;
     initial_predictor_scale := initial_predictor_scale r;
     initial_sample_history_1 := initial_sample_history_1 r;
     initial_sample_history_2 := initial_sample_history_2 r;
     accelerator_gain := accelerator_gain r; w37 := w37 r; w38 := w38 r; w39 := w39 r;
     w3A := w3A r; w3B := w3B r; w3C := w3C r; w3D := w3D r; w3E := w3E r; w3F := w3F r |}.

Definition set_initial_predictor_scale (x : Z) (r : t) : t :=
  {| sample_buffer := sample_buffer r; words_10 := words_10 r; right_volume := right_volume r;
     left_volume := left_volume r; relative_frequency_high := relative_frequency_high r;
     relative_frequency_low := relative_frequency_low r; count_low := count_low r;
     delay := delay r; flags := flags r; sample_buffer_index := sample_buffer_index r;
     sample_buffer_wrapping := sample_buffer_wrapping r; filter_step := filter_step r;
     filter_step_512 := filter_step_512 r; correction_factor := correction_factor r;
     accelerator_format := accelerator_format r;
     accelerator_start_high := accelerator_start_high r;
     accelerator_start_low := accelerator_start_low r;
     accelerator_end_high := accelerator_end_high r;
     accelerator_end_low := accelerator_end_low r;
     accelerator_current_high := accelerator_current_high r;
     accelerator_current_low := accelerator_current_low r; initial_predictor_scale := x;
     initial_sample_history_1 := initial_sample_history_1 r;
     initial_sample_history_2 := initial_sample_history_2 r;
     accelerator_gain := accelerator_gain r; w37 := w37 r; w38 := w38 r; w39 := w39 r;
     w3A := w3A r; w3B := w3B r; w3C := w3C r; w3D := w3D r; w3E := w3E r; w3F := w3F r |}.

Definition set_initial_sample_history_1 (x : Z) (r : t) : t :=
  {| sample_buffer := sample_buffer r; words_10 := words_10 r; right_volume := right_volume r;
     left_volume := left_volume r; relative_frequency_high := relative_frequency_high r;
     relative_frequency_low := relative_frequency_low r; count_low := count_low r;
     delay := delay r; flags := flags r; sample_buffer_index := sample_buffer_index r;
     sample_buffer_wrapping := sample_buffer_wrapping r; filter_step := filter_step r;
     filter_step_512 := filter_step_512 r; correction_factor := correction_factor r;
     accelerator_format := accelerator_format r;
     accelerator_start_high := accelerator_start_high r;
     accelerator_start_low := accelerator_start_low r;
     accelerator_end_high := accelerator_end_high r;
     accelerator_end_low := accelerator_end_low r;
     accelerator_current_high := accelerator_current_high r;
     accelerator_current_low := accelerator_current_low r;
     initial_predictor_scale := initial_predictor_scale r; initial_sample_history_1 := x;
     initial_sample_history_2 := initial_sample_history_2 r;
     accelerator_gain := accelerator_gain r; w37 := w37 r; w38 := w38 r; w39 := w39 r;
     w3A := w3A r; w3B := w3B r; w3C := w3C r; w3D := w3D r; w3E := w3E r; w3F := w3F r |}.

Definition set_initial_sample_history_2 (x : Z) (r : t) : t :=
  {| sample_buffer := sample_buffer r; words_10 := words_10 r; right_volume := right_volume r;
     left_volume := left_volume r; relative_frequency_high := relative_frequency_high r;
     relative_frequency_low := relative_frequency_low r; count_low := count_low r;
     delay := delay r; flags := flags r; sample_buffer_index := sample_buffer_index r;
     sample_buffer_wrapping := sample_buffer_wrapping r; filter_step := filter_step r;
     filter_step_512 := filter_step_512 r; correction_factor := correction_factor r;
     accelerator_format := accelerator_format r;
     accelerator_start_high := accelerator_start_high r;
     accelerator_start_low := accelerator_start_low r;
     accelerator_end_high := accelerator_end_high r;
     accelerator_end_low := accelerator_end_low r;
     accelerator_current_high := accelerator_current_high r;
     accelerator_current_low := accelerator_current_low r;
     initial_predictor_scale := initial_predictor_scale r;
     initial_sample_history_1 := initial_sample_history_1 r; initial_sample_history_2 := x;
     accelerator_gain := accelerator_gain r; w37 := w37 r; w38 := w38 r; w39 := w39 r;
     w3A := w3A r; w3B := w3B r; w3C := w3C r; w3D := w3D r; w3E := w3E r; w3F := w3F r |}.

Definition set_accelerator_gain (x : Z) (r : t) : t :=
  {| sample_buffer := sample_buffer r; words_10 := words_10 r; right_volume := right_volume r;
     left_volume := left_volume r; relative_frequency_high := relative_frequency_high r;
     relative_frequency_low := relative_frequency_low r; count_low := count_low r;
     delay := delay r; flags := flags r; sample_buffer_index := sample_buffer_index r;
     sample_buffer_wrapping := sample_buffer_wrapping r; filter_step := filter_step r;
     filter_step_512 := filter_step_512 r; correction_factor := correction_factor r;
     accelerator_format := accelerator_format r;
     accelerator_start_high := accelerator_start_high r;
     accelerator_start_low := accelerator_start_low r;
     accelerator_end_high := accelerator_end_high r;
     accelerator_end_low := accelerator_end_low r;
     accelerator_current_high := accelerator_current_high r;
     accelerator_current_low := accelerator_current_low r;
     initial_predictor_scale := initial_predictor_scale r;
     initial_sample_history_1 := initial_sample_history_1 r;
     initial_sample_history_2 := initial_sample_history_2 r; accelerator_gain := x;
     w37 := w37 r; w38 := w38 r; w39 := w39 r; w3A := w3A r; w3B := w3B r; w3C := w3C r;
     w3D := w3D r; w3E := w3E r; w3F := w3F r |}.

Definition set_w37 (x : Z) (r : t) : t :=
  {| sample_buffer := sample_buffer r; words_10 := words_10 r; right_volume := right_volume r;
     left_volume := left_volume r; relative_frequency_high := relative_frequency_high r;
     relative_frequency_low := relative_frequency_low r; count_low := count_low r;
     delay := delay r; flags := flags r; sample_buffer_index := sample_buffer_index r;
     sample_buffer_wrapping := sample_buffer_wrapping r; filter_step := filter_step r;
     filter_step_512 := filter_step_512 r; correction_factor := correction_factor r;
     accelerator_format := accelerator_format r;
     accelerator_start_high := accelerator_start_high r;
     accelerator_start_low := accelerator_start_low r;
     accelerator_end_high := accelerator_end_high r;
     accelerator_end_low := accelerator_end_low r;
     accelerator_current_high := accelerator_current_high r;
     accelerator_current_low := accelerator_current_low r;
     initial_predictor_scale := initial_predictor_scale r;
     initial_sample_history_1 := initial_sample_history_1 r;
     initial_sample_history_2 := initial_sample_history_2 r;
     accelerator_gain := accelerator_gain r; w37 := x; w38 := w38 r; w39 := w39 r;
     w3A := w3A r; w3B := w3B r; w3C := w3C r; w3D := w3D r; w3E := w3E r; w3F := w3F r |}.

Definition set_w38 (x : Z) (r : t) : t :=
  {| sample_buffer := sample_buffer r; words_10 := words_10 r; right_volume := right_volume r;
     left_volume := left_volume r; relative_frequency_high := relative_frequency_high r;
     relative_frequency_low := relative_frequency_low r; count_low := count_low r;
     delay := delay r; flags := flags r; sample_buffer_index := sample_buffer_index r;
     sample_buffer_wrapping := sample_buffer_wrapping r; filter_step := filter_step r;
     filter_step_512 := filter_step_512 r; correction_factor := correction_factor r;
     accelerator_format := accelerator_format r;
     accelerator_start_high := accelerator_start_high r;
     accelerator_start_low := accelerator_start_low r;
     accelerator_end_high := accelerator_end_high r;
     accelerator_end_low := accelerator_end_low r;
     accelerator_current_high := accelerator_current_high r;
     accelerator_current_low := accelerator_current_low r;
     initial_predictor_scale := initial_predictor_scale r;
     initial_sample_history_1 := initial_sample_history_1 r;
     initial_sample_history_2 := initial_sample_history_2 r;
     accelerator_gain := accelerator_gain r; w37 := w37 r; w38 := x; w39 := w39 r;
     w3A := w3A r; w3B := w3B r; w3C := w3C r; w3D := w3D r; w3E := w3E r; w3F := w3F r |}.

Definition set_w39 (x : Z) (r : t) : t :=
  {| sample_buffer := sample_buffer r; words_10 := words_10 r; right_volume := right_volume r;
     left_volume := left_volume r; relative_frequency_high := relative_frequency_high r;
     relative_frequency_low := relative_frequency_low r; count_low := count_low r;
     delay := delay r; flags := flags r; sample_buffer_index := sample_buffer_index r;
     sample_buffer_wrapping := sample_buffer_wrapping r; filter_step := filter_step r;
     filter_step_512 := filter_step_512 r; correction_factor := correction_factor r;
     accelerator_format := accelerator_format r;
     accelerator_start_high := accelerator_start_high r;
     accelerator_start_low := accelerator_start_low r;
     accelerator_end_high := accelerator_end_high r;
     accelerator_end_low := accelerator_end_low r;
     accelerator_current_high := accelerator_current_high r;
     accelerator_current_low := accelerator_current_low r;
     initial_predictor_scale := initial_predictor_scale r;
     initial_sample_history_1 := initial_sample_history_1 r;
     initial_sample_history_2 := initial_sample_history_2 r;
     accelerator_gain := accelerator_gain r; w37 := w37 r; w38 := w38 r; w39 := x;
     w3A := w3A r; w3B := w3B r; w3C := w3C r; w3D := w3D r; w3E := w3E r; w3F := w3F r |}.

Definition set_w3A (x : Z) (r : t) : t :=
  {| sample_buffer := sample_buffer r; words_10 := words_10 r; right_volume := right_volume r;
     left_volume := left_volume r; relative_frequency_high := relative_frequency_high r;
     relative_frequency_low := relative_frequency_low r; count_low := count_low r;
     delay := delay r; flags := flags r; sample_buffer_index := sample_buffer_index r;
     sample_buffer_wrapping := sample_buffer_wrapping r; filter_step := filter_step r;
     filter_step_512 := filter_step_512 r; correction_factor := correction_factor r;
     accelerator_format := accelerator_format r;
     accelerator_start_high := accelerator_start_high r;
     accelerator_start_low := accelerator_start_low r;
     accelerator_end_high := accelerator_end_high r;
     accelerator_end_low := accelerator_end_low r;
     accelerator_current_high := accelerator_current_high r;
     accelerator_current_low := accelerator_current_low r;
     initial_predictor_scale := initial_predictor_scale r;
     initial_sample_history_1 := initial_sample_history_1 r;
     initial_sample_history_2 := initial_sample_history_2 r;
     accelerator_gain := accelerator_gain r; w37 := w37 r; w38 := w38 r; w39 := w39 r;
     w3A := x; w3B := w3B r; w3C := w3C r; w3D := w3D r; w3E := w3E r; w3F := w3F r |}.

Definition set_w3B (x : Z) (r : t) : t :=
  {| sample_buffer := sample_buffer r; words_10 := words_10 r; right_volume := right_volume r;
     left_volume := left_volume r; relative_frequency_high := relative_frequency_high r;
     relative_frequency_low := relative_frequency_low r; count_low := count_low r;
     delay := delay r; flags := flags r; sample_buffer_index := sample_buffer_index r;
     sample_buffer_wrapping := sample_buffer_wrapping r; filter_step := filter_step r;
     filter_step_512 := filter_step_512 r; correction_factor := correction_factor r;
     accelerator_format := accelerator_format r;
     accelerator_start_high := accelerator_start_high r;
     accelerator_start_low := accelerator_start_low r;
     accelerator_end_high := accelerator_end_high r;
     accelerator_end_low := accelerator_end_low r;
     accelerator_current_high := accelerator_current_high r;
     accelerator_current_low := accelerator_current_low r;
     initial_predictor_scale := initial_predictor_scale r;
     initial_sample_history_1 := initial_sample_history_1 r;
     initial_sample_history_2 := initial_sample_history_2 r;
     accelerator_gain := accelerator_gain r; w37 := w37 r; w38 := w38 r; w39 := w39 r;
     w3A := w3A r; w3B := x; w3C := w3C r; w3D := w3D r; w3E := w3E r; w3F := w3F r |}.

Definition set_w3C (x : Z) (r : t) : t :=
  {| sample_buffer := sample_buffer r; words_10 := words_10 r; right_volume := right_volume r;
     left_volume := left_volume r; relative_frequency_high := relative_frequency_high r;
     relative_frequency_low := relative_frequency_low r; count_low := count_low r;
     delay := delay r; flags := flags r; sample_buffer_index := sample_buffer_index r;
     sample_buffer_wrapping := sample_buffer_wrapping r; filter_step := filter_step r;
     filter_step_512 := filter_step_512 r; correction_factor := correction_factor r;
     accelerator_format := accelerator_format r;
     accelerator_start_high := accelerator_start_high r;
     accelerator_start_low := accelerator_start_low r;
     accelerator_end_high := accelerator_end_high r;
     accelerator_end_low := accelerator_end_low r;
     accelerator_current_high := accelerator_current_high r;
     accelerator_current_low := accelerator_current_low r;
     initial_predictor_scale := initial_predictor_scale r;
     initial_sample_history_1 := initial_sample_history_1 r;
     initial_sample_history_2 := initial_sample_history_2 r;
     accelerator_gain := accelerator_gain r; w37 := w37 r; w38 := w38 r; w39 := w39 r;
     w3A := w3A r; w3B := w3B r; w3C := x; w3D := w3D r; w3E := w3E r; w3F := w3F r |}.

Definition set_w3D (x : Z) (r : t) : t :=
  {| sample_buffer := sample_buffer r; words_10 := words_10 r; right_volume := right_volume r;
     left_volume := left_volume r; relative_frequency_high := relative_frequency_high r;
     relative_frequency_low := relative_frequency_low r; count_low := count_low r;
     delay := delay r; flags := flags r; sample_buffer_index := sample_buffer_index r;
     sample_buffer_wrapping := sample_buffer_wrapping r; filter_step := filter_step r;
     filter_step_512 := filter_step_512 r; correction_factor := correction_factor r;
     accelerator_format := accelerator_format r;
     accelerator_start_high := accelerator_start_high r;
     accelerator_start_low := accelerator_start_low r;
     accelerator_end_high := accelerator_end_high r;
     accelerator_end_low := accelerator_end_low r;
     accelerator_current_high := accelerator_current_high r;
     accelerator_current_low := accelerator_current_low r;
     initial_predictor_scale := initial_predictor_scale r;
     initial_sample_history_1 := initial_sample_history_1 r;
     initial_sample_history_2 := initial_sample_history_2 r;
     accelerator_gain := accelerator_gain r; w37 := w37 r; w38 := w38 r; w39 := w39 r;
     w3A := w3A r; w3B := w3B r; w3C := w3C r; w3D := x; w3E := w3E r; w3F := w3F r |}.

Definition set_w3E (x : Z) (r : t) : t :=
  {| sample_buffer := sample_buffer r; words_10 := words_10 r; right_volume := right_volume r;
     left_volume := left_volume r; relative_frequency_high := relative_frequency_high r;
     relative_frequency_low := relative_frequency_low r; count_low := count_low r;
     delay := delay r; flags := flags r; sample_buffer_index := sample_buffer_index r;
     sample_buffer_wrapping := sample_buffer_wrapping r; filter_step := filter_step r;
     filter_step_512 := filter_step_512 r; correction_factor := correction_factor r;
     accelerator_format := accelerator_format r;
     accelerator_start_high := accelerator_start_high r;
     accelerator_start_low := accelerator_start_low r;
     accelerator_end_high := accelerator_end_high r;
     accelerator_end_low := accelerator_end_low r;
     accelerator_current_high := accelerator_current_high r;
     accelerator_current_low := accelerator_current_low r;
     initial_predictor_scale := initial_predictor_scale r;
     initial_sample_history_1 := initial_sample_history_1 r;
     initial_sample_history_2 := initial_sample_history_2 r;
     accelerator_gain := accelerator_gain r; w37 := w37 r; w38 := w38 r; w39 := w39 r;
     w3A := w3A r; w3B := w3B r; w3C := w3C r; w3D := w3D r; w3E := x; w3F := w3F r |}.

Definition set_w3F (x : Z) (r : t) : t :=
  {| sample_buffer := sample_buffer r; words_10 := words_10 r; right_volume := right_volume r;
     left_volume := left_volume r; relative_frequency_high := relative_frequency_high r;
     relative_frequency_low := relative_frequency_low r; count_low := count_low r;
     delay := delay r; flags := flags r; sample_buffer_index := sample_buffer_index r;
     sample_buffer_wrapping := sample_buffer_wrapping r; filter_step := filter_step r;
     filter_step_512 := filter_step_512 r; correction_factor := correction_factor r;
     accelerator_format := accelerator_format r;
     accelerator_start_high := accelerator_start_high r;
     accelerator_start_low := accelerator_start_low r;
     accelerator_end_high := accelerator_end_high r;
     accelerator_end_low := accelerator_end_low r;
     accelerator_current_high := accelerator_current_high r;
     accelerator_current_low := accelerator_current_low r;
     initial_predictor_scale := initial_predictor_scale r;
     initial_sample_history_1 := initial_sample_history_1 r;
     initial_sample_history_2 := initial_sample_history_2 r;
     accelerator_gain := accelerator_gain r; w37 := w37 r; w38 := w38 r; w39 := w39 r;
     w3A := w3A r; w3B := w3B r; w3C := w3C r; w3D := w3D r; w3E := w3E r; w3F := x |}.

(** The two views of the second union. *)
Definition loop_start_high := w3B.
Definition loop_start_low := w3C.
Definition loop_predictor_scale := w3D.
Definition loop_sample_history_1 := w3E.
Definition loop_sample_history_2 := w3F.
Definition next_buffer_start_high := w37.
Definition next_buffer_start_low := w38.
Definition next_buffer_end_high := w39.
Definition next_buffer_end_low := w3A.
Definition next_buffer_current_high := w3B.
Definition next_buffer_current_low := w3C.
Definition next_buffer_predictor_scale := w3D.
Definition next_buffer_sample_history_1 := w3E.
Definition next_buffer_sample_history_2 := w3F.

Definition zeros16 : list Z := repeat 0 16.

(** The block after [memset(parameter_block, 0, PARAMETER_BLOCK_STRUCT_SIZE)]. *)
Definition zero : t :=
  mk zeros16 zeros16 0 0 0 0 0 0 0 0 0 0 0 0 0 0 0 0 0 0 0 0 0 0 0 0 0 0 0 0 0 0 0 0.

End PB.

Module V.

(** [ansnd_voice_t].  The looping/streaming union is kept as the storage
    both views share (the target is big-endian PowerPC). *)
Record t : Type := mk {
  samplerate : Z;
  pitch : f32;
  delay : Z;
  flags : Z;
  left_volume : f32;
  right_volume : f32;
  decode_coefficients : list Z;
  accelerator_format : Z;
  accelerator_gain : Z;
  ram_buffer_start : Z;
  ram_buffer_end : Z;
  ram_buffer_first : Z;
  initial_predictor_scale : Z;
  initial_sample_history_1 : Z;
  initial_sample_history_2 : Z;
  un_w0 : Z;  (* looping.loop_start / streaming.next_buffer_start *)
  un_w4 : Z;  (* looping.loop_end / streaming.next_buffer_end *)
  un_h8 : Z;  (* looping.loop_predictor_scale / high half of streaming.next_buffer_first *)
  un_h10 : Z;  (* looping.loop_sample_history_1 / low half of streaming.next_buffer_first *)
  un_h12 : Z;  (* looping.loop_sample_history_2 / streaming.next_buffer_predictor_scale *)
  un_h14 : Z;  (* streaming.next_buffer_sample_history_1 *)
  un_h16 : Z;  (* streaming.next_buffer_sample_history_2 *)
  parameter_block : option nat;  (* index into the DRAM image, None is NULL *)
  linked_voice : option nat;  (* index into ansnd_voices, None is NULL *)
  voice_callback : option nat;  (* function pointer, None is NULL *)
  stream_callback : option nat;  (* pcm_callback / adpcm_callback, None is NULL *)
  user_pointer : Z
}.

Definition set_samplerate (x : Z) (r : t) : t :=
  {| samplerate := x; pitch := pitch r; delay := delay r; flags := flags r;
     left_volume := left_volume r; right_volume := right_volume r;
     decode_coefficients := decode_coefficients r; accelerator_format := accelerator_format r;
     accelerator_gain := accelerator_gain r; ram_buffer_start := ram_buffer_start r;
     ram_buffer_end := ram_buffer_end r; ram_buffer_first := ram_buffer_first r;
     initial_predictor_scale := initial_predictor_scale r;
     initial_sample_history_1 := initial_sample_history_1 r;
     initial_sample_history_2 := initial_sample_history_2 r; un_w0 := un_w0 r;
     un_w4 := un_w4 r; un_h8 := un_h8 r; un_h10 := un_h10 r; un_h12 := un_h12 r;
     un_h14 := un_h14 r; un_h16 := un_h16 r; parameter_block := parameter_block r;
     linked_voice := linked_voice r; voice_callback := voice_callback r;
     stream_callback := stream_callback r; user_pointer := user_pointer r |}.

Definition set_pitch (x : f32) (r : t) : t :=
  {| samplerate := samplerate r; pitch := x; delay := delay r; flags := flags r;
     left_volume := left_volume r; right_volume := right_volume r;
     decode_coefficients := decode_coefficients r; accelerator_format := accelerator_format r;
     accelerator_gain := accelerator_gain r; ram_buffer_start := ram_buffer_start r;
     ram_buffer_end := ram_buffer_end r; ram_buffer_first := ram_buffer_first r;
     initial_predictor_scale := initial_predictor_scale r;
     initial_sample_history_1 := initial_sample_history_1 r;
     initial_sample_history_2 := initial_sample_history_2 r; un_w0 := un_w0 r;
     un_w4 := un_w4 r; un_h8 := un_h8 r; un_h10 := un_h10 r; un_h12 := un_h12 r;
     un_h14 := un_h14 r; un_h16 := un_h16 r; parameter_block := parameter_block r;
     linked_voice := linked_voice r; voice_callback := voice_callback r;
     stream_callback := stream_callback r; user_pointer := user_pointer r |}.

Definition set_delay (x : Z) (r : t) : t :=
  {| samplerate := samplerate r; pitch := pitch r; delay := x; flags := flags r;
     left_volume := left_volume r; right_volume := right_volume r;
     decode_coefficients := decode_coefficients r; accelerator_format := accelerator_format r;
     accelerator_gain := accelerator_gain r; ram_buffer_start := ram_buffer_start r;
     ram_buffer_end := ram_buffer_end r; ram_buffer_first := ram_buffer_first r;
     initial_predictor_scale := initial_predictor_scale r;
     initial_sample_history_1 := initial_sample_history_1 r;
     initial_sample_history_2 := initial_sample_history_2 r; un_w0 := un_w0 r;
     un_w4 := un_w4 r; un_h8 := un_h8 r; un_h10 := un_h10 r; un_h12 := un_h12 r;
     un_h14 := un_h14 r; un_h16 := un_h16 r; parameter_block := parameter_block r;
     linked_voice := linked_voice r; voice_callback := voice_callback r;
     stream_callback := stream_callback r; user_pointer := user_pointer r |}.

Definition set_flags (x : Z) (r : t) : t :=
  {| samplerate := samplerate r; pitch := pitch r; delay := delay r; flags := x;
     left_volume := left_volume r; right_volume := right_volume r;
     decode_coefficients := decode_coefficients r; accelerator_format := accelerator_format r;
     accelerator_gain := accelerator_gain r; ram_buffer_start := ram_buffer_start r;
     ram_buffer_end := ram_buffer_end r; ram_buffer_first := ram_buffer_first r;
     initial_predictor_scale := initial_predictor_scale r;
     initial_sample_history_1 := initial_sample_history_1 r;
     initial_sample_history_2 := initial_sample_history_2 r; un_w0 := un_w0 r;
     un_w4 := un_w4 r; un_h8 := un_h8 r; un_h10 := un_h10 r; un_h12 := un_h12 r;
     un_h14 := un_h14 r; un_h16 := un_h16 r; parameter_block := parameter_block r;
     linked_voice := linked_voice r; voice_callback := voice_callback r;
     stream_callback := stream_callback r; user_pointer := user_pointer r |}.

Definition set_left_volume (x : f32) (r : t) : t :=
  {| samplerate := samplerate r; pitch := pitch r; delay := delay r; flags := flags r;
     left_volume := x; right_volume := right_volume r;
     decode_coefficients := decode_coefficients r; accelerator_format := accelerator_format r;
     accelerator_gain := accelerator_gain r; ram_buffer_start := ram_buffer_start r;
     ram_buffer_end := ram_buffer_end r; ram_buffer_first := ram_buffer_first r;
     initial_predictor_scale := initial_predictor_scale r;
     initial_sample_history_1 := initial_sample_history_1 r;
     initial_sample_history_2 := initial_sample_history_2 r; un_w0 := un_w0 r;
     un_w4 := un_w4 r; un_h8 := un_h8 r; un_h10 := un_h10 r; un_h12 := un_h12 r;
     un_h14 := un_h14 r; un_h16 := un_h16 r; parameter_block := parameter_block r;
     linked_voice := linked_voice r; voice_callback := voice_callback r;
     stream_callback := stream_callback r; user_pointer := user_pointer r |}.

Definition set_right_volume (x : f32) (r : t) : t :=
  {| samplerate := samplerate r; pitch := pitch r; delay := delay r; flags := flags r;
     left_volume := left_volume r; right_volume := x;
     decode_coefficients := decode_coefficients r; accelerator_format := accelerator_format r;
     accelerator_gain := accelerator_gain r; ram_buffer_start := ram_buffer_start r;
     ram_buffer_end := ram_buffer_end r; ram_buffer_first := ram_buffer_first r;
     initial_predictor_scale := initial_predictor_scale r;
     initial_sample_history_1 := initial_sample_history_1 r;
     initial_sample_history_2 := initial_sample_history_2 r; un_w0 := un_w0 r;
     un_w4 := un_w4 r; un_h8 := un_h8 r; un_h10 := un_h10 r; un_h12 := un_h12 r;
     un_h14 := un_h14 r; un_h16 := un_h16 r; parameter_block := parameter_block r;
     linked_voice := linked_voice r; voice_callback := voice_callback r;
     stream_callback := stream_callback r; user_pointer := user_pointer r |}.

Definition set_decode_coefficients (x : list Z) (r : t) : t :=
  {| samplerate := samplerate r; pitch := pitch r; delay := delay r; flags := flags r;
     left_volume := left_volume r; right_volume := right_volume r; decode_coefficients := x;
     accelerator_format := accelerator_format r; accelerator_gain := accelerator_gain r;
     ram_buffer_start := ram_buffer_start r; ram_buffer_end := ram_buffer_end r;
     ram_buffer_first := ram_buffer_first r;
     initial_predictor_scale := initial_predictor_scale r;
     initial_sample_history_1 := initial_sample_history_1 r;
     initial_sample_history_2 := initial_sample_history_2 r; un_w0 := un_w0 r;
     un_w4 := un_w4 r; un_h8 := un_h8 r; un_h10 := un_h10 r; un_h12 := un_h12 r;
     un_h14 := un_h14 r; un_h16 := un_h16 r; parameter_block := parameter_block r;
     linked_voice := linked_voice r; voice_callback := voice_callback r;
     stream_callback := stream_callback r; user_pointer := user_pointer r |}.

Definition set_accelerator_format (x : Z) (r : t) : t :=
  {| samplerate := samplerate r; pitch := pitch r; delay := delay r; flags := flags r;
     left_volume := left_volume r; right_volume := right_volume r;
     decode_coefficients := decode_coefficients r; accelerator_format := x;
     accelerator_gain := accelerator_gain r; ram_buffer_start := ram_buffer_start r;
     ram_buffer_end := ram_buffer_end r; ram_buffer_first := ram_buffer_first r;
     initial_predictor_scale := initial_predictor_scale r;
     initial_sample_history_1 := initial_sample_history_1 r;
     initial_sample_history_2 := initial_sample_history_2 r; un_w0 := un_w0 r;
     un_w4 := un_w4 r; un_h8 := un_h8 r; un_h10 := un_h10 r; un_h12 := un_h12 r;
     un_h14 := un_h14 r; un_h16 := un_h16 r; parameter_block := parameter_block r;
     linked_voice := linked_voice r; voice_callback := voice_callback r;
     stream_callback := stream_callback r; user_pointer := user_pointer r |}.

Definition set_accelerator_gain (x : Z) (r : t) : t :=
  {| samplerate := samplerate r; pitch := pitch r; delay := delay r; flags := flags r;
     left_volume := left_volume r; right_volume := right_volume r;
     decode_coefficients := decode_coefficients r; accelerator_format := accelerator_format r;
     accelerator_gain := x; ram_buffer_start := ram_buffer_start r;
     ram_buffer_end := ram_buffer_end r; ram_buffer_first := ram_buffer_first r;
     initial_predictor_scale := initial_predictor_scale r;
     initial_sample_history_1 := initial_sample_history_1 r;
     initial_sample_history_2 := initial_sample_history_2 r; un_w0 := un_w0 r;
     un_w4 := un_w4 r; un_h8 := un_h8 r; un_h10 := un_h10 r; un_h12 := un_h12 r;
     un_h14 := un_h14 r; un_h16 := un_h16 r; parameter_block := parameter_block r;
     linked_voice := linked_voice r; voice_callback := voice_callback r;
     stream_callback := stream_callback r; user_pointer := user_pointer r |}.

Definition set_ram_buffer_start (x : Z) (r : t) : t :=
  {| samplerate := samplerate r; pitch := pitch r; delay := delay r; flags := flags r;
     left_volume := left_volume r; right_volume := right_volume r;
     decode_coefficients := decode_coefficients r; accelerator_format := accelerator_format r;
     accelerator_gain := accelerator_gain r; ram_buffer_start := x;
     ram_buffer_end := ram_buffer_end r; ram_buffer_first := ram_buffer_first r;
     initial_predictor_scale := initial_predictor_scale r;
     initial_sample_history_1 := initial_sample_history_1 r;
     initial_sample_history_2 := initial_sample_history_2 r; un_w0 := un_w0 r;
     un_w4 := un_w4 r; un_h8 := un_h8 r; un_h10 := un_h10 r; un_h12 := un_h12 r;
     un_h14 := un_h14 r; un_h16 := un_h16 r; parameter_block := parameter_block r;
     linked_voice := linked_voice r; voice_callback := voice_callback r;
     stream_callback := stream_callback r; user_pointer := user_pointer r |}.

Definition set_ram_buffer_end (x : Z) (r : t) : t :=
  {| samplerate := samplerate r; pitch := pitch r; delay := delay r; flags := flags r;
     left_volume := left_volume r; right_volume := right_volume r;
     decode_coefficients := decode_coefficients r; accelerator_format := accelerator_format r;
     accelerator_gain := accelerator_gain r; ram_buffer_start := ram_buffer_start r;
     ram_buffer_end := x; ram_buffer_first := ram_buffer_first r;
     initial_predictor_scale := initial_predictor_scale r;
     initial_sample_history_1 := initial_sample_history_1 r;
     initial_sample_history_2 := initial_sample_history_2 r; un_w0 := un_w0 r;
     un_w4 := un_w4 r; un_h8 := un_h8 r; un_h10 := un_h10 r; un_h12 := un_h12 r;
     un_h14 := un_h14 r; un_h16 := un_h16 r; parameter_block := parameter_block r;
     linked_voice := linked_voice r; voice_callback := voice_callback r;
     stream_callback := stream_callback r; user_pointer := user_pointer r |}.

Definition set_ram_buffer_first (x : Z) (r : t) : t :=
  {| samplerate := samplerate r; pitch := pitch r; delay := delay r; flags := flags r;
     left_volume := left_volume r; right_volume := right_volume r;
     decode_coefficients := decode_coefficients r; accelerator_format := accelerator_format r;
     accelerator_gain := accelerator_gain r; ram_buffer_start := ram_buffer_start r;
     ram_buffer_end := ram_buffer_end r; ram_buffer_first := x;
     initial_predictor_scale := initial_predictor_scale r;
     initial_sample_history_1 := initial_sample_history_1 r;
     initial_sample_history_2 := initial_sample_history_2 r; un_w0 := un_w0 r;
     un_w4 := un_w4 r; un_h8 := un_h8 r; un_h10 := un_h10 r; un_h12 := un_h12 r;
     un_h14 := un_h14 r; un_h16 := un_h16 r; parameter_block := parameter_block r;
     linked_voice := linked_voice r; voice_callback := voice_callback r;
     stream_callback := stream_callback r; user_pointer := user_pointer r |}.

Definition set_initial_predictor_scale (x : Z) (r : t) : t :=
  {| samplerate := samplerate r; pitch := pitch r; delay := delay r; flags := flags r;
     left_volume := left_volume r; right_volume := right_volume r;
     decode_coefficients := decode_coefficients r; accelerator_format := accelerator_format r;
     accelerator_gain := accelerator_gain r; ram_buffer_start := ram_buffer_start r;
     ram_buffer_end := ram_buffer_end r; ram_buffer_first := ram_buffer_first r;
     initial_predictor_scale := x; initial_sample_history_1 := initial_sample_history_1 r;
     initial_sample_history_2 := initial_sample_history_2 r; un_w0 := un_w0 r;
     un_w4 := un_w4 r; un_h8 := un_h8 r; un_h10 := un_h10 r; un_h12 := un_h12 r;
     un_h14 := un_h14 r; un_h16 := un_h16 r; parameter_block := parameter_block r;
     linked_voice := linked_voice r; voice_callback := voice_callback r;
     stream_callback := stream_callback r; user_pointer := user_pointer r |}.

Definition set_initial_sample_history_1 (x : Z) (r : t) : t :=
  {| samplerate := samplerate r; pitch := pitch r; delay := delay r; flags := flags r;
     left_volume := left_volume r; right_volume := right_volume r;
     decode_coefficients := decode_coefficients r; accelerator_format := accelerator_format r;
     accelerator_gain := accelerator_gain r; ram_buffer_start := ram_buffer_start r;
     ram_buffer_end := ram_buffer_end r; ram_buffer_first := ram_buffer_first r;
     initial_predictor_scale := initial_predictor_scale r; initial_sample_history_1 := x;
     initial_sample_history_2 := initial_sample_history_2 r; un_w0 := un_w0 r;
     un_w4 := un_w4 r; un_h8 := un_h8 r; un_h10 := un_h10 r; un_h12 := un_h12 r;
     un_h14 := un_h14 r; un_h16 := un_h16 r; parameter_block := parameter_block r;
     linked_voice := linked_voice r; voice_callback := voice_callback r;
     stream_callback := stream_callback r; user_pointer := user_pointer r |}.

Definition set_initial_sample_history_2 (x : Z) (r : t) : t :=
  {| samplerate := samplerate r; pitch := pitch r; delay := delay r; flags := flags r;
     left_volume := left_volume r; right_volume := right_volume r;
     decode_coefficients := decode_coefficients r; accelerator_format := accelerator_format r;
     accelerator_gain := accelerator_gain r; ram_buffer_start := ram_buffer_start r;
     ram_buffer_end := ram_buffer_end r; ram_buffer_first := ram_buffer_first r;
     initial_predictor_scale := initial_predictor_scale r;
     initial_sample_history_1 := initial_sample_history_1 r; initial_sample_history_2 := x;
     un_w0 := un_w0 r; un_w4 := un_w4 r; un_h8 := un_h8 r; un_h10 := un_h10 r;
     un_h12 := un_h12 r; un_h14 := un_h14 r; un_h16 := un_h16 r;
     parameter_block := parameter_block r; linked_voice := linked_voice r;
     voice_callback := voice_callback r; stream_callback := stream_callback r;
     user_pointer := user_pointer r |}.

Definition set_un_w0 (x : Z) (r : t) : t :=
  {| samplerate := samplerate r; pitch := pitch r; delay := delay r; flags := flags r;
     left_volume := left_volume r; right_volume := right_volume r;
     decode_coefficients := decode_coefficients r; accelerator_format := accelerator_format r;
     accelerator_gain := accelerator_gain r; ram_buffer_start := ram_buffer_start r;
     ram_buffer_end := ram_buffer_end r; ram_buffer_first := ram_buffer_first r;
     initial_predictor_scale := initial_predictor_scale r;
     initial_sample_history_1 := initial_sample_history_1 r;
     initial_sample_history_2 := initial_sample_history_2 r; un_w0 := x; un_w4 := un_w4 r;
     un_h8 := un_h8 r; un_h10 := un_h10 r; un_h12 := un_h12 r; un_h14 := un_h14 r;
     un_h16 := un_h16 r; parameter_block := parameter_block r; linked_voice := linked_voice r;
     voice_callback := voice_callback r; stream_callback := stream_callback r;
     user_pointer := user_pointer r |}.

Definition set_un_w4 (x : Z) (r : t) : t :=
  {| samplerate := samplerate r; pitch := pitch r; delay := delay r; flags := flags r;
     left_volume := left_volume r; right_volume := right_volume r;
     decode_coefficients := decode_coefficients r; accelerator_format := accelerator_format r;
     accelerator_gain := accelerator_gain r; ram_buffer_start := ram_buffer_start r;
     ram_buffer_end := ram_buffer_end r; ram_buffer_first := ram_buffer_first r;
     initial_predictor_scale := initial_predictor_scale r;
     initial_sample_history_1 := initial_sample_history_1 r;
     initial_sample_history_2 := initial_sample_history_2 r; un_w0 := un_w0 r; un_w4 := x;
     un_h8 := un_h8 r; un_h10 := un_h10 r; un_h12 := un_h12 r; un_h14 := un_h14 r;
     un_h16 := un_h16 r; parameter_block := parameter_block r; linked_voice := linked_voice r;
     voice_callback := voice_callback r; stream_callback := stream_callback r;
     user_pointer := user_pointer r |}.

Definition set_un_h8 (x : Z) (r : t) : t :=
  {| samplerate := samplerate r; pitch := pitch r; delay := delay r; flags := flags r;
     left_volume := left_volume r; right_volume := right_volume r;
     decode_coefficients := decode_coefficients r; accelerator_format := accelerator_format r;
     accelerator_gain := accelerator_gain r; ram_buffer_start := ram_buffer_start r;
     ram_buffer_end := ram_buffer_end r; ram_buffer_first := ram_buffer_first r;
     initial_predictor_scale := initial_predictor_scale r;
     initial_sample_history_1 := initial_sample_history_1 r;
     initial_sample_history_2 := initial_sample_history_2 r; un_w0 := un_w0 r;
     un_w4 := un_w4 r; un_h8 := x; un_h10 := un_h10 r; un_h12 := un_h12 r; un_h14 := un_h14 r;
     un_h16 := un_h16 r; parameter_block := parameter_block r; linked_voice := linked_voice r;
     voice_callback := voice_callback r; stream_callback := stream_callback r;
     user_pointer := user_pointer r |}.

Definition set_un_h10 (x : Z) (r : t) : t :=
  {| samplerate := samplerate r; pitch := pitch r; delay := delay r; flags := flags r;
     left_volume := left_volume r; right_volume := right_volume r;
     decode_coefficients := decode_coefficients r; accelerator_format := accelerator_format r;
     accelerator_gain := accelerator_gain r; ram_buffer_start := ram_buffer_start r;
     ram_buffer_end := ram_buffer_end r; ram_buffer_first := ram_buffer_first r;
     initial_predictor_scale := initial_predictor_scale r;
     initial_sample_history_1 := initial_sample_history_1 r;
     initial_sample_history_2 := initial_sample_history_2 r; un_w0 := un_w0 r;
     un_w4 := un_w4 r; un_h8 := un_h8 r; un_h10 := x; un_h12 := un_h12 r; un_h14 := un_h14 r;
     un_h16 := un_h16 r; parameter_block := parameter_block r; linked_voice := linked_voice r;
     voice_callback := voice_callback r; stream_callback := stream_callback r;
     user_pointer := user_pointer r |}.

Definition set_un_h12 (x : Z) (r : t) : t :=
  {| samplerate := samplerate r; pitch := pitch r; delay := delay r; flags := flags r;
     left_volume := left_volume r; right_volume := right_volume r;
     decode_coefficients := decode_coefficients r; accelerator_format := accelerator_format r;
     accelerator_gain := accelerator_gain r; ram_buffer_start := ram_buffer_start r;
     ram_buffer_end := ram_buffer_end r; ram_buffer_first := ram_buffer_first r;
     initial_predictor_scale := initial_predictor_scale r;
     initial_sample_history_1 := initial_sample_history_1 r;
     initial_sample_history_2 := initial_sample_history_2 r; un_w0 := un_w0 r;
     un_w4 := un_w4 r; un_h8 := un_h8 r; un_h10 := un_h10 r; un_h12 := x; un_h14 := un_h14 r;
     un_h16 := un_h16 r; parameter_block := parameter_block r; linked_voice := linked_voice r;
     voice_callback := voice_callback r; stream_callback := stream_callback r;
     user_pointer := user_pointer r |}.

Definition set_un_h14 (x : Z) (r : t) : t :=
  {| samplerate := samplerate r; pitch := pitch r; delay := delay r; flags := flags r;
     left_volume := left_volume r; right_volume := right_volume r;
     decode_coefficients := decode_coefficients r; accelerator_format := accelerator_format r;
     accelerator_gain := accelerator_gain r; ram_buffer_start := ram_buffer_start r;
     ram_buffer_end := ram_buffer_end r; ram_buffer_first := ram_buffer_first r;
     initial_predictor_scale := initial_predictor_scale r;
     initial_sample_history_1 := initial_sample_history_1 r;
     initial_sample_history_2 := initial_sample_history_2 r; un_w0 := un_w0 r;
     un_w4 := un_w4 r; un_h8 := un_h8 r; un_h10 := un_h10 r; un_h12 := un_h12 r; un_h14 := x;
     un_h16 := un_h16 r; parameter_block := parameter_block r; linked_voice := linked_voice r;
     voice_callback := voice_callback r; stream_callback := stream_callback r;
     user_pointer := user_pointer r |}.

Definition set_un_h16 (x : Z) (r : t) : t :=
  {| samplerate := samplerate r; pitch := pitch r; delay := delay r; flags := flags r;
     left_volume := left_volume r; right_volume := right_volume r;
     decode_coefficients := decode_coefficients r; accelerator_format := accelerator_format r;
     accelerator_gain := accelerator_gain r; ram_buffer_start := ram_buffer_start r;
     ram_buffer_end := ram_buffer_end r; ram_buffer_first := ram_buffer_first r;
     initial_predictor_scale := initial_predictor_scale r;
     initial_sample_history_1 := initial_sample_history_1 r;
     initial_sample_history_2 := initial_sample_history_2 r; un_w0 := un_w0 r;
     un_w4 := un_w4 r; un_h8 := un_h8 r; un_h10 := un_h10 r; un_h12 := un_h12 r;
     un_h14 := un_h14 r; un_h16 := x; parameter_block := parameter_block r;
     linked_voice := linked_voice r; voice_callback := voice_callback r;
     stream_callback := stream_callback r; user_pointer := user_pointer r |}.

Definition set_parameter_block (x : option nat) (r : t) : t :=
  {| samplerate := samplerate r; pitch := pitch r; delay := delay r; flags := flags r;
     left_volume := left_volume r; right_volume := right_volume r;
     decode_coefficients := decode_coefficients r; accelerator_format := accelerator_format r;
     accelerator_gain := accelerator_gain r; ram_buffer_start := ram_buffer_start r;
     ram_buffer_end := ram_buffer_end r; ram_buffer_first := ram_buffer_first r;
     initial_predictor_scale := initial_predictor_scale r;
     initial_sample_history_1 := initial_sample_history_1 r;
     initial_sample_history_2 := initial_sample_history_2 r; un_w0 := un_w0 r;
     un_w4 := un_w4 r; un_h8 := un_h8 r; un_h10 := un_h10 r; un_h12 := un_h12 r;
     un_h14 := un_h14 r; un_h16 := un_h16 r; parameter_block := x;
     linked_voice := linked_voice r; voice_callback := voice_callback r;
     stream_callback := stream_callback r; user_pointer := user_pointer r |}.

Definition set_linked_voice (x : option nat) (r : t) : t :=
  {| samplerate := samplerate r; pitch := pitch r; delay := delay r; flags := flags r;
     left_volume := left_volume r; right_volume := right_volume r;
     decode_coefficients := decode_coefficients r; accelerator_format := accelerator_format r;
     accelerator_gain := accelerator_gain r; ram_buffer_start := ram_buffer_start r;
     ram_buffer_end := ram_buffer_end r; ram_buffer_first := ram_buffer_first r;
     initial_predictor_scale := initial_predictor_scale r;
     initial_sample_history_1 := initial_sample_history_1 r;
     initial_sample_history_2 := initial_sample_history_2 r; un_w0 := un_w0 r;
     un_w4 := un_w4 r; un_h8 := un_h8 r; un_h10 := un_h10 r; un_h12 := un_h12 r;
     un_h14 := un_h14 r; un_h16 := un_h16 r; parameter_block := parameter_block r;
     linked_voice := x; voice_callback := voice_callback r;
     stream_callback := stream_callback r; user_pointer := user_pointer r |}.

Definition set_voice_callback (x : option nat) (r : t) : t :=
  {| samplerate := samplerate r; pitch := pitch r; delay := delay r; flags := flags r;
     left_volume := left_volume r; right_volume := right_volume r;
     decode_coefficients := decode_coefficients r; accelerator_format := accelerator_format r;
     accelerator_gain := accelerator_gain r; ram_buffer_start := ram_buffer_start r;
     ram_buffer_end := ram_buffer_end r; ram_buffer_first := ram_buffer_first r;
     initial_predictor_scale := initial_predictor_scale r;
     initial_sample_history_1 := initial_sample_history_1 r;
     initial_sample_history_2 := initial_sample_history_2 r; un_w0 := un_w0 r;
     un_w4 := un_w4 r; un_h8 := un_h8 r; un_h10 := un_h10 r; un_h12 := un_h12 r;
     un_h14 := un_h14 r; un_h16 := un_h16 r; parameter_block := parameter_block r;
     linked_voice := linked_voice r; voice_callback := x; stream_callback := stream_callback r;
     user_pointer := user_pointer r |}.

Definition set_stream_callback (x : option nat) (r : t) : t :=
  {| samplerate := samplerate r; pitch := pitch r; delay := delay r; flags := flags r;
     left_volume := left_volume r; right_volume := right_volume r;
     decode_coefficients := decode_coefficients r; accelerator_format := accelerator_format r;
     accelerator_gain := accelerator_gain r; ram_buffer_start := ram_buffer_start r;
     ram_buffer_end := ram_buffer_end r; ram_buffer_first := ram_buffer_first r;
     initial_predictor_scale := initial_predictor_scale r;
     initial_sample_history_1 := initial_sample_history_1 r;
     initial_sample_history_2 := initial_sample_history_2 r; un_w0 := un_w0 r;
     un_w4 := un_w4 r; un_h8 := un_h8 r; un_h10 := un_h10 r; un_h12 := un_h12 r;
     un_h14 := un_h14 r; un_h16 := un_h16 r; parameter_block := parameter_block r;
     linked_voice := linked_voice r; voice_callback := voice_callback r; stream_callback := x;
     user_pointer := user_pointer r |}.

Definition set_user_pointer (x : Z) (r : t) : t :=
  {| samplerate := samplerate r; pitch := pitch r; delay := delay r; flags := flags r;
     left_volume := left_volume r; right_volume := right_volume r;
     decode_coefficients := decode_coefficients r; accelerator_format := accelerator_format r;
     accelerator_gain := accelerator_gain r; ram_buffer_start := ram_buffer_start r;
     ram_buffer_end := ram_buffer_end r; ram_buffer_first := ram_buffer_first r;
     initial_predictor_scale := initial_predictor_scale r;
     initial_sample_history_1 := initial_sample_history_1 r;
     initial_sample_history_2 := initial_sample_history_2 r; un_w0 := un_w0 r;
     un_w4 := un_w4 r; un_h8 := un_h8 r; un_h10 := un_h10 r; un_h12 := un_h12 r;
     un_h14 := un_h14 r; un_h16 := un_h16 r; parameter_block := parameter_block r;
     linked_voice := linked_voice r; voice_callback := voice_callback r;
     stream_callback := stream_callback r; user_pointer := x |}.

(** The two views of the union. *)
Definition loop_start := un_w0.
Definition loop_end := un_w4.
Definition loop_predictor_scale := un_h8.
Definition loop_sample_history_1 := un_h10.
Definition loop_sample_history_2 := un_h12.
Definition next_buffer_start := un_w0.
Definition next_buffer_end := un_w4.
Definition next_buffer_first (v : t) : Z := un_h8 v * 65536 + un_h10 v.
Definition next_buffer_predictor_scale := un_h12.
Definition next_buffer_sample_history_1 := un_h14.
Definition next_buffer_sample_history_2 := un_h16.

Definition set_loop_start := set_un_w0.
Definition set_loop_end := set_un_w4.
Definition set_loop_predictor_scale := set_un_h8.
Definition set_loop_sample_history_1 := set_un_h10.
Definition set_loop_sample_history_2 := set_un_h12.
Definition set_next_buffer_start := set_un_w0.
Definition set_next_buffer_end := set_un_w4.
Definition set_next_buffer_first (x : Z) (v : t) : t :=
  set_un_h10 (LOW x) (set_un_h8 (HIGH x) v).
Definition set_next_buffer_predictor_scale := set_un_h12.
Definition set_next_buffer_sample_history_1 := set_un_h14.
Definition set_next_buffer_sample_history_2 := set_un_h16.

(** The descriptor after [memset(voice, 0, sizeof(ansnd_voice_t))]. *)
Definition zero : t :=
  mk 0 F32.zero 0 0 F32.zero F32.zero (repeat 0 16) 0 0 0 0 0 0 0 0
     0 0 0 0 0 0 0 None None None None 0.

End V.

Module St.

(** The file-scope statics of ansndlib.c. *)
Record t : Type := mk {
  ansnd_audio_callback : option nat;
  ansnd_audio_callback_arguments : Z;
  ansnd_next_audio_buffer : Z;
  ansnd_output_samplerate : Z;
  ansnd_library_initialized : bool;
  ansnd_dsp_done_mixing : bool;
  ansnd_dsp_stalled : bool;
  ansnd_active_voices : Z;
  ansnd_dsp_start_time : Z;
  ansnd_dsp_process_time : Z;
  ansnd_total_start_time : Z;
  ansnd_total_process_time : Z;
  ansnd_voices : list V.t;
  ansnd_dsp_dram_image : list PB.t  (* the 48 parameter blocks at the start of the DRAM image *)
}.

Definition set_ansnd_audio_callback (x : option nat) (r : t) : t :=
  {| ansnd_audio_callback := x;
     ansnd_audio_callback_arguments := ansnd_audio_callback_arguments r;
     ansnd_next_audio_buffer := ansnd_next_audio_buffer r;
     ansnd_output_samplerate := ansnd_output_samplerate r;
     ansnd_library_initialized := ansnd_library_initialized r;
     ansnd_dsp_done_mixing := ansnd_dsp_done_mixing r;
     ansnd_dsp_stalled := ansnd_dsp_stalled r; ansnd_active_voices := ansnd_active_voices r;
     ansnd_dsp_start_time := ansnd_dsp_start_time r;
     ansnd_dsp_process_time := ansnd_dsp_process_time r;
     ansnd_total_start_time := ansnd_total_start_time r;
     ansnd_total_process_time := ansnd_total_process_time r; ansnd_voices := ansnd_voices r;
     ansnd_dsp_dram_image := ansnd_dsp_dram_image r |}.

Definition set_ansnd_audio_callback_arguments (x : Z) (r : t) : t :=
  {| ansnd_audio_callback := ansnd_audio_callback r; ansnd_audio_callback_arguments := x;
     ansnd_next_audio_buffer := ansnd_next_audio_buffer r;
     ansnd_output_samplerate := ansnd_output_samplerate r;
     ansnd_library_initialized := ansnd_library_initialized r;
     ansnd_dsp_done_mixing := ansnd_dsp_done_mixing r;
     ansnd_dsp_stalled := ansnd_dsp_stalled r; ansnd_active_voices := ansnd_active_voices r;
     ansnd_dsp_start_time := ansnd_dsp_start_time r;
     ansnd_dsp_process_time := ansnd_dsp_process_time r;
     ansnd_total_start_time := ansnd_total_start_time r;
     ansnd_total_process_time := ansnd_total_process_time r; ansnd_voices := ansnd_voices r;
     ansnd_dsp_dram_image := ansnd_dsp_dram_image r |}.

Definition set_ansnd_next_audio_buffer (x : Z) (r : t) : t :=
  {| ansnd_audio_callback := ansnd_audio_callback r;
     ansnd_audio_callback_arguments := ansnd_audio_callback_arguments r;
     ansnd_next_audio_buffer := x; ansnd_output_samplerate := ansnd_output_samplerate r;
     ansnd_library_initialized := ansnd_library_initialized r;
     ansnd_dsp_done_mixing := ansnd_dsp_done_mixing r;
     ansnd_dsp_stalled := ansnd_dsp_stalled r; ansnd_active_voices := ansnd_active_voices r;
     ansnd_dsp_start_time := ansnd_dsp_start_time r;
     ansnd_dsp_process_time := ansnd_dsp_process_time r;
     ansnd_total_start_time := ansnd_total_start_time r;
     ansnd_total_process_time := ansnd_total_process_time r; ansnd_voices := ansnd_voices r;
     ansnd_dsp_dram_image := ansnd_dsp_dram_image r |}.

Definition set_ansnd_output_samplerate (x : Z) (r : t) : t :=
  {| ansnd_audio_callback := ansnd_audio_callback r;
     ansnd_audio_callback_arguments := ansnd_audio_callback_arguments r;
     ansnd_next_audio_buffer := ansnd_next_audio_buffer r; ansnd_output_samplerate := x;
     ansnd_library_initialized := ansnd_library_initialized r;
     ansnd_dsp_done_mixing := ansnd_dsp_done_mixing r;
     ansnd_dsp_stalled := ansnd_dsp_stalled r; ansnd_active_voices := ansnd_active_voices r;
     ansnd_dsp_start_time := ansnd_dsp_start_time r;
     ansnd_dsp_process_time := ansnd_dsp_process_time r;
     ansnd_total_start_time := ansnd_total_start_time r;
     ansnd_total_process_time := ansnd_total_process_time r; ansnd_voices := ansnd_voices r;
     ansnd_dsp_dram_image := ansnd_dsp_dram_image r |}.

Definition set_ansnd_library_initialized (x : bool) (r : t) : t :=
  {| ansnd_audio_callback := ansnd_audio_callback r;
     ansnd_audio_callback_arguments := ansnd_audio_callback_arguments r;
     ansnd_next_audio_buffer := ansnd_next_audio_buffer r;
     ansnd_output_samplerate := ansnd_output_samplerate r; ansnd_library_initialized := x;
     ansnd_dsp_done_mixing := ansnd_dsp_done_mixing r;
     ansnd_dsp_stalled := ansnd_dsp_stalled r; ansnd_active_voices := ansnd_active_voices r;
     ansnd_dsp_start_time := ansnd_dsp_start_time r;
     ansnd_dsp_process_time := ansnd_dsp_process_time r;
     ansnd_total_start_time := ansnd_total_start_time r;
     ansnd_total_process_time := ansnd_total_process_time r; ansnd_voices := ansnd_voices r;
     ansnd_dsp_dram_image := ansnd_dsp_dram_image r |}.

Definition set_ansnd_dsp_done_mixing (x : bool) (r : t) : t :=
  {| ansnd_audio_callback := ansnd_audio_callback r;
     ansnd_audio_callback_arguments := ansnd_audio_callback_arguments r;
     ansnd_next_audio_buffer := ansnd_next_audio_buffer r;
     ansnd_output_samplerate := ansnd_output_samplerate r;
     ansnd_library_initialized := ansnd_library_initialized r; ansnd_dsp_done_mixing := x;
     ansnd_dsp_stalled := ansnd_dsp_stalled r; ansnd_active_voices := ansnd_active_voices r;
     ansnd_dsp_start_time := ansnd_dsp_start_time r;
     ansnd_dsp_process_time := ansnd_dsp_process_time r;
     ansnd_total_start_time := ansnd_total_start_time r;
     ansnd_total_process_time := ansnd_total_process_time r; ansnd_voices := ansnd_voices r;
     ansnd_dsp_dram_image := ansnd_dsp_dram_image r |}.

Definition set_ansnd_dsp_stalled (x : bool) (r : t) : t :=
  {| ansnd_audio_callback := ansnd_audio_callback r;
     ansnd_audio_callback_arguments := ansnd_audio_callback_arguments r;
     ansnd_next_audio_buffer := ansnd_next_audio_buffer r;
     ansnd_output_samplerate := ansnd_output_samplerate r;
     ansnd_library_initialized := ansnd_library_initialized r;
     ansnd_dsp_done_mixing := ansnd_dsp_done_mixing r; ansnd_dsp_stalled := x;
     ansnd_active_voices := ansnd_active_voices r;
     ansnd_dsp_start_time := ansnd_dsp_start_time r;
     ansnd_dsp_process_time := ansnd_dsp_process_time r;
     ansnd_total_start_time := ansnd_total_start_time r;
     ansnd_total_process_time := ansnd_total_process_time r; ansnd_voices := ansnd_voices r;
     ansnd_dsp_dram_image := ansnd_dsp_dram_image r |}.

Definition set_ansnd_active_voices (x : Z) (r : t) : t :=
  {| ansnd_audio_callback := ansnd_audio_callback r;
     ansnd_audio_callback_arguments := ansnd_audio_callback_arguments r;
     ansnd_next_audio_buffer := ansnd_next_audio_buffer r;
     ansnd_output_samplerate := ansnd_output_samplerate r;
     ansnd_library_initialized := ansnd_library_initialized r;
     ansnd_dsp_done_mixing := ansnd_dsp_done_mixing r;
     ansnd_dsp_stalled := ansnd_dsp_stalled r; ansnd_active_voices := x;
     ansnd_dsp_start_time := ansnd_dsp_start_time r;
     ansnd_dsp_process_time := ansnd_dsp_process_time r;
     ansnd_total_start_time := ansnd_total_start_time r;
     ansnd_total_process_time := ansnd_total_process_time r; ansnd_voices := ansnd_voices r;
     ansnd_dsp_dram_image := ansnd_dsp_dram_image r |}.

Definition set_ansnd_dsp_start_time (x : Z) (r : t) : t :=
  {| ansnd_audio_callback := ansnd_audio_callback r;
     ansnd_audio_callback_arguments := ansnd_audio_callback_arguments r;
     ansnd_next_audio_buffer := ansnd_next_audio_buffer r;
     ansnd_output_samplerate := ansnd_output_samplerate r;
     ansnd_library_initialized := ansnd_library_initialized r;
     ansnd_dsp_done_mixing := ansnd_dsp_done_mixing r;
     ansnd_dsp_stalled := ansnd_dsp_stalled r; ansnd_active_voices := ansnd_active_voices r;
     ansnd_dsp_start_time := x; ansnd_dsp_process_time := ansnd_dsp_process_time r;
     ansnd_total_start_time := ansnd_total_start_time r;
     ansnd_total_process_time := ansnd_total_process_time r; ansnd_voices := ansnd_voices r;
     ansnd_dsp_dram_image := ansnd_dsp_dram_image r |}.

Definition set_ansnd_dsp_process_time (x : Z) (r : t) : t :=
  {| ansnd_audio_callback := ansnd_audio_callback r;
     ansnd_audio_callback_arguments := ansnd_audio_callback_arguments r;
     ansnd_next_audio_buffer := ansnd_next_audio_buffer r;
     ansnd_output_samplerate := ansnd_output_samplerate r;
     ansnd_library_initialized := ansnd_library_initialized r;
     ansnd_dsp_done_mixing := ansnd_dsp_done_mixing r;
     ansnd_dsp_stalled := ansnd_dsp_stalled r; ansnd_active_voices := ansnd_active_voices r;
     ansnd_dsp_start_time := ansnd_dsp_start_time r; ansnd_dsp_process_time := x;
     ansnd_total_start_time := ansnd_total_start_time r;
     ansnd_total_process_time := ansnd_total_process_time r; ansnd_voices := ansnd_voices r;
     ansnd_dsp_dram_image := ansnd_dsp_dram_image r |}.

Definition set_ansnd_total_start_time (x : Z) (r : t) : t :=
  {| ansnd_audio_callback := ansnd_audio_callback r;
     ansnd_audio_callback_arguments := ansnd_audio_callback_arguments r;
     ansnd_next_audio_buffer := ansnd_next_audio_buffer r;
     ansnd_output_samplerate := ansnd_output_samplerate r;
     ansnd_library_initialized := ansnd_library_initialized r;
     ansnd_dsp_done_mixing := ansnd_dsp_done_mixing r;
     ansnd_dsp_stalled := ansnd_dsp_stalled r; ansnd_active_voices := ansnd_active_voices r;
     ansnd_dsp_start_time := ansnd_dsp_start_time r;
     ansnd_dsp_process_time := ansnd_dsp_process_time r; ansnd_total_start_time := x;
     ansnd_total_process_time := ansnd_total_process_time r; ansnd_voices := ansnd_voices r;
     ansnd_dsp_dram_image := ansnd_dsp_dram_image r |}.

Definition set_ansnd_total_process_time (x : Z) (r : t) : t :=
  {| ansnd_audio_callback := ansnd_audio_callback r;
     ansnd_audio_callback_arguments := ansnd_audio_callback_arguments r;
     ansnd_next_audio_buffer := ansnd_next_audio_buffer r;
     ansnd_output_samplerate := ansnd_output_samplerate r;
     ansnd_library_initialized := ansnd_library_initialized r;
     ansnd_dsp_done_mixing := ansnd_dsp_done_mixing r;
     ansnd_dsp_stalled := ansnd_dsp_stalled r; ansnd_active_voices := ansnd_active_voices r;
     ansnd_dsp_start_time := ansnd_dsp_start_time r;
     ansnd_dsp_process_time := ansnd_dsp_process_time r;
     ansnd_total_start_time := ansnd_total_start_time r; ansnd_total_process_time := x;
     ansnd_voices := ansnd_voices r; ansnd_dsp_dram_image := ansnd_dsp_dram_image r |}.

Definition set_ansnd_voices (x : list V.t) (r : t) : t :=
  {| ansnd_audio_callback := ansnd_audio_callback r;
     ansnd_audio_callback_arguments := ansnd_audio_callback_arguments r;
     ansnd_next_audio_buffer := ansnd_next_audio_buffer r;
     ansnd_output_samplerate := ansnd_output_samplerate r;
     ansnd_library_initialized := ansnd_library_initialized r;
     ansnd_dsp_done_mixing := ansnd_dsp_done_mixing r;
     ansnd_dsp_stalled := ansnd_dsp_stalled r; ansnd_active_voices := ansnd_active_voices r;
     ansnd_dsp_start_time := ansnd_dsp_start_time r;
     ansnd_dsp_process_time := ansnd_dsp_process_time r;
     ansnd_total_start_time := ansnd_total_start_time r;
     ansnd_total_process_time := ansnd_total_process_time r; ansnd_voices := x;
     ansnd_dsp_dram_image := ansnd_dsp_dram_image r |}.

Definition set_ansnd_dsp_dram_image (x : list PB.t) (r : t) : t :=
  {| ansnd_audio_callback := ansnd_audio_callback r;
     ansnd_audio_callback_arguments := ansnd_audio_callback_arguments r;
     ansnd_next_audio_buffer := ansnd_next_audio_buffer r;
     ansnd_output_samplerate := ansnd_output_samplerate r;
     ansnd_library_initialized := ansnd_library_initialized r;
     ansnd_dsp_done_mixing := ansnd_dsp_done_mixing r;
     ansnd_dsp_stalled := ansnd_dsp_stalled r; ansnd_active_voices := ansnd_active_voices r;
     ansnd_dsp_start_time := ansnd_dsp_start_time r;
     ansnd_dsp_process_time := ansnd_dsp_process_time r;
     ansnd_total_start_time := ansnd_total_start_time r;
     ansnd_total_process_time := ansnd_total_process_time r; ansnd_voices := ansnd_voices r;
     ansnd_dsp_dram_image := x |}.

End St.

#[global] Instance V_inhabited : Inhabited V.t := populate V.zero.
#[global] Instance PB_inhabited : Inhabited PB.t := populate PB.zero.

(** [ansnd_pcm_data_buffer_t] *)
Module PcmBuf.
Record t : Type := mk {
  frame_data_ptr : Z;
  frame_count : Z
}.
Definition zero : t := mk 0 0.
End PcmBuf.

(** [ansnd_adpcm_data_buffer_t] *)
Module AdpcmBuf.
Record t : Type := mk {
  data_ptr : Z;
  sample_count : Z;
  predictor_scale : Z;
  sample_history_1 : Z;
  sample_history_2 : Z
}.
Definition zero : t := mk 0 0 0 0 0.
End AdpcmBuf.

(** [ansnd_pcm_voice_config_t] *)
Module PcmCfg.
Record t : Type := mk {
  samplerate : Z;
  format : Z;
  channels : Z;
  delay : Z;
  pitch : f32;
  left_volume : f32;
  right_volume : f32;
  frame_data_ptr : Z;
  frame_count : Z;
  start_offset : Z;
  loop_start_offset : Z;
  loop_end_offset : Z;
  voice_callback : option nat;
  stream_callback : option nat;
  user_pointer : Z
}.
End PcmCfg.

(** [ansnd_adpcm_voice_config_t] *)
Module AdpcmCfg.
Record t : Type := mk {
  samplerate : Z;
  loop_flag : Z;
  nibble_offsets_flag : Z;
  adpcm_format : Z;
  adpcm_gain : Z;
  delay : Z;
  pitch : f32;
  left_volume : f32;
  right_volume : f32;
  data_ptr : Z;
  sample_count : Z;
  start_offset : Z;
  decode_coefficients : list Z;
  initial_predictor_scale : Z;
  initial_sample_history_1 : Z;
  initial_sample_history_2 : Z;
  loop_predictor_scale : Z;
  loop_sample_history_1 : Z;
  loop_sample_history_2 : Z;
  loop_start_offset : Z;
  loop_end_offset : Z;
  voice_callback : option nat;
  stream_callback : option nat;
  user_pointer : Z
}.
End AdpcmCfg.

(** What the driver does to the outside world during an interrupt. *)
Inductive dma_buffer : Type :=
| MuteBuffer
| OutBuffer (n : Z).

Inductive event : Type :=
| VoiceCallback (fn : nat) (user_pointer voice_state : Z)
| PcmStreamCallback (fn : nat) (user_pointer : Z)
| AdpcmStreamCallback (fn : nat) (user_pointer : Z)
| AudioCallback (fn : nat) (buffer : Z) (buffer_length : Z) (arguments : Z)
| SendMailTo (word : Z)
| InitDMA (buffer : dma_buffer) (length : Z)
| AssertTask.

(** What one run of the request-service callback reads from outside: the
    clock at its two [gettime()] calls, whether another DSP task is queued
    ([ansnd_dsp_task.next != NULL]), and what the streaming callback of the
    voice in slot [i] leaves in its out-parameter. *)
Record cycle_input : Type := mk_cycle_input {
  time_mixed : Z;
  time_synced : Z;
  task_next : bool;
  pcm_data : nat -> PcmBuf.t;
  adpcm_data : nat -> AdpcmBuf.t
}.

(** What the DMA interrupt reads from the DSP task record and the clock. *)
Record dma_input : Type := mk_dma_input {
  dma_task_next : bool;
  dma_task_running : bool;
  dma_time_total : Z;
  dma_time_dsp : Z
}.

(** ** The statics at program start *)

Definition initial_state : St.t :=
  St.mk None 0 0 ANSND_OUTPUT_SAMPLERATE_48KHZ false false false 0 0 0 0 0
        (replicate 48 V.zero) (replicate 48 PB.zero).

(** ** Access through the two kinds of pointer *)

(** [*voice->parameter_block], [None] when the pointer is NULL. *)
Definition load (dram : list PB.t) (v : V.t) : option PB.t :=
  match V.parameter_block v with
  | Some i => dram !! i
  | None => None
  end.

Definition store (dram : list PB.t) (v : V.t) (pb : PB.t) : list PB.t :=
  match V.parameter_block v with
  | Some i => <[i := pb]> dram
  | None => dram
  end.

(** [ansnd_voices[voice_id]] *)
Definition voice (s : St.t) (voice_id : Z) : V.t :=
  St.ansnd_voices s !!! Z.to_nat voice_id.

Definition set_voice (i : nat) (v : V.t) (s : St.t) : St.t :=
  St.set_ansnd_voices (<[i := v]> (St.ansnd_voices s)) s.

(** Applies [f] to the voice a [linked_voice] pointer designates. *)
Definition on_linked (l : option nat) (f : V.t -> V.t) (s : St.t) : St.t :=
  match l with
  | Some j => set_voice j (f (St.ansnd_voices s !!! j)) s
  | None => s
  end.

(** ** The driver *)

Section Driver.

Variable hw : platform.

(** The [switch (ansnd_output_samplerate)] that selects the DSP frequency. *)
Definition dsp_frequency_of (rate : Z) : f32 :=
  if rate =? ANSND_OUTPUT_SAMPLERATE_32KHZ then ANSND_DSP_FREQ_32KHZ hw
  else if rate =? ANSND_OUTPUT_SAMPLERATE_48KHZ then ANSND_DSP_FREQ_48KHZ hw
  else F32.one.

Definition microseconds_per_cycle_of (rate : Z) : Z :=
  if rate =? ANSND_OUTPUT_SAMPLERATE_32KHZ then 7500
  else if rate =? ANSND_OUTPUT_SAMPLERATE_48KHZ then 5000
  else 0.

(** The [switch] that selects the largest admitted sample rate. *)
Definition max_samplerate_of (rate : Z) : f32 :=
  if rate =? ANSND_OUTPUT_SAMPLERATE_32KHZ then ANSND_MAX_SAMPLERATE_32KHZ hw
  else if rate =? ANSND_OUTPUT_SAMPLERATE_48KHZ then ANSND_MAX_SAMPLERATE_48KHZ hw
  else F32.one.

(** The platform's test on a buffer address (the [#if defined(HW_DOL)] /
    [#elif defined(HW_RVL)] blocks). *)
Definition invalid_memory (ptr : Z) : bool :=
  match hw with
  | HW_DOL ar_base ar_size => (ptr <? ar_base) || (ar_size <=? ptr)
  | HW_RVL => negb (Z.land ptr SYS_BASE_CACHED =? 0)
  end.

Definition ansnd_erase_voice (v : V.t) (dram : list PB.t) : option (V.t * list PB.t) :=
  _ ← load dram v;
  Some (V.zero, store dram v PB.zero).

Definition base_frequency : Z := 0x00010000.

(** [voice->samplerate * voice->pitch] *)
Definition adjusted_samplerate (v : V.t) : f32 :=
  F32.mul (F32.of_Z (V.samplerate v)) (V.pitch v).

(** The value [lrintf] yields in [ansnd_update_voice_pitch], as stored in
    the [u32]. *)
Definition raw_relative_frequency (rate : Z) (v : V.t) : Z :=
  to_u32 (F32.lrintf (F32.mul (F32.of_Z base_frequency)
                              (F32.div (adjusted_samplerate v) (dsp_frequency_of rate)))).

(** The funnel to the base frequency. *)
Definition funnel (relative_frequency : Z) : Z :=
  if (base_frequency - 0x100 <? relative_frequency)
     && (relative_frequency <? base_frequency + 0x100)
  then base_frequency else relative_frequency.

Definition default_filter_step : Z := to_u16 (Z.shiftl 504 6).

Definition ansnd_update_voice_pitch (rate : Z) (v : V.t) (dram : list PB.t)
  : option (list PB.t) :=
  pb ← load dram v;
  let dsp_frequency := dsp_frequency_of rate in
  let relative_frequency := funnel (raw_relative_frequency rate v) in
  let pb := PB.set_relative_frequency_high (HIGH relative_frequency) pb in
  let pb := PB.set_relative_frequency_low (LOW relative_frequency) pb in
  let filter_step :=
    if base_frequency + 0x0205 <? relative_frequency
    then to_u16 (F32.lrintf (F32.mul (F32.of_Z (Z.shiftr base_frequency 1))
                                     (F32.div dsp_frequency (adjusted_samplerate v))))
    else default_filter_step in
  let correction_factor :=
    if base_frequency + 0x0205 <? relative_frequency
    then to_u16 (-256 * (128 - Z.shiftr filter_step 8) + 32767)
    else 32767 in
  let pb := PB.set_filter_step filter_step pb in
  let pb := PB.set_correction_factor correction_factor pb in
  let sample_buffer_size :=
    to_u16 (F32.lrintf (F32.div (F32.of_Z 2048) (F32.of_Z (Z.shiftr filter_step 6)))) in
  let pb := PB.set_sample_buffer_wrapping (to_u16 (sample_buffer_size - 1)) pb in
  let pb := PB.set_sample_buffer_index (to_u16 (16 - sample_buffer_size)) pb in
  let pb := PB.set_filter_step_512 (Z.land (Z.shiftr filter_step 6) 0x01FC) pb in
  Some (store dram v pb).

Definition ansnd_update_voice_delay (rate : Z) (v : V.t) (dram : list PB.t)
  : option (V.t * list PB.t) :=
  let dsp_frequency := dsp_frequency_of rate in
  let microseconds_per_cycle := microseconds_per_cycle_of rate in
  if V.delay v <? to_u32 (0x7FFF * microseconds_per_cycle) / 240 then
    pb ← load dram v;
    let pb := PB.set_flags (flag_clear (PB.flags pb) VOICE_FLAG_DELAY) pb in
    let pb := PB.set_delay
                (to_u16 (F32.trunc (F32.div (F32.mul (F32.of_Z (V.delay v)) dsp_frequency)
                                            (F32.of_Z 1000000)))) pb in
    let v' := V.set_flags (flag_clear (V.flags v) VOICE_FLAG_DELAY) v in
    let v' := V.set_delay 0 v' in
    Some (v', store dram v pb)
  else
    Some (V.set_delay (to_u32 (V.delay v - microseconds_per_cycle)) v, dram).

(** [lrintf(0x7FFF * volume)] stored in an [s16]. *)
Definition volume_word (volume : f32) : Z :=
  to_u16 (F32.lrintf (F32.mul (F32.of_Z 0x7FFF) volume)).

Definition initialize_mask : Z :=
  Z.lor VOICE_FLAG_USED (Z.lor VOICE_FLAG_RUNNING (Z.lor VOICE_FLAG_FINISHED
  (Z.lor VOICE_FLAG_PAUSED (Z.lor VOICE_FLAG_STREAMING (Z.lor VOICE_FLAG_LOOPED
  (Z.lor VOICE_FLAG_ADPCM VOICE_FLAG_STEREO)))))).

Definition ansnd_initialize_voice (rate : Z) (v : V.t) (dram : list PB.t)
  : option (V.t * list PB.t) :=
  _ ← load dram v;
  let dram := store dram v PB.zero in
  dram ← ansnd_update_voice_pitch rate v dram;
  '(v, dram) ←
    (if negb (V.delay v =? 0) then
       pb ← load dram v;
       let dram := store dram v (PB.set_flags (flag_or (PB.flags pb) VOICE_FLAG_DELAY) pb) in
       let v := V.set_flags (flag_or (V.flags v) VOICE_FLAG_DELAY) v in
       ansnd_update_voice_delay rate v dram
     else Some (v, dram));
  pb ← load dram v;
  let pb := PB.set_left_volume (volume_word (V.left_volume v)) pb in
  let pb := PB.set_right_volume (volume_word (V.right_volume v)) pb in
  let pb := PB.set_flags (flag_or (PB.flags pb) (Z.land (V.flags v) initialize_mask)) pb in
  let pb := PB.set_accelerator_format (V.accelerator_format v) pb in
  let pb := PB.set_accelerator_gain (V.accelerator_gain v) pb in
  let pb := PB.set_accelerator_start_high (HIGH (V.ram_buffer_start v)) pb in
  let pb := PB.set_accelerator_start_low (LOW (V.ram_buffer_start v)) pb in
  let pb := PB.set_accelerator_end_high (HIGH (V.ram_buffer_end v)) pb in
  let pb := PB.set_accelerator_end_low (LOW (V.ram_buffer_end v)) pb in
  let pb := PB.set_accelerator_current_high (HIGH (V.ram_buffer_first v)) pb in
  let pb := PB.set_accelerator_current_low (LOW (V.ram_buffer_first v)) pb in
  let pb := PB.set_initial_predictor_scale (V.initial_predictor_scale v) pb in
  let pb := PB.set_initial_sample_history_1 (V.initial_sample_history_1 v) pb in
  let pb := PB.set_initial_sample_history_2 (V.initial_sample_history_2 v) pb in
  let pb :=
    if flag_set (V.flags v) VOICE_FLAG_LOOPED then
      let pb := PB.set_flags (flag_clear (PB.flags pb) VOICE_FLAG_STREAMING) pb in
      let pb := PB.set_w3B (HIGH (V.loop_start v)) pb in
      let pb := PB.set_w3C (LOW (V.loop_start v)) pb in
      let pb := PB.set_accelerator_end_high (HIGH (V.loop_end v)) pb in
      let pb := PB.set_accelerator_end_low (LOW (V.loop_end v)) pb in
      let pb := PB.set_w3D (V.loop_predictor_scale v) pb in
      let pb := PB.set_w3E (V.loop_sample_history_1 v) pb in
      PB.set_w3F (V.loop_sample_history_2 v) pb
    else pb in
  let pb :=
    if flag_set (V.flags v) VOICE_FLAG_ADPCM
    then PB.set_words_10 (V.decode_coefficients v) pb
    else pb in
  Some (V.set_flags (flag_or (V.flags v) VOICE_FLAG_INITIALIZED) v, store dram v pb).

(** The call of an optional voice-state callback. *)
Definition call_voice_callback (v : V.t) (voice_state : Z) : list event :=
  match V.voice_callback v with
  | Some fn => [VoiceCallback fn (V.user_pointer v) voice_state]
  | None => []
  end.

Definition ansnd_sync_voice (rate : Z) (v : V.t) (dram : list PB.t)
  : option (V.t * list PB.t * list event) :=
  if flag_set (V.flags v) VOICE_FLAG_ERASED then
    '(v', dram') ← ansnd_erase_voice v dram;
    Some (v', dram', call_voice_callback v ANSND_VOICE_STATE_ERASED)
  else
    let voice_state :=
      if flag_set (V.flags v) VOICE_FLAG_RUNNING then
        if flag_set (V.flags v) VOICE_FLAG_PAUSED
        then ANSND_VOICE_STATE_PAUSED else ANSND_VOICE_STATE_RUNNING
      else ANSND_VOICE_STATE_STOPPED in
    '(v, dram) ←
      (if negb (flag_set (V.flags v) VOICE_FLAG_INITIALIZED)
       then ansnd_initialize_voice rate v dram
       else Some (v, dram));
    '(v, dram) ←
      (if flag_set (V.flags v) VOICE_FLAG_PITCH_CHANGE then
         pb ← load dram v;
         let pb := PB.set_sample_buffer PB.zeros16 pb in
         let pb := if negb (flag_set (PB.flags pb) VOICE_FLAG_ADPCM)
                   then PB.set_words_10 PB.zeros16 pb else pb in
         dram ← ansnd_update_voice_pitch rate v (store dram v pb);
         Some (V.set_flags (flag_clear (V.flags v) VOICE_FLAG_PITCH_CHANGE) v, dram)
       else Some (v, dram));
    pb ← load dram v;
    let finished := flag_set (PB.flags pb) VOICE_FLAG_FINISHED in
    let pb := if finished
              then PB.set_flags (flag_clear (PB.flags pb) VOICE_FLAG_FINISHED) pb else pb in
    let v := if finished
             then V.set_flags (flag_clear (V.flags v) VOICE_FLAG_RUNNING) v else v in
    let voice_state := if finished then ANSND_VOICE_STATE_FINISHED else voice_state in
    let flags_diff := Z.lxor (V.flags v) (PB.flags pb) in
    let pb := if flag_set flags_diff VOICE_FLAG_RUNNING
              then PB.set_flags (flag_clear (PB.flags pb) VOICE_FLAG_RUNNING) pb else pb in
    let pb := if flag_set flags_diff VOICE_FLAG_PAUSED
              then PB.set_flags (flag_or (flag_clear (PB.flags pb) VOICE_FLAG_PAUSED)
                                         (Z.land (V.flags v) VOICE_FLAG_PAUSED)) pb
              else pb in
    let looped_diff := flag_set flags_diff VOICE_FLAG_LOOPED in
    let pb := if looped_diff then
                let pb := PB.set_flags (flag_clear (PB.flags pb) VOICE_FLAG_LOOPED) pb in
                let pb := PB.set_accelerator_end_high (HIGH (V.ram_buffer_end v)) pb in
                let pb := PB.set_accelerator_end_low (LOW (V.ram_buffer_end v)) pb in
                if flag_set (V.flags v) VOICE_FLAG_STREAMING
                then PB.set_flags (flag_or (PB.flags pb) VOICE_FLAG_STREAMING) pb
                else pb
              else pb in
    let v := if looped_diff && flag_set (V.flags v) VOICE_FLAG_STREAMING
             then V.set_next_buffer_start 0 v else v in
    let pb := PB.set_left_volume (volume_word (V.left_volume v)) pb in
    let pb := PB.set_right_volume (volume_word (V.right_volume v)) pb in
    let v := V.set_flags (flag_clear (V.flags v) VOICE_FLAG_UPDATED) v in
    Some (v, store dram v pb, call_voice_callback v voice_state).

Definition ansnd_write_stream_buffers (v : V.t) (dram : list PB.t)
  : option (V.t * list PB.t) :=
  pb ← load dram v;
  let pb := PB.set_w37 (HIGH (V.next_buffer_start v)) pb in
  let pb := PB.set_w38 (LOW (V.next_buffer_start v)) pb in
  let pb := PB.set_w39 (HIGH (V.next_buffer_end v)) pb in
  let pb := PB.set_w3A (LOW (V.next_buffer_end v)) pb in
  let pb := PB.set_w3B (HIGH (V.next_buffer_first v)) pb in
  let pb := PB.set_w3C (LOW (V.next_buffer_first v)) pb in
  let pb :=
    if flag_set (V.flags v) VOICE_FLAG_ADPCM then
      let pb := PB.set_w3D (V.next_buffer_predictor_scale v) pb in
      let pb := PB.set_w3E (V.next_buffer_sample_history_1 v) pb in
      PB.set_w3F (V.next_buffer_sample_history_2 v) pb
    else pb in
  let v' := V.set_next_buffer_start 0 v in
  let v' := V.set_next_buffer_end 0 v' in
  let v' := V.set_next_buffer_first 0 v' in
  Some (v', store dram v pb).

(** The streaming callback of the voice is called with a zeroed data
    buffer; [pcm] and [adpcm] are the buffer as the callback leaves it. *)
Definition ansnd_fill_stream_buffers (pcm : PcmBuf.t) (adpcm : AdpcmBuf.t) (v : V.t)
  : option (V.t * list event) :=
  fn ← V.stream_callback v;
  if flag_set (V.flags v) VOICE_FLAG_ADPCM then
    let ev := [AdpcmStreamCallback fn (V.user_pointer v)] in
    if (AdpcmBuf.data_ptr adpcm =? 0) || (AdpcmBuf.sample_count adpcm =? 0) then Some (v, ev)
    else if invalid_memory (AdpcmBuf.data_ptr adpcm) then Some (v, ev)
    else
      let start := to_u32 (Z.shiftl (AdpcmBuf.data_ptr adpcm) 1) in
      let v := V.set_next_buffer_start start v in
      let v := V.set_next_buffer_end
                 (to_u32 (start + SAMPLES_TO_NIBBLES (AdpcmBuf.sample_count adpcm))) v in
      let v := V.set_next_buffer_first (to_u32 (start + SAMPLES_TO_NIBBLES 0)) v in
      let v := V.set_next_buffer_predictor_scale (AdpcmBuf.predictor_scale adpcm) v in
      let v := V.set_next_buffer_sample_history_1 (AdpcmBuf.sample_history_1 adpcm) v in
      let v := V.set_next_buffer_sample_history_2 (AdpcmBuf.sample_history_2 adpcm) v in
      Some (v, ev)
  else
    let ev := [PcmStreamCallback fn (V.user_pointer v)] in
    if (PcmBuf.frame_data_ptr pcm =? 0) || (PcmBuf.frame_count pcm =? 0) then Some (v, ev)
    else if invalid_memory (PcmBuf.frame_data_ptr pcm) then Some (v, ev)
    else
      let channels := if flag_set (V.flags v) VOICE_FLAG_STEREO then 2 else 1 in
      let memory_shift := if V.accelerator_gain v =? DSP_ACCL_GAIN_16BIT then 1 else 0 in
      let start := Z.shiftr (PcmBuf.frame_data_ptr pcm) memory_shift in
      let v := V.set_next_buffer_start start v in
      let v := V.set_next_buffer_end
                 (to_u32 (start + PcmBuf.frame_count pcm * channels - 1)) v in
      let v := V.set_next_buffer_first start v in
      Some (v, ev).

Definition ansnd_update_stream_buffers (pcm : PcmBuf.t) (adpcm : AdpcmBuf.t)
    (v : V.t) (dram : list PB.t) : option (V.t * list PB.t * list event) :=
  '(v, ev) ←
    (if V.next_buffer_start v =? 0
     then ansnd_fill_stream_buffers pcm adpcm v
     else Some (v, []));
  pb ← load dram v;
  if (PB.next_buffer_start_high pb =? 0) && (PB.next_buffer_start_low pb =? 0) then
    '(v, dram) ← ansnd_write_stream_buffers v dram;
    Some (v, dram, ev)
  else Some (v, dram, ev).

(** One iteration of the loop of [ansnd_dsp_request_callback]. *)
Definition ansnd_request_voice (inp : cycle_input) (i : nat) (s : St.t)
  : option (St.t * list event) :=
  let rate := St.ansnd_output_samplerate s in
  let v := St.ansnd_voices s !!! i in
  let dram := St.ansnd_dsp_dram_image s in
  let device_finished :=
    match V.parameter_block v with
    | Some _ =>
        match load dram v with
        | Some pb => Some (flag_set (PB.flags pb) VOICE_FLAG_FINISHED)
        | None => None
        end
    | None => Some false
    end in
  needs_sync ←
    (if flag_set (V.flags v) VOICE_FLAG_UPDATED then Some true else device_finished);
  '(v, dram, ev1) ←
    (if needs_sync : bool then ansnd_sync_voice rate v dram else Some (v, dram, []));
  if flag_set (V.flags v) VOICE_FLAG_RUNNING then
    let active := to_u32 (St.ansnd_active_voices s + 1) in
    '(v, dram, ev2) ←
      (if flag_set (V.flags v) VOICE_FLAG_STREAMING
          && negb (flag_set (V.flags v) VOICE_FLAG_LOOPED)
       then ansnd_update_stream_buffers (pcm_data inp i) (adpcm_data inp i) v dram
       else Some (v, dram, []));
    '(v, dram) ←
      (if flag_set (V.flags v) VOICE_FLAG_DELAY
       then ansnd_update_voice_delay rate v dram
       else Some (v, dram));
    Some (St.set_ansnd_active_voices active
            (St.set_ansnd_dsp_dram_image dram (set_voice i v s)), ev1 ++ ev2)
  else
    Some (St.set_ansnd_dsp_dram_image dram (set_voice i v s), ev1).

(** [for (u32 i = first; i < first + n; ++i)] over the voices. *)
Fixpoint ansnd_request_loop (inp : cycle_input) (n i : nat) (s : St.t)
  : option (St.t * list event) :=
  match n with
  | O => Some (s, [])
  | S n' =>
      '(s, ev) ← ansnd_request_voice inp i s;
      '(s, ev') ← ansnd_request_loop inp n' (S i) s;
      Some (s, ev ++ ev')
  end.

(** The synchronization cycle. *)
Definition ansnd_dsp_request_callback (inp : cycle_input) (s : St.t)
  : option (St.t * list event) :=
  let s := St.set_ansnd_dsp_done_mixing true s in
  let s := St.set_ansnd_dsp_stalled false s in
  let s := St.set_ansnd_dsp_process_time
             (to_u64 (time_mixed inp - St.ansnd_dsp_start_time s)) s in
  let s := St.set_ansnd_active_voices 0 s in
  '(s, ev) ← ansnd_request_loop inp (Z.to_nat ANSND_MAX_VOICES) 0 s;
  let mail :=
    SendMailTo (Z.lor DSP_MAIL_COMMAND
                      (if task_next inp then DSP_MAIL_YIELD else DSP_MAIL_PREPARE)) in
  let audio :=
    match St.ansnd_audio_callback s with
    | Some fn => [AudioCallback fn (St.ansnd_next_audio_buffer s) ANSND_SOUND_BUFFER_SIZE
                                (St.ansnd_audio_callback_arguments s)]
    | None => []
    end in
  let s := St.set_ansnd_total_process_time
             (to_u64 (time_synced inp - St.ansnd_total_start_time s)) s in
  Some (s, ev ++ mail :: audio).

(** The audio DMA completion interrupt. *)
Definition ansnd_audio_dma_callback (inp : dma_input) (s : St.t) : St.t * list event :=
  let assert := if dma_task_next inp then [AssertTask] else [] in
  if negb (St.ansnd_dsp_done_mixing s) then
    let restart :=
      if St.ansnd_dsp_stalled s && dma_task_running inp
      then [SendMailTo (Z.lor DSP_MAIL_COMMAND DSP_MAIL_RESTART)] else [] in
    (St.set_ansnd_dsp_stalled true s,
     assert ++ InitDMA MuteBuffer ANSND_SOUND_BUFFER_SIZE :: restart)
  else
    let s := St.set_ansnd_dsp_done_mixing false s in
    let s := St.set_ansnd_total_start_time (dma_time_total inp) s in
    let next :=
      if dma_task_running inp
      then [SendMailTo (Z.lor DSP_MAIL_COMMAND DSP_MAIL_NEXT)] else [] in
    let s := St.set_ansnd_dsp_start_time (dma_time_dsp inp) s in
    let out := InitDMA (OutBuffer (St.ansnd_next_audio_buffer s)) ANSND_SOUND_BUFFER_SIZE in
    (St.set_ansnd_next_audio_buffer (to_u8 (Z.lxor (St.ansnd_next_audio_buffer s) 1)) s,
     assert ++ next ++ [out]).

(** *** External interface

    Each function returns its result code and the statics it leaves.  The
    calls into the platform ([DSP_Init], [AUDIO_InitDMA], the interrupt
    mask, ...) made by [ansnd_initialize_samplerate] and
    [ansnd_uninitialize] leave the statics alone and are not recorded; the
    loops that wait for the DSP task are taken to end. *)

Definition ansnd_initialize_samplerate (output_samplerate : Z) (s : St.t) : Z * St.t :=
  if (output_samplerate =? ANSND_OUTPUT_SAMPLERATE_32KHZ)
     || (output_samplerate =? ANSND_OUTPUT_SAMPLERATE_48KHZ) then
    let s := St.set_ansnd_output_samplerate output_samplerate s in
    let s :=
      if negb (St.ansnd_library_initialized s) then
        let s := St.set_ansnd_library_initialized true s in
        let s := St.set_ansnd_dsp_done_mixing false s in
        let s := St.set_ansnd_dsp_stalled false s in
        let s := St.set_ansnd_voices (replicate (Z.to_nat ANSND_MAX_VOICES) V.zero) s in
        St.set_ansnd_dsp_dram_image (replicate (Z.to_nat MAX_PARAMETER_BLOCKS) PB.zero) s
      else s in
    (ANSND_ERROR_OK, s)
  else (ANSND_ERROR_INVALID_INPUT, s).

Definition ansnd_initialize (s : St.t) : St.t :=
  snd (ansnd_initialize_samplerate ANSND_OUTPUT_SAMPLERATE_48KHZ s).

Definition ansnd_uninitialize (s : St.t) : St.t :=
  if St.ansnd_library_initialized s
  then St.set_ansnd_library_initialized false s
  else s.

(** The scan of [ansnd_allocate_voice]: the first slot from [i] on without
    the USED flag, or -1. *)
Fixpoint first_unused (vs : list V.t) (i : Z) : Z :=
  match vs with
  | [] => -1
  | v :: vs' =>
      if negb (flag_set (V.flags v) VOICE_FLAG_USED) then i
      else first_unused vs' (i + 1)
  end.

Definition ansnd_allocate_voice (s : St.t) : Z * St.t :=
  if negb (St.ansnd_library_initialized s) then (ANSND_ERROR_NOT_INITIALIZED, s)
  else
    let voice_id := first_unused (take (Z.to_nat ANSND_MAX_VOICES) (St.ansnd_voices s)) 0 in
    if voice_id <? 0 then (ANSND_ERROR_ALL_VOICES_USED, s)
    else (voice_id, set_voice (Z.to_nat voice_id) (V.set_flags VOICE_FLAG_USED V.zero) s).

Definition ansnd_deallocate_voice (voice_id : Z) (s : St.t) : Z * St.t :=
  if negb (St.ansnd_library_initialized s) then (ANSND_ERROR_NOT_INITIALIZED, s)
  else if (voice_id <? 0) || (ANSND_MAX_VOICES <=? voice_id) then (ANSND_ERROR_INVALID_INPUT, s)
  else if negb (flag_set (V.flags (voice s voice_id)) VOICE_FLAG_USED)
  then (ANSND_ERROR_VOICE_ID_NOT_ALLOCATED, s)
  else
    let v := voice s voice_id in
    let linked_voice := V.linked_voice v in
    let v := V.set_flags (flag_or (V.flags v) VOICE_FLAG_UPDATED) v in
    let v := V.set_flags (flag_or (V.flags v) VOICE_FLAG_ERASED) v in
    match linked_voice with
    | Some _ =>
        let s := set_voice (Z.to_nat voice_id) (V.set_linked_voice None v) s in
        (ANSND_ERROR_OK, on_linked linked_voice (V.set_linked_voice None) s)
    | None => (ANSND_ERROR_OK, set_voice (Z.to_nat voice_id) v s)
    end.

(** The sample-rate test shared by the two configure functions and
    [ansnd_set_voice_pitch]. *)
Definition invalid_samplerate (rate samplerate : Z) (pitch : f32) : bool :=
  F32.ltb (F32.mul (F32.of_Z samplerate) pitch) (F32.of_Z 50)
  || F32.gtb (F32.mul (F32.of_Z samplerate) pitch) (max_samplerate_of rate).

Definition invalid_volume (volume : f32) : bool :=
  F32.ltb volume (F32.of_Z (-1)) || F32.gtb volume (F32.of_Z 1).

Definition ansnd_configure_pcm_voice (voice_id : Z) (voice_config : option PcmCfg.t)
    (s : St.t) : Z * St.t :=
  if negb (St.ansnd_library_initialized s) then (ANSND_ERROR_NOT_INITIALIZED, s)
  else if (voice_id <? 0) || (ANSND_MAX_VOICES <=? voice_id) then (ANSND_ERROR_INVALID_INPUT, s)
  else if negb (flag_set (V.flags (voice s voice_id)) VOICE_FLAG_USED)
  then (ANSND_ERROR_VOICE_ID_NOT_ALLOCATED, s)
  else
    match voice_config with
    | None => (ANSND_ERROR_INVALID_INPUT, s)
    | Some c =>
      if invalid_samplerate (St.ansnd_output_samplerate s) (PcmCfg.samplerate c) (PcmCfg.pitch c)
      then (ANSND_ERROR_INVALID_SAMPLERATE, s)
      else if (PcmCfg.frame_data_ptr c =? 0) || (PcmCfg.frame_count c =? 0)
      then (ANSND_ERROR_INVALID_MEMORY, s)
      else if invalid_memory (PcmCfg.frame_data_ptr c) then (ANSND_ERROR_INVALID_MEMORY, s)
      else if (PcmCfg.format c =? ANSND_VOICE_PCM_FORMAT_UNSET)
              || (ANSND_VOICE_PCM_FORMAT_SIGNED_16_PCM <? PcmCfg.format c)
      then (ANSND_ERROR_INVALID_CONFIGURATION, s)
      else if (PcmCfg.channels c =? 0) || (2 <? PcmCfg.channels c)
      then (ANSND_ERROR_INVALID_CONFIGURATION, s)
      else if invalid_volume (PcmCfg.left_volume c) then (ANSND_ERROR_INVALID_CONFIGURATION, s)
      else if invalid_volume (PcmCfg.right_volume c) then (ANSND_ERROR_INVALID_CONFIGURATION, s)
      else if (PcmCfg.frame_count c <? PcmCfg.loop_start_offset c)
              || (PcmCfg.frame_count c <? PcmCfg.loop_end_offset c)
      then (ANSND_ERROR_INVALID_CONFIGURATION, s)
      else
        let linked_voice := V.linked_voice (voice s voice_id) in
        let v := V.zero in
        let v := match linked_voice with
                 | Some _ => V.set_linked_voice linked_voice v
                 | None => v
                 end in
        let sixteen := PcmCfg.format c =? ANSND_VOICE_PCM_FORMAT_SIGNED_16_PCM in
        let memory_shift := if sixteen then 1 else 0 in
        let v := if PcmCfg.format c =? ANSND_VOICE_PCM_FORMAT_SIGNED_8_PCM then
                   V.set_accelerator_gain DSP_ACCL_GAIN_8BIT
                     (V.set_accelerator_format DSP_ACCL_FMT_SIGNED_8BIT v)
                 else if sixteen then
                   V.set_accelerator_gain DSP_ACCL_GAIN_16BIT
                     (V.set_accelerator_format DSP_ACCL_FMT_SIGNED_16BIT v)
                 else v in
        let v := V.set_samplerate (PcmCfg.samplerate c) v in
        let v := V.set_pitch (PcmCfg.pitch c) v in
        let v := V.set_delay (PcmCfg.delay c) v in
        let v := V.set_flags (flag_or (V.flags v) VOICE_FLAG_USED) v in
        let v := V.set_flags (flag_or (V.flags v) VOICE_FLAG_UPDATED) v in
        let v := V.set_flags (flag_or (V.flags v) VOICE_FLAG_CONFIGURED) v in
        let v := if PcmCfg.channels c =? 2
                 then V.set_flags (flag_or (V.flags v) VOICE_FLAG_STEREO) v else v in
        let v := V.set_left_volume (PcmCfg.left_volume c) v in
        let v := V.set_right_volume (PcmCfg.right_volume c) v in
        let start := Z.shiftr (PcmCfg.frame_data_ptr c) memory_shift in
        let v := V.set_ram_buffer_start start v in
        let v := V.set_ram_buffer_end
                   (to_u32 (start + PcmCfg.frame_count c * PcmCfg.channels c - 1)) v in
        let v := V.set_ram_buffer_first
                   (to_u32 (start + PcmCfg.start_offset c * PcmCfg.channels c)) v in
        let v := if negb (PcmCfg.loop_start_offset c =? 0)
                    || negb (PcmCfg.loop_end_offset c =? 0) then
                   let v := V.set_flags (flag_or (V.flags v) VOICE_FLAG_LOOPED) v in
                   let v := V.set_loop_start
                              (to_u32 (start + PcmCfg.loop_start_offset c * PcmCfg.channels c)) v in
                   V.set_loop_end
                     (to_u32 (start + PcmCfg.loop_end_offset c * PcmCfg.channels c - 1)) v
                 else v in
        let v := V.set_parameter_block (Some (Z.to_nat voice_id)) v in
        let v := V.set_voice_callback (PcmCfg.voice_callback c) v in
        let v := match PcmCfg.stream_callback c with
                 | Some _ =>
                     V.set_stream_callback (PcmCfg.stream_callback c)
                       (V.set_flags (flag_or (V.flags v) VOICE_FLAG_STREAMING) v)
                 | None => v
                 end in
        let v := V.set_user_pointer (PcmCfg.user_pointer c) v in
        (ANSND_ERROR_OK, set_voice (Z.to_nat voice_id) v s)
    end.

Definition ansnd_configure_adpcm_voice (voice_id : Z) (voice_config : option AdpcmCfg.t)
    (s : St.t) : Z * St.t :=
  if negb (St.ansnd_library_initialized s) then (ANSND_ERROR_NOT_INITIALIZED, s)
  else if (voice_id <? 0) || (ANSND_MAX_VOICES <=? voice_id) then (ANSND_ERROR_INVALID_INPUT, s)
  else if negb (flag_set (V.flags (voice s voice_id)) VOICE_FLAG_USED)
  then (ANSND_ERROR_VOICE_ID_NOT_ALLOCATED, s)
  else
    match voice_config with
    | None => (ANSND_ERROR_INVALID_INPUT, s)
    | Some c =>
      if invalid_samplerate (St.ansnd_output_samplerate s)
                            (AdpcmCfg.samplerate c) (AdpcmCfg.pitch c)
      then (ANSND_ERROR_INVALID_SAMPLERATE, s)
      else if (AdpcmCfg.data_ptr c =? 0) || (AdpcmCfg.sample_count c =? 0)
      then (ANSND_ERROR_INVALID_MEMORY, s)
      else if invalid_memory (AdpcmCfg.data_ptr c) then (ANSND_ERROR_INVALID_MEMORY, s)
      else if invalid_volume (AdpcmCfg.left_volume c) then (ANSND_ERROR_INVALID_CONFIGURATION, s)
      else if invalid_volume (AdpcmCfg.right_volume c) then (ANSND_ERROR_INVALID_CONFIGURATION, s)
      else
        let nibbles := negb (AdpcmCfg.nibble_offsets_flag c =? 0) in
        let end_offset_nibbles := SAMPLES_TO_NIBBLES (AdpcmCfg.sample_count c) in
        let start_offset_nibbles :=
          if nibbles then AdpcmCfg.start_offset c
          else SAMPLES_TO_NIBBLES (AdpcmCfg.start_offset c) in
        let loop_start_offset_nibbles :=
          if nibbles then AdpcmCfg.loop_start_offset c
          else SAMPLES_TO_NIBBLES (AdpcmCfg.loop_start_offset c) in
        let loop_end_offset_nibbles :=
          if nibbles then AdpcmCfg.loop_end_offset c
          else SAMPLES_TO_NIBBLES (AdpcmCfg.loop_end_offset c) in
        if (end_offset_nibbles <? loop_start_offset_nibbles)
           || (end_offset_nibbles <? loop_end_offset_nibbles)
        then (ANSND_ERROR_INVALID_CONFIGURATION, s)
        else
          let linked_voice := V.linked_voice (voice s voice_id) in
          let v := V.zero in
          let v := match linked_voice with
                   | Some _ => V.set_linked_voice linked_voice v
                   | None => v
                   end in
          let v := if AdpcmCfg.adpcm_format c =? DSP_ACCL_FMT_ADPCM
                   then V.set_flags (flag_or (V.flags v) VOICE_FLAG_ADPCM) v else v in
          let v := V.set_accelerator_format (AdpcmCfg.adpcm_format c) v in
          let v := V.set_accelerator_gain (AdpcmCfg.adpcm_gain c) v in
          let v := V.set_samplerate (AdpcmCfg.samplerate c) v in
          let v := V.set_pitch (AdpcmCfg.pitch c) v in
          let v := V.set_delay (AdpcmCfg.delay c) v in
          let v := V.set_flags (flag_or (V.flags v) VOICE_FLAG_USED) v in
          let v := V.set_flags (flag_or (V.flags v) VOICE_FLAG_UPDATED) v in
          let v := V.set_flags (flag_or (V.flags v) VOICE_FLAG_CONFIGURED) v in
          let v := V.set_left_volume (AdpcmCfg.left_volume c) v in
          let v := V.set_right_volume (AdpcmCfg.right_volume c) v in
          let v := V.set_decode_coefficients (AdpcmCfg.decode_coefficients c) v in
          let start := to_u32 (Z.shiftl (AdpcmCfg.data_ptr c) 1) in
          let v := V.set_ram_buffer_start start v in
          let v := V.set_ram_buffer_end (to_u32 (start + end_offset_nibbles)) v in
          let v := V.set_ram_buffer_first (to_u32 (start + start_offset_nibbles)) v in
          let v := V.set_initial_predictor_scale (AdpcmCfg.initial_predictor_scale c) v in
          let v := V.set_initial_sample_history_1 (AdpcmCfg.initial_sample_history_1 c) v in
          let v := V.set_initial_sample_history_2 (AdpcmCfg.initial_sample_history_2 c) v in
          let v := if negb (AdpcmCfg.loop_flag c =? 0) then
                     let v := V.set_flags (flag_or (V.flags v) VOICE_FLAG_LOOPED) v in
                     let v := V.set_loop_start (to_u32 (start + loop_start_offset_nibbles)) v in
                     let v := V.set_loop_end (to_u32 (start + loop_end_offset_nibbles)) v in
                     let v := V.set_loop_predictor_scale (AdpcmCfg.loop_predictor_scale c) v in
                     let v := V.set_loop_sample_history_1 (AdpcmCfg.loop_sample_history_1 c) v in
                     V.set_loop_sample_history_2 (AdpcmCfg.loop_sample_history_2 c) v
                   else v in
          let v := V.set_parameter_block (Some (Z.to_nat voice_id)) v in
          let v := V.set_voice_callback (AdpcmCfg.voice_callback c) v in
          let v := match AdpcmCfg.stream_callback c with
                   | Some _ =>
                       V.set_stream_callback (AdpcmCfg.stream_callback c)
                         (V.set_flags (flag_or (V.flags v) VOICE_FLAG_STREAMING) v)
                   | None => v
                   end in
          let v := V.set_user_pointer (AdpcmCfg.user_pointer c) v in
          (ANSND_ERROR_OK, set_voice (Z.to_nat voice_id) v s)
    end.

Definition ansnd_link_voices (voice_id_1 voice_id_2 : Z) (s : St.t) : Z * St.t :=
  if negb (St.ansnd_library_initialized s) then (ANSND_ERROR_NOT_INITIALIZED, s)
  else if voice_id_1 =? voice_id_2 then (ANSND_ERROR_INVALID_INPUT, s)
  else if (voice_id_1 <? 0) || (ANSND_MAX_VOICES <=? voice_id_1)
  then (ANSND_ERROR_INVALID_INPUT, s)
  else if negb (flag_set (V.flags (voice s voice_id_1)) VOICE_FLAG_USED)
  then (ANSND_ERROR_VOICE_ID_NOT_ALLOCATED, s)
  else if flag_set (V.flags (voice s voice_id_1)) VOICE_FLAG_RUNNING
  then (ANSND_ERROR_VOICE_RUNNING, s)
  else if bool_decide (is_Some (V.linked_voice (voice s voice_id_1)))
  then (ANSND_ERROR_VOICE_ALREADY_LINKED, s)
  else if (voice_id_2 <? 0) || (ANSND_MAX_VOICES <=? voice_id_2)
  then (ANSND_ERROR_INVALID_INPUT, s)
  else if negb (flag_set (V.flags (voice s voice_id_2)) VOICE_FLAG_USED)
  then (ANSND_ERROR_VOICE_ID_NOT_ALLOCATED, s)
  else if flag_set (V.flags (voice s voice_id_2)) VOICE_FLAG_RUNNING
  then (ANSND_ERROR_VOICE_RUNNING, s)
  else if bool_decide (is_Some (V.linked_voice (voice s voice_id_2)))
  then (ANSND_ERROR_VOICE_ALREADY_LINKED, s)
  else
    let i1 := Z.to_nat voice_id_1 in
    let i2 := Z.to_nat voice_id_2 in
    let s := set_voice i1 (V.set_linked_voice (Some i2) (St.ansnd_voices s !!! i1)) s in
    let s := set_voice i2 (V.set_linked_voice (Some i1) (St.ansnd_voices s !!! i2)) s in
    (ANSND_ERROR_OK, s).

Definition ansnd_unlink_voice (voice_id : Z) (s : St.t) : Z * St.t :=
  if negb (St.ansnd_library_initialized s) then (ANSND_ERROR_NOT_INITIALIZED, s)
  else if (voice_id <? 0) || (ANSND_MAX_VOICES <=? voice_id) then (ANSND_ERROR_INVALID_INPUT, s)
  else if negb (flag_set (V.flags (voice s voice_id)) VOICE_FLAG_USED)
  then (ANSND_ERROR_VOICE_ID_NOT_ALLOCATED, s)
  else if negb (flag_set (V.flags (voice s voice_id)) VOICE_FLAG_CONFIGURED)
  then (ANSND_ERROR_VOICE_NOT_CONFIGURED, s)
  else
    match V.linked_voice (voice s voice_id) with
    | None => (ANSND_ERROR_VOICE_NOT_LINKED, s)
    | Some j =>
        let s := set_voice (Z.to_nat voice_id)
                           (V.set_linked_voice None (voice s voice_id)) s in
        (ANSND_ERROR_OK, on_linked (Some j) (V.set_linked_voice None) s)
    end.

(** What [ansnd_start_voice] does to the flags of the voice and of its
    linked voice. *)
Definition start_flags (v : V.t) : V.t :=
  let v := V.set_flags (flag_or (V.flags v) (Z.lor VOICE_FLAG_UPDATED VOICE_FLAG_RUNNING)) v in
  let v := V.set_flags (flag_clear (V.flags v) VOICE_FLAG_PAUSED) v in
  V.set_flags (flag_clear (V.flags v) VOICE_FLAG_INITIALIZED) v.

Definition ansnd_start_voice (voice_id : Z) (s : St.t) : Z * St.t :=
  if negb (St.ansnd_library_initialized s) then (ANSND_ERROR_NOT_INITIALIZED, s)
  else if St.ansnd_dsp_stalled s then (ANSND_ERROR_DSP_STALLED, s)
  else if (voice_id <? 0) || (ANSND_MAX_VOICES <=? voice_id) then (ANSND_ERROR_INVALID_INPUT, s)
  else if negb (flag_set (V.flags (voice s voice_id)) VOICE_FLAG_USED)
  then (ANSND_ERROR_VOICE_ID_NOT_ALLOCATED, s)
  else if negb (flag_set (V.flags (voice s voice_id)) VOICE_FLAG_CONFIGURED)
  then (ANSND_ERROR_VOICE_NOT_CONFIGURED, s)
  else if flag_set (V.flags (voice s voice_id)) VOICE_FLAG_STREAMING
          && flag_set (V.flags (voice s voice_id)) VOICE_FLAG_INITIALIZED
  then (ANSND_ERROR_VOICE_NOT_CONFIGURED, s)
  else
    let linked_voice := V.linked_voice (voice s voice_id) in
    let s := set_voice (Z.to_nat voice_id) (start_flags (voice s voice_id)) s in
    (ANSND_ERROR_OK, on_linked linked_voice start_flags s).

Definition stop_flags (v : V.t) : V.t :=
  let v := V.set_flags (flag_or (V.flags v) VOICE_FLAG_UPDATED) v in
  V.set_flags (flag_clear (V.flags v) VOICE_FLAG_RUNNING) v.

Definition ansnd_stop_voice (voice_id : Z) (s : St.t) : Z * St.t :=
  if negb (St.ansnd_library_initialized s) then (ANSND_ERROR_NOT_INITIALIZED, s)
  else if (voice_id <? 0) || (ANSND_MAX_VOICES <=? voice_id) then (ANSND_ERROR_INVALID_INPUT, s)
  else if negb (flag_set (V.flags (voice s voice_id)) VOICE_FLAG_USED)
  then (ANSND_ERROR_VOICE_ID_NOT_ALLOCATED, s)
  else if negb (flag_set (V.flags (voice s voice_id)) VOICE_FLAG_CONFIGURED)
  then (ANSND_ERROR_VOICE_NOT_CONFIGURED, s)
  else
    let linked_voice := V.linked_voice (voice s voice_id) in
    let s := set_voice (Z.to_nat voice_id) (stop_flags (voice s voice_id)) s in
    (ANSND_ERROR_OK, on_linked linked_voice stop_flags s).

Definition pause_flags (v : V.t) : V.t :=
  let v := V.set_flags (flag_or (V.flags v) VOICE_FLAG_UPDATED) v in
  V.set_flags (flag_or (V.flags v) VOICE_FLAG_PAUSED) v.

Definition ansnd_pause_voice (voice_id : Z) (s : St.t) : Z * St.t :=
  if negb (St.ansnd_library_initialized s) then (ANSND_ERROR_NOT_INITIALIZED, s)
  else if (voice_id <? 0) || (ANSND_MAX_VOICES <=? voice_id) then (ANSND_ERROR_INVALID_INPUT, s)
  else if negb (flag_set (V.flags (voice s voice_id)) VOICE_FLAG_USED)
  then (ANSND_ERROR_VOICE_ID_NOT_ALLOCATED, s)
  else if negb (flag_set (V.flags (voice s voice_id)) VOICE_FLAG_CONFIGURED)
  then (ANSND_ERROR_VOICE_NOT_CONFIGURED, s)
  else
    let linked_voice := V.linked_voice (voice s voice_id) in
    let s := set_voice (Z.to_nat voice_id) (pause_flags (voice s voice_id)) s in
    (ANSND_ERROR_OK, on_linked linked_voice pause_flags s).

Definition unpause_flags (v : V.t) : V.t :=
  let v := V.set_flags (flag_or (V.flags v) VOICE_FLAG_UPDATED) v in
  V.set_flags (flag_clear (V.flags v) VOICE_FLAG_PAUSED) v.

Definition ansnd_unpause_voice (voice_id : Z) (s : St.t) : Z * St.t :=
  if negb (St.ansnd_library_initialized s) then (ANSND_ERROR_NOT_INITIALIZED, s)
  else if St.ansnd_dsp_stalled s then (ANSND_ERROR_DSP_STALLED, s)
  else if (voice_id <? 0) || (ANSND_MAX_VOICES <=? voice_id) then (ANSND_ERROR_INVALID_INPUT, s)
  else if negb (flag_set (V.flags (voice s voice_id)) VOICE_FLAG_USED)
  then (ANSND_ERROR_VOICE_ID_NOT_ALLOCATED, s)
  else if negb (flag_set (V.flags (voice s voice_id)) VOICE_FLAG_CONFIGURED)
  then (ANSND_ERROR_VOICE_NOT_CONFIGURED, s)
  else
    let linked_voice := V.linked_voice (voice s voice_id) in
    let s := set_voice (Z.to_nat voice_id) (unpause_flags (voice s voice_id)) s in
    (ANSND_ERROR_OK, on_linked linked_voice unpause_flags s).

Definition stop_looping_flags (v : V.t) : V.t :=
  let v := V.set_flags (flag_or (V.flags v) VOICE_FLAG_UPDATED) v in
  V.set_flags (flag_clear (V.flags v) VOICE_FLAG_LOOPED) v.

Definition ansnd_stop_looping (voice_id : Z) (s : St.t) : Z * St.t :=
  if negb (St.ansnd_library_initialized s) then (ANSND_ERROR_NOT_INITIALIZED, s)
  else if (voice_id <? 0) || (ANSND_MAX_VOICES <=? voice_id) then (ANSND_ERROR_INVALID_INPUT, s)
  else if negb (flag_set (V.flags (voice s voice_id)) VOICE_FLAG_USED)
  then (ANSND_ERROR_VOICE_ID_NOT_ALLOCATED, s)
  else if negb (flag_set (V.flags (voice s voice_id)) VOICE_FLAG_CONFIGURED)
  then (ANSND_ERROR_VOICE_NOT_CONFIGURED, s)
  else if negb (flag_set (V.flags (voice s voice_id)) VOICE_FLAG_INITIALIZED)
  then (ANSND_ERROR_VOICE_NOT_INITIALIZED, s)
  else
    let linked_voice := V.linked_voice (voice s voice_id) in
    let s := set_voice (Z.to_nat voice_id) (stop_looping_flags (voice s voice_id)) s in
    (ANSND_ERROR_OK, on_linked linked_voice stop_looping_flags s).

Definition ansnd_set_voice_volume (voice_id : Z) (left_volume right_volume : f32)
    (s : St.t) : Z * St.t :=
  if negb (St.ansnd_library_initialized s) then (ANSND_ERROR_NOT_INITIALIZED, s)
  else if (voice_id <? 0) || (ANSND_MAX_VOICES <=? voice_id) then (ANSND_ERROR_INVALID_INPUT, s)
  else if negb (flag_set (V.flags (voice s voice_id)) VOICE_FLAG_USED)
  then (ANSND_ERROR_VOICE_ID_NOT_ALLOCATED, s)
  else if negb (flag_set (V.flags (voice s voice_id)) VOICE_FLAG_CONFIGURED)
  then (ANSND_ERROR_VOICE_NOT_CONFIGURED, s)
  else if invalid_volume left_volume then (ANSND_ERROR_INVALID_INPUT, s)
  else if invalid_volume right_volume then (ANSND_ERROR_INVALID_INPUT, s)
  else
    let v := voice s voice_id in
    let v := V.set_flags (flag_or (V.flags v) VOICE_FLAG_UPDATED) v in
    let v := V.set_left_volume left_volume v in
    let v := V.set_right_volume right_volume v in
    (ANSND_ERROR_OK, set_voice (Z.to_nat voice_id) v s).

Definition pitch_flags (pitch : f32) (v : V.t) : V.t :=
  let v := V.set_flags (flag_or (V.flags v) VOICE_FLAG_UPDATED) v in
  let v := V.set_flags (flag_or (V.flags v) VOICE_FLAG_PITCH_CHANGE) v in
  V.set_pitch pitch v.

Definition ansnd_set_voice_pitch (voice_id : Z) (pitch : f32) (s : St.t) : Z * St.t :=
  if negb (St.ansnd_library_initialized s) then (ANSND_ERROR_NOT_INITIALIZED, s)
  else if (voice_id <? 0) || (ANSND_MAX_VOICES <=? voice_id) then (ANSND_ERROR_INVALID_INPUT, s)
  else if negb (flag_set (V.flags (voice s voice_id)) VOICE_FLAG_USED)
  then (ANSND_ERROR_VOICE_ID_NOT_ALLOCATED, s)
  else
    let v := voice s voice_id in
    let linked_voice := V.linked_voice v in
    if negb (flag_set (V.flags v) VOICE_FLAG_CONFIGURED)
    then (ANSND_ERROR_VOICE_NOT_CONFIGURED, s)
    else if flag_set (V.flags v) VOICE_FLAG_RUNNING then (ANSND_ERROR_VOICE_RUNNING, s)
    else if invalid_samplerate (St.ansnd_output_samplerate s) (V.samplerate v) pitch
    then (ANSND_ERROR_INVALID_SAMPLERATE, s)
    else
      let s := set_voice (Z.to_nat voice_id) (pitch_flags pitch v) s in
      (ANSND_ERROR_OK, on_linked linked_voice (pitch_flags pitch) s).

(** The three getters store through their out-parameter, which is not part
    of the statics; a NULL out-parameter is accepted. *)
Definition ansnd_get_dsp_usage_percent (s : St.t) : Z * St.t :=
  if negb (St.ansnd_library_initialized s) then (ANSND_ERROR_NOT_INITIALIZED, s)
  else if St.ansnd_dsp_stalled s then (ANSND_ERROR_DSP_STALLED, s)
  else (ANSND_ERROR_OK, s).

Definition ansnd_get_total_usage_percent (s : St.t) : Z * St.t :=
  if negb (St.ansnd_library_initialized s) then (ANSND_ERROR_NOT_INITIALIZED, s)
  else if St.ansnd_dsp_stalled s then (ANSND_ERROR_DSP_STALLED, s)
  else (ANSND_ERROR_OK, s).

Definition ansnd_get_total_active_voices (s : St.t) : Z * St.t :=
  if negb (St.ansnd_library_initialized s) then (ANSND_ERROR_NOT_INITIALIZED, s)
  else (ANSND_ERROR_OK, s).

Definition ansnd_register_audio_callback (callback : option nat) (callback_arguments : Z)
    (s : St.t) : Z * St.t :=
  let s := St.set_ansnd_audio_callback callback s in
  let s := St.set_ansnd_audio_callback_arguments callback_arguments s in
  (ANSND_ERROR_OK, s).

(** A call of the public interface. *)
Inductive call : Type :=
| InitializeSamplerate (output_samplerate : Z)
| Uninitialize
| AllocateVoice
| DeallocateVoice (voice_id : Z)
| ConfigurePcmVoice (voice_id : Z) (voice_config : option PcmCfg.t)
| ConfigureAdpcmVoice (voice_id : Z) (voice_config : option AdpcmCfg.t)
| LinkVoices (voice_id_1 voice_id_2 : Z)
| UnlinkVoice (voice_id : Z)
| StartVoice (voice_id : Z)
| StopVoice (voice_id : Z)
| PauseVoice (voice_id : Z)
| UnpauseVoice (voice_id : Z)
| StopLooping (voice_id : Z)
| SetVoiceVolume (voice_id : Z) (left_volume right_volume : f32)
| SetVoicePitch (voice_id : Z) (pitch : f32)
| GetDspUsagePercent
| GetTotalUsagePercent
| GetTotalActiveVoices
| RegisterAudioCallback (callback : option nat) (callback_arguments : Z).

(** The result and the statics after a call.  [ansnd_uninitialize] returns
    nothing; it is given the result [ANSND_ERROR_OK]. *)
Definition run_call (c : call) (s : St.t) : Z * St.t :=
  match c with
  | InitializeSamplerate r => ansnd_initialize_samplerate r s
  | Uninitialize => (ANSND_ERROR_OK, ansnd_uninitialize s)
  | AllocateVoice => ansnd_allocate_voice s
  | DeallocateVoice i => ansnd_deallocate_voice i s
  | ConfigurePcmVoice i c => ansnd_configure_pcm_voice i c s
  | ConfigureAdpcmVoice i c => ansnd_configure_adpcm_voice i c s
  | LinkVoices i j => ansnd_link_voices i j s
  | UnlinkVoice i => ansnd_unlink_voice i s
  | StartVoice i => ansnd_start_voice i s
  | StopVoice i => ansnd_stop_voice i s
  | PauseVoice i => ansnd_pause_voice i s
  | UnpauseVoice i => ansnd_unpause_voice i s
  | StopLooping i => ansnd_stop_looping i s
  | SetVoiceVolume i l r => ansnd_set_voice_volume i l r s
  | SetVoicePitch i p => ansnd_set_voice_pitch i p s
  | GetDspUsagePercent => ansnd_get_dsp_usage_percent s
  | GetTotalUsagePercent => ansnd_get_total_usage_percent s
  | GetTotalActiveVoices => ansnd_get_total_active_voices s
  | RegisterAudioCallback f a => ansnd_register_audio_callback f a s
  end.

(** The statics after a sequence of calls. *)
Definition run_calls (cs : list call) (s : St.t) : St.t :=
  fold_left (fun s c => snd (run_call c s)) cs s.

End Driver.

(** * Properties *)

(** ** Vocabulary of the properties *)

(** The statics other than the voices, the parameter blocks and the count of
    active voices. *)
Definition same_globals (s s' : St.t) : Prop :=
  St.ansnd_audio_callback s' = St.ansnd_audio_callback s
  /\ St.ansnd_audio_callback_arguments s' = St.ansnd_audio_callback_arguments s
  /\ St.ansnd_next_audio_buffer s' = St.ansnd_next_audio_buffer s
  /\ St.ansnd_output_samplerate s' = St.ansnd_output_samplerate s
  /\ St.ansnd_library_initialized s' = St.ansnd_library_initialized s
  /\ St.ansnd_dsp_done_mixing s' = St.ansnd_dsp_done_mixing s
  /\ St.ansnd_dsp_stalled s' = St.ansnd_dsp_stalled s
  /\ St.ansnd_dsp_start_time s' = St.ansnd_dsp_start_time s
  /\ St.ansnd_dsp_process_time s' = St.ansnd_dsp_process_time s
  /\ St.ansnd_total_start_time s' = St.ansnd_total_start_time s
  /\ St.ansnd_total_process_time s' = St.ansnd_total_process_time s.

(** The state in which the first interrupt after initialization finds the
    DSP still mixing. *)
Definition stalled_after_first_interrupt : St.t :=
  fst (ansnd_audio_dma_callback (mk_dma_input false true 0 0)
         (ansnd_initialize initial_state)).

(** The calls that begin by testing [ansnd_library_initialized] and return
    NotInitialized when it is clear. *)
Definition checks_initialization_first (c : call) : bool :=
  match c with
  | InitializeSamplerate _ | Uninitialize | RegisterAudioCallback _ _ => false
  | _ => true
  end.

(** A library initialized at 48 kHz with voice 0 allocated. *)
Definition one_voice_allocated : St.t :=
  snd (ansnd_allocate_voice (ansnd_initialize initial_state)).

(** Mono 8-bit PCM, 1000 frames at address 0x1000, pitch and volumes 1.0. *)
Definition pcm_config (samplerate loop_start_offset loop_end_offset : Z)
    (stream_callback : option nat) : PcmCfg.t :=
  PcmCfg.mk samplerate ANSND_VOICE_PCM_FORMAT_SIGNED_8_PCM 1 0 F32.one F32.one F32.one
            0x1000 1000 0 loop_start_offset loop_end_offset None stream_callback 0.

(** The choice made by the DSP microcode (dspmixer.s, "Resampling Function
    Pointer setup"): samples are copied without resampling when the low
    word of the ratio is zero and bit 0 of its high word is set. *)
Definition selects_no_resample (pb : PB.t) : bool :=
  (PB.relative_frequency_low pb =? 0) && Z.testbit (PB.relative_frequency_high pb) 0.

(** The ratio as the specification words it,
    round(65536 x sample_rate x pitch / output_frequency), on exact
    fractions: the pitch is [pitch_n / pitch_d] and the output frequency
    [freq_n / freq_d]. *)
Definition spec_relative_frequency (sample_rate pitch_n pitch_d freq_n freq_d : Z) : Z :=
  F32.div_nearest_even (65536 * sample_rate * pitch_n * freq_d) (pitch_d * freq_n).

(** A voice with a parameter block, of the given sample rate and pitch. *)
Definition pitched_voice (samplerate : Z) (pitch : f32) : V.t :=
  V.set_parameter_block (Some 0%nat) (V.set_pitch pitch (V.set_samplerate samplerate V.zero)).

(** The block [ansnd_update_voice_pitch] produces for such a voice. *)
Definition pitched_block (hw : platform) (rate samplerate : Z) (pitch : f32) : option PB.t :=
  dram ← ansnd_update_voice_pitch hw rate (pitched_voice samplerate pitch)
           (replicate 48 PB.zero);
  load dram (pitched_voice samplerate pitch).

(** The 16.16 ratio a block holds. *)
Definition block_relative_frequency (pb : PB.t) : Z :=
  PB.relative_frequency_high pb * 65536 + PB.relative_frequency_low pb.

(** The three addresses of the exchange slot of a block, as the DSP reads
    them. *)
Definition slot_start (pb : PB.t) : Z :=
  PB.next_buffer_start_high pb * 65536 + PB.next_buffer_start_low pb.
Definition slot_end (pb : PB.t) : Z :=
  PB.next_buffer_end_high pb * 65536 + PB.next_buffer_end_low pb.
Definition slot_current (pb : PB.t) : Z :=
  PB.next_buffer_current_high pb * 65536 + PB.next_buffer_current_low pb.

(** The device-visible slot reads as empty. *)
Definition slot_empty (pb : PB.t) : bool :=
  (PB.next_buffer_start_high pb =? 0) && (PB.next_buffer_start_low pb =? 0).

(** The staging step of [ansnd_update_stream_buffers]: the pull callback is
    called when the host-side next buffer is empty. *)
Definition stage (hw : platform) (pcm : PcmBuf.t) (adpcm : AdpcmBuf.t) (v : V.t)
  : option (V.t * list event) :=
  if V.next_buffer_start v =? 0
  then ansnd_fill_stream_buffers hw pcm adpcm v
  else Some (v, []).

(** A streaming voice that has staged a buffer at 0x2000 while the slot of
    its block still holds one. *)
Definition streaming_voice : V.t :=
  V.set_next_buffer_start 0x2000
    (V.set_stream_callback (Some 1%nat) (V.set_parameter_block (Some 0%nat) V.zero)).

(** Parameter blocks of which block 0 holds a buffer at 0x1000 in its
    exchange slot. *)
Definition occupied_dram : list PB.t :=
  <[0%nat := PB.set_w38 0x1000 PB.zero]> (replicate 48 PB.zero).

(** The links of the registry are symmetric, never reflexive, stay inside
    the registry, and join allocated voices only. *)
Definition registry_ok (s : St.t) : Prop :=
  length (St.ansnd_voices s) = 48%nat
  /\ forall i j : nat,
       (i < 48)%nat ->
       V.linked_voice (St.ansnd_voices s !!! i) = Some j ->
       j <> i /\ (j < 48)%nat
       /\ V.linked_voice (St.ansnd_voices s !!! j) = Some i
       /\ flag_set (V.flags (St.ansnd_voices s !!! i)) VOICE_FLAG_USED = true.

(** A voice keeps its link and stays allocated. *)
Definition link_kept (v v' : V.t) : Prop :=
  V.linked_voice v' = V.linked_voice v
  /\ (flag_set (V.flags v) VOICE_FLAG_USED = true ->
      flag_set (V.flags v') VOICE_FLAG_USED = true).

(** The same of every voice of the registry. *)
Definition links_kept (l l' : list V.t) : Prop :=
  length l' = length l /\ forall i, link_kept (l !!! i) (l' !!! i).

(** The parts of a voice no pass changes unless it tears the voice down;
    a pass may set INITIALIZED but never clears it. *)
Definition steady (v v' : V.t) : Prop :=
  V.parameter_block v' = V.parameter_block v
  /\ V.linked_voice v' = V.linked_voice v
  /\ V.stream_callback v' = V.stream_callback v
  /\ flag_set (V.flags v') VOICE_FLAG_USED = flag_set (V.flags v) VOICE_FLAG_USED
  /\ flag_set (V.flags v') VOICE_FLAG_CONFIGURED = flag_set (V.flags v) VOICE_FLAG_CONFIGURED
  /\ flag_set (V.flags v') VOICE_FLAG_ERASED = flag_set (V.flags v) VOICE_FLAG_ERASED
  /\ flag_set (V.flags v') VOICE_FLAG_STREAMING = flag_set (V.flags v) VOICE_FLAG_STREAMING
  /\ (flag_set (V.flags v) VOICE_FLAG_INITIALIZED = true ->
      flag_set (V.flags v') VOICE_FLAG_INITIALIZED = true).

(** What a pass does to one voice: a voice marked ERASED and UPDATED is
    torn down; any other voice stays steady, and is initialized once the
    pass has synchronized it. *)
Definition cycled (v v' : V.t) : Prop :=
  (flag_set (V.flags v) VOICE_FLAG_ERASED = true ->
   flag_set (V.flags v) VOICE_FLAG_UPDATED = true -> v' = V.zero)
  /\ (flag_set (V.flags v) VOICE_FLAG_ERASED = false ->
      steady v v'
      /\ (flag_set (V.flags v) VOICE_FLAG_UPDATED = true ->
          flag_set (V.flags v') VOICE_FLAG_INITIALIZED = true)).

(** The descriptor [ansnd_allocate_voice] leaves in the slot. *)
Definition allocated_voice : V.t := V.set_flags VOICE_FLAG_USED V.zero.

(** The first [k] slots hold freshly allocated voices, the others are
    clear. *)
Definition filled (k : nat) (s : St.t) : Prop :=
  St.ansnd_library_initialized s = true
  /\ length (St.ansnd_voices s) = 48%nat
  /\ (forall j, (j < k)%nat -> St.ansnd_voices s !!! j = allocated_voice)
  /\ (forall j, (k <= j < 48)%nat -> St.ansnd_voices s !!! j = V.zero).

(** Every slot holds an allocated voice that is not marked for erasure. *)
Definition all_allocated (s : St.t) : bool :=
  forallb (fun v => flag_set (V.flags v) VOICE_FLAG_USED
                    && negb (flag_set (V.flags v) VOICE_FLAG_ERASED))
          (St.ansnd_voices s).

(** Every voice allocated, straight after initialization. *)
Definition all_voices_allocated : St.t :=
  run_calls HW_RVL (repeat AllocateVoice 48) (ansnd_initialize initial_state).

(** A cycle in which no streaming callback supplies data. *)
Definition quiet_cycle : cycle_input :=
  mk_cycle_input 0 0 false (fun _ => PcmBuf.zero) (fun _ => AdpcmBuf.zero).

(** Every voice allocated, voice 5 configured for 48 kHz mono PCM. *)
Definition voice_5_configured : St.t :=
  snd (ansnd_configure_pcm_voice HW_RVL 5 (Some (pcm_config 48000 0 0 None))
         all_voices_allocated).

(** Voice 0 configured as a streaming PCM voice. *)
Definition streaming_configured : St.t :=
  snd (ansnd_configure_pcm_voice HW_RVL 0 (Some (pcm_config 48000 0 0 (Some 1%nat)))
         one_voice_allocated).

(** The nine words of the looping/streaming union of a block. *)
Definition exchange_words (pb : PB.t) : list Z :=
  [PB.w37 pb; PB.w38 pb; PB.w39 pb; PB.w3A pb; PB.w3B pb; PB.w3C pb;
   PB.w3D pb; PB.w3E pb; PB.w3F pb].

(** Only the block the pointer [o] designates may differ. *)
Definition block_frame (o : option nat) (dram dram' : list PB.t) : Prop :=
  forall k, Some k <> o -> dram' !! k = dram !! k.

(** The block the pointer [o] designates keeps its exchange words. *)
Definition slot_kept (o : option nat) (dram dram' : list PB.t) : Prop :=
  forall p pb, o = Some p -> dram !! p = Some pb ->
  exists pb', dram' !! p = Some pb' /\ exchange_words pb' = exchange_words pb.

(** [parameter_block] of voice [j] is NULL or [&parameter_block_base[j]]. *)
Definition own_blocks (l : list V.t) : Prop :=
  forall j p, V.parameter_block (l !!! j) = Some p -> p = j.

(** A cycle in which every PCM streaming callback supplies 100 frames at
    address 0x2000. *)
Definition feeding_cycle : cycle_input :=
  mk_cycle_input 0 0 false (fun _ => PcmBuf.mk 0x2000 100) (fun _ => AdpcmBuf.zero).

(** Voice 0 configured as a streaming PCM voice and started. *)
Definition stream_started : St.t :=
  run_calls HW_RVL
    [InitializeSamplerate ANSND_OUTPUT_SAMPLERATE_48KHZ; AllocateVoice;
     ConfigurePcmVoice 0 (Some (pcm_config 48000 0 0 (Some 1%nat))); StartVoice 0]
    initial_state.

(** The same after one cycle: the buffer the callback supplied sits in the
    exchange slot of block 0, and the DSP has not taken it yet. *)
Definition stream_in_flight : St.t :=
  match ansnd_dsp_request_callback HW_RVL feeding_cycle stream_started with
  | Some (s, _) => s
  | None => stream_started
  end.

(** Voice 1 deallocated, and linked to voice 0 before any cycle has torn it
    down. *)
Definition linked_to_deallocated : list call :=
  [InitializeSamplerate ANSND_OUTPUT_SAMPLERATE_48KHZ; AllocateVoice; AllocateVoice;
   ConfigurePcmVoice 1 (Some (pcm_config 48000 0 0 None)); DeallocateVoice 1;
   LinkVoices 0 1].

(** ** Vocabulary of the further properties *)

(** The state flags of a voice that has just been configured. *)
Definition just_configured (v : V.t) : Prop :=
  flag_set (V.flags v) VOICE_FLAG_USED = true
  /\ flag_set (V.flags v) VOICE_FLAG_CONFIGURED = true
  /\ flag_set (V.flags v) VOICE_FLAG_UPDATED = true
  /\ flag_set (V.flags v) VOICE_FLAG_RUNNING = false
  /\ flag_set (V.flags v) VOICE_FLAG_PAUSED = false
  /\ flag_set (V.flags v) VOICE_FLAG_INITIALIZED = false
  /\ flag_set (V.flags v) VOICE_FLAG_ERASED = false
  /\ flag_set (V.flags v) VOICE_FLAG_PITCH_CHANGE = false
  /\ flag_set (V.flags v) VOICE_FLAG_FINISHED = false
  /\ flag_set (V.flags v) VOICE_FLAG_DELAY = false.

(** The integer fields of the configuration lie in the range of their C type. *)
Definition pcm_config_typed (c : PcmCfg.t) : Prop :=
  0 <= PcmCfg.samplerate c < 2 ^ 32
  /\ 0 <= PcmCfg.format c < 2 ^ 8
  /\ 0 <= PcmCfg.channels c < 2 ^ 8
  /\ 0 <= PcmCfg.delay c < 2 ^ 32
  /\ 0 <= PcmCfg.frame_data_ptr c < 2 ^ 32
  /\ 0 <= PcmCfg.frame_count c < 2 ^ 32
  /\ 0 <= PcmCfg.start_offset c < 2 ^ 32
  /\ 0 <= PcmCfg.loop_start_offset c < 2 ^ 32
  /\ 0 <= PcmCfg.loop_end_offset c < 2 ^ 32.

Definition adpcm_config_typed (c : AdpcmCfg.t) : Prop :=
  0 <= AdpcmCfg.samplerate c < 2 ^ 32
  /\ 0 <= AdpcmCfg.loop_flag c < 2 ^ 16
  /\ 0 <= AdpcmCfg.nibble_offsets_flag c < 2 ^ 16
  /\ 0 <= AdpcmCfg.adpcm_format c < 2 ^ 16
  /\ 0 <= AdpcmCfg.adpcm_gain c < 2 ^ 16
  /\ 0 <= AdpcmCfg.delay c < 2 ^ 32
  /\ 0 <= AdpcmCfg.data_ptr c < 2 ^ 32
  /\ 0 <= AdpcmCfg.sample_count c < 2 ^ 32
  /\ 0 <= AdpcmCfg.start_offset c < 2 ^ 32
  /\ 0 <= AdpcmCfg.loop_start_offset c < 2 ^ 32
  /\ 0 <= AdpcmCfg.loop_end_offset c < 2 ^ 32.

(** The offsets of an ADPCM configuration in nibbles. *)
Definition adpcm_nibbles (c : AdpcmCfg.t) (offset : Z) : Z :=
  if negb (AdpcmCfg.nibble_offsets_flag c =? 0) then offset else SAMPLES_TO_NIBBLES offset.

(** [f] applied to voice [a] and to its partner. *)
Definition mirrored (f : V.t -> V.t) (a : Z) (s : St.t) : St.t :=
  on_linked (V.linked_voice (voice s a)) f (set_voice (Z.to_nat a) (f (voice s a)) s).

(** The test that sends a voice through [ansnd_sync_voice]. *)
Definition needs_sync (v : V.t) (dram : list PB.t) : option bool :=
  if flag_set (V.flags v) VOICE_FLAG_UPDATED then Some true
  else match V.parameter_block v with
       | Some _ =>
           match load dram v with
           | Some pb => Some (flag_set (PB.flags pb) VOICE_FLAG_FINISHED)
           | None => None
           end
       | None => Some false
       end.

(** The voices that are running. *)
Definition running (v : V.t) : bool := flag_set (V.flags v) VOICE_FLAG_RUNNING.

(** [ansnd_get_total_active_voices] with the word its out-parameter refers
    to; [None] is a NULL pointer. *)
Definition ansnd_get_total_active_voices_out (active_voices : option Z) (s : St.t)
  : Z * option Z :=
  if negb (St.ansnd_library_initialized s) then (ANSND_ERROR_NOT_INITIALIZED, active_voices)
  else match active_voices with
       | None => (ANSND_ERROR_OK, None)
       | Some _ => (ANSND_ERROR_OK, Some (St.ansnd_active_voices s))
       end.

(** The number of voices that are running. *)
Definition running_voices (vs : list V.t) : Z :=
  Z.of_nat (length (List.filter running vs)).

(** The state a voice callback is told by [ansnd_sync_voice] when the voice
    is not being erased: [finished] is the FINISHED flag of the block. *)
Definition reported_state (v : V.t) (finished : bool) : Z :=
  if finished then ANSND_VOICE_STATE_FINISHED
  else if flag_set (V.flags v) VOICE_FLAG_RUNNING then
    if flag_set (V.flags v) VOICE_FLAG_PAUSED
    then ANSND_VOICE_STATE_PAUSED else ANSND_VOICE_STATE_RUNNING
  else ANSND_VOICE_STATE_STOPPED.

(** The addresses the accelerator of the DSP reads from a block. *)
Definition accelerator_start (pb : PB.t) : Z :=
  PB.accelerator_start_high pb * 65536 + PB.accelerator_start_low pb.

Definition accelerator_end (pb : PB.t) : Z :=
  PB.accelerator_end_high pb * 65536 + PB.accelerator_end_low pb.

Definition accelerator_current (pb : PB.t) : Z :=
  PB.accelerator_current_high pb * 65536 + PB.accelerator_current_low pb.

(** [looping.loop_start_high] and [looping.loop_start_low]. *)
Definition block_loop_start (pb : PB.t) : Z := PB.w3B pb * 65536 + PB.w3C pb.

(** What [ansnd_sync_voice] leaves in a voice [v'] and its block [pb'],
    from the voice [v] and the block [pb] it found, when the voice is
    initialized and not being erased. *)
Definition published (v : V.t) (pb : PB.t) (v' : V.t) (pb' : PB.t) : Prop :=
  let finished := flag_set (PB.flags pb) VOICE_FLAG_FINISHED in
  let loop_differs := xorb (flag_set (V.flags v) VOICE_FLAG_LOOPED)
                           (flag_set (PB.flags pb) VOICE_FLAG_LOOPED) in
  flag_set (V.flags v') VOICE_FLAG_RUNNING
  = flag_set (V.flags v) VOICE_FLAG_RUNNING && negb finished
  /\ flag_set (PB.flags pb') VOICE_FLAG_RUNNING
     = flag_set (PB.flags pb) VOICE_FLAG_RUNNING && flag_set (V.flags v') VOICE_FLAG_RUNNING
  /\ flag_set (PB.flags pb') VOICE_FLAG_PAUSED = flag_set (V.flags v) VOICE_FLAG_PAUSED
  /\ flag_set (PB.flags pb') VOICE_FLAG_LOOPED
     = flag_set (PB.flags pb) VOICE_FLAG_LOOPED && flag_set (V.flags v) VOICE_FLAG_LOOPED
  /\ flag_set (PB.flags pb') VOICE_FLAG_FINISHED = false
  /\ flag_set (PB.flags pb') VOICE_FLAG_STREAMING
     = flag_set (PB.flags pb) VOICE_FLAG_STREAMING
       || loop_differs && flag_set (V.flags v) VOICE_FLAG_STREAMING
  /\ flag_set (V.flags v') VOICE_FLAG_UPDATED = false
  /\ flag_set (V.flags v') VOICE_FLAG_PITCH_CHANGE = false
  /\ PB.left_volume pb' = volume_word (V.left_volume v)
  /\ PB.right_volume pb' = volume_word (V.right_volume v)
  /\ PB.accelerator_end_high pb'
     = (if loop_differs then HIGH (V.ram_buffer_end v) else PB.accelerator_end_high pb)
  /\ PB.accelerator_end_low pb'
     = (if loop_differs then LOW (V.ram_buffer_end v) else PB.accelerator_end_low pb)
  /\ accelerator_start pb' = accelerator_start pb
  /\ accelerator_current pb' = accelerator_current pb
  /\ exchange_words pb' = exchange_words pb
  /\ V.next_buffer_start v'
     = (if loop_differs && flag_set (V.flags v) VOICE_FLAG_STREAMING
        then 0 else V.next_buffer_start v)
  /\ flag_set (V.flags v') VOICE_FLAG_PAUSED = flag_set (V.flags v) VOICE_FLAG_PAUSED
  /\ flag_set (V.flags v') VOICE_FLAG_LOOPED = flag_set (V.flags v) VOICE_FLAG_LOOPED
  /\ flag_set (V.flags v') VOICE_FLAG_STREAMING = flag_set (V.flags v) VOICE_FLAG_STREAMING.

(** The buffer addresses of a voice fit their [u32] fields. *)
Definition addresses_typed (v : V.t) : Prop :=
  0 <= V.ram_buffer_start v < 2 ^ 32
  /\ 0 <= V.ram_buffer_end v < 2 ^ 32
  /\ 0 <= V.ram_buffer_first v < 2 ^ 32
  /\ 0 <= V.loop_start v < 2 ^ 32
  /\ 0 <= V.loop_end v < 2 ^ 32.

(** Two blocks agree on what the host controls of a playing voice: the
    flags other than DELAY, the volumes and the accelerator addresses. *)
Definition same_controls (pb pb' : PB.t) : Prop :=
  (forall k, k <> 4 -> Z.testbit (PB.flags pb') k = Z.testbit (PB.flags pb) k)
  /\ PB.left_volume pb' = PB.left_volume pb
  /\ PB.right_volume pb' = PB.right_volume pb
  /\ accelerator_start pb' = accelerator_start pb
  /\ accelerator_current pb' = accelerator_current pb
  /\ accelerator_end pb' = accelerator_end pb.

(** The delay step of [n] successive cycles on a voice:
    [if (voice->flags & VOICE_FLAG_DELAY) ansnd_update_voice_delay(voice)]. *)
Fixpoint delay_cycles (hw : platform) (rate : Z) (n : nat) (v : V.t) (dram : list PB.t)
  : option (V.t * list PB.t) :=
  match n with
  | O => Some (v, dram)
  | S n' =>
      '(v, dram) ←
        (if flag_set (V.flags v) VOICE_FLAG_DELAY
         then ansnd_update_voice_delay hw rate v dram
         else Some (v, dram));
      delay_cycles hw rate n' v dram
  end.

(** The delay below which [ansnd_update_voice_delay] hands the rest of the
    wait to the DSP. *)
Definition delay_threshold (rate : Z) : Z :=
  to_u32 (0x7FFF * microseconds_per_cycle_of rate) / 240.

(** The number of cycles after which a delay of [delay] microseconds has
    been handed to the DSP. *)
Definition cycles_of_delay (rate delay : Z) : nat :=
  if delay <? delay_threshold rate then 1%nat
  else Z.to_nat ((delay - delay_threshold rate) / microseconds_per_cycle_of rate + 2).

(** The events that are calls of a callback of a voice. *)
Definition voice_event (e : event) : bool :=
  match e with
  | VoiceCallback _ _ _ | PcmStreamCallback _ _ | AdpcmStreamCallback _ _ => true
  | _ => false
  end.

(** A data buffer a streaming callback left that the driver takes: neither
    the pointer nor the count is zero, and the pointer passes the test of
    the platform. *)
Definition supplied (hw : platform) (ptr count : Z) : bool :=
  negb ((ptr =? 0) || (count =? 0)) && negb (invalid_memory hw ptr).

(** Voice 0 configured for 48 kHz mono PCM. *)
Definition voice_0_configured : St.t :=
  snd (ansnd_configure_pcm_voice HW_RVL 0 (Some (pcm_config 48000 0 0 None))
         one_voice_allocated).

(** ADPCM, 1400 samples at address 0x1000, offsets in samples, no loop. *)
Definition adpcm_config : AdpcmCfg.t :=
  AdpcmCfg.mk 48000 0 0 DSP_ACCL_FMT_ADPCM 0 0 F32.one F32.one F32.one 0x1000 1400 0
              (repeat 0 16) 0 0 0 0 0 0 0 0 None None 0.

(** Voices 0 and 1 configured, at 48 kHz and at 150 kHz, and linked. *)
Definition pair_linked : St.t :=
  run_calls HW_RVL
    [InitializeSamplerate ANSND_OUTPUT_SAMPLERATE_48KHZ; AllocateVoice; AllocateVoice;
     ConfigurePcmVoice 0 (Some (pcm_config 48000 0 0 None));
     ConfigurePcmVoice 1 (Some (pcm_config 150000 0 0 None));
     LinkVoices 0 1]
    initial_state.

(** The pitch 1.5. *)
Definition pitch_3_2 : f32 := F32.of_scaled 3 (-1).

(** Voices 0 and 1 allocated, voice 0 configured. *)
Definition two_allocated : St.t :=
  run_calls HW_RVL
    [InitializeSamplerate ANSND_OUTPUT_SAMPLERATE_48KHZ; AllocateVoice; AllocateVoice;
     ConfigurePcmVoice 0 (Some (pcm_config 48000 0 0 None))]
    initial_state.

(** The streaming voice in flight, paused by a call. *)
Definition paused_in_flight : St.t := snd (ansnd_pause_voice 0 stream_in_flight).

(** The streaming voice in flight, deallocated by a call. *)
Definition deallocated_in_flight : St.t := snd (ansnd_deallocate_voice 0 stream_in_flight).

(** A voice with block 0 that waits for 700000 microseconds. *)
Definition delayed_voice : V.t :=
  V.set_flags VOICE_FLAG_DELAY (V.set_delay 700000 (V.set_parameter_block (Some 0%nat) V.zero)).

(** A streaming voice with block 0 and nothing staged. *)
Definition idle_streaming_voice : V.t :=
  V.set_stream_callback (Some 1%nat) (V.set_parameter_block (Some 0%nat) V.zero).

(** Voice 0 configured with a loop over frames 10 to 100, started, and
    synchronized by one cycle. *)
Definition loop_playing : St.t :=
  match ansnd_dsp_request_callback HW_RVL quiet_cycle
          (run_calls HW_RVL
             [InitializeSamplerate ANSND_OUTPUT_SAMPLERATE_48KHZ; AllocateVoice;
              ConfigurePcmVoice 0 (Some (pcm_config 48000 10 100 None)); StartVoice 0]
             initial_state) with
  | Some (s, _) => s
  | None => initial_state
  end.

(** ADPCM, 1400 samples at address 0x1000, with a loop over the samples 14
    to 140. *)
Definition looped_adpcm_config : AdpcmCfg.t :=
  AdpcmCfg.mk 48000 1 0 DSP_ACCL_FMT_ADPCM 0 0 F32.one F32.one F32.one 0x1000 1400 0
              (repeat 0 16) 0 0 0 3 4 5 14 140 None None 0.

(** Voices 0 and 1 configured with a loop over frames 10 to 100 and linked,
    voice 0 started, and both synchronized by one cycle. *)
Definition pair_playing : St.t :=
  match ansnd_dsp_request_callback HW_RVL quiet_cycle
          (run_calls HW_RVL
             [InitializeSamplerate ANSND_OUTPUT_SAMPLERATE_48KHZ; AllocateVoice; AllocateVoice;
              ConfigurePcmVoice 0 (Some (pcm_config 48000 10 100 None));
              ConfigurePcmVoice 1 (Some (pcm_config 48000 10 100 None));
              LinkVoices 0 1; StartVoice 0]
             initial_state) with
  | Some (s, _) => s
  | None => initial_state
  end.

(** Voice 0 configured with the voice callback 7 and the user pointer 9,
    and deallocated. *)
Definition watched_deallocated : St.t :=
  run_calls HW_RVL
    [InitializeSamplerate ANSND_OUTPUT_SAMPLERATE_48KHZ; AllocateVoice;
     ConfigurePcmVoice 0
       (Some (PcmCfg.mk 48000 ANSND_VOICE_PCM_FORMAT_SIGNED_8_PCM 1 0 F32.one F32.one F32.one
                        0x1000 1000 0 0 0 (Some 7%nat) None 9));
     DeallocateVoice 0]
    initial_state.

(** Voice 0 configured as a stream with a loop over frames 10 to 100,
    started, and synchronized by one cycle. *)
Definition looped_stream_playing : St.t :=
  match ansnd_dsp_request_callback HW_RVL quiet_cycle
          (run_calls HW_RVL
             [InitializeSamplerate ANSND_OUTPUT_SAMPLERATE_48KHZ; AllocateVoice;
              ConfigurePcmVoice 0 (Some (pcm_config 48000 10 100 (Some 1%nat))); StartVoice 0]
             initial_state) with
  | Some (s, _) => s
  | None => initial_state
  end.

(** Voices 0 and 1 allocated, neither configured. *)
Definition two_fresh : St.t :=
  run_calls HW_RVL
    [InitializeSamplerate ANSND_OUTPUT_SAMPLERATE_48KHZ; AllocateVoice; AllocateVoice]
    initial_state.

(** What happens to the library between two moments: a call of the public
    interface, a synchronization cycle ([ansnd_dsp_request_callback]), or
    the audio DMA interrupt ([ansnd_audio_dma_callback]). *)
Inductive action : Type :=
| Call (c : call)
| Cycle (inp : cycle_input)
| DmaInterrupt (inp : dma_input).

(** The statics after an action; [None] when the cycle faults. *)
Definition run_action (hw : platform) (a : action) (s : St.t) : option St.t :=
  match a with
  | Call c => Some (snd (run_call hw c s))
  | Cycle inp => fst <$> ansnd_dsp_request_callback hw inp s
  | DmaInterrupt inp => Some (fst (ansnd_audio_dma_callback inp s))
  end.

Fixpoint run_actions (hw : platform) (l : list action) (s : St.t) : option St.t :=
  match l with
  | [] => Some s
  | a :: l' => s1 ← run_action hw a s; run_actions hw l' s1
  end.

(** The flags of a streaming voice that has been started and synchronized:
    the state in which [ansnd_start_voice] refuses it. *)
Definition initialized_stream (v : V.t) : Prop :=
  flag_set (V.flags v) VOICE_FLAG_USED = true
  /\ flag_set (V.flags v) VOICE_FLAG_CONFIGURED = true
  /\ flag_set (V.flags v) VOICE_FLAG_STREAMING = true
  /\ flag_set (V.flags v) VOICE_FLAG_INITIALIZED = true
  /\ flag_set (V.flags v) VOICE_FLAG_ERASED = false.

(** Voice [voice_id] of an initialized library is such a voice. *)
Definition stream_in_service (s : St.t) (voice_id : Z) : Prop :=
  St.ansnd_library_initialized s = true
  /\ length (St.ansnd_voices s) = 48%nat
  /\ 0 <= voice_id < ANSND_MAX_VOICES
  /\ initialized_stream (voice s voice_id).

(** The actions after which voice [voice_id] need not be such a voice any
    more: the library is shut down, the voice is configured anew or
    deallocated, or the voice that is linked to it is started. *)
Definition ends_service (voice_id : Z) (s : St.t) (a : action) : bool :=
  match a with
  | Call Uninitialize => true
  | Call (DeallocateVoice i) | Call (ConfigurePcmVoice i _)
  | Call (ConfigureAdpcmVoice i _) => i =? voice_id
  | Call (StartVoice i) =>
      (0 <=? i) && (i <? ANSND_MAX_VOICES)
      && bool_decide (V.linked_voice (voice s i) = Some (Z.to_nat voice_id))
  | _ => false
  end.

(** No action of [l], run from [s], is one of those. *)
Fixpoint service_kept (hw : platform) (voice_id : Z) (l : list action) (s : St.t) : Prop :=
  match l with
  | [] => True
  | a :: l' =>
      ends_service voice_id s a = false
      /\ match run_action hw a s with
         | Some s1 => service_kept hw voice_id l' s1
         | None => True
         end
  end.

(** Voice 0 a PCM stream, voice 1 a plain PCM voice, linked and started, and
    a cycle in which the stream callback supplies 100 frames at 0x2000. *)
Definition linked_stream_in_flight : option St.t :=
  run_actions HW_RVL
    [Call (InitializeSamplerate ANSND_OUTPUT_SAMPLERATE_48KHZ);
     Call AllocateVoice; Call AllocateVoice;
     Call (ConfigurePcmVoice 0 (Some (pcm_config 48000 0 0 (Some 1%nat))));
     Call (ConfigurePcmVoice 1 (Some (pcm_config 48000 0 0 None)));
     Call (LinkVoices 0 1); Call (StartVoice 0); Cycle feeding_cycle]
    initial_state.

(** A cycle in which every PCM streaming callback supplies 100 frames at
    address 0x3000. *)
Definition next_feeding_cycle : cycle_input :=
  mk_cycle_input 0 0 false (fun _ => PcmBuf.mk 0x3000 100) (fun _ => AdpcmBuf.zero).

(** What happens to the stream in flight afterwards: it is paused, two
    cycles and a DMA interrupt pass, it is resumed, its volume is set, and
    the plain voice 1 next to it is allocated, configured and started. *)
Definition stream_played_on : list action :=
  [Call (PauseVoice 0); Cycle feeding_cycle;
   DmaInterrupt (mk_dma_input false true 0 0);
   Call (UnpauseVoice 0); Call (SetVoiceVolume 0 F32.one F32.zero);
   Call AllocateVoice;
   Call (ConfigurePcmVoice 1 (Some (pcm_config 48000 0 0 None)));
   Call (StartVoice 1); Cycle quiet_cycle].

(** ADPCM, 1400 samples at address 0x1000, with a streaming callback. *)
Definition adpcm_stream_config : AdpcmCfg.t :=
  AdpcmCfg.mk 48000 0 0 DSP_ACCL_FMT_ADPCM 0 0 F32.one F32.one F32.one 0x1000 1400 0
              (repeat 0 16) 0 0 0 0 0 0 0 0 None (Some 2%nat) 0.

(** The stream in flight is configured anew and started. *)
Definition stream_configured_anew : list action :=
  [Call (ConfigurePcmVoice 0 (Some (pcm_config 48000 0 0 (Some 1%nat))));
   Call (StartVoice 0)].

(** The address in the exchange slot of block 0. *)
Definition slot_0 (s : St.t) : option Z :=
  slot_start <$> St.ansnd_dsp_dram_image s !! 0%nat.

(** After the link to the deallocated voice 1: the cycle tears voice 1
    down, its slot is allocated again, a third voice is allocated, and the
    new voice 1 is linked to it. *)
Definition relinked_after_teardown : list action :=
  map Call linked_to_deallocated
  ++ [Cycle quiet_cycle; Call AllocateVoice; Call AllocateVoice; Call (LinkVoices 1 2)].

(** Two voices allocated and configured. *)
Definition pair_configured : list call :=
  [InitializeSamplerate ANSND_OUTPUT_SAMPLERATE_48KHZ; AllocateVoice; AllocateVoice;
   ConfigurePcmVoice 0 (Some (pcm_config 48000 0 0 None));
   ConfigurePcmVoice 1 (Some (pcm_config 48000 0 0 None))].

(** ** Flags as bits *)

Lemma land_pow2 (f k : Z) :
  0 <= k -> Z.land f (2 ^ k) = if Z.testbit f k then 2 ^ k else 0.
Proof.
  intros Hk. apply Z.bits_inj'. intros n Hn.
  rewrite Z.land_spec, Z.pow2_bits_eqb by lia.
  destruct (Z.eqb_spec k n) as [->|Hne].
  - destruct (Z.testbit f n); simpl.
    + now rewrite Z.pow2_bits_true.
    + now rewrite Z.bits_0.
  - rewrite andb_false_r. destruct (Z.testbit f k).
    + now rewrite Z.pow2_bits_false.
    + now rewrite Z.bits_0.
Qed.

Lemma flag_set_pow2 (f X k : Z) :
  0 <= k -> X = 2 ^ k -> flag_set f X = Z.testbit f k.
Proof.
  intros Hk ->. unfold flag_set. rewrite land_pow2 by lia.
  destruct (Z.testbit f k); simpl; [|reflexivity].
  destruct (Z.eqb_spec (2 ^ k) 0) as [E|E]; [|reflexivity].
  pose proof (Z.pow_pos_nonneg 2 k). lia.
Qed.

Lemma testbit_flag_or (f X k : Z) :
  Z.testbit (flag_or f X) k = Z.testbit f k || Z.testbit X k.
Proof. apply Z.lor_spec. Qed.

Lemma testbit_flag_clear (f X k : Z) :
  0 <= k -> Z.testbit (flag_clear f X) k = Z.testbit f k && negb (Z.testbit X k).
Proof. intros Hk. unfold flag_clear. now rewrite Z.land_spec, Z.lnot_spec. Qed.

(** Replaces [Z.testbit c k] by its value when [c] is a numeral. *)
Ltac eval_const_bits :=
  repeat match goal with
  | |- context [Z.testbit ?X ?k] =>
      let X' := eval hnf in X in
      lazymatch X' with
      | Z.pos _ => idtac
      | Z0 => idtac
      end;
      let r := eval vm_compute in (Z.testbit X k) in
      change (Z.testbit X k) with r
  | H : context [Z.testbit ?X ?k] |- _ =>
      let X' := eval hnf in X in
      lazymatch X' with
      | Z.pos _ => idtac
      | Z0 => idtac
      end;
      let r := eval vm_compute in (Z.testbit X k) in
      change (Z.testbit X k) with r in H
  end.

(** Turns every test, setting and clearing of a flag into a statement about
    one bit. *)
Ltac flag_bits :=
  rewrite ?(flag_set_pow2 _ VOICE_FLAG_PITCH_CHANGE 13),
          ?(flag_set_pow2 _ VOICE_FLAG_CONFIGURED 12),
          ?(flag_set_pow2 _ VOICE_FLAG_USED 11),
          ?(flag_set_pow2 _ VOICE_FLAG_UPDATED 10),
          ?(flag_set_pow2 _ VOICE_FLAG_INITIALIZED 9),
          ?(flag_set_pow2 _ VOICE_FLAG_ERASED 8),
          ?(flag_set_pow2 _ VOICE_FLAG_RUNNING 7),
          ?(flag_set_pow2 _ VOICE_FLAG_FINISHED 6),
          ?(flag_set_pow2 _ VOICE_FLAG_PAUSED 5),
          ?(flag_set_pow2 _ VOICE_FLAG_DELAY 4),
          ?(flag_set_pow2 _ VOICE_FLAG_STREAMING 3),
          ?(flag_set_pow2 _ VOICE_FLAG_LOOPED 2),
          ?(flag_set_pow2 _ VOICE_FLAG_ADPCM 1),
          ?(flag_set_pow2 _ VOICE_FLAG_STEREO 0) in * by (lia || reflexivity);
  repeat (rewrite ?testbit_flag_or, ?testbit_flag_clear, ?Z.lor_spec, ?Z.land_spec,
                  ?Z.lxor_spec in * by lia);
  eval_const_bits;
  rewrite ?andb_true_r, ?andb_false_r, ?orb_true_r, ?orb_false_r,
          ?andb_true_l, ?andb_false_l, ?orb_true_l, ?orb_false_l in *.

(** ** The voice array *)

Lemma voice_set_voice_eq (s : St.t) (i : Z) (v : V.t) :
  (Z.to_nat i < length (St.ansnd_voices s))%nat ->
  voice (set_voice (Z.to_nat i) v s) i = v.
Proof.
  intros Hi. unfold voice, set_voice. destruct s; simpl in *.
  now apply list_lookup_total_insert_eq.
Qed.

Lemma voices_set_voice (s : St.t) (i : nat) (v : V.t) :
  St.ansnd_voices (set_voice i v s) = <[i := v]> (St.ansnd_voices s).
Proof. now destruct s. Qed.

Lemma voices_on_linked (l : option nat) (f : V.t -> V.t) (s : St.t) :
  St.ansnd_voices (on_linked l f s) =
  match l with
  | Some j => <[j := f (St.ansnd_voices s !!! j)]> (St.ansnd_voices s)
  | None => St.ansnd_voices s
  end.
Proof. destruct l; [apply voices_set_voice | reflexivity]. Qed.

(** ** A refused call changes nothing *)

(** Splits on the next check whose failure returns an error code with the
    statics as they were. *)
Ltac refusal :=
  match goal with
  | |- context [if ?b then (?e, ?s) else _] =>
      destruct b eqn:?; [solve [simpl; auto] |]
  | |- context [match ?c with Some _ => _ | None => (?e, ?s) end] =>
      destruct c eqn:?; [| solve [simpl; auto]]
  end.

Lemma first_unused_range (vs : list V.t) (i : Z) :
  first_unused vs i = -1 \/ (i <= first_unused vs i < i + Z.of_nat (length vs)).
Proof.
  revert i. induction vs as [|v vs IH]; intros i; simpl; [now left|].
  destruct (negb (flag_set (V.flags v) VOICE_FLAG_USED)); [right; lia|].
  destruct (IH (i + 1)) as [->|H]; [now left | right; lia].
Qed.

Lemma refused_call_unchanged (hw : platform) (c : call) (s : St.t) :
  fst (run_call hw c s) < 0 -> snd (run_call hw c s) = s.
Proof.
  destruct c; simpl;
    try (unfold ansnd_initialize_samplerate, ansnd_deallocate_voice,
           ansnd_configure_pcm_voice, ansnd_configure_adpcm_voice, ansnd_link_voices,
           ansnd_unlink_voice, ansnd_start_voice, ansnd_stop_voice, ansnd_pause_voice,
           ansnd_unpause_voice, ansnd_stop_looping, ansnd_set_voice_volume,
           ansnd_set_voice_pitch, ansnd_get_dsp_usage_percent,
           ansnd_get_total_usage_percent, ansnd_get_total_active_voices,
           ansnd_register_audio_callback;
         cbv zeta; repeat refusal;
         try match goal with |- context [match ?l with Some _ => _ | None => _ end] =>
               destruct l end;
         simpl; unfold ANSND_ERROR_OK, ANSND_ERROR_INVALID_INPUT; intros; (reflexivity || lia)).
  - unfold ansnd_initialize_samplerate.
    destruct (_ || _); simpl; [unfold ANSND_ERROR_OK; lia | reflexivity].
  - unfold ansnd_allocate_voice.
    destruct (negb (St.ansnd_library_initialized s)); [reflexivity|].
    destruct (_ <? 0) eqn:E; [reflexivity|]. simpl. apply Z.ltb_ge in E. lia.
Qed.

(** ** What the cycle leaves alone *)

Lemma same_globals_refl (s : St.t) : same_globals s s.
Proof. repeat split. Qed.

Lemma same_globals_trans (s1 s2 s3 : St.t) :
  same_globals s1 s2 -> same_globals s2 s3 -> same_globals s1 s3.
Proof.
  unfold same_globals. intros H1 H2. decompose [and] H1. decompose [and] H2.
  repeat split; congruence.
Qed.

Lemma request_voice_globals (hw : platform) (inp : cycle_input) (i : nat)
    (s s' : St.t) (ev : list event) :
  ansnd_request_voice hw inp i s = Some (s', ev) -> same_globals s s'.
Proof.
  unfold ansnd_request_voice. intros H.
  destruct (_ : option bool) as [needs_sync|]; [simpl in H | discriminate].
  destruct (if needs_sync then _ else _) as [[[v dram] ev1]|]; [simpl in H | discriminate].
  destruct (flag_set (V.flags v) VOICE_FLAG_RUNNING).
  - destruct (if _ && _ then _ else _) as [[[v2 dram2] ev2]|]; [simpl in H | discriminate].
    destruct (if flag_set _ VOICE_FLAG_DELAY then _ else _) as [[v3 dram3]|];
      [simpl in H | discriminate].
    injection H as <- _. destruct s; repeat split.
  - injection H as <- _. destruct s; repeat split.
Qed.

Lemma request_loop_globals (hw : platform) (inp : cycle_input) (n i : nat)
    (s s' : St.t) (ev : list event) :
  ansnd_request_loop hw inp n i s = Some (s', ev) -> same_globals s s'.
Proof.
  revert i s s' ev. induction n as [|n IH]; intros i s s' ev H; simpl in H.
  - injection H as <- _. apply same_globals_refl.
  - destruct (ansnd_request_voice hw inp i s) as [[s1 ev1]|] eqn:E1;
      [simpl in H | discriminate].
    destruct (ansnd_request_loop hw inp n (S i) s1) as [[s2 ev2]|] eqn:E2;
      [simpl in H | discriminate].
    injection H as <- _.
    eapply same_globals_trans; [eapply request_voice_globals | eapply IH]; eassumption.
Qed.

Lemma request_callback_flags (hw : platform) (inp : cycle_input)
    (s s' : St.t) (ev : list event) :
  ansnd_dsp_request_callback hw inp s = Some (s', ev) ->
  St.ansnd_dsp_stalled s' = false
  /\ St.ansnd_dsp_done_mixing s' = true
  /\ St.ansnd_library_initialized s' = St.ansnd_library_initialized s
  /\ St.ansnd_output_samplerate s' = St.ansnd_output_samplerate s.
Proof.
  unfold ansnd_dsp_request_callback. intros H.
  destruct (ansnd_request_loop _ _ _ _ _) as [[s1 ev1]|] eqn:E; [simpl in H | discriminate].
  injection H as <- _.
  apply request_loop_globals in E. unfold same_globals in E. decompose [and] E.
  destruct s, s1; simpl in *. repeat split; congruence.
Qed.

(** ** Voice ids outside the registry *)

Lemma out_of_range (voice_id : Z) :
  ANSND_MAX_VOICES <= voice_id ->
  (voice_id <? 0) || (ANSND_MAX_VOICES <=? voice_id) = true.
Proof. intros H. apply orb_true_iff. right. now apply Z.leb_le. Qed.

(** C7, as stated, fails: with the stalled flag set, [ansnd_start_voice] and
    [ansnd_unpause_voice] answer an out-of-range id with DspStalled, and
    [ansnd_link_voices] examines its first voice before the range of its
    second id. *)
Lemma out_of_range_not_always_invalid_input :
  St.ansnd_library_initialized stalled_after_first_interrupt = true
  /\ fst (ansnd_start_voice 48 stalled_after_first_interrupt) = ANSND_ERROR_DSP_STALLED
  /\ fst (ansnd_unpause_voice 48 stalled_after_first_interrupt) = ANSND_ERROR_DSP_STALLED
  /\ fst (ansnd_link_voices 0 48 stalled_after_first_interrupt)
     = ANSND_ERROR_VOICE_ID_NOT_ALLOCATED
  /\ ANSND_ERROR_DSP_STALLED <> ANSND_ERROR_INVALID_INPUT
  /\ ANSND_ERROR_VOICE_ID_NOT_ALLOCATED <> ANSND_ERROR_INVALID_INPUT.
Proof. vm_compute. repeat split; discriminate. Qed.

(** C7, amended: while the library is initialized, every voice operation
    called with a voice id of 48 or more changes nothing and returns
    InvalidInput, except that start and unpause return DspStalled when the
    stalled flag is set, and that link, when only its second id is out of
    range, returns the error of an earlier check on its first voice if one
    fails.  No call that returns an error code changes the statics. *)
Theorem out_of_range_voice_id_refused (hw : platform) (s : St.t) (voice_id : Z) :
  St.ansnd_library_initialized s = true ->
  ANSND_MAX_VOICES <= voice_id ->
  ansnd_deallocate_voice voice_id s = (ANSND_ERROR_INVALID_INPUT, s)
  /\ (forall c, ansnd_configure_pcm_voice hw voice_id c s = (ANSND_ERROR_INVALID_INPUT, s))
  /\ (forall c, ansnd_configure_adpcm_voice hw voice_id c s = (ANSND_ERROR_INVALID_INPUT, s))
  /\ (forall other, ansnd_link_voices voice_id other s = (ANSND_ERROR_INVALID_INPUT, s))
  /\ (forall other,
        snd (ansnd_link_voices other voice_id s) = s
        /\ fst (ansnd_link_voices other voice_id s) < 0
        /\ (flag_set (V.flags (voice s other)) VOICE_FLAG_USED = true ->
            flag_set (V.flags (voice s other)) VOICE_FLAG_RUNNING = false ->
            V.linked_voice (voice s other) = None ->
            fst (ansnd_link_voices other voice_id s) = ANSND_ERROR_INVALID_INPUT))
  /\ ansnd_unlink_voice voice_id s = (ANSND_ERROR_INVALID_INPUT, s)
  /\ ansnd_start_voice voice_id s
     = (if St.ansnd_dsp_stalled s then ANSND_ERROR_DSP_STALLED
        else ANSND_ERROR_INVALID_INPUT, s)
  /\ ansnd_stop_voice voice_id s = (ANSND_ERROR_INVALID_INPUT, s)
  /\ ansnd_pause_voice voice_id s = (ANSND_ERROR_INVALID_INPUT, s)
  /\ ansnd_unpause_voice voice_id s
     = (if St.ansnd_dsp_stalled s then ANSND_ERROR_DSP_STALLED
        else ANSND_ERROR_INVALID_INPUT, s)
  /\ ansnd_stop_looping voice_id s = (ANSND_ERROR_INVALID_INPUT, s)
  /\ (forall l r, ansnd_set_voice_volume voice_id l r s = (ANSND_ERROR_INVALID_INPUT, s))
  /\ (forall p, ansnd_set_voice_pitch hw voice_id p s = (ANSND_ERROR_INVALID_INPUT, s))
  /\ (forall c, fst (run_call hw c s) < 0 -> snd (run_call hw c s) = s).
Proof.
  intros Hinit Hid. pose proof (out_of_range voice_id Hid) as Hr.
  unfold ansnd_deallocate_voice, ansnd_configure_pcm_voice, ansnd_configure_adpcm_voice,
    ansnd_unlink_voice, ansnd_start_voice, ansnd_stop_voice, ansnd_pause_voice,
    ansnd_unpause_voice, ansnd_stop_looping, ansnd_set_voice_volume, ansnd_set_voice_pitch.
  rewrite Hinit, Hr. simpl.
  repeat match goal with |- _ /\ _ => split end; try reflexivity.
  - intros other. unfold ansnd_link_voices. rewrite Hinit, Hr. simpl.
    now destruct (voice_id =? other).
  - intros other. unfold ansnd_link_voices. rewrite Hinit, Hr. simpl.
    assert (Hcase : forall e : Z, e < 0 ->
              (flag_set (V.flags (voice s other)) VOICE_FLAG_USED = true ->
               flag_set (V.flags (voice s other)) VOICE_FLAG_RUNNING = false ->
               V.linked_voice (voice s other) = None -> e = ANSND_ERROR_INVALID_INPUT) ->
              snd (e, s) = s /\ fst (e, s) < 0 /\
              (flag_set (V.flags (voice s other)) VOICE_FLAG_USED = true ->
               flag_set (V.flags (voice s other)) VOICE_FLAG_RUNNING = false ->
               V.linked_voice (voice s other) = None ->
               fst (e, s) = ANSND_ERROR_INVALID_INPUT)) by (intros; simpl; auto).
    destruct (other =? voice_id); [apply Hcase; [reflexivity | reflexivity]|].
    destruct ((other <? 0) || (ANSND_MAX_VOICES <=? other));
      [apply Hcase; [reflexivity | reflexivity]|].
    destruct (flag_set (V.flags (voice s other)) VOICE_FLAG_USED); simpl;
      [| apply Hcase; [reflexivity | discriminate]].
    destruct (flag_set (V.flags (voice s other)) VOICE_FLAG_RUNNING); simpl;
      [apply Hcase; [reflexivity | discriminate]|].
    destruct (V.linked_voice (voice s other)) eqn:El; simpl;
      apply Hcase; try reflexivity; discriminate.
  - now destruct (St.ansnd_dsp_stalled s).
  - now destruct (St.ansnd_dsp_stalled s).
  - intros c. apply refused_call_unchanged.
Qed.

(** The theorem at voice id 48 of a freshly initialized library. *)
Lemma out_of_range_voice_id_refused_witness :
  St.ansnd_library_initialized (ansnd_initialize initial_state) = true
  /\ ANSND_MAX_VOICES <= 48
  /\ ansnd_stop_voice 48 (ansnd_initialize initial_state)
     = (ANSND_ERROR_INVALID_INPUT, ansnd_initialize initial_state).
Proof.
  assert (H1 : St.ansnd_library_initialized (ansnd_initialize initial_state) = true)
    by reflexivity.
  assert (H2 : ANSND_MAX_VOICES <= 48) by (vm_compute; discriminate).
  split; [exact H1 | split; [exact H2 |]].
  exact (proj1 (proj2 (proj2 (proj2 (proj2 (proj2 (proj2 (proj2
    (out_of_range_voice_id_refused HW_RVL (ansnd_initialize initial_state) 48 H1 H2))))))))).
Defined.

(** ** The stalled flag *)

Lemma stalled_kept_by_calls (hw : platform) (c : call) (s : St.t) :
  St.ansnd_library_initialized s = true ->
  St.ansnd_dsp_stalled (snd (run_call hw c s)) = St.ansnd_dsp_stalled s.
Proof.
  intros Hinit.
  destruct (Z_lt_ge_dec (fst (run_call hw c s)) 0) as [Hneg|Hok].
  { now rewrite refused_call_unchanged. }
  revert Hok. destruct s; simpl in Hinit; subst.
  destruct c; simpl;
    unfold ansnd_initialize_samplerate, ansnd_uninitialize, ansnd_allocate_voice,
      ansnd_deallocate_voice,
      ansnd_configure_pcm_voice, ansnd_configure_adpcm_voice, ansnd_link_voices,
      ansnd_unlink_voice, ansnd_start_voice, ansnd_stop_voice, ansnd_pause_voice,
      ansnd_unpause_voice, ansnd_stop_looping, ansnd_set_voice_volume,
      ansnd_set_voice_pitch, ansnd_get_dsp_usage_percent,
      ansnd_get_total_usage_percent, ansnd_get_total_active_voices,
      ansnd_register_audio_callback;
    cbv zeta; simpl negb; cbv iota;
    repeat refusal;
    repeat match goal with
    | |- context [if ?b then (_, _) else (_, _)] => destruct b
    | |- context [match ?l with Some _ => (_, _) | None => (_, _) end] => destruct l
    end;
    intros _; simpl; unfold on_linked;
    repeat match goal with |- context [match ?l with Some _ => _ | None => _ end] =>
             destruct l end;
    reflexivity.
Qed.

(** C8, as stated, fails twice.  With the stalled flag set but the library
    uninitialized again, starting returns NotInitialized; and a stall ends
    when the late DSP raises its request, with no restart command sent: the
    first interrupt that finds the mixing unfinished only substitutes the
    silent buffer and sets the flag, and the request-service callback then
    clears it. *)
Lemma stall_recovery_without_restart :
  St.ansnd_dsp_stalled stalled_after_first_interrupt = true
  /\ fst (ansnd_start_voice 0 (ansnd_uninitialize stalled_after_first_interrupt))
     = ANSND_ERROR_NOT_INITIALIZED
  /\ snd (ansnd_audio_dma_callback (mk_dma_input false true 0 0)
            (ansnd_initialize initial_state))
     = [InitDMA MuteBuffer ANSND_SOUND_BUFFER_SIZE]
  /\ exists s',
       ansnd_dsp_request_callback HW_RVL
         (mk_cycle_input 0 0 false (fun _ => PcmBuf.zero) (fun _ => AdpcmBuf.zero))
         stalled_after_first_interrupt
       = Some (s', [SendMailTo (Z.lor DSP_MAIL_COMMAND DSP_MAIL_PREPARE)])
       /\ St.ansnd_dsp_stalled s' = false
       /\ fst (ansnd_start_voice 0 s') = ANSND_ERROR_VOICE_ID_NOT_ALLOCATED.
Proof.
  split; [reflexivity|]. split; [reflexivity|]. split; [reflexivity|].
  eexists. split; [vm_compute; reflexivity|]. split; reflexivity.
Qed.

(** C8, amended: while the library is initialized and the stalled flag is
    set, [ansnd_start_voice] and [ansnd_unpause_voice] return DspStalled and
    change nothing.  No public call clears the flag, and neither does the
    interrupt: an interrupt that finds the mixing unfinished substitutes the
    silent buffer, keeps the flag set, and sends the restart command exactly
    when the flag was already set and the DSP task is running.  The flag is
    cleared by the request-service callback of the DSP. *)
Theorem stalled_start_refused (hw : platform) (s : St.t) (voice_id : Z) :
  St.ansnd_library_initialized s = true ->
  St.ansnd_dsp_stalled s = true ->
  ansnd_start_voice voice_id s = (ANSND_ERROR_DSP_STALLED, s)
  /\ ansnd_unpause_voice voice_id s = (ANSND_ERROR_DSP_STALLED, s)
  /\ (forall c, St.ansnd_dsp_stalled (snd (run_call hw c s)) = true)
  /\ (forall inp,
        St.ansnd_dsp_stalled (fst (ansnd_audio_dma_callback inp s)) = true
        /\ (St.ansnd_dsp_done_mixing s = false ->
            ansnd_audio_dma_callback inp s
            = (s, (if dma_task_next inp then [AssertTask] else [])
                  ++ InitDMA MuteBuffer ANSND_SOUND_BUFFER_SIZE
                  :: (if dma_task_running inp
                      then [SendMailTo (Z.lor DSP_MAIL_COMMAND DSP_MAIL_RESTART)]
                      else []))))
  /\ (forall inp s' ev,
        ansnd_dsp_request_callback hw inp s = Some (s', ev) ->
        St.ansnd_dsp_stalled s' = false).
Proof.
  intros Hinit Hstall. repeat match goal with |- _ /\ _ => split end.
  - unfold ansnd_start_voice. now rewrite Hinit, Hstall.
  - unfold ansnd_unpause_voice. now rewrite Hinit, Hstall.
  - intros c. now rewrite stalled_kept_by_calls.
  - intros inp. split.
    + unfold ansnd_audio_dma_callback. destruct (negb (St.ansnd_dsp_done_mixing s)).
      * now destruct s.
      * destruct s; simpl in *. exact Hstall.
    + intros Hdone. unfold ansnd_audio_dma_callback. rewrite Hdone, Hstall. simpl.
      destruct s; simpl in *. now subst.
  - intros inp s' ev H. now apply request_callback_flags in H.
Qed.

(** The theorem at the state left by the first interrupt after
    initialization. *)
Lemma stalled_start_refused_witness :
  St.ansnd_library_initialized stalled_after_first_interrupt = true
  /\ St.ansnd_dsp_stalled stalled_after_first_interrupt = true
  /\ ansnd_start_voice 3 stalled_after_first_interrupt
     = (ANSND_ERROR_DSP_STALLED, stalled_after_first_interrupt).
Proof.
  assert (H1 : St.ansnd_library_initialized stalled_after_first_interrupt = true)
    by reflexivity.
  assert (H2 : St.ansnd_dsp_stalled stalled_after_first_interrupt = true) by reflexivity.
  split; [exact H1 | split; [exact H2 |]].
  exact (proj1 (stalled_start_refused HW_RVL stalled_after_first_interrupt 3 H1 H2)).
Defined.

(** ** The initialization flag *)

(** C10, as stated, fails on its last part: [ansnd_initialize_samplerate]
    is a public operation too, and it judges its argument (and returns
    InvalidInput or Ok) without having looked at the flag. *)
Lemma initialize_does_not_check_flag_first :
  St.ansnd_library_initialized initial_state = false
  /\ run_call HW_RVL (InitializeSamplerate ANSND_OUTPUT_SAMPLERATE_96KHZ) initial_state
     = (ANSND_ERROR_INVALID_INPUT, initial_state)
  /\ fst (run_call HW_RVL (InitializeSamplerate ANSND_OUTPUT_SAMPLERATE_48KHZ)
            initial_state) = ANSND_ERROR_OK
  /\ ANSND_ERROR_INVALID_INPUT <> ANSND_ERROR_NOT_INITIALIZED
  /\ ANSND_ERROR_OK <> ANSND_ERROR_NOT_INITIALIZED.
Proof. repeat split; try reflexivity; discriminate. Qed.

(** C10, amended: [ansnd_register_audio_callback] always returns Ok and
    installs the callback and its argument, whatever the initialization
    flag, leaving every other static as it was.  Apart from the two entry
    points that manage the flag ([ansnd_initialize_samplerate], which
    validates its argument first, and [ansnd_uninitialize], which does
    nothing when the flag is clear), it is the only public operation that
    does not test the flag first: each of the others returns NotInitialized
    and changes nothing while the flag is clear. *)
Theorem register_audio_callback_unguarded (hw : platform) (s : St.t)
    (callback : option nat) (callback_arguments : Z) :
  fst (ansnd_register_audio_callback callback callback_arguments s) = ANSND_ERROR_OK
  /\ snd (ansnd_register_audio_callback callback callback_arguments s)
     = St.set_ansnd_audio_callback_arguments callback_arguments
         (St.set_ansnd_audio_callback callback s)
  /\ St.ansnd_audio_callback
       (snd (ansnd_register_audio_callback callback callback_arguments s)) = callback
  /\ St.ansnd_audio_callback_arguments
       (snd (ansnd_register_audio_callback callback callback_arguments s))
     = callback_arguments
  /\ (forall c,
        St.ansnd_library_initialized s = false ->
        checks_initialization_first c = true ->
        run_call hw c s = (ANSND_ERROR_NOT_INITIALIZED, s))
  /\ (St.ansnd_library_initialized s = false -> ansnd_uninitialize s = s).
Proof.
  repeat match goal with |- _ /\ _ => split end; try reflexivity.
  - intros c Hinit Hc. destruct c; try discriminate Hc; simpl;
      unfold ansnd_allocate_voice, ansnd_deallocate_voice,
        ansnd_configure_pcm_voice, ansnd_configure_adpcm_voice, ansnd_link_voices,
        ansnd_unlink_voice, ansnd_start_voice, ansnd_stop_voice, ansnd_pause_voice,
        ansnd_unpause_voice, ansnd_stop_looping, ansnd_set_voice_volume,
        ansnd_set_voice_pitch, ansnd_get_dsp_usage_percent,
        ansnd_get_total_usage_percent, ansnd_get_total_active_voices;
      now rewrite Hinit.
  - intros Hinit. unfold ansnd_uninitialize. now rewrite Hinit.
Qed.

(** The theorem before initialization, at [ansnd_start_voice(0)]. *)
Lemma register_audio_callback_unguarded_witness :
  St.ansnd_library_initialized initial_state = false
  /\ checks_initialization_first (StartVoice 0) = true
  /\ run_call HW_RVL (StartVoice 0) initial_state
     = (ANSND_ERROR_NOT_INITIALIZED, initial_state)
  /\ St.ansnd_audio_callback
       (snd (ansnd_register_audio_callback (Some 7%nat) 42 initial_state)) = Some 7%nat.
Proof.
  assert (H1 : St.ansnd_library_initialized initial_state = false) by reflexivity.
  assert (H2 : checks_initialization_first (StartVoice 0) = true) by reflexivity.
  pose proof (register_audio_callback_unguarded HW_RVL initial_state (Some 7%nat) 42)
    as (_ & _ & Hcb & _ & Hother & _).
  split; [exact H1 | split; [exact H2 | split; [exact (Hother _ H1 H2) | exact Hcb]]].
Defined.

(** ** Sample-rate validation *)

(** C4, as stated, fails at the upper end of the interval: on the Wii at
    48 kHz the largest rate is 192000, and a voice of sample rate 192000 at
    pitch 1.0, whose product is that largest rate itself, is accepted. *)
Lemma max_samplerate_is_accepted :
  F32.mul (F32.of_Z 192000) F32.one
  = max_samplerate_of HW_RVL (St.ansnd_output_samplerate one_voice_allocated)
  /\ F32.ltb (F32.mul (F32.of_Z 192000) F32.one)
             (max_samplerate_of HW_RVL (St.ansnd_output_samplerate one_voice_allocated))
     = false
  /\ fst (ansnd_configure_pcm_voice HW_RVL 0 (Some (pcm_config 192000 0 0 None))
            one_voice_allocated) = ANSND_ERROR_OK
  /\ ANSND_ERROR_OK <> ANSND_ERROR_INVALID_SAMPLERATE.
Proof. vm_compute. repeat split; discriminate. Qed.

(** Splits on every remaining check of a call. *)
Ltac all_checks :=
  repeat match goal with
  | |- context [if ?b then (?e, ?s) else _] => destruct b eqn:?
  | |- context [match ?c with Some _ => _ | None => (?e, ?s) end] => destruct c eqn:?
  end.

(** C4, amended: for an allocated voice of an initialized library (and, for
    the pitch, a configured voice that is not running), configuring a PCM
    or ADPCM voice or setting the pitch returns InvalidSamplerate exactly
    when the binary32 product [sample_rate * pitch] is below 50 or above
    the largest rate of the output mode, which is four times the DSP
    frequency of that mode: the admitted interval is closed at both ends.
    On this error nothing is changed. *)
Theorem invalid_samplerate_exactly (hw : platform) (s : St.t) (voice_id : Z) :
  St.ansnd_library_initialized s = true ->
  0 <= voice_id < ANSND_MAX_VOICES ->
  flag_set (V.flags (voice s voice_id)) VOICE_FLAG_USED = true ->
  let rate := St.ansnd_output_samplerate s in
  let outside (samplerate : Z) (pitch : f32) : Prop :=
    F32.ltb (F32.mul (F32.of_Z samplerate) pitch) (F32.of_Z 50) = true
    \/ F32.ltb (max_samplerate_of hw rate) (F32.mul (F32.of_Z samplerate) pitch) = true in
  (rate = ANSND_OUTPUT_SAMPLERATE_32KHZ \/ rate = ANSND_OUTPUT_SAMPLERATE_48KHZ ->
   max_samplerate_of hw rate = F32.mul (dsp_frequency_of hw rate) (F32.of_Z 4))
  /\ (forall c,
        (fst (ansnd_configure_pcm_voice hw voice_id (Some c) s)
         = ANSND_ERROR_INVALID_SAMPLERATE
         <-> outside (PcmCfg.samplerate c) (PcmCfg.pitch c))
        /\ (outside (PcmCfg.samplerate c) (PcmCfg.pitch c) ->
            snd (ansnd_configure_pcm_voice hw voice_id (Some c) s) = s))
  /\ (forall c,
        (fst (ansnd_configure_adpcm_voice hw voice_id (Some c) s)
         = ANSND_ERROR_INVALID_SAMPLERATE
         <-> outside (AdpcmCfg.samplerate c) (AdpcmCfg.pitch c))
        /\ (outside (AdpcmCfg.samplerate c) (AdpcmCfg.pitch c) ->
            snd (ansnd_configure_adpcm_voice hw voice_id (Some c) s) = s))
  /\ (forall pitch,
        flag_set (V.flags (voice s voice_id)) VOICE_FLAG_CONFIGURED = true ->
        flag_set (V.flags (voice s voice_id)) VOICE_FLAG_RUNNING = false ->
        (fst (ansnd_set_voice_pitch hw voice_id pitch s) = ANSND_ERROR_INVALID_SAMPLERATE
         <-> outside (V.samplerate (voice s voice_id)) pitch)
        /\ (outside (V.samplerate (voice s voice_id)) pitch ->
            snd (ansnd_set_voice_pitch hw voice_id pitch s) = s)).
Proof.
  intros Hinit Hid Hused rate outside.
  assert (Hr : (voice_id <? 0) || (ANSND_MAX_VOICES <=? voice_id) = false).
  { apply orb_false_iff. split; [apply Z.ltb_ge | apply Z.leb_gt]; lia. }
  assert (Hout : forall sr p, invalid_samplerate hw rate sr p = true <-> outside sr p).
  { intros sr p. unfold invalid_samplerate, outside, F32.gtb. apply orb_true_iff. }
  repeat match goal with |- _ /\ _ => split end.
  - intros [-> | ->]; reflexivity.
  - intros c. unfold ansnd_configure_pcm_voice. rewrite Hinit, Hr, Hused. simpl.
    fold rate. rewrite <- Hout.
    destruct (invalid_samplerate hw rate (PcmCfg.samplerate c) (PcmCfg.pitch c)).
    + simpl. repeat split; auto.
    + split; [|discriminate]. split; [|discriminate].
      all_checks; simpl; intros H; vm_compute in H; discriminate H.
  - intros c. unfold ansnd_configure_adpcm_voice. rewrite Hinit, Hr, Hused. simpl.
    fold rate. rewrite <- Hout.
    destruct (invalid_samplerate hw rate (AdpcmCfg.samplerate c) (AdpcmCfg.pitch c)).
    + simpl. repeat split; auto.
    + split; [|discriminate]. split; [|discriminate].
      cbv zeta. all_checks; simpl; intros H; vm_compute in H; discriminate H.
  - intros pitch Hconf Hrun. unfold ansnd_set_voice_pitch.
    rewrite Hinit, Hr, Hused. simpl. rewrite Hconf, Hrun. simpl.
    fold rate. rewrite <- Hout.
    destruct (invalid_samplerate hw rate (V.samplerate (voice s voice_id)) pitch).
    + simpl. repeat split; auto.
    + split; [|discriminate]. split; [|discriminate].
      simpl. intros H; vm_compute in H; discriminate H.
Qed.

(** The theorem at sample rate 10 (pitch 1.0), below the lower bound. *)
Lemma invalid_samplerate_exactly_witness :
  St.ansnd_library_initialized one_voice_allocated = true
  /\ 0 <= 0 < ANSND_MAX_VOICES
  /\ flag_set (V.flags (voice one_voice_allocated 0)) VOICE_FLAG_USED = true
  /\ ansnd_configure_pcm_voice HW_RVL 0 (Some (pcm_config 10 0 0 None)) one_voice_allocated
     = (ANSND_ERROR_INVALID_SAMPLERATE, one_voice_allocated).
Proof.
  assert (H1 : St.ansnd_library_initialized one_voice_allocated = true) by reflexivity.
  assert (H2 : 0 <= 0 < ANSND_MAX_VOICES) by (unfold ANSND_MAX_VOICES; lia).
  assert (H3 : flag_set (V.flags (voice one_voice_allocated 0)) VOICE_FLAG_USED = true)
    by reflexivity.
  split; [exact H1 | split; [exact H2 | split; [exact H3 |]]].
  pose proof (invalid_samplerate_exactly HW_RVL one_voice_allocated 0 H1 H2 H3)
    as (_ & Hpcm & _).
  destruct (Hpcm (pcm_config 10 0 0 None)) as [[_ Hcode] Hsame].
  apply injective_projections; [apply Hcode | apply Hsame]; left; reflexivity.
Defined.

(** ** Loop bounds of a PCM voice *)

(** Rules out, in hypothesis [H], the checks that return an error code. *)
Ltac accepted H :=
  repeat match type of H with
  | context [if ?b then (?e, ?s) else _] =>
      let E := fresh "Hcheck" in
      destruct b eqn:E;
      [apply (f_equal fst) in H; simpl in H; vm_compute in H; discriminate H |]
  end.

(** C5, as stated, fails for the loop end: with loop offsets 10 and 100 on
    a mono voice at address 0x1000 the loop end is 0x1000 + 100 - 1. *)
Lemma pcm_loop_end_is_one_less :
  exists s',
    ansnd_configure_pcm_voice HW_RVL 0 (Some (pcm_config 48000 10 100 None))
      one_voice_allocated = (ANSND_ERROR_OK, s')
    /\ V.ram_buffer_start (voice s' 0) = 0x1000
    /\ V.loop_start (voice s' 0) = 0x1000 + 10 * 1
    /\ V.loop_end (voice s' 0) = 0x1000 + 100 * 1 - 1
    /\ V.loop_end (voice s' 0) <> 0x1000 + 100 * 1.
Proof.
  eexists. split; [vm_compute; reflexivity|]. vm_compute. repeat split; discriminate.
Qed.

(** C5, amended: a PCM configuration that is accepted with both loop
    offsets zero leaves the LOOPED flag clear; one accepted with an offset
    that is not zero sets LOOPED, with the loop start equal to the buffer
    start plus [loop_start_offset * channels] and the loop end equal to the
    buffer start plus [loop_end_offset * channels] minus one, both in
    32-bit arithmetic.  The buffer start is the data address, halved for
    16-bit samples. *)
Theorem pcm_loop_bounds (hw : platform) (s s' : St.t) (voice_id : Z) (c : PcmCfg.t) :
  length (St.ansnd_voices s) = 48%nat ->
  ansnd_configure_pcm_voice hw voice_id (Some c) s = (ANSND_ERROR_OK, s') ->
  let v := voice s' voice_id in
  let start := V.ram_buffer_start v in
  start = Z.shiftr (PcmCfg.frame_data_ptr c)
            (if PcmCfg.format c =? ANSND_VOICE_PCM_FORMAT_SIGNED_16_PCM then 1 else 0)
  /\ (PcmCfg.loop_start_offset c = 0 -> PcmCfg.loop_end_offset c = 0 ->
      flag_set (V.flags v) VOICE_FLAG_LOOPED = false)
  /\ (PcmCfg.loop_start_offset c <> 0 \/ PcmCfg.loop_end_offset c <> 0 ->
      flag_set (V.flags v) VOICE_FLAG_LOOPED = true
      /\ V.loop_start v = to_u32 (start + PcmCfg.loop_start_offset c * PcmCfg.channels c)
      /\ V.loop_end v = to_u32 (start + PcmCfg.loop_end_offset c * PcmCfg.channels c - 1)).
Proof.
  intros Hlen H. unfold ansnd_configure_pcm_voice in H. accepted H.
  apply orb_false_iff in Hcheck0 as [Hlo Hhi].
  apply Z.ltb_ge in Hlo. apply Z.leb_gt in Hhi. unfold ANSND_MAX_VOICES in Hhi.
  cbv zeta in H. injection H as <-.
  rewrite voice_set_voice_eq by (rewrite Hlen; lia).
  destruct (V.linked_voice (voice s voice_id));
    destruct (PcmCfg.format c =? ANSND_VOICE_PCM_FORMAT_SIGNED_8_PCM);
    destruct (PcmCfg.format c =? ANSND_VOICE_PCM_FORMAT_SIGNED_16_PCM);
    destruct (PcmCfg.channels c =? 2);
    destruct (PcmCfg.stream_callback c);
    destruct (Z.eqb_spec (PcmCfg.loop_start_offset c) 0) as [Els|Els];
    destruct (Z.eqb_spec (PcmCfg.loop_end_offset c) 0) as [Ele|Ele];
    simpl; (split; [reflexivity|]);
    (split; [intros; try reflexivity; contradiction
            |intros [Hne|Hne]; try contradiction; repeat split; reflexivity]).
Qed.

(** The theorem at loop offsets 10 and 100. *)
Lemma pcm_loop_bounds_witness :
  length (St.ansnd_voices one_voice_allocated) = 48%nat
  /\ exists s',
       ansnd_configure_pcm_voice HW_RVL 0 (Some (pcm_config 48000 10 100 None))
         one_voice_allocated = (ANSND_ERROR_OK, s')
       /\ flag_set (V.flags (voice s' 0)) VOICE_FLAG_LOOPED = true.
Proof.
  assert (H1 : length (St.ansnd_voices one_voice_allocated) = 48%nat) by reflexivity.
  split; [exact H1|]. eexists.
  assert (H2 : ansnd_configure_pcm_voice HW_RVL 0 (Some (pcm_config 48000 10 100 None))
                 one_voice_allocated
               = (ANSND_ERROR_OK,
                  snd (ansnd_configure_pcm_voice HW_RVL 0
                         (Some (pcm_config 48000 10 100 None)) one_voice_allocated)))
    by (vm_compute; reflexivity).
  split; [exact H2|].
  refine (proj1 (proj2 (proj2 (pcm_loop_bounds HW_RVL _ _ 0 _ H1 H2)) _)).
  left. vm_compute. discriminate.
Defined.

(** ** The relative frequency *)

Lemma high_low (x : Z) : 0 <= x < 2 ^ 32 -> HIGH x * 65536 + LOW x = x.
Proof.
  intros Hx. unfold HIGH, LOW, to_u16.
  change 0x0000FFFF with (Z.ones 16).
  rewrite Z.shiftr_land. change (Z.shiftr 0xFFFF0000 16) with (Z.ones 16).
  rewrite !Z.land_ones, Z.shiftr_div_pow2 by lia.
  rewrite !Z.mod_mod by lia.
  rewrite (Z.mod_small (x / 2 ^ 16)).
  - change 65536 with (2 ^ 16). pose proof (Z.div_mod x (2 ^ 16)). lia.
  - split; [apply Z.div_pos; lia|].
    apply Z.div_lt_upper_bound; [lia|]. change (2 ^ 16 * 2 ^ 16) with (2 ^ 32). lia.
Qed.

Lemma load_store (dram : list PB.t) (v : V.t) (pb pb' : PB.t) :
  load dram v = Some pb -> load (store dram v pb') v = Some pb'.
Proof.
  unfold load, store. destruct (V.parameter_block v) as [i|]; [|discriminate].
  intros H. apply list_lookup_insert_eq. eapply lookup_lt_Some, H.
Qed.

Lemma raw_relative_frequency_range (hw : platform) (rate : Z) (v : V.t) :
  0 <= raw_relative_frequency hw rate v < 2 ^ 32.
Proof. unfold raw_relative_frequency, to_u32. apply Z.mod_pos_bound. lia. Qed.

Lemma funnel_range (x : Z) : 0 <= x < 2 ^ 32 -> 0 <= funnel x < 2 ^ 32.
Proof.
  intros Hx. unfold funnel. destruct (_ && _); [|exact Hx].
  unfold base_frequency. lia.
Qed.

(** What [ansnd_update_voice_pitch] leaves in the block. *)
Lemma update_voice_pitch_fields (hw : platform) (rate : Z) (v : V.t)
    (dram : list PB.t) (pb : PB.t) :
  load dram v = Some pb ->
  exists pb',
    ansnd_update_voice_pitch hw rate v dram = Some (store dram v pb')
    /\ load (store dram v pb') v = Some pb'
    /\ PB.relative_frequency_high pb' = HIGH (funnel (raw_relative_frequency hw rate v))
    /\ PB.relative_frequency_low pb' = LOW (funnel (raw_relative_frequency hw rate v))
    /\ PB.filter_step pb'
       = (if base_frequency + 0x0205 <? funnel (raw_relative_frequency hw rate v)
          then to_u16 (F32.lrintf
                         (F32.mul (F32.of_Z (Z.shiftr base_frequency 1))
                                  (F32.div (dsp_frequency_of hw rate)
                                           (adjusted_samplerate v))))
          else default_filter_step)
    /\ PB.correction_factor pb'
       = (if base_frequency + 0x0205 <? funnel (raw_relative_frequency hw rate v)
          then to_u16 (-256 * (128 - Z.shiftr (PB.filter_step pb') 8) + 32767)
          else 32767).
Proof.
  intros Hload. unfold ansnd_update_voice_pitch. rewrite Hload.
  cbn [mbind option_bind]. cbv zeta.
  eexists. split; [reflexivity|]. split; [eapply load_store, Hload|].
  repeat split.
Qed.

(** C6, as stated, fails in three places, all on the Wii at 48 kHz, where
    the output frequency is exactly 48000.
    - At 24026 Hz and pitch 1.0 the exact quotient 65536 x 24026 / 48000
      lies strictly between 32803 and 32803.5, so it rounds to 32803; the
      binary32 evaluation stores 32804.
    - At 95625 Hz and pitch 0.5 the ratio is 65280 = 65536 - 256, which is
      stored as it is: the funnel excludes both ends.
    - At 96000 Hz and pitch 1.0 the ratio is 131072 and the filter step is
      16384, which is not half of the default 32256. *)
Lemma relative_frequency_differs :
  ANSND_DSP_FREQ_48KHZ HW_RVL = F32.of_Z 48000
  /\ F32.one = F32.of_Z 1
  /\ F32.of_scaled 1 (-1) = F32.div (F32.of_Z 1) (F32.of_Z 2)
  /\ (spec_relative_frequency 24026 1 1 48000 1 = 32803
      /\ 32803 * 48000 < 65536 * 24026 /\ 2 * (65536 * 24026) < (2 * 32803 + 1) * 48000
      /\ option_map block_relative_frequency
           (pitched_block HW_RVL ANSND_OUTPUT_SAMPLERATE_48KHZ 24026 F32.one)
         = Some 32804)
  /\ (spec_relative_frequency 95625 1 2 48000 1 = 65536 - 256
      /\ option_map block_relative_frequency
           (pitched_block HW_RVL ANSND_OUTPUT_SAMPLERATE_48KHZ 95625 (F32.of_scaled 1 (-1)))
         = Some (65536 - 256))
  /\ (option_map block_relative_frequency
        (pitched_block HW_RVL ANSND_OUTPUT_SAMPLERATE_48KHZ 96000 F32.one) = Some 131072
      /\ option_map PB.filter_step
           (pitched_block HW_RVL ANSND_OUTPUT_SAMPLERATE_48KHZ 96000 F32.one) = Some 16384
      /\ default_filter_step = 32256
      /\ 2 * 16384 <> 32256).
Proof. vm_compute. repeat split; discriminate. Qed.

(** C6, amended: the ratio is [lrintf] of the binary32 value
    [65536 * ((sample_rate * pitch) / output_frequency)], every operation
    rounded to binary32.  When it lies strictly between 65536 - 256 and
    65536 + 256 the block receives exactly 65536, which the DSP takes as
    the path without resampling, and the filter step keeps its default
    32256; otherwise the block receives the ratio itself.  When
    [sample_rate * pitch] is exactly twice the output frequency the ratio
    is 131072, the DSP resamples, and the filter step is recomputed to
    16384 (half of 32768), with correction factor 16383. *)
Theorem relative_frequency_computed (hw : platform) (rate : Z) (v : V.t)
    (dram : list PB.t) (pb : PB.t) :
  load dram v = Some pb ->
  let product := F32.mul (F32.of_Z (V.samplerate v)) (V.pitch v) in
  let ratio :=
    to_u32 (F32.lrintf (F32.mul (F32.of_Z 65536)
                                (F32.div product (dsp_frequency_of hw rate)))) in
  exists dram' pb',
    ansnd_update_voice_pitch hw rate v dram = Some dram'
    /\ load dram' v = Some pb'
    /\ (65536 - 256 < ratio < 65536 + 256 ->
        block_relative_frequency pb' = 65536
        /\ selects_no_resample pb' = true
        /\ PB.filter_step pb' = 32256)
    /\ (ratio <= 65536 - 256 \/ 65536 + 256 <= ratio ->
        block_relative_frequency pb' = ratio)
    /\ (rate = ANSND_OUTPUT_SAMPLERATE_32KHZ \/ rate = ANSND_OUTPUT_SAMPLERATE_48KHZ ->
        product = F32.mul (F32.of_Z 2) (dsp_frequency_of hw rate) ->
        block_relative_frequency pb' = 131072
        /\ selects_no_resample pb' = false
        /\ PB.filter_step pb' = 16384
        /\ PB.correction_factor pb' = 16383).
Proof.
  intros Hload product ratio.
  destruct (update_voice_pitch_fields hw rate v dram pb Hload)
    as (pb' & Hupd & Hload' & Hhigh & Hlow & Hstep & Hcorr).
  exists (store dram v pb'), pb'. split; [exact Hupd|]. split; [exact Hload'|].
  assert (Hraw : raw_relative_frequency hw rate v = ratio) by reflexivity.
  pose proof (raw_relative_frequency_range hw rate v) as Hrange. rewrite Hraw in *.
  assert (Hblock : block_relative_frequency pb' = funnel ratio).
  { unfold block_relative_frequency. rewrite Hhigh, Hlow.
    apply high_low, funnel_range, Hrange. }
  repeat match goal with |- _ /\ _ => split end.
  - intros [Hlo Hhi].
    assert (Hf : funnel ratio = 65536).
    { unfold funnel, base_frequency.
      destruct (Z.ltb_spec (65536 - 256) ratio); [|lia].
      destruct (Z.ltb_spec ratio (65536 + 256)); [reflexivity | lia]. }
    rewrite Hf in *. repeat split; [exact Hblock | |].
    + unfold selects_no_resample. now rewrite Hhigh, Hlow.
    + rewrite Hstep. reflexivity.
  - intros Hout. rewrite Hblock. unfold funnel, base_frequency.
    destruct (Z.ltb_spec (65536 - 256) ratio); [|reflexivity].
    destruct (Z.ltb_spec ratio (65536 + 256)); [lia | reflexivity].
  - intros Hrate Htwice.
    assert (Hadj : adjusted_samplerate v = F32.mul (F32.of_Z 2) (dsp_frequency_of hw rate))
      by exact Htwice.
    assert (Hratio : ratio = 131072).
    { subst ratio. fold product. rewrite Htwice.
      destruct Hrate as [-> | ->]; destruct hw; reflexivity. }
    rewrite Hratio in *. rewrite Hcorr, Hstep, Hadj.
    change (funnel 131072) with 131072 in *.
    unfold selects_no_resample. rewrite Hhigh, Hlow.
    split; [exact Hblock|]. split; [reflexivity|].
    split; destruct Hrate as [-> | ->]; destruct hw; reflexivity.
Qed.

(** The theorem at 96000 Hz and pitch 1.0 on the Wii at 48 kHz, twice the
    output frequency. *)
Lemma relative_frequency_computed_witness :
  load (replicate 48 PB.zero) (pitched_voice 96000 F32.one) = Some PB.zero
  /\ exists dram' pb',
       ansnd_update_voice_pitch HW_RVL ANSND_OUTPUT_SAMPLERATE_48KHZ
         (pitched_voice 96000 F32.one) (replicate 48 PB.zero) = Some dram'
       /\ load dram' (pitched_voice 96000 F32.one) = Some pb'
       /\ block_relative_frequency pb' = 131072
       /\ PB.filter_step pb' = 16384.
Proof.
  assert (H1 : load (replicate 48 PB.zero) (pitched_voice 96000 F32.one) = Some PB.zero)
    by reflexivity.
  split; [exact H1|].
  destruct (relative_frequency_computed HW_RVL ANSND_OUTPUT_SAMPLERATE_48KHZ
              (pitched_voice 96000 F32.one) (replicate 48 PB.zero) PB.zero H1)
    as (dram' & pb' & Hupd & Hload & _ & _ & Htwice).
  exists dram', pb'. split; [exact Hupd|]. split; [exact Hload|].
  destruct (Htwice (or_intror eq_refl) eq_refl) as (Hb & _ & Hs & _).
  split; [exact Hb | exact Hs].
Defined.

(** ** The streaming exchange slot *)

Lemma fill_stream_buffers_total (hw : platform) (pcm : PcmBuf.t) (adpcm : AdpcmBuf.t)
    (v : V.t) :
  V.stream_callback v <> None ->
  exists v1 ev,
    ansnd_fill_stream_buffers hw pcm adpcm v = Some (v1, ev)
    /\ V.parameter_block v1 = V.parameter_block v
    /\ V.flags v1 = V.flags v
    /\ V.linked_voice v1 = V.linked_voice v.
Proof.
  intros Hcb. unfold ansnd_fill_stream_buffers.
  destruct (V.stream_callback v) as [fn|]; [simpl | contradiction].
  destruct (flag_set (V.flags v) VOICE_FLAG_ADPCM);
    (destruct (_ || _); [|destruct (invalid_memory _ _)]);
    do 2 eexists; (split; [reflexivity|]); repeat split.
Qed.

Lemma stage_total (hw : platform) (pcm : PcmBuf.t) (adpcm : AdpcmBuf.t) (v : V.t) :
  V.stream_callback v <> None ->
  exists v1 ev,
    stage hw pcm adpcm v = Some (v1, ev)
    /\ V.parameter_block v1 = V.parameter_block v
    /\ V.flags v1 = V.flags v
    /\ V.linked_voice v1 = V.linked_voice v.
Proof.
  intros Hcb. unfold stage. destruct (V.next_buffer_start v =? 0).
  - now apply fill_stream_buffers_total.
  - do 2 eexists. repeat split.
Qed.

Lemma load_same_block (dram : list PB.t) (v v1 : V.t) :
  V.parameter_block v1 = V.parameter_block v -> load dram v1 = load dram v.
Proof. unfold load. now intros ->. Qed.

Lemma store_same_block (dram : list PB.t) (v v1 : V.t) (pb : PB.t) :
  V.parameter_block v1 = V.parameter_block v -> store dram v1 pb = store dram v pb.
Proof. unfold store. now intros ->. Qed.

(** For a streaming voice with a parameter block,
    [ansnd_update_stream_buffers] completes, and it writes into the
    exchange slot of the block only when the device-visible
    [next_buffer_start] reads zero in both halves.  While the slot is not
    empty no block is changed at all, and a buffer the host has staged
    stays staged in the voice.  When the slot is empty, it receives the
    staged start, end and first addresses and the host-side staging fields
    are cleared. *)
Lemma update_stream_buffers_backpressure (hw : platform) (pcm : PcmBuf.t)
    (adpcm : AdpcmBuf.t)
    (v : V.t) (dram : list PB.t) (pb : PB.t) :
  load dram v = Some pb ->
  V.stream_callback v <> None ->
  exists v1 v' dram' ev pb',
    stage hw pcm adpcm v = Some (v1, ev)
    /\ ansnd_update_stream_buffers hw pcm adpcm v dram = Some (v', dram', ev)
    /\ load dram' v' = Some pb'
    /\ (slot_empty pb = false ->
        dram' = dram /\ pb' = pb /\ v' = v1)
    /\ (slot_empty pb = true ->
        dram' = store dram v pb'
        /\ PB.next_buffer_start_high pb' = HIGH (V.next_buffer_start v1)
        /\ PB.next_buffer_start_low pb' = LOW (V.next_buffer_start v1)
        /\ PB.next_buffer_end_high pb' = HIGH (V.next_buffer_end v1)
        /\ PB.next_buffer_end_low pb' = LOW (V.next_buffer_end v1)
        /\ PB.next_buffer_current_high pb' = HIGH (V.next_buffer_first v1)
        /\ PB.next_buffer_current_low pb' = LOW (V.next_buffer_first v1)
        /\ V.next_buffer_start v' = 0
        /\ V.next_buffer_end v' = 0
        /\ V.next_buffer_first v' = 0)
    /\ (dram' <> dram -> slot_empty pb = true).
Proof.
  intros Hload Hcb.
  destruct (stage_total hw pcm adpcm v Hcb) as (v1 & ev & Hstage & Hpb & Hfl & _).
  pose proof (load_same_block dram v v1 Hpb) as Hload1. rewrite Hload in Hload1.
  unfold ansnd_update_stream_buffers. fold (stage hw pcm adpcm v). rewrite Hstage.
  cbn [mbind option_bind]. rewrite Hload1. cbn [mbind option_bind].
  fold (slot_empty pb). destruct (slot_empty pb) eqn:Hempty.
  - unfold ansnd_write_stream_buffers. rewrite Hload1. cbn [mbind option_bind]. cbv zeta.
    eexists v1, _, _, ev, _. split; [reflexivity|]. split; [reflexivity|].
    split; [erewrite load_same_block; [eapply load_store, Hload1 | now destruct v1]|].
    split; [discriminate|]. split; [|reflexivity].
    intros _. split; [now apply store_same_block|].
    destruct (flag_set (V.flags v1) VOICE_FLAG_ADPCM); repeat split.
  - exists v1, v1, dram, ev, pb. split; [reflexivity|]. split; [reflexivity|].
    split; [exact Hload1|]. split; [now intros _|]. split; [discriminate|].
    intros Hne. now contradiction Hne.
Qed.

(** ** The link relation *)

Lemma link_kept_refl (v : V.t) : link_kept v v.
Proof. now split. Qed.

Lemma link_kept_trans (v1 v2 v3 : V.t) :
  link_kept v1 v2 -> link_kept v2 v3 -> link_kept v1 v3.
Proof. intros [H1 H2] [H3 H4]. split; [congruence | auto]. Qed.

Lemma links_kept_refl (l : list V.t) : links_kept l l.
Proof. split; [reflexivity | intros; apply link_kept_refl]. Qed.

Lemma links_kept_trans (l1 l2 l3 : list V.t) :
  links_kept l1 l2 -> links_kept l2 l3 -> links_kept l1 l3.
Proof.
  intros [H1 H2] [H3 H4]. split; [congruence|].
  intros i. eapply link_kept_trans; [apply H2 | apply H4].
Qed.

Lemma links_kept_insert (l : list V.t) (k : nat) (x : V.t) :
  link_kept (l !!! k) x -> links_kept l (<[k := x]> l).
Proof.
  intros H. split; [apply length_insert|].
  intros i. rewrite list_lookup_total_insert. case_decide as Hd.
  - destruct Hd as [-> _]. exact H.
  - apply link_kept_refl.
Qed.

Lemma registry_ok_links_kept (s s' : St.t) :
  registry_ok s -> links_kept (St.ansnd_voices s) (St.ansnd_voices s') -> registry_ok s'.
Proof.
  intros [Hlen Hsym] [Hlen' Hkept]. split; [congruence|].
  intros i j Hi Hl. destruct (Hkept i) as [Hli Hui]. rewrite Hli in Hl.
  destruct (Hsym i j Hi Hl) as (Hne & Hj & Hback & Hused).
  destruct (Hkept j) as [Hlj _]. repeat split; auto. congruence.
Qed.

(** A voice updated by [f], then its linked voice by [g]. *)
Lemma links_kept_mirrored (s : St.t) (i : nat) (l : option nat) (f g : V.t -> V.t) :
  (forall v, link_kept v (f v)) ->
  (forall v, link_kept v (g v)) ->
  links_kept (St.ansnd_voices s)
    (St.ansnd_voices (on_linked l g (set_voice i (f (St.ansnd_voices s !!! i)) s))).
Proof.
  intros Hf Hg. rewrite voices_on_linked, voices_set_voice.
  destruct l as [j|].
  - eapply links_kept_trans; apply links_kept_insert; [apply Hf | apply Hg].
  - apply links_kept_insert, Hf.
Qed.

Lemma link_kept_start_flags (v : V.t) : link_kept v (start_flags v).
Proof. split; [reflexivity|]. unfold start_flags. simpl. flag_bits. now intros ->. Qed.

Lemma link_kept_stop_flags (v : V.t) : link_kept v (stop_flags v).
Proof. split; [reflexivity|]. unfold stop_flags. simpl. flag_bits. now intros ->. Qed.

Lemma link_kept_pause_flags (v : V.t) : link_kept v (pause_flags v).
Proof. split; [reflexivity|]. unfold pause_flags. simpl. flag_bits. now intros ->. Qed.

Lemma link_kept_unpause_flags (v : V.t) : link_kept v (unpause_flags v).
Proof. split; [reflexivity|]. unfold unpause_flags. simpl. flag_bits. now intros ->. Qed.

Lemma link_kept_stop_looping_flags (v : V.t) : link_kept v (stop_looping_flags v).
Proof. split; [reflexivity|]. unfold stop_looping_flags. simpl. flag_bits. now intros ->. Qed.

Lemma link_kept_pitch_flags (p : f32) (v : V.t) : link_kept v (pitch_flags p v).
Proof. split; [reflexivity|]. unfold pitch_flags. simpl. flag_bits. now intros ->. Qed.

Lemma registry_ok_voices (s s' : St.t) :
  St.ansnd_voices s' = St.ansnd_voices s -> registry_ok s -> registry_ok s'.
Proof. unfold registry_ok. now intros ->. Qed.

(** Breaking the link between [a] and [b]. *)
Lemma registry_ok_unlinked (s s' : St.t) (a b : nat) (va : V.t) :
  registry_ok s ->
  (a < 48)%nat ->
  V.linked_voice (St.ansnd_voices s !!! a) = Some b ->
  V.linked_voice va = None ->
  St.ansnd_voices s'
  = <[b := V.set_linked_voice None (<[a := va]> (St.ansnd_voices s) !!! b)]>
      (<[a := va]> (St.ansnd_voices s)) ->
  registry_ok s'.
Proof.
  intros [Hlen Hsym] Ha Hab Hva Hs'.
  destruct (Hsym a b Ha Hab) as (Hne & Hb & Hba & Hua).
  split; [rewrite Hs', !length_insert; exact Hlen|].
  assert (Hlook : forall k, St.ansnd_voices s' !!! k =
            if decide (k = b) then V.set_linked_voice None (St.ansnd_voices s !!! b)
            else if decide (k = a) then va else St.ansnd_voices s !!! k).
  { intros k. rewrite Hs'. rewrite !list_lookup_total_insert, !length_insert.
    repeat case_decide; try reflexivity; exfalso; intuition (try lia; try congruence). }
  intros i j Hi Hl. rewrite Hlook in Hl.
  destruct (decide (i = b)) as [->|Hib]; [discriminate Hl|].
  destruct (decide (i = a)) as [->|Hia]; [congruence|].
  destruct (Hsym i j Hi Hl) as (Hji & Hj & Hback & Hui).
  assert (j <> a) by (intros ->; congruence).
  assert (j <> b) by (intros ->; congruence).
  rewrite !Hlook. repeat (case_decide; try contradiction).
  repeat split; assumption.
Qed.

(** Linking two unlinked, allocated voices. *)
Lemma registry_ok_linked (s s' : St.t) (a b : nat) :
  registry_ok s ->
  a <> b -> (a < 48)%nat -> (b < 48)%nat ->
  V.linked_voice (St.ansnd_voices s !!! a) = None ->
  V.linked_voice (St.ansnd_voices s !!! b) = None ->
  flag_set (V.flags (St.ansnd_voices s !!! a)) VOICE_FLAG_USED = true ->
  flag_set (V.flags (St.ansnd_voices s !!! b)) VOICE_FLAG_USED = true ->
  St.ansnd_voices s'
  = <[b := V.set_linked_voice (Some a)
             (<[a := V.set_linked_voice (Some b) (St.ansnd_voices s !!! a)]>
                (St.ansnd_voices s) !!! b)]>
      (<[a := V.set_linked_voice (Some b) (St.ansnd_voices s !!! a)]> (St.ansnd_voices s)) ->
  registry_ok s'.
Proof.
  intros [Hlen Hsym] Hab Ha Hb Hla Hlb Hua Hub Hs'.
  split; [rewrite Hs', !length_insert; exact Hlen|].
  assert (Hlook : forall k, St.ansnd_voices s' !!! k =
            if decide (k = b) then V.set_linked_voice (Some a) (St.ansnd_voices s !!! b)
            else if decide (k = a) then V.set_linked_voice (Some b) (St.ansnd_voices s !!! a)
            else St.ansnd_voices s !!! k).
  { intros k. rewrite Hs'. rewrite !list_lookup_total_insert, !length_insert.
    repeat case_decide; try reflexivity; exfalso; intuition (try lia; try congruence). }
  intros i j Hi Hl. rewrite Hlook in Hl.
  destruct (decide (i = b)) as [->|Hib].
  { simpl in Hl. injection Hl as <-. rewrite !Hlook.
    repeat (case_decide; try contradiction; try congruence).
    repeat split; auto. }
  destruct (decide (i = a)) as [->|Hia].
  { simpl in Hl. injection Hl as <-. rewrite !Hlook.
    repeat (case_decide; try contradiction; try congruence).
    repeat split; auto. }
  destruct (Hsym i j Hi Hl) as (Hji & Hj & Hback & Hui).
  assert (j <> a) by (intros ->; congruence).
  assert (j <> b) by (intros ->; congruence).
  rewrite !Hlook. repeat (case_decide; try contradiction).
  repeat split; assumption.
Qed.

Lemma first_unused_found (vs : list V.t) (i k : Z) :
  0 <= i -> first_unused vs i = k -> i <= k ->
  (Z.to_nat (k - i) < length vs)%nat
  /\ flag_set (V.flags (vs !!! Z.to_nat (k - i))) VOICE_FLAG_USED = false.
Proof.
  revert i. induction vs as [|v vs IH]; intros i Hi Hk Hik; simpl in Hk.
  - lia.
  - destruct (flag_set (V.flags v) VOICE_FLAG_USED) eqn:Hu; simpl in Hk.
    + pose proof (first_unused_range vs (i + 1)) as Hr.
      destruct (IH (i + 1) ltac:(lia) Hk ltac:(lia)) as [Hlt Hun].
      replace (Z.to_nat (k - i)) with (S (Z.to_nat (k - (i + 1)))) by lia.
      simpl. split; [lia | exact Hun].
    + subst k. replace (Z.to_nat (i - i)) with 0%nat by lia. simpl. split; [lia | exact Hu].
Qed.

(** Splits on the next refusing check, closing the refused branch with
    [tac]. *)
Ltac refusal_by tac :=
  match goal with
  | |- context [if ?b then (?e, ?s) else _] =>
      let E := fresh "Hcheck" in destruct b eqn:E; [simpl; tac |]
  | |- context [match ?c with Some _ => _ | None => (?e, ?s) end] =>
      let E := fresh "Hcheck" in destruct c eqn:E; [| simpl; tac]
  end.

Lemma in_range_nat (voice_id : Z) :
  (voice_id <? 0) || (ANSND_MAX_VOICES <=? voice_id) = false ->
  (Z.to_nat voice_id < 48)%nat.
Proof.
  intros H. apply orb_false_iff in H as [Hlo Hhi].
  apply Z.ltb_ge in Hlo. apply Z.leb_gt in Hhi. unfold ANSND_MAX_VOICES in Hhi. lia.
Qed.

Lemma registry_ok_mirrored (s : St.t) (voice_id : Z) (f : V.t -> V.t) :
  (forall v, link_kept v (f v)) ->
  registry_ok s ->
  registry_ok (on_linked (V.linked_voice (voice s voice_id)) f
                 (set_voice (Z.to_nat voice_id) (f (voice s voice_id)) s)).
Proof.
  intros Hf Hok. eapply registry_ok_links_kept; [exact Hok|].
  unfold voice. now apply links_kept_mirrored.
Qed.

Lemma registry_ok_set_voice (s : St.t) (i : nat) (v : V.t) :
  link_kept (St.ansnd_voices s !!! i) v ->
  registry_ok s -> registry_ok (set_voice i v s).
Proof.
  intros Hv Hok. eapply registry_ok_links_kept; [exact Hok|].
  rewrite voices_set_voice. now apply links_kept_insert.
Qed.

Lemma registry_ok_zero (s : St.t) :
  St.ansnd_voices s = replicate 48 V.zero -> registry_ok s.
Proof.
  intros Hv. unfold registry_ok. rewrite Hv. split; [apply length_replicate|].
  intros i j Hi Hl. rewrite lookup_total_replicate_2 in Hl by lia. discriminate Hl.
Qed.

Lemma run_call_registry_ok (hw : platform) (c : call) (s : St.t) :
  registry_ok s -> registry_ok (snd (run_call hw c s)).
Proof.
  intros Hok. destruct c; simpl.
  - (* ansnd_initialize_samplerate *)
    unfold ansnd_initialize_samplerate. destruct (_ || _); [|exact Hok]. simpl.
    destruct (negb _); [|eapply registry_ok_voices; [|exact Hok]; now destruct s].
    apply registry_ok_zero. now destruct s.
  - (* ansnd_uninitialize *)
    unfold ansnd_uninitialize. destruct (St.ansnd_library_initialized s); [|exact Hok].
    eapply registry_ok_voices; [|exact Hok]. now destruct s.
  - (* ansnd_allocate_voice *)
    unfold ansnd_allocate_voice. repeat refusal_by ltac:(exact Hok). simpl.
    destruct Hok as [Hlen Hsym].
    change (Z.to_nat ANSND_MAX_VOICES) with 48%nat in *.
    rewrite (take_ge (St.ansnd_voices s) 48) in * by lia.
    apply Z.ltb_ge in Hcheck0.
    destruct (first_unused_found (St.ansnd_voices s) 0 _ ltac:(lia) eq_refl Hcheck0)
      as [Hlt Hun].
    rewrite Z.sub_0_r in Hlt, Hun.
    apply registry_ok_set_voice; [|now split].
    split; simpl; [|reflexivity].
    destruct (V.linked_voice _) as [j|] eqn:Hl; [|reflexivity].
    apply Hsym in Hl as (_ & _ & _ & Hu); [congruence | lia].
  - (* ansnd_deallocate_voice *)
    unfold ansnd_deallocate_voice. repeat refusal_by ltac:(exact Hok). cbv zeta.
    pose proof (in_range_nat _ Hcheck0) as Hid.
    destruct (V.linked_voice (voice s voice_id)) as [j|] eqn:Hl; cbn [snd].
    + eapply registry_ok_unlinked; [exact Hok | exact Hid | exact Hl | |].
      2: { rewrite voices_on_linked, !voices_set_voice. reflexivity. }
      reflexivity.
    + apply registry_ok_set_voice; [|exact Hok]. fold (voice s voice_id).
      split; [simpl; congruence|]. simpl. flag_bits. now intros ->.
  - (* ansnd_configure_pcm_voice *)
    unfold ansnd_configure_pcm_voice. repeat refusal_by ltac:(exact Hok). cbv zeta.
    apply registry_ok_set_voice; [|exact Hok]. fold (voice s voice_id).
    split.
    + destruct (V.linked_voice (voice s voice_id));
        destruct (PcmCfg.format t =? ANSND_VOICE_PCM_FORMAT_SIGNED_8_PCM);
        destruct (PcmCfg.format t =? ANSND_VOICE_PCM_FORMAT_SIGNED_16_PCM);
        destruct (PcmCfg.channels t =? 2);
        destruct (negb (PcmCfg.loop_start_offset t =? 0)
                  || negb (PcmCfg.loop_end_offset t =? 0));
        destruct (PcmCfg.stream_callback t); reflexivity.
    + intros _.
      destruct (V.linked_voice (voice s voice_id));
        destruct (PcmCfg.format t =? ANSND_VOICE_PCM_FORMAT_SIGNED_8_PCM);
        destruct (PcmCfg.format t =? ANSND_VOICE_PCM_FORMAT_SIGNED_16_PCM);
        destruct (PcmCfg.channels t =? 2);
        destruct (negb (PcmCfg.loop_start_offset t =? 0)
                  || negb (PcmCfg.loop_end_offset t =? 0));
        destruct (PcmCfg.stream_callback t); reflexivity.
  - (* ansnd_configure_adpcm_voice *)
    unfold ansnd_configure_adpcm_voice. repeat refusal_by ltac:(exact Hok). cbv zeta.
    repeat refusal_by ltac:(exact Hok).
    apply registry_ok_set_voice; [|exact Hok]. fold (voice s voice_id).
    split.
    + destruct (V.linked_voice (voice s voice_id));
        destruct (AdpcmCfg.adpcm_format t =? DSP_ACCL_FMT_ADPCM);
        destruct (negb (AdpcmCfg.loop_flag t =? 0));
        destruct (AdpcmCfg.stream_callback t); reflexivity.
    + intros _.
      destruct (V.linked_voice (voice s voice_id));
        destruct (AdpcmCfg.adpcm_format t =? DSP_ACCL_FMT_ADPCM);
        destruct (negb (AdpcmCfg.loop_flag t =? 0));
        destruct (AdpcmCfg.stream_callback t); reflexivity.
  - (* ansnd_link_voices *)
    unfold ansnd_link_voices. repeat refusal_by ltac:(exact Hok). cbv zeta. simpl.
    pose proof (in_range_nat _ Hcheck1) as Hid1.
    pose proof (in_range_nat _ Hcheck5) as Hid2.
    apply Z.eqb_neq in Hcheck0.
    apply negb_false_iff in Hcheck2, Hcheck6.
    apply bool_decide_eq_false in Hcheck4, Hcheck8.
    rewrite <- eq_None_not_Some in Hcheck4, Hcheck8.
    assert (Hne : Z.to_nat voice_id_1 <> Z.to_nat voice_id_2).
    { apply orb_false_iff in Hcheck1 as [H1 _], Hcheck5 as [H2 _].
      apply Z.ltb_ge in H1, H2. lia. }
    eapply registry_ok_linked;
      [exact Hok | exact Hne | exact Hid1 | exact Hid2 | exact Hcheck4 | exact Hcheck8
      | exact Hcheck2 | exact Hcheck6 |].
    rewrite !voices_set_voice. reflexivity.
  - (* ansnd_unlink_voice *)
    unfold ansnd_unlink_voice. repeat refusal_by ltac:(exact Hok).
    pose proof (in_range_nat _ Hcheck0) as Hid. cbn [snd].
    eapply registry_ok_unlinked; [exact Hok | exact Hid | exact Hcheck3 | |].
    2: { rewrite voices_on_linked, !voices_set_voice. reflexivity. }
    reflexivity.
  - unfold ansnd_start_voice. repeat refusal_by ltac:(exact Hok). simpl.
    apply registry_ok_mirrored; [apply link_kept_start_flags | exact Hok].
  - unfold ansnd_stop_voice. repeat refusal_by ltac:(exact Hok). simpl.
    apply registry_ok_mirrored; [apply link_kept_stop_flags | exact Hok].
  - unfold ansnd_pause_voice. repeat refusal_by ltac:(exact Hok). simpl.
    apply registry_ok_mirrored; [apply link_kept_pause_flags | exact Hok].
  - unfold ansnd_unpause_voice. repeat refusal_by ltac:(exact Hok). simpl.
    apply registry_ok_mirrored; [apply link_kept_unpause_flags | exact Hok].
  - unfold ansnd_stop_looping. repeat refusal_by ltac:(exact Hok). simpl.
    apply registry_ok_mirrored; [apply link_kept_stop_looping_flags | exact Hok].
  - (* ansnd_set_voice_volume *)
    unfold ansnd_set_voice_volume. repeat refusal_by ltac:(exact Hok). simpl.
    apply registry_ok_set_voice; [|exact Hok]. fold (voice s voice_id).
    split; [reflexivity|]. simpl. flag_bits. now intros ->.
  - unfold ansnd_set_voice_pitch. repeat refusal_by ltac:(exact Hok). simpl.
    apply registry_ok_mirrored; [apply link_kept_pitch_flags | exact Hok].
  - unfold ansnd_get_dsp_usage_percent. repeat refusal_by ltac:(exact Hok). exact Hok.
  - unfold ansnd_get_total_usage_percent. repeat refusal_by ltac:(exact Hok). exact Hok.
  - unfold ansnd_get_total_active_voices. repeat refusal_by ltac:(exact Hok). exact Hok.
  - eapply registry_ok_voices; [|exact Hok]. now destruct s.
Qed.

Lemma run_calls_registry_ok (hw : platform) (cs : list call) (s : St.t) :
  registry_ok s -> registry_ok (run_calls hw cs s).
Proof.
  revert s. induction cs as [|c cs IH]; intros s Hok; simpl; [exact Hok|].
  apply IH, run_call_registry_ok, Hok.
Qed.

Lemma registry_ok_initial : registry_ok initial_state.
Proof. now apply registry_ok_zero. Qed.

Lemma running_start_flags (v : V.t) :
  flag_set (V.flags (start_flags v)) VOICE_FLAG_RUNNING = true.
Proof. unfold start_flags. simpl. flag_bits. reflexivity. Qed.

(** Linking then starting: the second voice runs. *)
Lemma link_then_start (s s1 s2 : St.t) (a b : Z) :
  length (St.ansnd_voices s) = 48%nat ->
  ansnd_link_voices a b s = (ANSND_ERROR_OK, s1) ->
  ansnd_start_voice a s1 = (ANSND_ERROR_OK, s2) ->
  V.linked_voice (voice s1 a) = Some (Z.to_nat b)
  /\ V.linked_voice (voice s1 b) = Some (Z.to_nat a)
  /\ flag_set (V.flags (voice s2 a)) VOICE_FLAG_RUNNING = true
  /\ flag_set (V.flags (voice s2 b)) VOICE_FLAG_RUNNING = true.
Proof.
  intros Hlen Hlink Hstart.
  unfold ansnd_link_voices in Hlink. accepted Hlink. cbv zeta in Hlink.
  injection Hlink as <-.
  pose proof (in_range_nat _ Hcheck1) as Ha. pose proof (in_range_nat _ Hcheck5) as Hb.
  apply Z.eqb_neq in Hcheck0.
  assert (Hne : Z.to_nat a <> Z.to_nat b).
  { apply orb_false_iff in Hcheck1 as [H1 _], Hcheck5 as [H2 _].
    apply Z.ltb_ge in H1, H2. lia. }
  set (s1 := set_voice (Z.to_nat b) _ _) in *.
  assert (Hla : V.linked_voice (voice s1 a) = Some (Z.to_nat b)).
  { unfold voice, s1. rewrite !voices_set_voice.
    rewrite list_lookup_total_insert_ne by auto.
    rewrite list_lookup_total_insert_eq by lia. reflexivity. }
  assert (Hlb : V.linked_voice (voice s1 b) = Some (Z.to_nat a)).
  { unfold voice, s1. rewrite !voices_set_voice.
    rewrite list_lookup_total_insert_eq by (rewrite length_insert; lia). reflexivity. }
  assert (Hlen1 : length (St.ansnd_voices s1) = 48%nat).
  { unfold s1. rewrite !voices_set_voice, !length_insert. exact Hlen. }
  split; [exact Hla|]. split; [exact Hlb|].
  unfold ansnd_start_voice in Hstart. accepted Hstart. cbv zeta in Hstart.
  injection Hstart as <-. rewrite Hla. unfold voice.
  rewrite voices_on_linked, !voices_set_voice.
  rewrite list_lookup_total_insert_ne by auto.
  rewrite !list_lookup_total_insert_eq by (rewrite ?length_insert; lia).
  split; apply running_start_flags.
Qed.

(** Unlinking then starting: no other voice is touched. *)
Lemma unlink_then_start (s s1 : St.t) (a : Z) :
  length (St.ansnd_voices s) = 48%nat ->
  ansnd_unlink_voice a s = (ANSND_ERROR_OK, s1) ->
  forall j : nat,
    j <> Z.to_nat a ->
    St.ansnd_voices (snd (ansnd_start_voice a s1)) !!! j = St.ansnd_voices s1 !!! j.
Proof.
  intros Hlen Hun j Hj.
  unfold ansnd_unlink_voice in Hun. accepted Hun.
  destruct (V.linked_voice (voice s a)) as [b|] eqn:Hl;
    [| apply (f_equal fst) in Hun; simpl in Hun; vm_compute in Hun; discriminate Hun].
  injection Hun as <-.
  pose proof (in_range_nat _ Hcheck0) as Ha.
  set (s1 := set_voice b _ _).
  assert (Hla : V.linked_voice (voice s1 a) = None).
  { unfold voice, s1. rewrite !voices_set_voice.
    rewrite list_lookup_total_insert. case_decide as Hd.
    - reflexivity.
    - rewrite list_lookup_total_insert_eq by lia. reflexivity. }
  unfold ansnd_start_voice.
  repeat match goal with
         | |- context [if ?c then (?e, s1) else _] => destruct c; [reflexivity|]
         end.
  cbv zeta. rewrite Hla. cbn [snd on_linked]. rewrite voices_set_voice.
  now rewrite list_lookup_total_insert_ne by auto.
Qed.

(** ** What one pass of the cycle does to a voice *)

Lemma steady_refl (v : V.t) : steady v v.
Proof. repeat split; auto. Qed.

Lemma steady_trans (v1 v2 v3 : V.t) : steady v1 v2 -> steady v2 v3 -> steady v1 v3.
Proof.
  unfold steady. intros H1 H2. decompose [and] H1. decompose [and] H2.
  repeat split; try congruence. auto.
Qed.

(** Proves [steady v v'] when [v'] is [v] with some flags set or cleared
    and other fields than the steady ones assigned. *)
Ltac steady_flags :=
  unfold steady; simpl; flag_bits;
  repeat split; try reflexivity; try (intros ->; reflexivity); auto.

(** The condition, option or pair on which the value of a monadic
    expression depends first. *)
Ltac innermost m :=
  lazymatch m with
  | mbind _ ?m' => innermost m'
  | (if ?c then _ else _) => c
  | (let '(_, _) := ?p in _) => p
  | _ => m
  end.

(** Takes apart a successful monadic computation in hypothesis [H], one
    case distinction at a time. *)
Ltac step H :=
  lazymatch type of H with
  | Some _ = Some _ => fail
  | ?lhs = Some _ =>
      let m := innermost lhs in
      let E := fresh "Hstep" in
      destruct m eqn:E; cbn [mbind option_bind] in H; try discriminate H
  end.

Lemma update_voice_delay_steady (hw : platform) (rate : Z) (v v' : V.t)
    (dram dram' : list PB.t) :
  ansnd_update_voice_delay hw rate v dram = Some (v', dram') ->
  steady v v'
  /\ flag_set (V.flags v') VOICE_FLAG_INITIALIZED = flag_set (V.flags v) VOICE_FLAG_INITIALIZED
  /\ flag_set (V.flags v') VOICE_FLAG_RUNNING = flag_set (V.flags v) VOICE_FLAG_RUNNING
  /\ flag_set (V.flags v') VOICE_FLAG_UPDATED = flag_set (V.flags v) VOICE_FLAG_UPDATED.
Proof.
  unfold ansnd_update_voice_delay. cbv zeta. intros H.
  repeat step H; injection H as <- _; (split; [steady_flags|]); simpl; flag_bits;
    now repeat split.
Qed.

Lemma initialize_voice_steady (hw : platform) (rate : Z) (v v' : V.t)
    (dram dram' : list PB.t) :
  ansnd_initialize_voice hw rate v dram = Some (v', dram') ->
  steady v v'
  /\ flag_set (V.flags v') VOICE_FLAG_INITIALIZED = true
  /\ flag_set (V.flags v') VOICE_FLAG_RUNNING = flag_set (V.flags v) VOICE_FLAG_RUNNING
  /\ flag_set (V.flags v') VOICE_FLAG_UPDATED = flag_set (V.flags v) VOICE_FLAG_UPDATED.
Proof.
  unfold ansnd_initialize_voice. cbv zeta. intros H.
  do 3 step H.
  - step H.
    destruct (ansnd_update_voice_delay hw rate _ _) as [[v1 d1]|] eqn:Hd;
      [cbn [mbind option_bind] in H | discriminate H].
    apply update_voice_delay_steady in Hd as (Hs & Hi & Hr & Hu).
    step H. injection H as <- _.
    assert (Hs0 : steady v (V.set_flags (flag_or (V.flags v) VOICE_FLAG_DELAY) v))
      by steady_flags.
    assert (Hs2 : steady v1 (V.set_flags (flag_or (V.flags v1) VOICE_FLAG_INITIALIZED) v1))
      by steady_flags.
    split; [eapply steady_trans; [eapply steady_trans|]; eassumption|].
    simpl in *. flag_bits. repeat split; auto.
  - step H. injection H as <- _.
    split; [steady_flags|]. simpl. flag_bits. now repeat split.
Qed.

(** Names the first computation of a monadic hypothesis and its result. *)
Ltac first_result H v d E :=
  lazymatch type of H with
  | mbind _ ?m = Some _ =>
      destruct m as [[v d]|] eqn:E; [cbn [mbind option_bind] in H | discriminate H]
  end.

Lemma sync_voice_effect (hw : platform) (rate : Z) (v v' : V.t)
    (dram dram' : list PB.t) (ev : list event) :
  ansnd_sync_voice hw rate v dram = Some (v', dram', ev) ->
  (flag_set (V.flags v) VOICE_FLAG_ERASED = true -> v' = V.zero)
  /\ (flag_set (V.flags v) VOICE_FLAG_ERASED = false ->
      steady v v'
      /\ flag_set (V.flags v') VOICE_FLAG_INITIALIZED = true
      /\ flag_set (V.flags v') VOICE_FLAG_UPDATED = false).
Proof.
  unfold ansnd_sync_voice. intros H.
  destruct (flag_set (V.flags v) VOICE_FLAG_ERASED) eqn:He.
  - split; [intros _ | discriminate].
    unfold ansnd_erase_voice in H. step H. now injection H as <- _ _.
  - split; [discriminate | intros _]. cbv zeta in H.
    first_result H v1 d1 Hinit.
    assert (H1 : steady v v1 /\ flag_set (V.flags v1) VOICE_FLAG_INITIALIZED = true).
    { destruct (flag_set (V.flags v) VOICE_FLAG_INITIALIZED) eqn:Hi; simpl in Hinit.
      - injection Hinit as <- _. split; [apply steady_refl | exact Hi].
      - apply initialize_voice_steady in Hinit as (Hs & Hi' & _). now split. }
    destruct H1 as [Hs1 Hi1].
    first_result H v2 d2 Hpitch.
    assert (H2 : steady v1 v2).
    { destruct (flag_set (V.flags v1) VOICE_FLAG_PITCH_CHANGE).
      - do 2 step Hpitch. injection Hpitch as <- _. steady_flags.
      - injection Hpitch as <- _. apply steady_refl. }
    pose proof (steady_trans _ _ _ Hs1 H2) as Hs2.
    assert (Hi2 : flag_set (V.flags v2) VOICE_FLAG_INITIALIZED = true)
      by (now apply H2).
    step H. injection H as <- _ _.
    match goal with
    | |- steady _ (V.set_flags _ ?w) /\ _ => set (w0 := w)
    end.
    assert (Hs3 : steady v2 w0 /\ flag_set (V.flags w0) VOICE_FLAG_INITIALIZED = true).
    { subst w0. destruct (flag_set (PB.flags _) VOICE_FLAG_FINISHED);
        destruct (_ && _); (split; [steady_flags|]); simpl; flag_bits;
        rewrite ?Hi2; reflexivity. }
    destruct Hs3 as [Hs3 Hi3]. clearbody w0.
    split; [eapply steady_trans; [exact Hs2|]; eapply steady_trans; [exact Hs3|];
            steady_flags|].
    simpl. flag_bits. rewrite ?Hi3. now split.
Qed.

Lemma update_stream_buffers_steady (hw : platform) (pcm : PcmBuf.t) (adpcm : AdpcmBuf.t)
    (v v' : V.t) (dram dram' : list PB.t) (ev : list event) :
  ansnd_update_stream_buffers hw pcm adpcm v dram = Some (v', dram', ev) ->
  steady v v' /\ V.flags v' = V.flags v.
Proof.
  unfold ansnd_update_stream_buffers. intros H.
  first_result H v1 ev1 Hfill.
  assert (H1 : steady v v1 /\ V.flags v1 = V.flags v).
  { destruct (V.next_buffer_start v =? 0).
    - unfold ansnd_fill_stream_buffers in Hfill. repeat step Hfill;
        injection Hfill as <- _; (split; [steady_flags | reflexivity]).
    - injection Hfill as <- _. split; [apply steady_refl | reflexivity]. }
  destruct H1 as [Hs1 Hf1].
  do 2 step H.
  - unfold ansnd_write_stream_buffers in H. step H. injection H as <- _ _.
    split; [eapply steady_trans; [exact Hs1|]; steady_flags | exact Hf1].
  - injection H as <- _ _. now split.
Qed.

Lemma request_voice_effect (hw : platform) (inp : cycle_input) (i : nat)
    (s s' : St.t) (ev : list event) :
  ansnd_request_voice hw inp i s = Some (s', ev) ->
  (i < length (St.ansnd_voices s))%nat ->
  length (St.ansnd_voices s') = length (St.ansnd_voices s)
  /\ (forall j, j <> i -> St.ansnd_voices s' !!! j = St.ansnd_voices s !!! j)
  /\ cycled (St.ansnd_voices s !!! i) (St.ansnd_voices s' !!! i).
Proof.
  unfold ansnd_request_voice. cbv zeta. intros H Hi.
  set (v := St.ansnd_voices s !!! i) in *.
  match type of H with
  | mbind _ ?m = Some _ =>
      destruct m as [needs_sync|] eqn:Hneeds; [cbn [mbind option_bind] in H | discriminate H]
  end.
  match type of H with
  | mbind _ ?m = Some _ =>
      destruct m as [[[v1 d1] ev1]|] eqn:Hsync; [cbn [mbind option_bind] in H | discriminate H]
  end.
  assert (H1 : cycled v v1).
  { destruct needs_sync.
    - apply sync_voice_effect in Hsync as [Herased Hkept]. split.
      + intros He _. now apply Herased.
      + intros He. destruct (Hkept He) as (Hs & Hinit & _). split; [exact Hs | now intros _].
    - injection Hsync as <- _ _. split.
      + intros _ Hu. rewrite Hu in Hneeds. discriminate Hneeds.
      + intros _. split; [apply steady_refl|].
        intros Hu. rewrite Hu in Hneeds. discriminate Hneeds. }
  assert (Hfinal : exists v3,
            St.ansnd_voices s' = <[i := v3]> (St.ansnd_voices s)
            /\ (flag_set (V.flags v1) VOICE_FLAG_RUNNING = false -> v3 = v1)
            /\ steady v1 v3).
  { destruct (flag_set (V.flags v1) VOICE_FLAG_RUNNING).
    - match type of H with
      | mbind _ ?m = Some _ =>
          destruct m as [[[v2 d2] ev2]|] eqn:Hstream;
            [cbn [mbind option_bind] in H | discriminate H]
      end.
      match type of H with
      | mbind _ ?m = Some _ =>
          destruct m as [[v3 d3]|] eqn:Hdelay;
            [cbn [mbind option_bind] in H | discriminate H]
      end.
      injection H as <- _. exists v3. split; [now destruct s|]. split; [discriminate|].
      assert (steady v1 v2).
      { destruct (_ && _).
        - now apply update_stream_buffers_steady in Hstream.
        - injection Hstream as <- _ _. apply steady_refl. }
      assert (steady v2 v3).
      { destruct (flag_set (V.flags v2) VOICE_FLAG_DELAY).
        - now apply update_voice_delay_steady in Hdelay.
        - injection Hdelay as <- _. apply steady_refl. }
      eapply steady_trans; eassumption.
    - injection H as <- _. exists v1. split; [now destruct s|].
      split; [reflexivity | apply steady_refl]. }
  destruct Hfinal as (v3 & Hvoices & Hstopped & Hs3).
  rewrite Hvoices. split; [apply length_insert|]. split.
  - intros j Hj. now apply list_lookup_total_insert_ne.
  - rewrite list_lookup_total_insert_eq by exact Hi.
    destruct H1 as [Herased Hkept]. split.
    + intros He Hu. specialize (Herased He Hu). subst v1.
      now rewrite Hstopped by reflexivity.
    + intros He. destruct (Hkept He) as [Hs1 Hinit].
      split; [eapply steady_trans; eassumption|].
      intros Hu. apply Hs3. now apply Hinit.
Qed.

Lemma request_loop_effect (hw : platform) (inp : cycle_input) (n i : nat)
    (s s' : St.t) (ev : list event) :
  ansnd_request_loop hw inp n i s = Some (s', ev) ->
  (i + n <= length (St.ansnd_voices s))%nat ->
  length (St.ansnd_voices s') = length (St.ansnd_voices s)
  /\ (forall j, (j < i \/ i + n <= j)%nat ->
                St.ansnd_voices s' !!! j = St.ansnd_voices s !!! j)
  /\ (forall j, (i <= j < i + n)%nat ->
                cycled (St.ansnd_voices s !!! j) (St.ansnd_voices s' !!! j)).
Proof.
  revert i s s' ev. induction n as [|n IH]; intros i s s' ev H Hlen; simpl in H.
  - injection H as <- _. split; [reflexivity|]. split; [reflexivity | lia].
  - destruct (ansnd_request_voice hw inp i s) as [[s1 ev1]|] eqn:E1;
      [cbn [mbind option_bind] in H | discriminate H].
    destruct (ansnd_request_loop hw inp n (S i) s1) as [[s2 ev2]|] eqn:E2;
      [cbn [mbind option_bind] in H | discriminate H].
    injection H as <- _.
    apply request_voice_effect in E1 as (Hl1 & Hother1 & Hself1); [|lia].
    apply IH in E2 as (Hl2 & Hother2 & Hself2); [|lia].
    split; [congruence|]. split.
    + intros j Hj. rewrite Hother2 by lia. apply Hother1. lia.
    + intros j Hj. destruct (decide (j = i)) as [->|Hne].
      * rewrite Hother2 by lia. exact Hself1.
      * rewrite <- Hother1 by exact Hne. apply Hself2. lia.
Qed.

(** One synchronization cycle, voice by voice. *)
Lemma request_callback_effect (hw : platform) (inp : cycle_input)
    (s s' : St.t) (ev : list event) :
  ansnd_dsp_request_callback hw inp s = Some (s', ev) ->
  length (St.ansnd_voices s) = 48%nat ->
  length (St.ansnd_voices s') = 48%nat
  /\ forall j, (j < 48)%nat -> cycled (St.ansnd_voices s !!! j) (St.ansnd_voices s' !!! j).
Proof.
  unfold ansnd_dsp_request_callback. cbv zeta. intros H Hlen.
  match type of H with
  | mbind _ ?m = Some _ =>
      destruct m as [[s1 ev1]|] eqn:Hloop; [cbn [mbind option_bind] in H | discriminate H]
  end.
  injection H as <- _.
  apply request_loop_effect in Hloop as (Hl & _ & Hself);
    [|change (Z.to_nat ANSND_MAX_VOICES) with 48%nat; destruct s; simpl in *; lia].
  change (Z.to_nat ANSND_MAX_VOICES) with 48%nat in Hself.
  split; [destruct s, s1; simpl in *; congruence|].
  intros j Hj. specialize (Hself j ltac:(lia)). destruct s, s1; exact Hself.
Qed.

(** ** Allocation *)

Lemma first_unused_least (vs : list V.t) (i : Z) (k : nat) :
  (k < length vs)%nat ->
  (forall j, (j < k)%nat -> flag_set (V.flags (vs !!! j)) VOICE_FLAG_USED = true) ->
  flag_set (V.flags (vs !!! k)) VOICE_FLAG_USED = false ->
  first_unused vs i = i + Z.of_nat k.
Proof.
  revert i k. induction vs as [|v vs IH]; intros i k Hk Hbelow Hat; simpl in Hk; [lia|].
  destruct k as [|k].
  - change ((v :: vs) !!! 0%nat) with v in Hat. simpl. rewrite Hat. simpl. lia.
  - pose proof (Hbelow 0%nat ltac:(lia)) as H0.
    change ((v :: vs) !!! 0%nat) with v in H0. simpl. rewrite H0. simpl.
    rewrite (IH (i + 1) k); [lia | lia | | exact Hat].
    intros j Hj. apply (Hbelow (S j)). lia.
Qed.

Lemma first_unused_full (vs : list V.t) (i : Z) :
  (forall j, (j < length vs)%nat -> flag_set (V.flags (vs !!! j)) VOICE_FLAG_USED = true) ->
  first_unused vs i = -1.
Proof.
  revert i. induction vs as [|v vs IH]; intros i Hall; [reflexivity|].
  pose proof (Hall 0%nat ltac:(simpl; lia)) as H0.
  change ((v :: vs) !!! 0%nat) with v in H0. simpl. rewrite H0. simpl. apply IH.
  intros j Hj. apply (Hall (S j)). simpl. lia.
Qed.

(** Allocation takes the lowest slot without the USED flag. *)
Lemma allocate_least (s : St.t) (k : nat) :
  St.ansnd_library_initialized s = true ->
  length (St.ansnd_voices s) = 48%nat ->
  (k < 48)%nat ->
  (forall j, (j < k)%nat ->
             flag_set (V.flags (St.ansnd_voices s !!! j)) VOICE_FLAG_USED = true) ->
  flag_set (V.flags (St.ansnd_voices s !!! k)) VOICE_FLAG_USED = false ->
  ansnd_allocate_voice s = (Z.of_nat k, set_voice k allocated_voice s).
Proof.
  intros Hinit Hlen Hk Hbelow Hat. unfold ansnd_allocate_voice. rewrite Hinit. simpl negb.
  cbv iota. change (Z.to_nat ANSND_MAX_VOICES) with 48%nat.
  rewrite take_ge by lia.
  rewrite (first_unused_least _ 0 k) by (auto; lia). rewrite Z.add_0_l.
  destruct (Z.ltb_spec (Z.of_nat k) 0); [lia|].
  now rewrite Nat2Z.id.
Qed.

(** With every slot USED, allocation is refused. *)
Lemma allocate_full (s : St.t) :
  St.ansnd_library_initialized s = true ->
  length (St.ansnd_voices s) = 48%nat ->
  (forall j, (j < 48)%nat ->
             flag_set (V.flags (St.ansnd_voices s !!! j)) VOICE_FLAG_USED = true) ->
  ansnd_allocate_voice s = (ANSND_ERROR_ALL_VOICES_USED, s).
Proof.
  intros Hinit Hlen Hall. unfold ansnd_allocate_voice. rewrite Hinit. simpl negb.
  cbv iota. change (Z.to_nat ANSND_MAX_VOICES) with 48%nat.
  rewrite take_ge by lia.
  rewrite first_unused_full; [reflexivity|].
  intros j Hj. apply Hall. lia.
Qed.

Lemma filled_allocate (k : nat) (s : St.t) :
  filled k s -> (k < 48)%nat ->
  fst (ansnd_allocate_voice s) = Z.of_nat k /\ filled (S k) (snd (ansnd_allocate_voice s)).
Proof.
  intros (Hinit & Hlen & Hlow & Hhigh) Hk.
  rewrite (allocate_least s k); auto.
  - split; [reflexivity|]. simpl. split; [now destruct s|].
    rewrite voices_set_voice. split; [now rewrite length_insert|].
    split; intros j Hj; rewrite list_lookup_total_insert; case_decide as Hd.
    + reflexivity.
    + apply Hlow. lia.
    + lia.
    + apply Hhigh. lia.
  - intros j Hj. now rewrite Hlow.
  - rewrite Hhigh by lia. reflexivity.
Qed.

Lemma filled_allocations (hw : platform) (n k : nat) (s : St.t) :
  filled k s -> (k + n <= 48)%nat ->
  filled (k + n) (run_calls hw (repeat AllocateVoice n) s).
Proof.
  revert k s. induction n as [|n IH]; intros k s Hf Hk; simpl.
  - now rewrite Nat.add_0_r.
  - replace (k + S n)%nat with (S k + n)%nat by lia.
    apply IH; [|lia]. now destruct (filled_allocate k s Hf ltac:(lia)).
Qed.

Lemma forallb_lookup_total (f : V.t -> bool) (l : list V.t) (j : nat) :
  forallb f l = true -> (j < length l)%nat -> f (l !!! j) = true.
Proof.
  revert j. induction l as [|v l IH]; intros j Hall Hj; simpl in Hj; [lia|].
  simpl in Hall. apply andb_true_iff in Hall as [Hv Hl].
  destruct j as [|j]; [exact Hv|]. apply IH; [exact Hl | lia].
Qed.

Lemma forallb_of_lookup_total (f : V.t -> bool) (l : list V.t) :
  (forall j, (j < length l)%nat -> f (l !!! j) = true) -> forallb f l = true.
Proof.
  induction l as [|v l IH]; intros Hall; [reflexivity|]. simpl.
  apply andb_true_iff. split.
  - apply (Hall 0%nat). simpl. lia.
  - apply IH. intros j Hj. apply (Hall (S j)). simpl. lia.
Qed.

Lemma all_allocated_lookup (s : St.t) (j : nat) :
  all_allocated s = true -> (j < length (St.ansnd_voices s))%nat ->
  flag_set (V.flags (St.ansnd_voices s !!! j)) VOICE_FLAG_USED = true
  /\ flag_set (V.flags (St.ansnd_voices s !!! j)) VOICE_FLAG_ERASED = false.
Proof.
  intros Hall Hj.
  pose proof (forallb_lookup_total _ _ j Hall Hj) as H. simpl in H.
  apply andb_true_iff in H as [Hu He]. apply negb_true_iff in He. now split.
Qed.

(** The flags a successful [ansnd_deallocate_voice] leaves. *)
Lemma deallocate_flags (s : St.t) (voice_id : Z) :
  St.ansnd_library_initialized s = true ->
  length (St.ansnd_voices s) = 48%nat ->
  0 <= voice_id < ANSND_MAX_VOICES ->
  flag_set (V.flags (voice s voice_id)) VOICE_FLAG_USED = true ->
  fst (ansnd_deallocate_voice voice_id s) = ANSND_ERROR_OK
  /\ St.ansnd_library_initialized (snd (ansnd_deallocate_voice voice_id s)) = true
  /\ length (St.ansnd_voices (snd (ansnd_deallocate_voice voice_id s))) = 48%nat
  /\ forall i,
       V.flags (St.ansnd_voices (snd (ansnd_deallocate_voice voice_id s)) !!! i)
       = if decide (i = Z.to_nat voice_id)
         then flag_or (flag_or (V.flags (voice s voice_id)) VOICE_FLAG_UPDATED)
                      VOICE_FLAG_ERASED
         else V.flags (St.ansnd_voices s !!! i).
Proof.
  intros Hinit Hlen Hid Hused. unfold ANSND_MAX_VOICES in Hid.
  unfold ansnd_deallocate_voice. rewrite Hinit, Hused. simpl negb. cbv iota.
  destruct (Z.ltb_spec voice_id 0); [lia|].
  destruct (Z.leb_spec ANSND_MAX_VOICES voice_id); [unfold ANSND_MAX_VOICES in *; lia|].
  simpl orb. cbv iota zeta.
  assert (Hone : forall (x : V.t) (i : nat),
            V.flags (<[Z.to_nat voice_id := x]> (St.ansnd_voices s) !!! i)
            = if decide (i = Z.to_nat voice_id) then V.flags x
              else V.flags (St.ansnd_voices s !!! i)).
  { intros x i. destruct (decide (i = Z.to_nat voice_id)) as [->|Hne].
    - now rewrite list_lookup_total_insert_eq by lia.
    - now rewrite list_lookup_total_insert_ne by auto. }
  destruct (V.linked_voice (voice s voice_id)) as [j|]; cbn [fst snd on_linked].
  - split; [reflexivity|]. split; [now destruct s|].
    rewrite !voices_set_voice. split; [now rewrite !length_insert|].
    intros i. rewrite list_lookup_total_insert. case_decide as Hj.
    + destruct Hj as [-> _]. cbn [V.flags V.set_linked_voice].
      rewrite Hone. now destruct (decide _).
    + rewrite Hone. now destruct (decide _).
  - split; [reflexivity|]. split; [now destruct s|].
    rewrite voices_set_voice. split; [now rewrite length_insert|].
    intros i. rewrite Hone. now destruct (decide _).
Qed.

Lemma filled_initialize (output_samplerate : Z) (s : St.t) :
  St.ansnd_library_initialized s = false ->
  fst (ansnd_initialize_samplerate output_samplerate s) = ANSND_ERROR_OK ->
  filled 0 (snd (ansnd_initialize_samplerate output_samplerate s)).
Proof.
  intros Hinit Hok. unfold ansnd_initialize_samplerate in *.
  destruct (_ || _); [|vm_compute in Hok; discriminate Hok].
  cbn [snd].
  assert (Hn : negb (St.ansnd_library_initialized
                       (St.set_ansnd_output_samplerate output_samplerate s)) = true)
    by (destruct s; simpl in *; now subst).
  rewrite Hn. unfold filled.
  match goal with
  | |- context [St.ansnd_voices ?t] =>
      assert (Hv : St.ansnd_voices t = replicate 48 V.zero) by (now destruct s);
      rewrite Hv
  end.
  split; [now destruct s|]. split; [apply length_replicate|]. split; [lia|].
  intros j Hj. apply lookup_total_replicate_2. lia.
Qed.

(** X1: on a freshly initialized library the 48 first calls of
    [ansnd_allocate_voice] return the ids 0 to 47 in turn, and the 49th
    returns AllVoicesUsed.  With every voice allocated, deallocating one
    marks its slot ERASED and UPDATED and leaves it USED, so allocation is
    still refused; when the synchronization cycle that follows runs to its
    end (it faults on a voice that has no parameter block), the slot is
    free again: the next allocation returns the id that was deallocated and
    the one after it is refused. *)
Theorem allocation_after_deallocation (hw : platform) :
  (forall output_samplerate s,
     St.ansnd_library_initialized s = false ->
     fst (ansnd_initialize_samplerate output_samplerate s) = ANSND_ERROR_OK ->
     filled 0 (snd (ansnd_initialize_samplerate output_samplerate s)))
  /\ (forall s,
        filled 0 s ->
        (forall k, (k < 48)%nat ->
           fst (ansnd_allocate_voice (run_calls hw (repeat AllocateVoice k) s))
           = Z.of_nat k)
        /\ ansnd_allocate_voice (run_calls hw (repeat AllocateVoice 48) s)
           = (ANSND_ERROR_ALL_VOICES_USED, run_calls hw (repeat AllocateVoice 48) s)
        /\ St.ansnd_library_initialized (run_calls hw (repeat AllocateVoice 48) s) = true
        /\ length (St.ansnd_voices (run_calls hw (repeat AllocateVoice 48) s)) = 48%nat
        /\ all_allocated (run_calls hw (repeat AllocateVoice 48) s) = true)
  /\ (forall t voice_id,
        St.ansnd_library_initialized t = true ->
        length (St.ansnd_voices t) = 48%nat ->
        all_allocated t = true ->
        0 <= voice_id < ANSND_MAX_VOICES ->
        let t1 := snd (ansnd_deallocate_voice voice_id t) in
        fst (ansnd_deallocate_voice voice_id t) = ANSND_ERROR_OK
        /\ flag_set (V.flags (voice t1 voice_id)) VOICE_FLAG_USED = true
        /\ flag_set (V.flags (voice t1 voice_id)) VOICE_FLAG_ERASED = true
        /\ flag_set (V.flags (voice t1 voice_id)) VOICE_FLAG_UPDATED = true
        /\ ansnd_allocate_voice t1 = (ANSND_ERROR_ALL_VOICES_USED, t1)
        /\ forall inp t2 ev,
             ansnd_dsp_request_callback hw inp t1 = Some (t2, ev) ->
             fst (ansnd_allocate_voice t2) = voice_id
             /\ fst (ansnd_allocate_voice (snd (ansnd_allocate_voice t2)))
                = ANSND_ERROR_ALL_VOICES_USED).
Proof.
  split; [intros r s; apply filled_initialize|]. split.
  - intros s Hf.
    assert (Hk : forall k, (k <= 48)%nat -> filled k (run_calls hw (repeat AllocateVoice k) s)).
    { intros k Hk. apply (filled_allocations hw k 0 s Hf). lia. }
    split.
    { intros k Hk'. now destruct (filled_allocate k _ (Hk k ltac:(lia)) Hk'). }
    destruct (Hk 48%nat ltac:(lia)) as (Hinit & Hlen & Hlow & _).
    assert (Hused : forall j, (j < 48)%nat ->
              flag_set (V.flags (St.ansnd_voices (run_calls hw (repeat AllocateVoice 48) s)
                                 !!! j)) VOICE_FLAG_USED = true).
    { intros j Hj. now rewrite Hlow. }
    split; [now apply allocate_full|]. split; [exact Hinit|]. split; [exact Hlen|].
    unfold all_allocated. apply forallb_of_lookup_total.
    intros j Hj. rewrite Hlow by lia. reflexivity.
  - intros t voice_id Hinit Hlen Hall Hid t1.
    assert (Hnat : (Z.to_nat voice_id < 48)%nat) by (unfold ANSND_MAX_VOICES in Hid; lia).
    assert (Hflags : forall j, (j < 48)%nat ->
              flag_set (V.flags (St.ansnd_voices t !!! j)) VOICE_FLAG_USED = true
              /\ flag_set (V.flags (St.ansnd_voices t !!! j)) VOICE_FLAG_ERASED = false).
    { intros j Hj. apply all_allocated_lookup; [exact Hall | lia]. }
    destruct (Hflags _ Hnat) as [Hused _].
    destruct (deallocate_flags t voice_id Hinit Hlen Hid Hused)
      as (Hok & Hinit1 & Hlen1 & Hfl). fold t1 in Hinit1, Hlen1, Hfl.
    assert (Hself : V.flags (voice t1 voice_id)
                    = flag_or (flag_or (V.flags (voice t voice_id)) VOICE_FLAG_UPDATED)
                              VOICE_FLAG_ERASED).
    { unfold voice at 1. rewrite Hfl. now destruct (decide _). }
    assert (Hused1 : forall j, (j < 48)%nat ->
              flag_set (V.flags (St.ansnd_voices t1 !!! j)) VOICE_FLAG_USED = true).
    { intros j Hj. rewrite Hfl. destruct (decide _).
      - unfold voice in *. flag_bits. now rewrite Hused.
      - now apply Hflags. }
    split; [exact Hok|].
    split; [rewrite Hself; unfold voice in *; flag_bits; now rewrite Hused|].
    split; [rewrite Hself; flag_bits; reflexivity|].
    split; [rewrite Hself; flag_bits; reflexivity|].
    split; [now apply allocate_full|].
    intros inp t2 ev Hcycle.
    pose proof (request_callback_flags hw inp t1 t2 ev Hcycle) as (_ & _ & Hinit2 & _).
    rewrite Hinit1 in Hinit2.
    apply request_callback_effect in Hcycle as [Hlen2 Hcycled]; [|exact Hlen1].
    assert (Hgone : St.ansnd_voices t2 !!! Z.to_nat voice_id = V.zero).
    { destruct (Hcycled _ Hnat) as [Herased _]. apply Herased.
      - fold (voice t1 voice_id). rewrite Hself. flag_bits. reflexivity.
      - fold (voice t1 voice_id). rewrite Hself. flag_bits. reflexivity. }
    assert (Hothers : forall j, (j < 48)%nat -> j <> Z.to_nat voice_id ->
              flag_set (V.flags (St.ansnd_voices t2 !!! j)) VOICE_FLAG_USED = true).
    { intros j Hj Hne. destruct (Hcycled j Hj) as [_ Hkept].
      assert (He : flag_set (V.flags (St.ansnd_voices t1 !!! j)) VOICE_FLAG_ERASED = false).
      { rewrite Hfl. destruct (decide _); [contradiction|]. now apply Hflags. }
      destruct (Hkept He) as [(_ & _ & _ & Hu & _) _].
      rewrite Hu. now apply Hused1. }
    rewrite (allocate_least t2 (Z.to_nat voice_id)); auto.
    + split; [simpl; lia|]. cbn [snd]. rewrite allocate_full; [reflexivity | | |].
      * now destruct t2.
      * now rewrite voices_set_voice, length_insert.
      * intros j Hj. rewrite voices_set_voice, list_lookup_total_insert.
        case_decide; [reflexivity | apply Hothers; [exact Hj|]]. intros ->. lia.
    + intros j Hj. apply Hothers; lia.
    + now rewrite Hgone.
Qed.

(** The theorem at program start, and at voice 5, configured and then
    deallocated, and a quiet cycle. *)
Lemma allocation_after_deallocation_witness :
  (St.ansnd_library_initialized initial_state = false
   /\ fst (ansnd_initialize_samplerate ANSND_OUTPUT_SAMPLERATE_48KHZ initial_state)
      = ANSND_ERROR_OK
   /\ filled 0 (ansnd_initialize initial_state)
   /\ fst (ansnd_allocate_voice
             (run_calls HW_RVL (repeat AllocateVoice 47) (ansnd_initialize initial_state)))
      = 47
   /\ ansnd_allocate_voice all_voices_allocated
      = (ANSND_ERROR_ALL_VOICES_USED, all_voices_allocated))
  /\ St.ansnd_library_initialized voice_5_configured = true
  /\ length (St.ansnd_voices voice_5_configured) = 48%nat
  /\ all_allocated voice_5_configured = true
  /\ 0 <= 5 < ANSND_MAX_VOICES
  /\ exists t2 ev,
       ansnd_dsp_request_callback HW_RVL quiet_cycle
         (snd (ansnd_deallocate_voice 5 voice_5_configured)) = Some (t2, ev)
       /\ fst (ansnd_allocate_voice t2) = 5
       /\ fst (ansnd_allocate_voice (snd (ansnd_allocate_voice t2)))
          = ANSND_ERROR_ALL_VOICES_USED.
Proof.
  assert (H1 : St.ansnd_library_initialized voice_5_configured = true) by reflexivity.
  assert (H2 : length (St.ansnd_voices voice_5_configured) = 48%nat) by reflexivity.
  assert (H3 : all_allocated voice_5_configured = true) by (vm_compute; reflexivity).
  assert (H4 : 0 <= 5 < ANSND_MAX_VOICES) by (unfold ANSND_MAX_VOICES; lia).
  assert (H5 : St.ansnd_library_initialized initial_state = false) by reflexivity.
  assert (H6 : fst (ansnd_initialize_samplerate ANSND_OUTPUT_SAMPLERATE_48KHZ initial_state)
               = ANSND_ERROR_OK) by reflexivity.
  destruct (allocation_after_deallocation HW_RVL) as (Hinit & Hfill & Hcycle).
  pose proof (Hinit ANSND_OUTPUT_SAMPLERATE_48KHZ initial_state H5 H6) as H7.
  split.
  { split; [exact H5 | split; [exact H6 | split; [exact H7|]]].
    destruct (Hfill _ H7) as (Hids & Hfull & _).
    split; [exact (Hids 47%nat ltac:(lia)) | exact Hfull]. }
  split; [exact H1 | split; [exact H2 | split; [exact H3 | split; [exact H4 |]]]].
  destruct (Hcycle voice_5_configured 5 H1 H2 H3 H4) as (_ & _ & _ & _ & _ & Hafter).
  destruct (ansnd_dsp_request_callback HW_RVL quiet_cycle
              (snd (ansnd_deallocate_voice 5 voice_5_configured)))
    as [[t2 ev]|] eqn:E; [|vm_compute in E; discriminate E].
  exists t2, ev. split; [reflexivity | exact (Hafter quiet_cycle t2 ev E)].
Defined.

(** ** Starting a streaming voice *)

(** C9, as stated, fails: [ansnd_start_voice] clears INITIALIZED, which
    only the next synchronization cycle sets again, so a second start
    before that cycle is accepted like the first. *)
Lemma second_start_before_cycle_accepted :
  flag_set (V.flags (voice streaming_configured 0)) VOICE_FLAG_STREAMING = true
  /\ fst (ansnd_start_voice 0 streaming_configured) = ANSND_ERROR_OK
  /\ flag_set (V.flags (voice (snd (ansnd_start_voice 0 streaming_configured)) 0))
              VOICE_FLAG_INITIALIZED = false
  /\ fst (ansnd_start_voice 0 (snd (ansnd_start_voice 0 streaming_configured)))
     = ANSND_ERROR_OK
  /\ ANSND_ERROR_OK <> ANSND_ERROR_VOICE_NOT_CONFIGURED.
Proof. vm_compute. repeat split; discriminate. Qed.

Lemma start_flags_bits (w : V.t) :
  flag_set (V.flags (start_flags w)) VOICE_FLAG_USED = flag_set (V.flags w) VOICE_FLAG_USED
  /\ flag_set (V.flags (start_flags w)) VOICE_FLAG_CONFIGURED
     = flag_set (V.flags w) VOICE_FLAG_CONFIGURED
  /\ flag_set (V.flags (start_flags w)) VOICE_FLAG_STREAMING
     = flag_set (V.flags w) VOICE_FLAG_STREAMING
  /\ flag_set (V.flags (start_flags w)) VOICE_FLAG_ERASED
     = flag_set (V.flags w) VOICE_FLAG_ERASED
  /\ flag_set (V.flags (start_flags w)) VOICE_FLAG_UPDATED = true.
Proof. unfold start_flags. simpl. flag_bits. repeat split. Qed.

(** The voice a successful start leaves in its slot. *)
Lemma start_accepted (s s2 : St.t) (voice_id : Z) :
  length (St.ansnd_voices s) = 48%nat ->
  ansnd_start_voice voice_id s = (ANSND_ERROR_OK, s2) ->
  St.ansnd_library_initialized s2 = true
  /\ length (St.ansnd_voices s2) = 48%nat
  /\ (Z.to_nat voice_id < 48)%nat
  /\ 0 <= voice_id < ANSND_MAX_VOICES
  /\ flag_set (V.flags (voice s voice_id)) VOICE_FLAG_USED = true
  /\ flag_set (V.flags (voice s voice_id)) VOICE_FLAG_CONFIGURED = true
  /\ exists w,
       voice s2 voice_id = start_flags w
       /\ (w = voice s voice_id \/ w = start_flags (voice s voice_id)).
Proof.
  intros Hlen H. unfold ansnd_start_voice in H. accepted H. cbv zeta in H.
  injection H as <-.
  pose proof (in_range_nat _ Hcheck1) as Hid.
  apply negb_false_iff in Hcheck, Hcheck2, Hcheck3.
  split; [unfold on_linked; destruct (V.linked_voice _); now destruct s|].
  split; [rewrite voices_on_linked, voices_set_voice;
          destruct (V.linked_voice _); now rewrite ?length_insert|].
  split; [exact Hid|].
  split; [apply orb_false_iff in Hcheck1 as [Hlo Hhi];
          apply Z.ltb_ge in Hlo; apply Z.leb_gt in Hhi; lia|].
  split; [exact Hcheck2|]. split; [exact Hcheck3|].
  unfold voice at 1. rewrite voices_on_linked, voices_set_voice.
  destruct (V.linked_voice (voice s voice_id)) as [j|].
  - destruct (decide (j = Z.to_nat voice_id)) as [->|Hne].
    + rewrite list_lookup_total_insert_eq by (rewrite length_insert; lia).
      rewrite list_lookup_total_insert_eq by lia. eauto.
    + rewrite list_lookup_total_insert_ne by auto.
      rewrite list_lookup_total_insert_eq by lia. eauto.
  - rewrite list_lookup_total_insert_eq by lia. eauto.
Qed.

(** ** The exchange slot across a whole cycle *)

Lemma block_frame_refl (o : option nat) (dram : list PB.t) : block_frame o dram dram.
Proof. now intros k _. Qed.

Lemma block_frame_trans (o : option nat) (d1 d2 d3 : list PB.t) :
  block_frame o d1 d2 -> block_frame o d2 d3 -> block_frame o d1 d3.
Proof. intros H1 H2 k Hk. now rewrite H2, H1. Qed.

Lemma slot_kept_refl (o : option nat) (dram : list PB.t) : slot_kept o dram dram.
Proof. intros p pb _ H. now exists pb. Qed.

Lemma slot_kept_trans (o : option nat) (d1 d2 d3 : list PB.t) :
  slot_kept o d1 d2 -> slot_kept o d2 d3 -> slot_kept o d1 d3.
Proof.
  intros H1 H2 p pb Ho Hp. destruct (H1 p pb Ho Hp) as (pb2 & Hp2 & Hw2).
  destruct (H2 p pb2 Ho Hp2) as (pb3 & Hp3 & Hw3). exists pb3. split; congruence.
Qed.

Lemma block_frame_store (dram : list PB.t) (v : V.t) (pb : PB.t) :
  block_frame (V.parameter_block v) dram (store dram v pb).
Proof.
  intros k Hk. unfold store. destruct (V.parameter_block v) as [p|]; [|reflexivity].
  apply list_lookup_insert_ne. congruence.
Qed.

Lemma slot_kept_store (dram : list PB.t) (v : V.t) (pb pb' : PB.t) :
  load dram v = Some pb ->
  exchange_words pb' = exchange_words pb ->
  slot_kept (V.parameter_block v) dram (store dram v pb').
Proof.
  intros Hload Hw p pb0 Ho Hp. unfold load, store in *. rewrite Ho in *.
  exists pb'. split; [|congruence].
  apply list_lookup_insert_eq. eapply lookup_lt_Some, Hp.
Qed.

Lemma update_voice_pitch_blocks (hw : platform) (rate : Z) (v : V.t)
    (dram dram' : list PB.t) :
  ansnd_update_voice_pitch hw rate v dram = Some dram' ->
  block_frame (V.parameter_block v) dram dram'
  /\ slot_kept (V.parameter_block v) dram dram'.
Proof.
  unfold ansnd_update_voice_pitch. cbv zeta. intros H. step H. injection H as <-.
  split; [apply block_frame_store | eapply slot_kept_store; [eassumption | reflexivity]].
Qed.

Lemma update_voice_delay_blocks (hw : platform) (rate : Z) (v v' : V.t)
    (dram dram' : list PB.t) :
  ansnd_update_voice_delay hw rate v dram = Some (v', dram') ->
  block_frame (V.parameter_block v) dram dram'
  /\ slot_kept (V.parameter_block v) dram dram'.
Proof.
  unfold ansnd_update_voice_delay. cbv zeta. intros H. repeat step H; injection H as _ <-.
  - split; [apply block_frame_store | eapply slot_kept_store; [eassumption | reflexivity]].
  - split; [apply block_frame_refl | apply slot_kept_refl].
Qed.

Lemma initialize_voice_blocks (hw : platform) (rate : Z) (v v' : V.t)
    (dram dram' : list PB.t) :
  ansnd_initialize_voice hw rate v dram = Some (v', dram') ->
  block_frame (V.parameter_block v) dram dram'.
Proof.
  unfold ansnd_initialize_voice. cbv zeta. intros H.
  do 2 step H.
  apply update_voice_pitch_blocks in Hstep0 as [Hf0 _].
  pose proof (block_frame_trans _ _ _ _ (block_frame_store dram v PB.zero) Hf0) as Hf1.
  step H.
  - step H.
    destruct (ansnd_update_voice_delay hw rate _ _) as [[v1 d1]|] eqn:Hd;
      [cbn [mbind option_bind] in H | discriminate H].
    pose proof (update_voice_delay_steady _ _ _ _ _ _ Hd) as ((Hpb & _) & _).
    apply update_voice_delay_blocks in Hd as [Hf2 _]. simpl in Hf2, Hpb.
    step H. injection H as _ <-.
    eapply block_frame_trans; [exact Hf1|]. eapply block_frame_trans.
    + apply block_frame_store.
    + eapply block_frame_trans; [exact Hf2|]. rewrite <- Hpb. apply block_frame_store.
  - step H. injection H as _ <-.
    eapply block_frame_trans; [exact Hf1 | apply block_frame_store].
Qed.

Lemma slot_empty_words (pb pb' : PB.t) :
  exchange_words pb' = exchange_words pb -> slot_empty pb' = slot_empty pb.
Proof.
  unfold exchange_words, slot_empty, PB.next_buffer_start_high, PB.next_buffer_start_low.
  intros H. injection H as -> -> _. reflexivity.
Qed.

Lemma sync_voice_blocks (hw : platform) (rate : Z) (v v' : V.t)
    (dram dram' : list PB.t) (ev : list event) :
  ansnd_sync_voice hw rate v dram = Some (v', dram', ev) ->
  block_frame (V.parameter_block v) dram dram'
  /\ (flag_set (V.flags v) VOICE_FLAG_ERASED = false ->
      flag_set (V.flags v) VOICE_FLAG_INITIALIZED = true ->
      slot_kept (V.parameter_block v) dram dram').
Proof.
  unfold ansnd_sync_voice. intros H.
  destruct (flag_set (V.flags v) VOICE_FLAG_ERASED) eqn:He.
  - unfold ansnd_erase_voice in H. step H. injection H as _ <- _.
    split; [apply block_frame_store | discriminate].
  - cbv zeta in H.
    first_result H v1 d1 Hinit.
    assert (H1 : V.parameter_block v1 = V.parameter_block v
                 /\ block_frame (V.parameter_block v) dram d1
                 /\ (flag_set (V.flags v) VOICE_FLAG_INITIALIZED = true ->
                     slot_kept (V.parameter_block v) dram d1)).
    { destruct (flag_set (V.flags v) VOICE_FLAG_INITIALIZED) eqn:Hi; simpl in Hinit.
      - injection Hinit as <- <-.
        split; [reflexivity|]. split; [apply block_frame_refl|]. intros _. apply slot_kept_refl.
      - pose proof (initialize_voice_steady _ _ _ _ _ _ Hinit) as ((Hpb & _) & _).
        apply initialize_voice_blocks in Hinit. split; [exact Hpb|]. split; [exact Hinit|].
        discriminate. }
    destruct H1 as (Hpb1 & Hf1 & Hk1).
    first_result H v2 d2 Hpitch.
    assert (H2 : V.parameter_block v2 = V.parameter_block v1
                 /\ block_frame (V.parameter_block v1) d1 d2
                 /\ slot_kept (V.parameter_block v1) d1 d2).
    { destruct (flag_set (V.flags v1) VOICE_FLAG_PITCH_CHANGE).
      - step Hpitch. step Hpitch. injection Hpitch as <- <-.
        apply update_voice_pitch_blocks in Hstep0 as [Hfp Hkp].
        split; [reflexivity|]. split.
        + eapply block_frame_trans; [apply block_frame_store | exact Hfp].
        + eapply slot_kept_trans; [|exact Hkp].
          eapply slot_kept_store; [eassumption|].
          match goal with |- context [if ?c then _ else _] => destruct c end; reflexivity.
      - injection Hpitch as <- <-.
        split; [reflexivity|]. split; [apply block_frame_refl | apply slot_kept_refl]. }
    destruct H2 as (Hpb2 & Hf2 & Hk2). rewrite Hpb1 in Hf2, Hk2.
    step H. injection H as _ <- _.
    match goal with
    | |- context [store d2 ?w ?pb'] =>
        assert (Hpbw : V.parameter_block w = V.parameter_block v2);
        [| assert (Hwords : exchange_words pb' = exchange_words t);
           [| rewrite (store_same_block d2 v2 w pb' Hpbw) ] ]
    end.
    { destruct (flag_set (PB.flags t) VOICE_FLAG_FINISHED); destruct (_ && _); reflexivity. }
    { destruct (flag_set (PB.flags t) VOICE_FLAG_FINISHED);
        repeat match goal with
               | |- context [if ?c then _ else _] => destruct c
               end; reflexivity. }
    assert (Hload2 : load d2 v2 = Some t) by exact Hstep.
    split.
    + eapply block_frame_trans; [exact Hf1|]. eapply block_frame_trans; [exact Hf2|].
      rewrite <- Hpb1, <- Hpb2. apply block_frame_store.
    + intros _ Hi. eapply slot_kept_trans; [exact (Hk1 Hi)|].
      eapply slot_kept_trans; [exact Hk2|].
      rewrite <- Hpb1, <- Hpb2. eapply slot_kept_store; [exact Hload2 | exact Hwords].
Qed.

Lemma update_stream_buffers_blocks (hw : platform) (pcm : PcmBuf.t) (adpcm : AdpcmBuf.t)
    (v v' : V.t) (dram dram' : list PB.t) (ev : list event) :
  ansnd_update_stream_buffers hw pcm adpcm v dram = Some (v', dram', ev) ->
  block_frame (V.parameter_block v) dram dram'
  /\ (forall pb, load dram v = Some pb -> slot_empty pb = false -> dram' = dram).
Proof.
  unfold ansnd_update_stream_buffers. intros H.
  first_result H v1 ev1 Hfill.
  assert (Hpb : V.parameter_block v1 = V.parameter_block v).
  { destruct (V.next_buffer_start v =? 0).
    - unfold ansnd_fill_stream_buffers in Hfill.
      repeat step Hfill; now injection Hfill as <- _.
    - now injection Hfill as <- _. }
  step H. fold (slot_empty t) in H. destruct (slot_empty t) eqn:Hempty.
  - unfold ansnd_write_stream_buffers in H. rewrite Hstep in H.
    cbn [mbind option_bind] in H. injection H as _ <- _.
    split; [rewrite <- Hpb; apply block_frame_store|].
    intros pb Hload Hne. rewrite (load_same_block dram v v1 Hpb) in Hstep. congruence.
  - injection H as _ <- _. split; [apply block_frame_refl | reflexivity].
Qed.

(** One iteration of the cycle touches only the block of its voice, and
    keeps the exchange words of that block when the voice is initialized,
    not marked for erasure, and the slot is not empty. *)
Lemma request_voice_blocks (hw : platform) (inp : cycle_input) (i : nat)
    (s s' : St.t) (ev : list event) :
  ansnd_request_voice hw inp i s = Some (s', ev) ->
  block_frame (V.parameter_block (St.ansnd_voices s !!! i))
              (St.ansnd_dsp_dram_image s) (St.ansnd_dsp_dram_image s')
  /\ (flag_set (V.flags (St.ansnd_voices s !!! i)) VOICE_FLAG_ERASED = false ->
      flag_set (V.flags (St.ansnd_voices s !!! i)) VOICE_FLAG_INITIALIZED = true ->
      forall p pb,
        V.parameter_block (St.ansnd_voices s !!! i) = Some p ->
        St.ansnd_dsp_dram_image s !! p = Some pb ->
        slot_empty pb = false ->
        exists pb',
          St.ansnd_dsp_dram_image s' !! p = Some pb'
          /\ exchange_words pb' = exchange_words pb).
Proof.
  unfold ansnd_request_voice. cbv zeta. intros H.
  set (v := St.ansnd_voices s !!! i) in *. set (dram := St.ansnd_dsp_dram_image s) in *.
  match type of H with
  | mbind _ ?m = Some _ =>
      destruct m as [needs_sync|] eqn:Hneeds; [cbn [mbind option_bind] in H | discriminate H]
  end.
  match type of H with
  | mbind _ ?m = Some _ =>
      destruct m as [[[v1 d1] ev1]|] eqn:Hsync; [cbn [mbind option_bind] in H | discriminate H]
  end.
  assert (H1 : block_frame (V.parameter_block v) dram d1
               /\ (v1 = V.zero \/ V.parameter_block v1 = V.parameter_block v)
               /\ (flag_set (V.flags v) VOICE_FLAG_ERASED = false ->
                   flag_set (V.flags v) VOICE_FLAG_INITIALIZED = true ->
                   V.parameter_block v1 = V.parameter_block v
                   /\ slot_kept (V.parameter_block v) dram d1)).
  { destruct needs_sync.
    - pose proof (sync_voice_effect _ _ _ _ _ _ _ Hsync) as [Herased Hkept].
      apply sync_voice_blocks in Hsync as [Hf Hk]. split; [exact Hf|]. split.
      + destruct (flag_set (V.flags v) VOICE_FLAG_ERASED) eqn:He.
        * left. now apply Herased.
        * right. now destruct (Hkept eq_refl) as ((Hpb & _) & _).
      + intros He Hi. destruct (Hkept He) as ((Hpb & _) & _). split; [exact Hpb | now apply Hk].
    - injection Hsync as <- <- _. split; [apply block_frame_refl|].
      split; [now right|]. intros _ _. split; [reflexivity | apply slot_kept_refl]. }
  destruct H1 as (Hf1 & Hcase & Hk1).
  assert (Hrest : block_frame (V.parameter_block v) d1 (St.ansnd_dsp_dram_image s')
                  /\ (V.parameter_block v1 = V.parameter_block v ->
                      forall p pb, V.parameter_block v = Some p -> d1 !! p = Some pb ->
                      slot_empty pb = false ->
                      exists pb', St.ansnd_dsp_dram_image s' !! p = Some pb'
                                  /\ exchange_words pb' = exchange_words pb)).
  { destruct (flag_set (V.flags v1) VOICE_FLAG_RUNNING) eqn:Hrun.
    - assert (Hpb1 : V.parameter_block v1 = V.parameter_block v).
      { destruct Hcase as [-> | Hpb]; [discriminate Hrun | exact Hpb]. }
      match type of H with
      | mbind _ ?m = Some _ =>
          destruct m as [[[v2 d2] ev2]|] eqn:Hstream;
            [cbn [mbind option_bind] in H | discriminate H]
      end.
      match type of H with
      | mbind _ ?m = Some _ =>
          destruct m as [[v3 d3]|] eqn:Hdelay;
            [cbn [mbind option_bind] in H | discriminate H]
      end.
      injection H as <- _.
      assert (Hs2 : V.parameter_block v2 = V.parameter_block v1
                    /\ block_frame (V.parameter_block v1) d1 d2
                    /\ (forall pb, load d1 v1 = Some pb -> slot_empty pb = false -> d2 = d1)).
      { destruct (_ && _).
        - pose proof (update_stream_buffers_steady _ _ _ _ _ _ _ _ Hstream) as ((Hpb & _) & _).
          apply update_stream_buffers_blocks in Hstream as [Hf Hk]. now repeat split.
        - injection Hstream as <- <- _. split; [reflexivity|].
          split; [apply block_frame_refl | reflexivity]. }
      destruct Hs2 as (Hpb2 & Hf2 & Hk2).
      assert (Hs3 : block_frame (V.parameter_block v2) d2 d3
                    /\ slot_kept (V.parameter_block v2) d2 d3).
      { destruct (flag_set (V.flags v2) VOICE_FLAG_DELAY).
        - now apply update_voice_delay_blocks in Hdelay.
        - injection Hdelay as _ <-. split; [apply block_frame_refl | apply slot_kept_refl]. }
      destruct Hs3 as (Hf3 & Hk3).
      rewrite Hpb2, Hpb1 in Hf3, Hk3. rewrite Hpb1 in Hf2.
      assert (Hd : St.ansnd_dsp_dram_image
                     (St.set_ansnd_active_voices (to_u32 (St.ansnd_active_voices s + 1))
                        (St.set_ansnd_dsp_dram_image d3 (set_voice i v3 s))) = d3)
        by (now destruct s).
      rewrite Hd. split; [eapply block_frame_trans; eassumption|].
      intros _ p pb Hp Hlook Hne.
      assert (Hload1 : load d1 v1 = Some pb) by (unfold load; now rewrite Hpb1, Hp).
      rewrite (Hk2 pb Hload1 Hne) in *. now apply (Hk3 p pb Hp Hlook).
    - injection H as <- _.
      assert (Hd : St.ansnd_dsp_dram_image (St.set_ansnd_dsp_dram_image d1 (set_voice i v1 s))
                   = d1) by (now destruct s).
      rewrite Hd. split; [apply block_frame_refl|].
      intros _ p pb _ Hlook _. now exists pb. }
  destruct Hrest as (Hf2 & Hk2).
  split; [eapply block_frame_trans; eassumption|].
  intros He Hi p pb Hp Hlook Hne.
  destruct (Hk1 He Hi) as (Hpb1 & Hkept).
  destruct (Hkept p pb Hp Hlook) as (pb1 & Hlook1 & Hw1).
  destruct (Hk2 Hpb1 p pb1 Hp Hlook1) as (pb2 & Hlook2 & Hw2).
  - rewrite (slot_empty_words pb pb1 Hw1). exact Hne.
  - exists pb2. split; [exact Hlook2 | congruence].
Qed.

(** ** Every voice on its own block *)

(** The two configure functions are the only writers of [parameter_block];
    they store the address of the block of the same index. *)
Lemma own_blocks_insert (l : list V.t) (i : nat) (v : V.t) :
  (forall p, V.parameter_block v = Some p -> p = i) ->
  own_blocks l -> own_blocks (<[i := v]> l).
Proof.
  intros Hv Hl j p. rewrite list_lookup_total_insert.
  case_decide as Hj; [destruct Hj as [-> _]; apply Hv | apply Hl].
Qed.

Lemma own_blocks_update (l : list V.t) (i : nat) (v : V.t) :
  V.parameter_block v = V.parameter_block (l !!! i) ->
  own_blocks l -> own_blocks (<[i := v]> l).
Proof.
  intros Hv Hl. apply own_blocks_insert; [|exact Hl].
  intros p. rewrite Hv. apply Hl.
Qed.

Lemma own_blocks_zero (n : nat) : own_blocks (replicate n V.zero).
Proof.
  intros j p. rewrite list_lookup_total_alt.
  destruct (replicate n V.zero !! j) eqn:E; [|discriminate].
  apply lookup_replicate_1 in E as [-> _]. discriminate.
Qed.

(** Peels one update of the voice array off the goal. *)
Ltac own_step Hok :=
  lazymatch goal with
  | |- own_blocks (St.ansnd_voices (set_voice _ _ _)) => rewrite voices_set_voice
  | |- own_blocks (St.ansnd_voices (on_linked _ _ _)) => rewrite voices_on_linked
  | |- own_blocks (match ?l with Some _ => _ | None => _ end) => destruct l
  | |- own_blocks (<[_ := _]> _) =>
      first [apply own_blocks_update; [reflexivity|]
            |apply own_blocks_insert; [intros p Hp|]]
  | |- own_blocks _ => exact Hok
  end.

(** A call that only rewrites fields other than [parameter_block]. *)
Ltac own_call Hok :=
  repeat refusal_by ltac:(exact Hok); cbv zeta; cbn [snd]; unfold voice;
  repeat own_step Hok.

(** Every public call keeps every voice on its own block. *)
Lemma run_call_own_blocks (hw : platform) (c : call) (s : St.t) :
  own_blocks (St.ansnd_voices s) ->
  own_blocks (St.ansnd_voices (snd (run_call hw c s))).
Proof.
  intros Hok. destruct c; cbn [run_call snd].
  - unfold ansnd_initialize_samplerate. destruct (_ || _); [|exact Hok]. simpl.
    destruct (negb _); [|now destruct s].
    match goal with
    | |- own_blocks ?l => replace l with (replicate 48 V.zero) by (now destruct s)
    end.
    apply own_blocks_zero.
  - unfold ansnd_uninitialize. destruct (St.ansnd_library_initialized s); [|exact Hok].
    now destruct s.
  - unfold ansnd_allocate_voice. repeat refusal_by ltac:(exact Hok). cbn [snd].
    repeat own_step Hok. discriminate Hp.
  - unfold ansnd_deallocate_voice. repeat refusal_by ltac:(exact Hok). cbv zeta.
    unfold voice. destruct (V.linked_voice _); cbn [snd]; repeat own_step Hok.
  - unfold ansnd_configure_pcm_voice. repeat refusal_by ltac:(exact Hok). cbv zeta.
    cbn [snd]. repeat own_step Hok.
    repeat match type of Hp with context [if ?c then _ else _] => destruct c end;
    simpl in Hp; congruence.
  - unfold ansnd_configure_adpcm_voice. repeat refusal_by ltac:(exact Hok). cbv zeta.
    repeat refusal_by ltac:(exact Hok).
    cbn [snd]. repeat own_step Hok.
    repeat match type of Hp with context [if ?c then _ else _] => destruct c end;
    simpl in Hp; congruence.
  - unfold ansnd_link_voices. own_call Hok.
  - unfold ansnd_unlink_voice. own_call Hok.
  - unfold ansnd_start_voice. own_call Hok.
  - unfold ansnd_stop_voice. own_call Hok.
  - unfold ansnd_pause_voice. own_call Hok.
  - unfold ansnd_unpause_voice. own_call Hok.
  - unfold ansnd_stop_looping. own_call Hok.
  - unfold ansnd_set_voice_volume. own_call Hok.
  - unfold ansnd_set_voice_pitch. own_call Hok.
  - unfold ansnd_get_dsp_usage_percent. repeat refusal_by ltac:(exact Hok). exact Hok.
  - unfold ansnd_get_total_usage_percent. repeat refusal_by ltac:(exact Hok). exact Hok.
  - unfold ansnd_get_total_active_voices. repeat refusal_by ltac:(exact Hok). exact Hok.
  - now destruct s.
Qed.

Lemma run_calls_own_blocks (hw : platform) (cs : list call) (s : St.t) :
  own_blocks (St.ansnd_voices s) -> own_blocks (St.ansnd_voices (run_calls hw cs s)).
Proof.
  revert s. induction cs as [|c cs IH]; intros s Hok; [exact Hok|].
  apply IH, run_call_own_blocks, Hok.
Qed.

(** An iteration of the cycle leaves [parameter_block] as it is, or clears
    the whole voice. *)
Lemma request_voice_pointer (hw : platform) (inp : cycle_input) (i : nat)
    (s s' : St.t) (ev : list event) :
  ansnd_request_voice hw inp i s = Some (s', ev) ->
  exists v', St.ansnd_voices s' = <[i := v']> (St.ansnd_voices s)
    /\ (v' = V.zero \/ V.parameter_block v' = V.parameter_block (St.ansnd_voices s !!! i)).
Proof.
  unfold ansnd_request_voice. cbv zeta. intros H.
  set (v := St.ansnd_voices s !!! i) in *.
  match type of H with
  | mbind _ ?m = Some _ =>
      destruct m as [needs_sync|] eqn:Hneeds; [cbn [mbind option_bind] in H | discriminate H]
  end.
  match type of H with
  | mbind _ ?m = Some _ =>
      destruct m as [[[v1 d1] ev1]|] eqn:Hsync; [cbn [mbind option_bind] in H | discriminate H]
  end.
  assert (H1 : v1 = V.zero \/ V.parameter_block v1 = V.parameter_block v).
  { destruct needs_sync.
    - apply sync_voice_effect in Hsync as [Herased Hkept].
      destruct (flag_set (V.flags v) VOICE_FLAG_ERASED).
      + left. now apply Herased.
      + right. now destruct (Hkept eq_refl) as ((Hpb & _) & _).
    - injection Hsync as <- _ _. now right. }
  destruct (flag_set (V.flags v1) VOICE_FLAG_RUNNING) eqn:Hrun.
  - match type of H with
    | mbind _ ?m = Some _ =>
        destruct m as [[[v2 d2] ev2]|] eqn:Hstream;
          [cbn [mbind option_bind] in H | discriminate H]
    end.
    match type of H with
    | mbind _ ?m = Some _ =>
        destruct m as [[v3 d3]|] eqn:Hdelay;
          [cbn [mbind option_bind] in H | discriminate H]
    end.
    injection H as <- _. exists v3. split; [now destruct s|]. right.
    assert (Hpb1 : V.parameter_block v1 = V.parameter_block v).
    { destruct H1 as [-> | Hpb]; [discriminate Hrun | exact Hpb]. }
    assert (Hpb2 : V.parameter_block v2 = V.parameter_block v1).
    { destruct (_ && _).
      - now apply update_stream_buffers_steady in Hstream as ((Hpb & _) & _).
      - now injection Hstream as <- _ _. }
    assert (Hpb3 : V.parameter_block v3 = V.parameter_block v2).
    { destruct (flag_set (V.flags v2) VOICE_FLAG_DELAY).
      - now apply update_voice_delay_steady in Hdelay as ((Hpb & _) & _).
      - now injection Hdelay as <- _. }
    congruence.
  - injection H as <- _. exists v1. split; [now destruct s | exact H1].
Qed.

Lemma request_voice_own_blocks (hw : platform) (inp : cycle_input) (i : nat)
    (s s' : St.t) (ev : list event) :
  ansnd_request_voice hw inp i s = Some (s', ev) ->
  own_blocks (St.ansnd_voices s) -> own_blocks (St.ansnd_voices s').
Proof.
  intros H Hok. apply request_voice_pointer in H as (v' & -> & Hv').
  apply own_blocks_insert; [|exact Hok].
  intros p Hp. destruct Hv' as [-> | Hpb]; [discriminate Hp|].
  rewrite Hpb in Hp. now apply Hok.
Qed.

Lemma request_loop_own_blocks (hw : platform) (inp : cycle_input) (n i : nat)
    (s s' : St.t) (ev : list event) :
  ansnd_request_loop hw inp n i s = Some (s', ev) ->
  own_blocks (St.ansnd_voices s) -> own_blocks (St.ansnd_voices s').
Proof.
  revert i s s' ev. induction n as [|n IH]; intros i s s' ev H Hok; simpl in H.
  - now injection H as <- _.
  - destruct (ansnd_request_voice hw inp i s) as [[s1 ev1]|] eqn:E1;
      [cbn [mbind option_bind] in H | discriminate H].
    destruct (ansnd_request_loop hw inp n (S i) s1) as [[s2 ev2]|] eqn:E2;
      [cbn [mbind option_bind] in H | discriminate H].
    injection H as <- _.
    eapply IH; [exact E2|]. eapply request_voice_own_blocks; eassumption.
Qed.

(** A synchronization cycle keeps every voice on its own block. *)
Lemma request_callback_own_blocks (hw : platform) (inp : cycle_input)
    (s s' : St.t) (ev : list event) :
  ansnd_dsp_request_callback hw inp s = Some (s', ev) ->
  own_blocks (St.ansnd_voices s) -> own_blocks (St.ansnd_voices s').
Proof.
  unfold ansnd_dsp_request_callback. cbv zeta. intros H Hok.
  match type of H with
  | mbind _ ?m = Some _ =>
      destruct m as [[s1 ev1]|] eqn:Hloop; [cbn [mbind option_bind] in H | discriminate H]
  end.
  injection H as <- _.
  apply request_loop_own_blocks in Hloop; [|now destruct s].
  now destruct s1.
Qed.

(** The loop over the voices [i .. i+n-1], block by block: the blocks
    outside that range are not written, and a block inside it keeps its
    exchange words when its voice is initialized, not marked for erasure,
    and the slot is not empty. *)
Lemma request_loop_blocks (hw : platform) (inp : cycle_input) (n i : nat)
    (s s' : St.t) (ev : list event) :
  ansnd_request_loop hw inp n i s = Some (s', ev) ->
  (i + n <= length (St.ansnd_voices s))%nat ->
  own_blocks (St.ansnd_voices s) ->
  (forall k, (k < i \/ i + n <= k)%nat ->
             St.ansnd_dsp_dram_image s' !! k = St.ansnd_dsp_dram_image s !! k)
  /\ (forall j pb, (i <= j < i + n)%nat ->
        flag_set (V.flags (St.ansnd_voices s !!! j)) VOICE_FLAG_ERASED = false ->
        flag_set (V.flags (St.ansnd_voices s !!! j)) VOICE_FLAG_INITIALIZED = true ->
        V.parameter_block (St.ansnd_voices s !!! j) = Some j ->
        St.ansnd_dsp_dram_image s !! j = Some pb ->
        slot_empty pb = false ->
        exists pb',
          St.ansnd_dsp_dram_image s' !! j = Some pb'
          /\ exchange_words pb' = exchange_words pb).
Proof.
  revert i s s' ev. induction n as [|n IH]; intros i s s' ev H Hlen Hok; simpl in H.
  - injection H as <- _. split; [reflexivity | lia].
  - destruct (ansnd_request_voice hw inp i s) as [[s1 ev1]|] eqn:E1;
      [cbn [mbind option_bind] in H | discriminate H].
    destruct (ansnd_request_loop hw inp n (S i) s1) as [[s2 ev2]|] eqn:E2;
      [cbn [mbind option_bind] in H | discriminate H].
    injection H as <- _.
    pose proof (request_voice_own_blocks _ _ _ _ _ _ E1 Hok) as Hok1.
    pose proof (request_voice_effect _ _ _ _ _ _ E1 ltac:(lia)) as (Hl1 & Hother1 & _).
    apply request_voice_blocks in E1 as (Hf1 & Hk1).
    apply IH in E2 as (Hf2 & Hk2); [|lia|exact Hok1].
    assert (Hframe : forall k, k <> i ->
              St.ansnd_dsp_dram_image s1 !! k = St.ansnd_dsp_dram_image s !! k).
    { intros k Hk. apply Hf1. intros Heq. symmetry in Heq. apply Hok in Heq. lia. }
    split.
    + intros k Hk. rewrite Hf2 by lia. apply Hframe. lia.
    + intros j pb Hj He Hi Hp Hlook Hne. destruct (decide (j = i)) as [->|Hji].
      * destruct (Hk1 He Hi i pb Hp Hlook Hne) as (pb1 & Hlook1 & Hw1).
        exists pb1. split; [|exact Hw1]. rewrite Hf2 by lia. exact Hlook1.
      * apply Hk2; rewrite ?Hother1 by exact Hji; try assumption; [lia|].
        now rewrite Hframe.
Qed.

(** A whole cycle keeps the exchange words of the block of an initialized
    voice whose slot is not empty. *)
Lemma request_callback_blocks (hw : platform) (inp : cycle_input)
    (s s' : St.t) (ev : list event) (j : nat) (pb : PB.t) :
  ansnd_dsp_request_callback hw inp s = Some (s', ev) ->
  length (St.ansnd_voices s) = 48%nat ->
  own_blocks (St.ansnd_voices s) ->
  flag_set (V.flags (St.ansnd_voices s !!! j)) VOICE_FLAG_ERASED = false ->
  flag_set (V.flags (St.ansnd_voices s !!! j)) VOICE_FLAG_INITIALIZED = true ->
  load (St.ansnd_dsp_dram_image s) (St.ansnd_voices s !!! j) = Some pb ->
  slot_empty pb = false ->
  exists pb',
    load (St.ansnd_dsp_dram_image s') (St.ansnd_voices s' !!! j) = Some pb'
    /\ exchange_words pb' = exchange_words pb.
Proof.
  unfold ansnd_dsp_request_callback. cbv zeta. intros H Hlen Hok He Hi Hload Hne.
  match type of H with
  | mbind _ (ansnd_request_loop _ _ _ _ ?t) = Some _ => set (s0 := t) in H
  end.
  assert (Hv0 : St.ansnd_voices s0 = St.ansnd_voices s) by (now destruct s).
  assert (Hd0 : St.ansnd_dsp_dram_image s0 = St.ansnd_dsp_dram_image s) by (now destruct s).
  clearbody s0. rewrite <- Hv0 in Hlen, Hok, He, Hi, Hload. rewrite <- Hd0 in Hload.
  clear Hv0 Hd0 s.
  match type of H with
  | mbind _ ?m = Some _ =>
      destruct m as [[s1 ev1]|] eqn:Hloop; [cbn [mbind option_bind] in H | discriminate H]
  end.
  injection H as <- _.
  assert (Hp : V.parameter_block (St.ansnd_voices s0 !!! j) = Some j).
  { unfold load in Hload. destruct (V.parameter_block _) as [p|] eqn:Hp; [|discriminate].
    now rewrite (Hok j p Hp). }
  assert (Hj : (j < 48)%nat).
  { destruct (decide (j < 48)%nat) as [|Hge]; [assumption|].
    rewrite list_lookup_total_alt, lookup_ge_None_2 in Hp by lia. discriminate Hp. }
  unfold load in Hload. rewrite Hp in Hload.
  change (Z.to_nat ANSND_MAX_VOICES) with 48%nat in Hloop.
  pose proof (request_loop_effect _ _ _ _ _ _ _ Hloop ltac:(lia)) as (_ & _ & Hself).
  apply request_loop_blocks in Hloop as (_ & Hkept); [|lia|exact Hok].
  destruct (Hkept j pb ltac:(lia) He Hi Hp Hload Hne) as (pb' & Hlook' & Hw).
  destruct (Hself j ltac:(lia)) as [_ Hsteady].
  destruct (Hsteady He) as ((Hpb' & _) & _).
  exists pb'. split; [|exact Hw].
  unfold load.
  replace (St.ansnd_voices (St.set_ansnd_total_process_time _ s1)) with (St.ansnd_voices s1)
    by (now destruct s1).
  replace (St.ansnd_dsp_dram_image (St.set_ansnd_total_process_time _ s1))
    with (St.ansnd_dsp_dram_image s1) by (now destruct s1).
  now rewrite Hpb', Hp.
Qed.

Lemma own_blocks_initial : own_blocks (St.ansnd_voices initial_state).
Proof. apply (own_blocks_zero 48). Qed.

(** C2, amended: the streaming exchange slot is written only when it reads
    empty.  First, at the step of the cycle that serves a streaming voice:
    [ansnd_update_stream_buffers] completes on every streaming voice that
    has a parameter block; it writes the staged start, end and first
    addresses into the slot, and clears the host-side staging fields, when
    the device-visible [next_buffer_start] reads zero in both halves; when
    it does not, no block is changed at all and the staged buffer stays in
    the voice.  Second, across a whole synchronization cycle: in any state
    in which every voice points to its own block, a voice that is
    INITIALIZED when the cycle begins and not marked for erasure, and whose
    slot is not empty, finds after the cycle the nine words of its slot as
    they were, so the buffer in flight is not overwritten and at most one
    is pending at the cycle boundary. *)
Theorem stream_exchange_backpressure (hw : platform) :
  (forall (pcm : PcmBuf.t) (adpcm : AdpcmBuf.t) (v : V.t) (dram : list PB.t) (pb : PB.t),
     load dram v = Some pb ->
     V.stream_callback v <> None ->
     exists v1 v' dram' ev pb',
       stage hw pcm adpcm v = Some (v1, ev)
       /\ ansnd_update_stream_buffers hw pcm adpcm v dram = Some (v', dram', ev)
       /\ load dram' v' = Some pb'
       /\ (slot_empty pb = false ->
           dram' = dram /\ pb' = pb /\ v' = v1)
       /\ (slot_empty pb = true ->
           dram' = store dram v pb'
           /\ PB.next_buffer_start_high pb' = HIGH (V.next_buffer_start v1)
           /\ PB.next_buffer_start_low pb' = LOW (V.next_buffer_start v1)
           /\ PB.next_buffer_end_high pb' = HIGH (V.next_buffer_end v1)
           /\ PB.next_buffer_end_low pb' = LOW (V.next_buffer_end v1)
           /\ PB.next_buffer_current_high pb' = HIGH (V.next_buffer_first v1)
           /\ PB.next_buffer_current_low pb' = LOW (V.next_buffer_first v1)
           /\ V.next_buffer_start v' = 0
           /\ V.next_buffer_end v' = 0
           /\ V.next_buffer_first v' = 0)
       /\ (dram' <> dram -> slot_empty pb = true))
  /\ (forall (inp : cycle_input) (s s' : St.t) (ev : list event) (j : nat) (pb : PB.t),
       length (St.ansnd_voices s) = 48%nat ->
       own_blocks (St.ansnd_voices s) ->
       flag_set (V.flags (St.ansnd_voices s !!! j)) VOICE_FLAG_ERASED = false ->
       flag_set (V.flags (St.ansnd_voices s !!! j)) VOICE_FLAG_INITIALIZED = true ->
       load (St.ansnd_dsp_dram_image s) (St.ansnd_voices s !!! j) = Some pb ->
       slot_empty pb = false ->
       ansnd_dsp_request_callback hw inp s = Some (s', ev) ->
       exists pb',
         load (St.ansnd_dsp_dram_image s') (St.ansnd_voices s' !!! j) = Some pb'
         /\ exchange_words pb' = exchange_words pb).
Proof.
  split.
  - intros pcm adpcm v dram pb. apply update_stream_buffers_backpressure.
  - intros inp s s' ev j pb Hlen Hok He Hi Hload Hne H.
    eapply request_callback_blocks; eassumption.
Qed.

(** The theorem at a staged voice whose slot is occupied, and at voice 0
    of a stream in flight: the second cycle calls the callback again and
    leaves the slot at 0x2000. *)
Lemma stream_exchange_backpressure_witness :
  (load occupied_dram streaming_voice = Some (PB.set_w38 0x1000 PB.zero)
   /\ V.stream_callback streaming_voice <> None
   /\ ansnd_update_stream_buffers HW_RVL PcmBuf.zero AdpcmBuf.zero streaming_voice
        occupied_dram = Some (streaming_voice, occupied_dram, []))
  /\ length (St.ansnd_voices stream_in_flight) = 48%nat
  /\ own_blocks (St.ansnd_voices stream_in_flight)
  /\ flag_set (V.flags (St.ansnd_voices stream_in_flight !!! 0%nat)) VOICE_FLAG_ERASED = false
  /\ flag_set (V.flags (St.ansnd_voices stream_in_flight !!! 0%nat)) VOICE_FLAG_INITIALIZED
     = true
  /\ exists pb s' ev pb',
       load (St.ansnd_dsp_dram_image stream_in_flight)
            (St.ansnd_voices stream_in_flight !!! 0%nat) = Some pb
       /\ slot_start pb = 0x2000
       /\ slot_empty pb = false
       /\ ansnd_dsp_request_callback HW_RVL feeding_cycle stream_in_flight = Some (s', ev)
       /\ load (St.ansnd_dsp_dram_image s') (St.ansnd_voices s' !!! 0%nat) = Some pb'
       /\ exchange_words pb' = exchange_words pb.
Proof.
  destruct (stream_exchange_backpressure HW_RVL) as [Hstep Hcycle].
  assert (H1 : load occupied_dram streaming_voice = Some (PB.set_w38 0x1000 PB.zero))
    by reflexivity.
  assert (H2 : V.stream_callback streaming_voice <> None) by discriminate.
  split.
  { split; [exact H1 | split; [exact H2 |]].
    destruct (Hstep PcmBuf.zero AdpcmBuf.zero streaming_voice occupied_dram _ H1 H2)
      as (v1 & v' & dram' & ev & pb' & Hstage & Hupd & _ & Hfull & _).
    destruct (Hfull eq_refl) as (-> & _ & ->).
    injection Hstage as <- <-. exact Hupd. }
  assert (Hlen : length (St.ansnd_voices stream_in_flight) = 48%nat)
    by (vm_compute; reflexivity).
  assert (Hok : own_blocks (St.ansnd_voices stream_in_flight)).
  { unfold stream_in_flight.
    destruct (ansnd_dsp_request_callback HW_RVL feeding_cycle stream_started)
      as [[s1 ev1]|] eqn:E1.
    - eapply request_callback_own_blocks; [exact E1|].
      apply run_calls_own_blocks, own_blocks_initial.
    - apply run_calls_own_blocks, own_blocks_initial. }
  assert (He : flag_set (V.flags (St.ansnd_voices stream_in_flight !!! 0%nat))
                 VOICE_FLAG_ERASED = false) by (vm_compute; reflexivity).
  assert (Hi : flag_set (V.flags (St.ansnd_voices stream_in_flight !!! 0%nat))
                 VOICE_FLAG_INITIALIZED = true) by (vm_compute; reflexivity).
  split; [exact Hlen | split; [exact Hok | split; [exact He | split; [exact Hi |]]]].
  destruct (load (St.ansnd_dsp_dram_image stream_in_flight)
              (St.ansnd_voices stream_in_flight !!! 0%nat)) as [pb|] eqn:Hload;
    [|vm_compute in Hload; discriminate Hload].
  assert (Hstart : slot_start pb = 0x2000).
  { vm_compute in Hload. injection Hload as <-. reflexivity. }
  assert (Hne : slot_empty pb = false).
  { vm_compute in Hload. injection Hload as <-. reflexivity. }
  destruct (ansnd_dsp_request_callback HW_RVL feeding_cycle stream_in_flight)
    as [[s' ev]|] eqn:E; [|vm_compute in E; discriminate E].
  destruct (Hcycle feeding_cycle stream_in_flight s' ev 0%nat pb Hlen Hok He Hi Hload Hne E)
    as (pb' & Hload' & Hw).
  exists pb, s', ev, pb'. repeat split; assumption.
Defined.

(** * Further properties *)

(** ** Reading the fields of the records *)

(** Reads the fields of voices and blocks built by the setters, and nothing
    else. *)
Ltac fields :=
  cbn [
      PB.set_sample_buffer PB.set_words_10 PB.set_right_volume PB.set_left_volume
      PB.set_relative_frequency_high PB.set_relative_frequency_low PB.set_delay PB.set_flags
      PB.set_sample_buffer_index PB.set_sample_buffer_wrapping PB.set_filter_step
      PB.set_filter_step_512 PB.set_correction_factor PB.set_accelerator_format
      PB.set_accelerator_start_high PB.set_accelerator_start_low PB.set_accelerator_end_high
      PB.set_accelerator_end_low PB.set_accelerator_current_high PB.set_accelerator_current_low
      PB.set_initial_predictor_scale PB.set_initial_sample_history_1
      PB.set_initial_sample_history_2 PB.set_accelerator_gain PB.set_w37 PB.set_w38 PB.set_w39
      PB.set_w3A PB.set_w3B PB.set_w3C PB.set_w3D PB.set_w3E PB.set_w3F PB.loop_start_high
      PB.loop_start_low PB.loop_predictor_scale PB.loop_sample_history_1
      PB.loop_sample_history_2 PB.next_buffer_start_high PB.next_buffer_start_low
      PB.next_buffer_end_high PB.next_buffer_end_low PB.next_buffer_current_high
      PB.next_buffer_current_low PB.next_buffer_predictor_scale PB.next_buffer_sample_history_1
      PB.next_buffer_sample_history_2 PB.sample_buffer PB.words_10 PB.right_volume
      PB.left_volume PB.relative_frequency_high PB.relative_frequency_low PB.count_low PB.delay
      PB.flags PB.sample_buffer_index PB.sample_buffer_wrapping PB.filter_step
      PB.filter_step_512 PB.correction_factor PB.accelerator_format PB.accelerator_start_high
      PB.accelerator_start_low PB.accelerator_end_high PB.accelerator_end_low
      PB.accelerator_current_high PB.accelerator_current_low PB.initial_predictor_scale
      PB.initial_sample_history_1 PB.initial_sample_history_2 PB.accelerator_gain PB.w37 PB.w38
      PB.w39 PB.w3A PB.w3B PB.w3C PB.w3D PB.w3E PB.w3F
      V.set_samplerate V.set_pitch V.set_delay V.set_flags V.set_left_volume V.set_right_volume
      V.set_decode_coefficients V.set_accelerator_format V.set_accelerator_gain
      V.set_ram_buffer_start V.set_ram_buffer_end V.set_ram_buffer_first
      V.set_initial_predictor_scale V.set_initial_sample_history_1
      V.set_initial_sample_history_2 V.set_un_w0 V.set_un_w4 V.set_un_h8 V.set_un_h10
      V.set_un_h12 V.set_un_h14 V.set_un_h16 V.set_parameter_block V.set_linked_voice
      V.set_voice_callback V.set_stream_callback V.set_user_pointer V.loop_start V.loop_end
      V.loop_predictor_scale V.loop_sample_history_1 V.loop_sample_history_2
      V.next_buffer_start V.next_buffer_end V.next_buffer_first V.next_buffer_predictor_scale
      V.next_buffer_sample_history_1 V.next_buffer_sample_history_2 V.set_loop_start
      V.set_loop_end V.set_loop_predictor_scale V.set_loop_sample_history_1
      V.set_loop_sample_history_2 V.set_next_buffer_start V.set_next_buffer_end
      V.set_next_buffer_first V.set_next_buffer_predictor_scale
      V.set_next_buffer_sample_history_1 V.set_next_buffer_sample_history_2 V.samplerate
      V.pitch V.delay V.flags V.left_volume V.right_volume V.decode_coefficients
      V.accelerator_format V.accelerator_gain V.ram_buffer_start V.ram_buffer_end
      V.ram_buffer_first V.initial_predictor_scale V.initial_sample_history_1
      V.initial_sample_history_2 V.un_w0 V.un_w4 V.un_h8 V.un_h10 V.un_h12 V.un_h14 V.un_h16
      V.parameter_block V.linked_voice V.voice_callback V.stream_callback V.user_pointer
      negb andb orb xorb fst snd].

Ltac fields_in H :=
  cbn [
      PB.set_sample_buffer PB.set_words_10 PB.set_right_volume PB.set_left_volume
      PB.set_relative_frequency_high PB.set_relative_frequency_low PB.set_delay PB.set_flags
      PB.set_sample_buffer_index PB.set_sample_buffer_wrapping PB.set_filter_step
      PB.set_filter_step_512 PB.set_correction_factor PB.set_accelerator_format
      PB.set_accelerator_start_high PB.set_accelerator_start_low PB.set_accelerator_end_high
      PB.set_accelerator_end_low PB.set_accelerator_current_high PB.set_accelerator_current_low
      PB.set_initial_predictor_scale PB.set_initial_sample_history_1
      PB.set_initial_sample_history_2 PB.set_accelerator_gain PB.set_w37 PB.set_w38 PB.set_w39
      PB.set_w3A PB.set_w3B PB.set_w3C PB.set_w3D PB.set_w3E PB.set_w3F PB.loop_start_high
      PB.loop_start_low PB.loop_predictor_scale PB.loop_sample_history_1
      PB.loop_sample_history_2 PB.next_buffer_start_high PB.next_buffer_start_low
      PB.next_buffer_end_high PB.next_buffer_end_low PB.next_buffer_current_high
      PB.next_buffer_current_low PB.next_buffer_predictor_scale PB.next_buffer_sample_history_1
      PB.next_buffer_sample_history_2 PB.sample_buffer PB.words_10 PB.right_volume
      PB.left_volume PB.relative_frequency_high PB.relative_frequency_low PB.count_low PB.delay
      PB.flags PB.sample_buffer_index PB.sample_buffer_wrapping PB.filter_step
      PB.filter_step_512 PB.correction_factor PB.accelerator_format PB.accelerator_start_high
      PB.accelerator_start_low PB.accelerator_end_high PB.accelerator_end_low
      PB.accelerator_current_high PB.accelerator_current_low PB.initial_predictor_scale
      PB.initial_sample_history_1 PB.initial_sample_history_2 PB.accelerator_gain PB.w37 PB.w38
      PB.w39 PB.w3A PB.w3B PB.w3C PB.w3D PB.w3E PB.w3F
      V.set_samplerate V.set_pitch V.set_delay V.set_flags V.set_left_volume V.set_right_volume
      V.set_decode_coefficients V.set_accelerator_format V.set_accelerator_gain
      V.set_ram_buffer_start V.set_ram_buffer_end V.set_ram_buffer_first
      V.set_initial_predictor_scale V.set_initial_sample_history_1
      V.set_initial_sample_history_2 V.set_un_w0 V.set_un_w4 V.set_un_h8 V.set_un_h10
      V.set_un_h12 V.set_un_h14 V.set_un_h16 V.set_parameter_block V.set_linked_voice
      V.set_voice_callback V.set_stream_callback V.set_user_pointer V.loop_start V.loop_end
      V.loop_predictor_scale V.loop_sample_history_1 V.loop_sample_history_2
      V.next_buffer_start V.next_buffer_end V.next_buffer_first V.next_buffer_predictor_scale
      V.next_buffer_sample_history_1 V.next_buffer_sample_history_2 V.set_loop_start
      V.set_loop_end V.set_loop_predictor_scale V.set_loop_sample_history_1
      V.set_loop_sample_history_2 V.set_next_buffer_start V.set_next_buffer_end
      V.set_next_buffer_first V.set_next_buffer_predictor_scale
      V.set_next_buffer_sample_history_1 V.set_next_buffer_sample_history_2 V.samplerate
      V.pitch V.delay V.flags V.left_volume V.right_volume V.decode_coefficients
      V.accelerator_format V.accelerator_gain V.ram_buffer_start V.ram_buffer_end
      V.ram_buffer_first V.initial_predictor_scale V.initial_sample_history_1
      V.initial_sample_history_2 V.un_w0 V.un_w4 V.un_h8 V.un_h10 V.un_h12 V.un_h14 V.un_h16
      V.parameter_block V.linked_voice V.voice_callback V.stream_callback V.user_pointer
      negb andb orb xorb fst snd] in H.

(** ** Nibble addresses, allocation and deallocation *)

(** X2: [SAMPLES_TO_NIBBLES] turns a sample index below 14 * 2^28 into the
    nibble address of that sample in 16-nibble ADPCM frames: the frame is
    [x / 14], the nibble inside it [x mod 14 + 2], past the two header
    nibbles, and the conversion is strictly increasing, without wrapping
    in the 32-bit word. *)
Theorem samples_to_nibbles_addressing (x : Z) :
  0 <= x < 14 * 2 ^ 28 ->
  SAMPLES_TO_NIBBLES x = 16 * (x / 14) + x mod 14 + 2
  /\ SAMPLES_TO_NIBBLES x / 16 = x / 14
  /\ SAMPLES_TO_NIBBLES x mod 16 = x mod 14 + 2
  /\ 2 <= SAMPLES_TO_NIBBLES x mod 16 <= 15
  /\ (forall y, x < y < 14 * 2 ^ 28 -> SAMPLES_TO_NIBBLES x < SAMPLES_TO_NIBBLES y).
Proof.
  intros Hx.
  assert (Hform : forall z, 0 <= z < 14 * 2 ^ 28 ->
            SAMPLES_TO_NIBBLES z = 16 * (z / 14) + z mod 14 + 2).
  { intros z Hz. unfold SAMPLES_TO_NIBBLES, to_u32.
    pose proof (Z.mod_pos_bound z 14 ltac:(lia)).
    assert (z / 14 < 2 ^ 28) by (apply Z.div_lt_upper_bound; lia).
    assert (0 <= z / 14) by (apply Z.div_pos; lia).
    rewrite Z.mod_small by lia. lia. }
  pose proof (Z.mod_pos_bound x 14 ltac:(lia)) as Hm.
  rewrite (Hform x Hx).
  assert (Hdiv : (16 * (x / 14) + x mod 14 + 2) / 16 = x / 14).
  { symmetry. apply (Z.div_unique _ 16 _ (x mod 14 + 2)); lia. }
  assert (Hmod : (16 * (x / 14) + x mod 14 + 2) mod 16 = x mod 14 + 2).
  { symmetry. apply (Z.mod_unique _ 16 (x / 14)); lia. }
  split; [reflexivity|]. split; [exact Hdiv|]. split; [exact Hmod|].
  split; [lia|].
  intros y Hy. rewrite (Hform y) by lia.
  pose proof (Z.mod_pos_bound y 14 ltac:(lia)) as Hmy.
  pose proof (Z.div_mod x 14 ltac:(lia)). pose proof (Z.div_mod y 14 ltac:(lia)).
  assert (x / 14 <= y / 14) by (apply Z.div_le_mono; lia).
  lia.
Qed.

Lemma samples_to_nibbles_addressing_witness :
  0 <= 100 < 14 * 2 ^ 28
  /\ SAMPLES_TO_NIBBLES 100 = 116
  /\ 100 < 112 < 14 * 2 ^ 28
  /\ SAMPLES_TO_NIBBLES 100 < SAMPLES_TO_NIBBLES 112.
Proof.
  assert (H : 0 <= 100 < 14 * 2 ^ 28) by lia.
  assert (H' : 100 < 112 < 14 * 2 ^ 28) by lia.
  split; [exact H|].
  destruct (samples_to_nibbles_addressing 100 H) as (Hx & _ & _ & _ & Hmono).
  split; [rewrite Hx; reflexivity | split; [exact H' | exact (Hmono 112 H')]].
Defined.

(** X3: in an initialized library [ansnd_allocate_voice] returns the
    lowest slot whose voice does not carry USED and leaves there a cleared
    voice with USED alone, touching nothing else; when all 48 slots carry
    USED it returns AllVoicesUsed and changes nothing. *)
Theorem allocate_lowest_free (s : St.t) :
  St.ansnd_library_initialized s = true ->
  length (St.ansnd_voices s) = 48%nat ->
  (exists k : nat,
     (k < 48)%nat
     /\ flag_set (V.flags (St.ansnd_voices s !!! k)) VOICE_FLAG_USED = false
     /\ (forall j, (j < k)%nat ->
           flag_set (V.flags (St.ansnd_voices s !!! j)) VOICE_FLAG_USED = true)
     /\ ansnd_allocate_voice s
        = (Z.of_nat k, set_voice k (V.set_flags VOICE_FLAG_USED V.zero) s))
  \/ ((forall j, (j < 48)%nat ->
         flag_set (V.flags (St.ansnd_voices s !!! j)) VOICE_FLAG_USED = true)
      /\ ansnd_allocate_voice s = (ANSND_ERROR_ALL_VOICES_USED, s)).
Proof.
  intros Hinit Hlen.
  assert (Hscan : forall n : nat, (n <= 48)%nat ->
            (exists k : nat, (k < n)%nat
               /\ flag_set (V.flags (St.ansnd_voices s !!! k)) VOICE_FLAG_USED = false
               /\ forall j, (j < k)%nat ->
                    flag_set (V.flags (St.ansnd_voices s !!! j)) VOICE_FLAG_USED = true)
            \/ (forall j, (j < n)%nat ->
                  flag_set (V.flags (St.ansnd_voices s !!! j)) VOICE_FLAG_USED = true)).
  { induction n as [|n IH]; intros Hn; [right; lia|].
    destruct (IH ltac:(lia)) as [(k & Hk & Hfree & Hused) | Hall].
    - left. exists k. split; [lia | now split].
    - destruct (flag_set (V.flags (St.ansnd_voices s !!! n)) VOICE_FLAG_USED) eqn:E.
      + right. intros j Hj. destruct (decide (j = n)) as [->|]; [exact E | apply Hall; lia].
      + left. exists n. split; [lia | now split]. }
  destruct (Hscan 48%nat ltac:(lia)) as [(k & Hk & Hfree & Hused) | Hall].
  - left. exists k. split; [exact Hk|]. split; [exact Hfree|]. split; [exact Hused|].
    now apply allocate_least.
  - right. split; [exact Hall | now apply allocate_full].
Qed.

Lemma set_voice_same (s : St.t) (i : nat) :
  set_voice i (St.ansnd_voices s !!! i) s = s.
Proof.
  unfold set_voice, St.set_ansnd_voices.
  destruct s as [a b c d e f g h i' j k l vs dram]; simpl. f_equal.
  destruct (decide (i < length vs)%nat) as [Hi|Hi].
  - apply list_insert_id. now apply list_lookup_lookup_total_lt.
  - apply list_insert_ge. lia.
Qed.

(** X4: an accepted [ansnd_deallocate_voice] leaves the voice USED,
    marked ERASED and UPDATED, and unlinked; a second deallocation before
    the next cycle is accepted again and changes nothing. *)
Theorem deallocate_twice (s s1 : St.t) (voice_id : Z) :
  length (St.ansnd_voices s) = 48%nat ->
  ansnd_deallocate_voice voice_id s = (ANSND_ERROR_OK, s1) ->
  flag_set (V.flags (voice s1 voice_id)) VOICE_FLAG_USED = true
  /\ flag_set (V.flags (voice s1 voice_id)) VOICE_FLAG_ERASED = true
  /\ flag_set (V.flags (voice s1 voice_id)) VOICE_FLAG_UPDATED = true
  /\ V.linked_voice (voice s1 voice_id) = None
  /\ ansnd_deallocate_voice voice_id s1 = (ANSND_ERROR_OK, s1).
Proof.
  intros Hlen H. unfold ansnd_deallocate_voice in H. accepted H.
  apply orb_false_iff in Hcheck0 as [Hlo Hhi].
  apply Z.ltb_ge in Hlo. apply Z.leb_gt in Hhi. unfold ANSND_MAX_VOICES in Hhi.
  apply negb_false_iff in Hcheck, Hcheck1.
  cbv zeta in H.
  assert (Hv1 : exists w,
            voice s1 voice_id = w
            /\ V.flags w = flag_or (flag_or (V.flags (voice s voice_id)) VOICE_FLAG_UPDATED)
                                   VOICE_FLAG_ERASED
            /\ V.linked_voice w = None
            /\ St.ansnd_library_initialized s1 = true).
  { destruct (V.linked_voice (voice s voice_id)) as [j|] eqn:Hl; injection H as <-;
      eexists; (split; [reflexivity|]).
    - unfold voice. rewrite ?voices_on_linked, ?voices_set_voice.
      rewrite list_lookup_total_insert.
      case_decide as Hj.
      + split; [|split; [reflexivity | now destruct s]]. simpl.
        destruct Hj as [<- Hj]. rewrite length_insert in Hj.
        rewrite list_lookup_total_insert_eq by exact Hj. reflexivity.
      + rewrite list_lookup_total_insert_eq by (rewrite ?length_insert; lia).
        split; [reflexivity | split; [reflexivity | now destruct s]].
    - unfold voice. rewrite voices_set_voice, list_lookup_total_insert_eq by (rewrite ?length_insert; lia).
      split; [reflexivity | split; [exact Hl | now destruct s]]. }
  destruct Hv1 as (w & Hw & Hfl & Hlk & Hinit1).
  rewrite Hw, Hfl, Hlk.
  assert (Hu : flag_set (flag_or (flag_or (V.flags (voice s voice_id)) VOICE_FLAG_UPDATED)
                                 VOICE_FLAG_ERASED) VOICE_FLAG_USED = true).
  { flag_bits. rewrite Hcheck1. reflexivity. }
  split; [exact Hu|]. split; [flag_bits; reflexivity|]. split; [flag_bits; reflexivity|].
  split; [reflexivity|].
  unfold ansnd_deallocate_voice. rewrite Hinit1. cbn [negb].
  assert (Hr : (voice_id <? 0) || (ANSND_MAX_VOICES <=? voice_id) = false)
    by (apply orb_false_iff; split; [apply Z.ltb_ge | apply Z.leb_gt]; unfold ANSND_MAX_VOICES; lia).
  rewrite Hr, Hw, Hfl, Hu. cbn [negb]. rewrite Hlk. cbn [V.flags V.set_flags].
  f_equal. cbn [V.flags V.set_flags].
  assert (Hsame : flag_or (flag_or (V.flags w) VOICE_FLAG_UPDATED) VOICE_FLAG_ERASED
                  = V.flags w).
  { rewrite Hfl. unfold flag_or. rewrite <- !Z.lor_assoc. reflexivity. }
  rewrite <- Hfl, Hsame.
  replace (V.set_flags (V.flags w) (V.set_flags _ w)) with w by (now destruct w).
  subst w. apply set_voice_same.
Qed.

(** ** What a configuration leaves in the voice *)

(** X5: an accepted [ansnd_configure_pcm_voice] or
    [ansnd_configure_adpcm_voice] resets the state of the voice: it is USED,
    CONFIGURED and UPDATED, and neither RUNNING, PAUSED, INITIALIZED,
    ERASED, FINISHED, DELAY nor PITCH_CHANGE, whatever it was before (a
    running voice is stopped, a deallocated one is revived); it points at
    the block of its own index and keeps its link.  No other voice and no
    block is touched. *)
Theorem configure_resets_voice (hw : platform) (s s' : St.t) (voice_id : Z) :
  length (St.ansnd_voices s) = 48%nat ->
  (exists c, ansnd_configure_pcm_voice hw voice_id (Some c) s = (ANSND_ERROR_OK, s'))
  \/ (exists c, ansnd_configure_adpcm_voice hw voice_id (Some c) s = (ANSND_ERROR_OK, s')) ->
  0 <= voice_id < ANSND_MAX_VOICES
  /\ just_configured (voice s' voice_id)
  /\ V.parameter_block (voice s' voice_id) = Some (Z.to_nat voice_id)
  /\ V.linked_voice (voice s' voice_id) = V.linked_voice (voice s voice_id)
  /\ (forall j, j <> Z.to_nat voice_id -> St.ansnd_voices s' !!! j = St.ansnd_voices s !!! j)
  /\ St.ansnd_dsp_dram_image s' = St.ansnd_dsp_dram_image s.
Proof.
  intros Hlen [[c H] | [c H]].
  - unfold ansnd_configure_pcm_voice in H. accepted H.
    apply orb_false_iff in Hcheck0 as [Hlo Hhi].
    apply Z.ltb_ge in Hlo. apply Z.leb_gt in Hhi. unfold ANSND_MAX_VOICES in *.
    cbv zeta in H. injection H as <-.
    split; [lia|].
    rewrite voice_set_voice_eq by (rewrite Hlen; lia).
    rewrite voices_set_voice.
    split; [|split; [|split; [|split; [|now destruct s]]]].
    + unfold just_configured.
      destruct (V.linked_voice (voice s voice_id));
        destruct (PcmCfg.format c =? ANSND_VOICE_PCM_FORMAT_SIGNED_8_PCM);
        destruct (PcmCfg.format c =? ANSND_VOICE_PCM_FORMAT_SIGNED_16_PCM);
        destruct (PcmCfg.channels c =? 2);
        destruct (PcmCfg.stream_callback c);
        destruct (negb (PcmCfg.loop_start_offset c =? 0)
                  || negb (PcmCfg.loop_end_offset c =? 0));
        repeat split; reflexivity.
    + destruct (V.linked_voice (voice s voice_id));
        destruct (PcmCfg.format c =? ANSND_VOICE_PCM_FORMAT_SIGNED_8_PCM);
        destruct (PcmCfg.format c =? ANSND_VOICE_PCM_FORMAT_SIGNED_16_PCM);
        destruct (PcmCfg.channels c =? 2);
        destruct (PcmCfg.stream_callback c);
        destruct (negb (PcmCfg.loop_start_offset c =? 0)
                  || negb (PcmCfg.loop_end_offset c =? 0));
        reflexivity.
    + destruct (V.linked_voice (voice s voice_id));
        destruct (PcmCfg.format c =? ANSND_VOICE_PCM_FORMAT_SIGNED_8_PCM);
        destruct (PcmCfg.format c =? ANSND_VOICE_PCM_FORMAT_SIGNED_16_PCM);
        destruct (PcmCfg.channels c =? 2);
        destruct (PcmCfg.stream_callback c);
        destruct (negb (PcmCfg.loop_start_offset c =? 0)
                  || negb (PcmCfg.loop_end_offset c =? 0));
        reflexivity.
    + intros j Hj. now apply list_lookup_total_insert_ne.
  - unfold ansnd_configure_adpcm_voice in H. accepted H.
    apply orb_false_iff in Hcheck0 as [Hlo Hhi].
    apply Z.ltb_ge in Hlo. apply Z.leb_gt in Hhi. unfold ANSND_MAX_VOICES in *.
    cbv zeta in H. accepted H. injection H as <-.
    split; [lia|].
    rewrite voice_set_voice_eq by (rewrite Hlen; lia).
    rewrite voices_set_voice.
    split; [|split; [|split; [|split; [|now destruct s]]]].
    + unfold just_configured.
      destruct (V.linked_voice (voice s voice_id));
        destruct (AdpcmCfg.adpcm_format c =? DSP_ACCL_FMT_ADPCM);
        destruct (negb (AdpcmCfg.loop_flag c =? 0));
        destruct (AdpcmCfg.stream_callback c);
        repeat split; reflexivity.
    + destruct (V.linked_voice (voice s voice_id));
        destruct (AdpcmCfg.adpcm_format c =? DSP_ACCL_FMT_ADPCM);
        destruct (negb (AdpcmCfg.loop_flag c =? 0));
        destruct (AdpcmCfg.stream_callback c);
        reflexivity.
    + destruct (V.linked_voice (voice s voice_id));
        destruct (AdpcmCfg.adpcm_format c =? DSP_ACCL_FMT_ADPCM);
        destruct (negb (AdpcmCfg.loop_flag c =? 0));
        destruct (AdpcmCfg.stream_callback c);
        reflexivity.
    + intros j Hj. now apply list_lookup_total_insert_ne.
Qed.

Ltac pcm_cases c s voice_id :=
  destruct (V.linked_voice (voice s voice_id));
  destruct (PcmCfg.stream_callback c);
  destruct (negb (PcmCfg.loop_start_offset c =? 0)
            || negb (PcmCfg.loop_end_offset c =? 0)).

(** X6: what an accepted [ansnd_configure_pcm_voice] stores for a
    configuration whose fields fit their C types.  The format is 8-bit or
    16-bit, the buffer of a 16-bit voice is addressed in halfwords
    ([frame_data_ptr / 2]); there are one or two channels; the buffer ends
    at [start + frame_count * channels - 1] and starts playing at
    [start + start_offset * channels], both in 32-bit arithmetic; the
    pointer and the count are not zero and the loop offsets do not exceed
    the frame count; the other fields are copied, and STREAMING is set
    exactly when a streaming callback is given. *)
Theorem pcm_buffer_layout (hw : platform) (s s' : St.t) (voice_id : Z) (c : PcmCfg.t) :
  length (St.ansnd_voices s) = 48%nat ->
  pcm_config_typed c ->
  ansnd_configure_pcm_voice hw voice_id (Some c) s = (ANSND_ERROR_OK, s') ->
  let v := voice s' voice_id in
  let channels := PcmCfg.channels c in
  let start := V.ram_buffer_start v in
  ((PcmCfg.format c = ANSND_VOICE_PCM_FORMAT_SIGNED_8_PCM
    /\ V.accelerator_format v = DSP_ACCL_FMT_SIGNED_8BIT
    /\ V.accelerator_gain v = DSP_ACCL_GAIN_8BIT
    /\ start = PcmCfg.frame_data_ptr c)
   \/ (PcmCfg.format c = ANSND_VOICE_PCM_FORMAT_SIGNED_16_PCM
       /\ V.accelerator_format v = DSP_ACCL_FMT_SIGNED_16BIT
       /\ V.accelerator_gain v = DSP_ACCL_GAIN_16BIT
       /\ start = PcmCfg.frame_data_ptr c / 2))
  /\ ((channels = 1 /\ flag_set (V.flags v) VOICE_FLAG_STEREO = false)
      \/ (channels = 2 /\ flag_set (V.flags v) VOICE_FLAG_STEREO = true))
  /\ flag_set (V.flags v) VOICE_FLAG_ADPCM = false
  /\ V.ram_buffer_end v = to_u32 (start + PcmCfg.frame_count c * channels - 1)
  /\ V.ram_buffer_first v = to_u32 (start + PcmCfg.start_offset c * channels)
  /\ 0 < PcmCfg.frame_data_ptr c
  /\ 0 < PcmCfg.frame_count c
  /\ PcmCfg.loop_start_offset c <= PcmCfg.frame_count c
  /\ PcmCfg.loop_end_offset c <= PcmCfg.frame_count c
  /\ V.samplerate v = PcmCfg.samplerate c
  /\ V.pitch v = PcmCfg.pitch c
  /\ V.delay v = PcmCfg.delay c
  /\ V.left_volume v = PcmCfg.left_volume c
  /\ V.right_volume v = PcmCfg.right_volume c
  /\ V.voice_callback v = PcmCfg.voice_callback c
  /\ V.stream_callback v = PcmCfg.stream_callback c
  /\ V.user_pointer v = PcmCfg.user_pointer c
  /\ flag_set (V.flags v) VOICE_FLAG_STREAMING
     = bool_decide (PcmCfg.stream_callback c <> None).
Proof.
  intros Hlen Hty H. unfold ansnd_configure_pcm_voice in H. accepted H.
  destruct Hty as (_ & Hfmt & Hch & _ & Hptr & Hcnt & _ & _ & _).
  apply orb_false_iff in Hcheck0 as [Hlo Hhi].
  apply Z.ltb_ge in Hlo. apply Z.leb_gt in Hhi. unfold ANSND_MAX_VOICES in *.
  apply orb_false_iff in Hcheck3 as [Hp0 Hc0].
  apply Z.eqb_neq in Hp0, Hc0.
  apply orb_false_iff in Hcheck5 as [Hf0 Hf2].
  apply Z.eqb_neq in Hf0. apply Z.ltb_ge in Hf2.
  apply orb_false_iff in Hcheck6 as [Hc1 Hc2].
  apply Z.eqb_neq in Hc1. apply Z.ltb_ge in Hc2.
  apply orb_false_iff in Hcheck9 as [Hls Hle].
  apply Z.ltb_ge in Hls, Hle.
  unfold ANSND_VOICE_PCM_FORMAT_UNSET, ANSND_VOICE_PCM_FORMAT_SIGNED_16_PCM in *.
  cbv zeta in H. injection H as <-. cbv zeta.
  rewrite voice_set_voice_eq by (rewrite Hlen; lia).
  unfold ANSND_VOICE_PCM_FORMAT_SIGNED_8_PCM, ANSND_VOICE_PCM_FORMAT_SIGNED_16_PCM.
  destruct (Z.eqb_spec (PcmCfg.format c) 1) as [E1|N1];
    destruct (Z.eqb_spec (PcmCfg.format c) 2) as [E2|N2]; try lia;
    destruct (Z.eqb_spec (PcmCfg.channels c) 2) as [Ec|Nc];
    pcm_cases c s voice_id; cbn -[Z.shiftr Z.mul Z.add Z.sub to_u32 Z.div];
    rewrite ?Z.shiftr_0_r, ?(Z.shiftr_div_pow2 _ 1) by lia;
    change (2 ^ 1) with 2;
    (split; [first [left; repeat split; (reflexivity || assumption)
                   | right; repeat split; (reflexivity || assumption)]|]);
    (split; [first [left; split; [lia | reflexivity] | right; split; [lia | reflexivity]]|]);
    repeat split; try reflexivity; try lia.
Qed.

(** X7: what an accepted [ansnd_configure_adpcm_voice] stores.  The
    buffer is addressed in nibbles: it starts at [data_ptr << 1], ends at
    the nibble of [sample_count] and starts playing at the start offset,
    which like the loop offsets is taken as it is when
    [nibble_offsets_flag] is set and converted from samples otherwise.  The
    loop offsets do not exceed the end even when [loop_flag] is clear;
    LOOPED follows [loop_flag], and the loop end is stored without the
    [- 1] of the PCM case; ADPCM is set exactly for the format 0; the
    decoder state is copied. *)
Theorem adpcm_buffer_layout (hw : platform) (s s' : St.t) (voice_id : Z) (c : AdpcmCfg.t) :
  length (St.ansnd_voices s) = 48%nat ->
  ansnd_configure_adpcm_voice hw voice_id (Some c) s = (ANSND_ERROR_OK, s') ->
  let v := voice s' voice_id in
  let start := to_u32 (Z.shiftl (AdpcmCfg.data_ptr c) 1) in
  let finish := SAMPLES_TO_NIBBLES (AdpcmCfg.sample_count c) in
  V.ram_buffer_start v = start
  /\ V.ram_buffer_end v = to_u32 (start + finish)
  /\ V.ram_buffer_first v = to_u32 (start + adpcm_nibbles c (AdpcmCfg.start_offset c))
  /\ adpcm_nibbles c (AdpcmCfg.loop_start_offset c) <= finish
  /\ adpcm_nibbles c (AdpcmCfg.loop_end_offset c) <= finish
  /\ flag_set (V.flags v) VOICE_FLAG_LOOPED = negb (AdpcmCfg.loop_flag c =? 0)
  /\ (AdpcmCfg.loop_flag c <> 0 ->
      V.loop_start v = to_u32 (start + adpcm_nibbles c (AdpcmCfg.loop_start_offset c))
      /\ V.loop_end v = to_u32 (start + adpcm_nibbles c (AdpcmCfg.loop_end_offset c))
      /\ V.loop_predictor_scale v = AdpcmCfg.loop_predictor_scale c
      /\ V.loop_sample_history_1 v = AdpcmCfg.loop_sample_history_1 c
      /\ V.loop_sample_history_2 v = AdpcmCfg.loop_sample_history_2 c)
  /\ flag_set (V.flags v) VOICE_FLAG_ADPCM
     = (AdpcmCfg.adpcm_format c =? DSP_ACCL_FMT_ADPCM)
  /\ flag_set (V.flags v) VOICE_FLAG_STEREO = false
  /\ V.accelerator_format v = AdpcmCfg.adpcm_format c
  /\ V.accelerator_gain v = AdpcmCfg.adpcm_gain c
  /\ V.decode_coefficients v = AdpcmCfg.decode_coefficients c
  /\ V.initial_predictor_scale v = AdpcmCfg.initial_predictor_scale c
  /\ V.initial_sample_history_1 v = AdpcmCfg.initial_sample_history_1 c
  /\ V.initial_sample_history_2 v = AdpcmCfg.initial_sample_history_2 c
  /\ flag_set (V.flags v) VOICE_FLAG_STREAMING
     = bool_decide (AdpcmCfg.stream_callback c <> None).
Proof.
  intros Hlen H. unfold ansnd_configure_adpcm_voice in H. accepted H.
  apply orb_false_iff in Hcheck0 as [Hlo Hhi].
  apply Z.ltb_ge in Hlo. apply Z.leb_gt in Hhi. unfold ANSND_MAX_VOICES in *.
  cbv zeta in H. accepted H.
  apply orb_false_iff in Hcheck7 as [Hls Hle].
  apply Z.ltb_ge in Hls, Hle.
  injection H as <-. cbv zeta.
  rewrite voice_set_voice_eq by (rewrite Hlen; lia).
  fold (adpcm_nibbles c (AdpcmCfg.start_offset c)).
  fold (adpcm_nibbles c (AdpcmCfg.loop_start_offset c)) in *.
  fold (adpcm_nibbles c (AdpcmCfg.loop_end_offset c)) in *.
  destruct (V.linked_voice (voice s voice_id));
    destruct (AdpcmCfg.adpcm_format c =? DSP_ACCL_FMT_ADPCM);
    destruct (Z.eqb_spec (AdpcmCfg.loop_flag c) 0) as [El|El];
    destruct (AdpcmCfg.stream_callback c);
    cbn -[Z.shiftl Z.mul Z.add Z.sub to_u32 SAMPLES_TO_NIBBLES adpcm_nibbles];
    repeat split; try reflexivity; try assumption; try (intros; contradiction).
Qed.

(** ** Calls in a row and calls on linked voices *)

Ltac call_accepted H :=
  accepted H;
  repeat match goal with
  | E : (_ <? 0) || (ANSND_MAX_VOICES <=? _) = false |- _ =>
      apply orb_false_iff in E as [?Hlo ?Hhi];
      apply Z.ltb_ge in Hlo; apply Z.leb_gt in Hhi; unfold ANSND_MAX_VOICES in Hhi
  end.

(** [f] applied to voice [a] and to the voice linked to it, to no other. *)
Lemma mirrored_effect (s : St.t) (a : Z) (f : V.t -> V.t) :
  length (St.ansnd_voices s) = 48%nat ->
  0 <= a < 48 ->
  let s' := on_linked (V.linked_voice (voice s a)) f
              (set_voice (Z.to_nat a) (f (voice s a)) s) in
  (forall b, V.linked_voice (voice s a) = Some b -> b <> Z.to_nat a -> (b < 48)%nat ->
     voice s' a = f (voice s a)
     /\ St.ansnd_voices s' !!! b = f (St.ansnd_voices s !!! b)
     /\ forall j, j <> Z.to_nat a -> j <> b ->
          St.ansnd_voices s' !!! j = St.ansnd_voices s !!! j)
  /\ (V.linked_voice (voice s a) = None ->
      voice s' a = f (voice s a)
      /\ forall j, j <> Z.to_nat a -> St.ansnd_voices s' !!! j = St.ansnd_voices s !!! j).
Proof.
  intros Hlen Ha s'. subst s'. split.
  - intros b Hl Hb Hb48. rewrite Hl. unfold voice.
    rewrite voices_on_linked, !voices_set_voice.
    rewrite (list_lookup_total_insert_ne _ _ b) by auto.
    split; [|split].
    + rewrite list_lookup_total_insert_ne by auto.
      apply list_lookup_total_insert_eq. lia.
    + apply list_lookup_total_insert_eq. rewrite length_insert. lia.
    + intros j Hja Hjb. now rewrite !list_lookup_total_insert_ne by auto.
  - intros Hl. rewrite Hl. cbn [on_linked]. unfold voice. rewrite voices_set_voice. split.
    + apply list_lookup_total_insert_eq. lia.
    + intros j Hj. now apply list_lookup_total_insert_ne.
Qed.

Lemma set_voice_set_voice (s : St.t) (i : nat) (v w : V.t) :
  set_voice i w (set_voice i v s) = set_voice i w s.
Proof.
  unfold set_voice, St.set_ansnd_voices. destruct s; simpl. f_equal.
  apply list_insert_insert_eq.
Qed.

Lemma set_voice_commute (s : St.t) (i j : nat) (v w : V.t) :
  i <> j -> set_voice i v (set_voice j w s) = set_voice j w (set_voice i v s).
Proof.
  intros Hij. unfold set_voice, St.set_ansnd_voices. destruct s; simpl. f_equal.
  now apply list_insert_insert_ne.
Qed.

(** Two calls of the mirrored kind in a row, the second overriding the
    first. *)
Lemma later_call_wins (s : St.t) (a : Z) (f g : V.t -> V.t) :
  length (St.ansnd_voices s) = 48%nat ->
  0 <= a < 48 ->
  (forall b, V.linked_voice (voice s a) = Some b -> b <> Z.to_nat a /\ (b < 48)%nat) ->
  (forall v, V.linked_voice (f v) = V.linked_voice v) ->
  (forall v, g (f v) = g v) ->
  let s1 := on_linked (V.linked_voice (voice s a)) f
              (set_voice (Z.to_nat a) (f (voice s a)) s) in
  voice s1 a = f (voice s a)
  /\ on_linked (V.linked_voice (voice s1 a)) g (set_voice (Z.to_nat a) (g (voice s1 a)) s1)
     = on_linked (V.linked_voice (voice s a)) g (set_voice (Z.to_nat a) (g (voice s a)) s).
Proof.
  intros Hlen Ha Hreg Hf Hgf s1.
  destruct (mirrored_effect s a f Hlen Ha) as [Hlinked Halone]. fold s1 in Hlinked, Halone.
  destruct (V.linked_voice (voice s a)) as [b|] eqn:Hl.
  - destruct (Hreg b eq_refl) as [Hb Hb48].
    destruct (Hlinked b eq_refl Hb Hb48) as (H1 & H2 & _).
    split; [exact H1|]. rewrite H1, Hf, Hl, Hgf. cbn [on_linked].
    rewrite !voices_set_voice.
    rewrite (list_lookup_total_insert_ne _ _ b) by auto.
    rewrite (list_lookup_total_insert_ne (St.ansnd_voices s) _ b) by auto.
    rewrite H2, Hgf. subst s1. cbn [on_linked].
    rewrite (set_voice_commute _ (Z.to_nat a) b) by auto.
    now rewrite !set_voice_set_voice.
  - destruct (Halone eq_refl) as (H1 & _).
    split; [exact H1|]. rewrite H1, Hf, Hl, Hgf. cbn [on_linked].
    subst s1. cbn [on_linked]. apply set_voice_set_voice.
Qed.

Lemma set_flags_set_flags (x y : Z) (v : V.t) :
  V.set_flags x (V.set_flags y v) = V.set_flags x v.
Proof. now destruct v. Qed.

Lemma flags_set_flags (x : Z) (v : V.t) : V.flags (V.set_flags x v) = x.
Proof. reflexivity. Qed.

(** Equality of two flag words, bit by bit. *)
Ltac flag_words :=
  apply Z.bits_inj'; intros ?n ?Hn; unfold flag_clear, flag_or;
  repeat first [rewrite Z.land_spec | rewrite Z.lor_spec | rewrite Z.lnot_spec by assumption];
  repeat match goal with
  | |- context [Z.testbit ?x ?n] => generalize (Z.testbit x n); intros ?b
  end;
  repeat match goal with b : bool |- _ => destruct b end; reflexivity.

Lemma unpause_after_pause (v : V.t) : unpause_flags (pause_flags v) = unpause_flags v.
Proof.
  unfold unpause_flags, pause_flags. cbv zeta.
  rewrite !set_flags_set_flags, !flags_set_flags. f_equal. flag_words.
Qed.

Lemma pause_after_unpause (v : V.t) : pause_flags (unpause_flags v) = pause_flags v.
Proof.
  unfold unpause_flags, pause_flags. cbv zeta.
  rewrite !set_flags_set_flags, !flags_set_flags. f_equal. flag_words.
Qed.

Lemma start_after_stop (v : V.t) : start_flags (stop_flags v) = start_flags v.
Proof.
  unfold start_flags, stop_flags. cbv zeta.
  rewrite !set_flags_set_flags, !flags_set_flags. f_equal. flag_words.
Qed.

Lemma globals_on_linked (l : option nat) (f : V.t -> V.t) (i : nat) (v : V.t) (s : St.t) :
  St.ansnd_library_initialized (on_linked l f (set_voice i v s))
  = St.ansnd_library_initialized s
  /\ St.ansnd_dsp_stalled (on_linked l f (set_voice i v s)) = St.ansnd_dsp_stalled s.
Proof. destruct l, s; split; reflexivity. Qed.

Lemma in_range (a : Z) :
  (a <? 0) || (ANSND_MAX_VOICES <=? a) = false <-> 0 <= a < 48.
Proof.
  rewrite orb_false_iff, Z.ltb_ge, Z.leb_gt. unfold ANSND_MAX_VOICES. lia.
Qed.

Lemma pause_voice_ok (s : St.t) (a : Z) :
  fst (ansnd_pause_voice a s) = ANSND_ERROR_OK <->
  St.ansnd_library_initialized s = true /\ 0 <= a < 48
  /\ flag_set (V.flags (voice s a)) VOICE_FLAG_USED = true
  /\ flag_set (V.flags (voice s a)) VOICE_FLAG_CONFIGURED = true.
Proof.
  unfold ansnd_pause_voice. rewrite <- in_range.
  destruct (St.ansnd_library_initialized s), ((a <? 0) || (ANSND_MAX_VOICES <=? a)),
    (flag_set (V.flags (voice s a)) VOICE_FLAG_USED),
    (flag_set (V.flags (voice s a)) VOICE_FLAG_CONFIGURED); cbn;
    (split; [intros H; try discriminate H; now repeat split
            |intros (H1 & H2 & H3 & H4); try discriminate; reflexivity]).
Qed.

Lemma pause_voice_state (s : St.t) (a : Z) :
  fst (ansnd_pause_voice a s) = ANSND_ERROR_OK ->
  snd (ansnd_pause_voice a s) = mirrored pause_flags a s.
Proof.
  intros H. pose proof (proj1 (pause_voice_ok s a) H) as (H1 & H2 & H3 & H4).
  apply in_range in H2. unfold ansnd_pause_voice. rewrite H1, H2, H3, H4. reflexivity.
Qed.

Lemma unpause_voice_ok (s : St.t) (a : Z) :
  fst (ansnd_unpause_voice a s) = ANSND_ERROR_OK <->
  St.ansnd_library_initialized s = true /\ St.ansnd_dsp_stalled s = false
  /\ 0 <= a < 48
  /\ flag_set (V.flags (voice s a)) VOICE_FLAG_USED = true
  /\ flag_set (V.flags (voice s a)) VOICE_FLAG_CONFIGURED = true.
Proof.
  unfold ansnd_unpause_voice. rewrite <- in_range.
  destruct (St.ansnd_library_initialized s), (St.ansnd_dsp_stalled s),
    ((a <? 0) || (ANSND_MAX_VOICES <=? a)),
    (flag_set (V.flags (voice s a)) VOICE_FLAG_USED),
    (flag_set (V.flags (voice s a)) VOICE_FLAG_CONFIGURED); cbn;
    (split; [intros H; try discriminate H; now repeat split
            |intros (H1 & H2 & H3 & H4 & H5); try discriminate; reflexivity]).
Qed.

Lemma unpause_voice_state (s : St.t) (a : Z) :
  fst (ansnd_unpause_voice a s) = ANSND_ERROR_OK ->
  snd (ansnd_unpause_voice a s) = mirrored unpause_flags a s.
Proof.
  intros H. pose proof (proj1 (unpause_voice_ok s a) H) as (H1 & H0 & H2 & H3 & H4).
  apply in_range in H2. unfold ansnd_unpause_voice. rewrite H1, H0, H2, H3, H4. reflexivity.
Qed.

Lemma stop_voice_ok (s : St.t) (a : Z) :
  fst (ansnd_stop_voice a s) = ANSND_ERROR_OK <->
  St.ansnd_library_initialized s = true /\ 0 <= a < 48
  /\ flag_set (V.flags (voice s a)) VOICE_FLAG_USED = true
  /\ flag_set (V.flags (voice s a)) VOICE_FLAG_CONFIGURED = true.
Proof.
  unfold ansnd_stop_voice. rewrite <- in_range.
  destruct (St.ansnd_library_initialized s), ((a <? 0) || (ANSND_MAX_VOICES <=? a)),
    (flag_set (V.flags (voice s a)) VOICE_FLAG_USED),
    (flag_set (V.flags (voice s a)) VOICE_FLAG_CONFIGURED); cbn;
    (split; [intros H; try discriminate H; now repeat split
            |intros (H1 & H2 & H3 & H4); try discriminate; reflexivity]).
Qed.

Lemma stop_voice_state (s : St.t) (a : Z) :
  fst (ansnd_stop_voice a s) = ANSND_ERROR_OK ->
  snd (ansnd_stop_voice a s) = mirrored stop_flags a s.
Proof.
  intros H. pose proof (proj1 (stop_voice_ok s a) H) as (H1 & H2 & H3 & H4).
  apply in_range in H2. unfold ansnd_stop_voice. rewrite H1, H2, H3, H4. reflexivity.
Qed.

Lemma start_voice_ok (s : St.t) (a : Z) :
  fst (ansnd_start_voice a s) = ANSND_ERROR_OK <->
  St.ansnd_library_initialized s = true /\ St.ansnd_dsp_stalled s = false
  /\ 0 <= a < 48
  /\ flag_set (V.flags (voice s a)) VOICE_FLAG_USED = true
  /\ flag_set (V.flags (voice s a)) VOICE_FLAG_CONFIGURED = true
  /\ flag_set (V.flags (voice s a)) VOICE_FLAG_STREAMING
     && flag_set (V.flags (voice s a)) VOICE_FLAG_INITIALIZED = false.
Proof.
  unfold ansnd_start_voice. rewrite <- in_range.
  destruct (St.ansnd_library_initialized s), (St.ansnd_dsp_stalled s),
    ((a <? 0) || (ANSND_MAX_VOICES <=? a)),
    (flag_set (V.flags (voice s a)) VOICE_FLAG_USED),
    (flag_set (V.flags (voice s a)) VOICE_FLAG_CONFIGURED),
    (flag_set (V.flags (voice s a)) VOICE_FLAG_STREAMING
     && flag_set (V.flags (voice s a)) VOICE_FLAG_INITIALIZED); cbn;
    (split; [intros H; try discriminate H; now repeat split
            |intros (H1 & H2 & H3 & H4 & H5 & H6); try discriminate; reflexivity]).
Qed.

Lemma start_voice_state (s : St.t) (a : Z) :
  fst (ansnd_start_voice a s) = ANSND_ERROR_OK ->
  snd (ansnd_start_voice a s) = mirrored start_flags a s.
Proof.
  intros H. pose proof (proj1 (start_voice_ok s a) H) as (H1 & H0 & H2 & H3 & H4 & H5).
  apply in_range in H2. unfold ansnd_start_voice. rewrite H1, H0, H2, H3, H4, H5. reflexivity.
Qed.

Lemma mirrored_flags (f : V.t -> V.t) (a : Z) (s : St.t) :
  length (St.ansnd_voices s) = 48%nat ->
  0 <= a < 48 ->
  (forall b, V.linked_voice (voice s a) = Some b -> b <> Z.to_nat a /\ (b < 48)%nat) ->
  voice (mirrored f a s) a = f (voice s a).
Proof.
  intros Hlen Ha Hreg. unfold mirrored.
  destruct (mirrored_effect s a f Hlen Ha) as [Hlinked Halone].
  destruct (V.linked_voice (voice s a)) as [b|] eqn:Hl.
  - destruct (Hreg b eq_refl) as [Hb Hb48]. now destruct (Hlinked b eq_refl Hb Hb48).
  - now destruct (Halone eq_refl).
Qed.

(** X8: of two calls in a row on the same voice, before any cycle,
    each of which the library would accept, the later one wins: pause then
    unpause, unpause then pause, and stop then start leave the library,
    the linked voice included, exactly as the second call alone would. *)
Theorem later_call_overrides (s : St.t) (a : Z) :
  length (St.ansnd_voices s) = 48%nat ->
  (forall b, V.linked_voice (voice s a) = Some b -> b <> Z.to_nat a /\ (b < 48)%nat) ->
  (fst (ansnd_pause_voice a s) = ANSND_ERROR_OK ->
   fst (ansnd_unpause_voice a s) = ANSND_ERROR_OK ->
   ansnd_unpause_voice a (snd (ansnd_pause_voice a s)) = ansnd_unpause_voice a s)
  /\ (fst (ansnd_unpause_voice a s) = ANSND_ERROR_OK ->
      fst (ansnd_pause_voice a s) = ANSND_ERROR_OK ->
      ansnd_pause_voice a (snd (ansnd_unpause_voice a s)) = ansnd_pause_voice a s)
  /\ (fst (ansnd_stop_voice a s) = ANSND_ERROR_OK ->
      fst (ansnd_start_voice a s) = ANSND_ERROR_OK ->
      ansnd_start_voice a (snd (ansnd_stop_voice a s)) = ansnd_start_voice a s).
Proof.
  intros Hlen Hreg.
  assert (Hpair : forall (p q : Z * St.t), fst p = fst q -> snd p = snd q -> p = q)
    by (intros [] [] ? ?; simpl in *; congruence).
  split; [|split].
  - intros H1 H2. rewrite (pause_voice_state s a H1).
    pose proof (proj1 (unpause_voice_ok s a) H2) as (Hi & Hs & Ha & Hu & Hc).
    destruct (later_call_wins s a pause_flags unpause_flags Hlen Ha Hreg
                ltac:(reflexivity) unpause_after_pause) as [Hv Hst].
    fold (mirrored pause_flags a s) in Hv, Hst.
    fold (mirrored unpause_flags a (mirrored pause_flags a s)) in Hst.
    fold (mirrored unpause_flags a s) in Hst.
    destruct (globals_on_linked (V.linked_voice (voice s a)) pause_flags (Z.to_nat a)
                (pause_flags (voice s a)) s) as [Hi' Hs'].
    fold (mirrored pause_flags a s) in Hi', Hs'.
    assert (Hok : fst (ansnd_unpause_voice a (mirrored pause_flags a s)) = ANSND_ERROR_OK).
    { apply unpause_voice_ok. rewrite Hi', Hs', Hv.
      repeat split; try assumption; try lia; simpl; flag_bits; assumption. }
    apply Hpair; [congruence|].
    now rewrite (unpause_voice_state _ a Hok), (unpause_voice_state s a H2).
  - intros H1 H2. rewrite (unpause_voice_state s a H1).
    pose proof (proj1 (pause_voice_ok s a) H2) as (Hi & Ha & Hu & Hc).
    destruct (later_call_wins s a unpause_flags pause_flags Hlen Ha Hreg
                ltac:(reflexivity) pause_after_unpause) as [Hv Hst].
    fold (mirrored unpause_flags a s) in Hv, Hst.
    fold (mirrored pause_flags a (mirrored unpause_flags a s)) in Hst.
    fold (mirrored pause_flags a s) in Hst.
    destruct (globals_on_linked (V.linked_voice (voice s a)) unpause_flags (Z.to_nat a)
                (unpause_flags (voice s a)) s) as [Hi' Hs'].
    fold (mirrored unpause_flags a s) in Hi', Hs'.
    assert (Hok : fst (ansnd_pause_voice a (mirrored unpause_flags a s)) = ANSND_ERROR_OK).
    { apply pause_voice_ok. rewrite Hi', Hv.
      repeat split; try assumption; try lia; simpl; flag_bits; assumption. }
    apply Hpair; [congruence|].
    now rewrite (pause_voice_state _ a Hok), (pause_voice_state s a H2).
  - intros H1 H2. rewrite (stop_voice_state s a H1).
    pose proof (proj1 (start_voice_ok s a) H2) as (Hi & Hs & Ha & Hu & Hc & Hg).
    destruct (later_call_wins s a stop_flags start_flags Hlen Ha Hreg
                ltac:(reflexivity) start_after_stop) as [Hv Hst].
    fold (mirrored stop_flags a s) in Hv, Hst.
    fold (mirrored start_flags a (mirrored stop_flags a s)) in Hst.
    fold (mirrored start_flags a s) in Hst.
    destruct (globals_on_linked (V.linked_voice (voice s a)) stop_flags (Z.to_nat a)
                (stop_flags (voice s a)) s) as [Hi' Hs'].
    fold (mirrored stop_flags a s) in Hi', Hs'.
    assert (Hok : fst (ansnd_start_voice a (mirrored stop_flags a s)) = ANSND_ERROR_OK).
    { apply start_voice_ok. rewrite Hi', Hs', Hv.
      repeat split; try assumption; try lia; simpl; flag_bits; assumption. }
    apply Hpair; [congruence|].
    now rewrite (start_voice_state _ a Hok), (start_voice_state s a H2).
Qed.

Lemma set_voice_pitch_ok (hw : platform) (s : St.t) (a : Z) (pitch : f32) :
  fst (ansnd_set_voice_pitch hw a pitch s) = ANSND_ERROR_OK <->
  St.ansnd_library_initialized s = true /\ 0 <= a < 48
  /\ flag_set (V.flags (voice s a)) VOICE_FLAG_USED = true
  /\ flag_set (V.flags (voice s a)) VOICE_FLAG_CONFIGURED = true
  /\ flag_set (V.flags (voice s a)) VOICE_FLAG_RUNNING = false
  /\ invalid_samplerate hw (St.ansnd_output_samplerate s) (V.samplerate (voice s a)) pitch
     = false.
Proof.
  unfold ansnd_set_voice_pitch. rewrite <- in_range. cbv zeta.
  destruct (St.ansnd_library_initialized s), ((a <? 0) || (ANSND_MAX_VOICES <=? a)),
    (flag_set (V.flags (voice s a)) VOICE_FLAG_USED),
    (flag_set (V.flags (voice s a)) VOICE_FLAG_CONFIGURED),
    (flag_set (V.flags (voice s a)) VOICE_FLAG_RUNNING),
    (invalid_samplerate hw (St.ansnd_output_samplerate s) (V.samplerate (voice s a)) pitch);
    cbn;
    (split; [intros H; try discriminate H; now repeat split
            |intros (H1 & H2 & H3 & H4 & H5 & H6); try discriminate; reflexivity]).
Qed.

Lemma set_voice_pitch_state (hw : platform) (s : St.t) (a : Z) (pitch : f32) :
  fst (ansnd_set_voice_pitch hw a pitch s) = ANSND_ERROR_OK ->
  snd (ansnd_set_voice_pitch hw a pitch s) = mirrored (pitch_flags pitch) a s.
Proof.
  intros H. pose proof (proj1 (set_voice_pitch_ok hw s a pitch) H)
    as (H1 & H2 & H3 & H4 & H5 & H6).
  apply in_range in H2. unfold ansnd_set_voice_pitch. cbv zeta.
  rewrite H1, H2, H3, H4, H5, H6. reflexivity.
Qed.

(** X9: [ansnd_set_voice_pitch] validates only the voice it is called
    for.  A pitch the library refuses for voice [b] itself, because [b] is
    running or the pitch takes its sample rate out of range, is applied to
    [b] all the same when it is requested for the voice [b] is linked to:
    [b] gets the pitch and PITCH_CHANGE, and keeps its sample rate and
    RUNNING. *)
Theorem pitch_through_partner (hw : platform) (s : St.t) (a : Z) (b : nat)
    (pitch : f32) :
  length (St.ansnd_voices s) = 48%nat ->
  V.linked_voice (voice s a) = Some b ->
  b <> Z.to_nat a ->
  (b < 48)%nat ->
  flag_set (V.flags (St.ansnd_voices s !!! b)) VOICE_FLAG_USED = true ->
  flag_set (V.flags (St.ansnd_voices s !!! b)) VOICE_FLAG_CONFIGURED = true ->
  flag_set (V.flags (St.ansnd_voices s !!! b)) VOICE_FLAG_RUNNING = true
  \/ invalid_samplerate hw (St.ansnd_output_samplerate s)
       (V.samplerate (St.ansnd_voices s !!! b)) pitch = true ->
  fst (ansnd_set_voice_pitch hw a pitch s) = ANSND_ERROR_OK ->
  let s' := snd (ansnd_set_voice_pitch hw a pitch s) in
  (ansnd_set_voice_pitch hw (Z.of_nat b) pitch s = (ANSND_ERROR_VOICE_RUNNING, s)
   \/ ansnd_set_voice_pitch hw (Z.of_nat b) pitch s = (ANSND_ERROR_INVALID_SAMPLERATE, s))
  /\ V.pitch (St.ansnd_voices s' !!! b) = pitch
  /\ V.samplerate (St.ansnd_voices s' !!! b) = V.samplerate (St.ansnd_voices s !!! b)
  /\ flag_set (V.flags (St.ansnd_voices s' !!! b)) VOICE_FLAG_RUNNING
     = flag_set (V.flags (St.ansnd_voices s !!! b)) VOICE_FLAG_RUNNING
  /\ flag_set (V.flags (St.ansnd_voices s' !!! b)) VOICE_FLAG_PITCH_CHANGE = true.
Proof.
  intros Hlen Hl Hb Hb48 Hused Hconf Hbad H s'. subst s'.
  rewrite (set_voice_pitch_state hw s a pitch H).
  pose proof (proj1 (set_voice_pitch_ok hw s a pitch) H) as (Hi & Ha & _).
  destruct (mirrored_effect s a (pitch_flags pitch) Hlen Ha) as [Hm _].
  destruct (Hm b Hl Hb Hb48) as (_ & H2 & _).
  fold (mirrored (pitch_flags pitch) a s) in H2. rewrite H2.
  split.
  - unfold ansnd_set_voice_pitch, voice. rewrite Hi, Nat2Z.id. cbn [negb].
    assert (Hr : (Z.of_nat b <? 0) || (ANSND_MAX_VOICES <=? Z.of_nat b) = false)
      by (apply in_range; lia).
    rewrite Hr, Hused. cbn [negb]. cbv zeta. rewrite Hconf. cbn [negb].
    destruct (flag_set (V.flags (St.ansnd_voices s !!! b)) VOICE_FLAG_RUNNING);
      [now left|].
    destruct Hbad as [Hbad|Hbad]; [discriminate Hbad|]. rewrite Hbad. now right.
  - split; [reflexivity|]. split; [reflexivity|].
    split; simpl; flag_bits; reflexivity.
Qed.

(** X10: an accepted stop, pause, unpause, stop-looping or set-pitch call
    for a linked voice makes the same change to the flags (and pitch) of
    its partner, and touches no third voice; [ansnd_set_voice_volume] alone
    changes the voice it is called for and not the partner. *)
Theorem linked_calls_reach_partner (hw : platform) (s s' : St.t) (a : Z) (b : nat) :
  length (St.ansnd_voices s) = 48%nat ->
  V.linked_voice (voice s a) = Some b ->
  b <> Z.to_nat a ->
  (b < 48)%nat ->
  let both (f : V.t -> V.t) :=
    voice s' a = f (voice s a)
    /\ St.ansnd_voices s' !!! b = f (St.ansnd_voices s !!! b)
    /\ forall j, j <> Z.to_nat a -> j <> b ->
         St.ansnd_voices s' !!! j = St.ansnd_voices s !!! j in
  (ansnd_stop_voice a s = (ANSND_ERROR_OK, s') ->
   both (fun v => V.set_flags (flag_clear (flag_or (V.flags v) VOICE_FLAG_UPDATED)
                                          VOICE_FLAG_RUNNING) v))
  /\ (ansnd_pause_voice a s = (ANSND_ERROR_OK, s') ->
      both (fun v => V.set_flags (flag_or (flag_or (V.flags v) VOICE_FLAG_UPDATED)
                                          VOICE_FLAG_PAUSED) v))
  /\ (ansnd_unpause_voice a s = (ANSND_ERROR_OK, s') ->
      both (fun v => V.set_flags (flag_clear (flag_or (V.flags v) VOICE_FLAG_UPDATED)
                                             VOICE_FLAG_PAUSED) v))
  /\ (ansnd_stop_looping a s = (ANSND_ERROR_OK, s') ->
      both (fun v => V.set_flags (flag_clear (flag_or (V.flags v) VOICE_FLAG_UPDATED)
                                             VOICE_FLAG_LOOPED) v))
  /\ (forall pitch,
        ansnd_set_voice_pitch hw a pitch s = (ANSND_ERROR_OK, s') ->
        both (fun v => V.set_pitch pitch
                         (V.set_flags (flag_or (flag_or (V.flags v) VOICE_FLAG_UPDATED)
                                               VOICE_FLAG_PITCH_CHANGE) v)))
  /\ (forall left_volume right_volume,
        ansnd_set_voice_volume a left_volume right_volume s = (ANSND_ERROR_OK, s') ->
        voice s' a
        = V.set_right_volume right_volume
            (V.set_left_volume left_volume
               (V.set_flags (flag_or (V.flags (voice s a)) VOICE_FLAG_UPDATED) (voice s a)))
        /\ forall j, j <> Z.to_nat a -> St.ansnd_voices s' !!! j = St.ansnd_voices s !!! j).
Proof.
  intros Hlen Hl Hb Hb48 both. subst both. cbv beta.
  split; [|split; [|split; [|split; [|split]]]].
  - intros H. unfold ansnd_stop_voice in H. call_accepted H. cbv zeta in H.
    injection H as <-.
    destruct (mirrored_effect s a stop_flags Hlen ltac:(lia)) as [Hm _].
    destruct (Hm b Hl Hb Hb48) as (H1 & H2 & H3). rewrite H1, H2.
    split; [now destruct (voice s a) | split; [now destruct (St.ansnd_voices s !!! b) | exact H3]].
  - intros H. unfold ansnd_pause_voice in H. call_accepted H. cbv zeta in H.
    injection H as <-.
    destruct (mirrored_effect s a pause_flags Hlen ltac:(lia)) as [Hm _].
    destruct (Hm b Hl Hb Hb48) as (H1 & H2 & H3). rewrite H1, H2.
    split; [now destruct (voice s a) | split; [now destruct (St.ansnd_voices s !!! b) | exact H3]].
  - intros H. unfold ansnd_unpause_voice in H. call_accepted H. cbv zeta in H.
    injection H as <-.
    destruct (mirrored_effect s a unpause_flags Hlen ltac:(lia)) as [Hm _].
    destruct (Hm b Hl Hb Hb48) as (H1 & H2 & H3). rewrite H1, H2.
    split; [now destruct (voice s a) | split; [now destruct (St.ansnd_voices s !!! b) | exact H3]].
  - intros H. unfold ansnd_stop_looping in H. call_accepted H. cbv zeta in H.
    injection H as <-.
    destruct (mirrored_effect s a stop_looping_flags Hlen ltac:(lia)) as [Hm _].
    destruct (Hm b Hl Hb Hb48) as (H1 & H2 & H3). rewrite H1, H2.
    split; [now destruct (voice s a) | split; [now destruct (St.ansnd_voices s !!! b) | exact H3]].
  - intros pitch H. unfold ansnd_set_voice_pitch in H. call_accepted H. cbv zeta in H.
    accepted H. injection H as <-.
    destruct (mirrored_effect s a (pitch_flags pitch) Hlen ltac:(lia)) as [Hm _].
    destruct (Hm b Hl Hb Hb48) as (H1 & H2 & H3). rewrite H1, H2.
    split; [now destruct (voice s a) | split; [now destruct (St.ansnd_voices s !!! b) | exact H3]].
  - intros l r H. unfold ansnd_set_voice_volume in H. call_accepted H. cbv zeta in H.
    injection H as <-. unfold voice. rewrite voices_set_voice. split.
    + apply list_lookup_total_insert_eq. lia.
    + intros j Hj. now apply list_lookup_total_insert_ne.
Qed.

(** ** The count of active voices *)

(** One iteration of the cycle, taken apart. *)
Lemma request_voice_inv (hw : platform) (inp : cycle_input) (i : nat)
    (s s' : St.t) (ev : list event) :
  ansnd_request_voice hw inp i s = Some (s', ev) ->
  let v := St.ansnd_voices s !!! i in
  let rate := St.ansnd_output_samplerate s in
  exists (synced : bool) v1 d1 ev1 v2 d2 ev2 v3 d3,
    needs_sync v (St.ansnd_dsp_dram_image s) = Some synced
    /\ (if synced then ansnd_sync_voice hw rate v (St.ansnd_dsp_dram_image s)
        else Some (v, St.ansnd_dsp_dram_image s, [])) = Some (v1, d1, ev1)
    /\ (if flag_set (V.flags v1) VOICE_FLAG_RUNNING
        then (if flag_set (V.flags v1) VOICE_FLAG_STREAMING
                 && negb (flag_set (V.flags v1) VOICE_FLAG_LOOPED)
              then ansnd_update_stream_buffers hw (pcm_data inp i) (adpcm_data inp i) v1 d1
              else Some (v1, d1, [])) = Some (v2, d2, ev2)
             /\ (if flag_set (V.flags v2) VOICE_FLAG_DELAY
                 then ansnd_update_voice_delay hw rate v2 d2
                 else Some (v2, d2)) = Some (v3, d3)
             /\ s' = St.set_ansnd_active_voices (to_u32 (St.ansnd_active_voices s + 1))
                       (St.set_ansnd_dsp_dram_image d3 (set_voice i v3 s))
        else v2 = v1 /\ d2 = d1 /\ ev2 = [] /\ v3 = v1 /\ d3 = d1
             /\ s' = St.set_ansnd_dsp_dram_image d1 (set_voice i v1 s))
    /\ ev = ev1 ++ ev2.
Proof.
  unfold ansnd_request_voice. cbv zeta. intros H.
  set (v := St.ansnd_voices s !!! i) in *.
  fold (needs_sync v (St.ansnd_dsp_dram_image s)) in H.
  destruct (needs_sync v (St.ansnd_dsp_dram_image s)) as [synced|] eqn:Hn;
    [cbn [mbind option_bind] in H | discriminate H].
  match type of H with
  | mbind _ ?m = Some _ =>
      destruct m as [[[v1 d1] ev1]|] eqn:Hsync; [cbn [mbind option_bind] in H | discriminate H]
  end.
  destruct (flag_set (V.flags v1) VOICE_FLAG_RUNNING) eqn:Hrun.
  - match type of H with
    | mbind _ ?m = Some _ =>
        destruct m as [[[v2 d2] ev2]|] eqn:Hstream;
          [cbn [mbind option_bind] in H | discriminate H]
    end.
    match type of H with
    | mbind _ ?m = Some _ =>
        destruct m as [[v3 d3]|] eqn:Hdelay;
          [cbn [mbind option_bind] in H | discriminate H]
    end.
    injection H as <- <-.
    exists synced, v1, d1, ev1, v2, d2, ev2, v3, d3. rewrite Hrun. now repeat split.
  - injection H as <- <-.
    exists synced, v1, d1, ev1, v1, d1, [], v1, d1. rewrite Hrun, app_nil_r. now repeat split.
Qed.

(** What an iteration leaves in the voice and in the count of active
    voices. *)
Lemma request_voice_after (hw : platform) (inp : cycle_input) (i : nat)
    (s s' : St.t) (ev : list event) :
  ansnd_request_voice hw inp i s = Some (s', ev) ->
  (i < length (St.ansnd_voices s))%nat ->
  flag_set (V.flags (St.ansnd_voices s' !!! i)) VOICE_FLAG_UPDATED = false
  /\ St.ansnd_active_voices s'
     = (if running (St.ansnd_voices s' !!! i)
        then to_u32 (St.ansnd_active_voices s + 1) else St.ansnd_active_voices s).
Proof.
  intros H Hi. apply request_voice_inv in H.
  destruct H as (synced & v1 & d1 & ev1 & v2 & d2 & ev2 & v3 & d3 & Hn & Hsync & Hrest & _).
  set (v := St.ansnd_voices s !!! i) in *.
  assert (H1 : flag_set (V.flags v1) VOICE_FLAG_UPDATED = false).
  { destruct synced.
    - pose proof (sync_voice_effect _ _ _ _ _ _ _ Hsync) as [Herased Hkept].
      destruct (flag_set (V.flags v) VOICE_FLAG_ERASED).
      + now rewrite (Herased eq_refl).
      + now destruct (Hkept eq_refl) as (_ & _ & Hu).
    - injection Hsync as <- _ _. unfold needs_sync in Hn.
      destruct (flag_set (V.flags v) VOICE_FLAG_UPDATED); [discriminate Hn | reflexivity]. }
  unfold running.
  destruct (flag_set (V.flags v1) VOICE_FLAG_RUNNING) eqn:Hrun.
  - destruct Hrest as (Hstream & Hdelay & ->).
    assert (H2 : V.flags v2 = V.flags v1).
    { destruct (_ && _).
      - now apply update_stream_buffers_steady in Hstream as [_ Hf].
      - now injection Hstream as <- _ _. }
    assert (H3 : flag_set (V.flags v3) VOICE_FLAG_RUNNING
                 = flag_set (V.flags v2) VOICE_FLAG_RUNNING
                 /\ flag_set (V.flags v3) VOICE_FLAG_UPDATED
                    = flag_set (V.flags v2) VOICE_FLAG_UPDATED).
    { destruct (flag_set (V.flags v2) VOICE_FLAG_DELAY).
      - now apply update_voice_delay_steady in Hdelay as (_ & _ & Hr & Hu).
      - now injection Hdelay as <- _. }
    destruct H3 as [Hr3 Hu3].
    replace (St.ansnd_voices (St.set_ansnd_active_voices _ _))
      with (<[i := v3]> (St.ansnd_voices s)) by (now destruct s).
    rewrite list_lookup_total_insert_eq by exact Hi.
    rewrite Hu3, Hr3, H2, H1, Hrun. split; [reflexivity | now destruct s].
  - destruct Hrest as (_ & _ & _ & _ & _ & ->).
    replace (St.ansnd_voices (St.set_ansnd_dsp_dram_image _ _))
      with (<[i := v1]> (St.ansnd_voices s)) by (now destruct s).
    rewrite list_lookup_total_insert_eq by exact Hi.
    rewrite H1, Hrun. split; [reflexivity | now destruct s].
Qed.

Lemma running_voices_bound (vs : list V.t) :
  0 <= running_voices vs <= Z.of_nat (length vs).
Proof.
  unfold running_voices. induction vs as [|x l IH]; simpl; [lia|].
  destruct (running x); simpl; lia.
Qed.

Lemma running_voices_snoc (vs : list V.t) (x : V.t) :
  running_voices (vs ++ [x]) = running_voices vs + (if running x then 1 else 0).
Proof.
  unfold running_voices. rewrite List.filter_app, length_app. simpl.
  destruct (running x); simpl; lia.
Qed.

Lemma request_voice_voices (hw : platform) (inp : cycle_input) (i : nat)
    (s s' : St.t) (ev : list event) :
  ansnd_request_voice hw inp i s = Some (s', ev) ->
  exists v, St.ansnd_voices s' = <[i := v]> (St.ansnd_voices s).
Proof.
  intros H. apply request_voice_inv in H.
  destruct H as (synced & v1 & d1 & ev1 & v2 & d2 & ev2 & v3 & d3 & _ & _ & Hrest & _).
  destruct (flag_set (V.flags v1) VOICE_FLAG_RUNNING).
  - destruct Hrest as (_ & _ & ->). exists v3. now destruct s.
  - destruct Hrest as (_ & _ & _ & _ & _ & ->). exists v1. now destruct s.
Qed.

(** The loop of the cycle over the voices [i .. i+n-1]. *)
Lemma request_loop_after (hw : platform) (inp : cycle_input) (n : nat) :
  forall (i : nat) (s s' : St.t) (ev : list event),
  ansnd_request_loop hw inp n i s = Some (s', ev) ->
  (i + n <= length (St.ansnd_voices s))%nat ->
  Z.of_nat (length (St.ansnd_voices s)) < 2 ^ 32 ->
  St.ansnd_active_voices s = running_voices (take i (St.ansnd_voices s)) ->
  (forall j, (j < i)%nat ->
     flag_set (V.flags (St.ansnd_voices s !!! j)) VOICE_FLAG_UPDATED = false) ->
  length (St.ansnd_voices s') = length (St.ansnd_voices s)
  /\ St.ansnd_active_voices s' = running_voices (take (i + n) (St.ansnd_voices s'))
  /\ (forall j, (j < i + n)%nat ->
        flag_set (V.flags (St.ansnd_voices s' !!! j)) VOICE_FLAG_UPDATED = false).
Proof.
  induction n as [|n IH]; intros i s s' ev H Hlen Hbig Hact Hupd.
  - injection H as <- _. rewrite Nat.add_0_r. auto.
  - cbn [ansnd_request_loop] in H.
    destruct (ansnd_request_voice hw inp i s) as [[s1 ev1]|] eqn:H1;
      [cbn [mbind option_bind] in H | discriminate H].
    destruct (ansnd_request_loop hw inp n (S i) s1) as [[s2 ev2]|] eqn:H2;
      [cbn [mbind option_bind] in H | discriminate H].
    injection H as <- _.
    destruct (request_voice_voices _ _ _ _ _ _ H1) as [w Hw].
    destruct (request_voice_after _ _ _ _ _ _ H1 ltac:(lia)) as [Hu Ha].
    assert (Hl1 : length (St.ansnd_voices s1) = length (St.ansnd_voices s))
      by (now rewrite Hw, length_insert).
    replace (i + S n)%nat with (S i + n)%nat by lia.
    rewrite <- Hl1. apply (IH (S i) s1 s2 ev2 H2).
    + lia.
    + now rewrite Hl1.
    + rewrite (take_S_r _ i (St.ansnd_voices s1 !!! i))
        by (apply list_lookup_lookup_total_lt; lia).
      rewrite running_voices_snoc, Ha.
      assert (Ht : take i (St.ansnd_voices s1) = take i (St.ansnd_voices s))
        by (rewrite Hw; now apply take_insert_ge).
      rewrite Ht, Hact.
      pose proof (running_voices_bound (take i (St.ansnd_voices s))) as Hb.
      rewrite length_take in Hb.
      destruct (running _); [|lia].
      unfold to_u32. rewrite Z.mod_small; lia.
    + intros j Hj. destruct (decide (j = i)) as [->|Hne]; [exact Hu|].
      rewrite Hw, list_lookup_total_insert_ne by auto. apply Hupd. lia.
Qed.

(** X11: after a completed cycle the count of active voices, which
    [ansnd_get_total_active_voices] stores through its pointer, is the
    number of voices that carry RUNNING, and no voice is marked UPDATED any
    more. *)
Theorem cycle_counts_running_voices (hw : platform) (inp : cycle_input)
    (s s' : St.t) (ev : list event) :
  length (St.ansnd_voices s) = Z.to_nat ANSND_MAX_VOICES ->
  ansnd_dsp_request_callback hw inp s = Some (s', ev) ->
  St.ansnd_active_voices s' = running_voices (St.ansnd_voices s')
  /\ (St.ansnd_library_initialized s = true ->
      forall out, ansnd_get_total_active_voices_out (Some out) s'
                  = (ANSND_ERROR_OK, Some (running_voices (St.ansnd_voices s'))))
  /\ (forall v, In v (St.ansnd_voices s') ->
        flag_set (V.flags v) VOICE_FLAG_UPDATED = false).
Proof.
  intros Hlen H. unfold ansnd_dsp_request_callback in H. cbv zeta in H.
  match type of H with
  | mbind _ (ansnd_request_loop _ _ _ _ ?s0) = _ =>
      assert (Hv0 : St.ansnd_voices s0 = St.ansnd_voices s) by (now destruct s);
      assert (Ha0 : St.ansnd_active_voices s0 = 0) by (now destruct s);
      assert (Hi0 : St.ansnd_library_initialized s0 = St.ansnd_library_initialized s)
        by (now destruct s);
      destruct (ansnd_request_loop hw inp (Z.to_nat ANSND_MAX_VOICES) 0 s0)
        as [[s1 ev1]|] eqn:Hloop; [cbn [mbind option_bind] in H | discriminate H]
  end.
  injection H as <- _.
  pose proof (request_loop_globals _ _ _ _ _ _ _ Hloop) as Hg.
  apply request_loop_after in Hloop.
  - destruct Hloop as (Hl & Hact & Hupd).
    rewrite Hv0, Hlen in Hl. cbn [Nat.add] in Hact, Hupd.
    rewrite <- Hl, firstn_all in Hact.
    assert (Hv1 : St.ansnd_voices (St.set_ansnd_total_process_time
                     (to_u64 (time_synced inp - St.ansnd_total_start_time s1)) s1)
                  = St.ansnd_voices s1) by (now destruct s1).
    assert (Ha1 : St.ansnd_active_voices (St.set_ansnd_total_process_time
                     (to_u64 (time_synced inp - St.ansnd_total_start_time s1)) s1)
                  = St.ansnd_active_voices s1) by (now destruct s1).
    rewrite Hv1, Ha1. split; [exact Hact|]. split.
    + intros Hinit out. unfold ansnd_get_total_active_voices_out.
      replace (St.ansnd_library_initialized (St.set_ansnd_total_process_time
                 (to_u64 (time_synced inp - St.ansnd_total_start_time s1)) s1))
        with (St.ansnd_library_initialized s1) by (now destruct s1).
      destruct Hg as (_ & _ & _ & _ & Hg & _).
      rewrite Hg, Hi0, Hinit. cbn [negb]. now rewrite Ha1, Hact.
    + intros v Hin. apply list_elem_of_In, list_elem_of_lookup in Hin as [j Hj].
      rewrite <- (list_lookup_total_correct _ _ _ Hj). apply Hupd.
      apply lookup_lt_Some in Hj. lia.
  - rewrite Hv0, Hlen. simpl. lia.
  - rewrite Hv0, Hlen. reflexivity.
  - now rewrite Ha0.
  - intros j Hj. lia.
Qed.

(** ** Synchronizing an initialized voice *)

Lemma load_block (dram : list PB.t) (v : V.t) (p : nat) (pb : PB.t) :
  V.parameter_block v = Some p -> dram !! p = Some pb -> load dram v = Some pb.
Proof. intros Hp Hl. unfold load. now rewrite Hp. Qed.

Lemma store_block (dram : list PB.t) (v : V.t) (p : nat) (pb : PB.t) :
  V.parameter_block v = Some p -> store dram v pb = <[p := pb]> dram.
Proof. intros Hp. unfold store. now rewrite Hp. Qed.

Lemma lookup_block (dram : list PB.t) (p : nat) (pb pb' : PB.t) :
  dram !! p = Some pb -> <[p := pb']> dram !! p = Some pb'.
Proof. intros H. apply list_lookup_insert_eq. eapply lookup_lt_Some, H. Qed.

(** [ansnd_update_voice_pitch] on a voice with a block: the words of the
    block it leaves alone. *)
Lemma update_voice_pitch_keeps (hw : platform) (rate : Z) (v : V.t)
    (dram : list PB.t) (p : nat) (pb : PB.t) :
  V.parameter_block v = Some p -> dram !! p = Some pb ->
  exists pb',
    ansnd_update_voice_pitch hw rate v dram = Some (<[p := pb']> dram)
    /\ PB.flags pb' = PB.flags pb
    /\ PB.sample_buffer pb' = PB.sample_buffer pb
    /\ PB.words_10 pb' = PB.words_10 pb
    /\ PB.delay pb' = PB.delay pb
    /\ PB.left_volume pb' = PB.left_volume pb
    /\ PB.right_volume pb' = PB.right_volume pb
    /\ PB.accelerator_format pb' = PB.accelerator_format pb
    /\ PB.accelerator_gain pb' = PB.accelerator_gain pb
    /\ PB.accelerator_start_high pb' = PB.accelerator_start_high pb
    /\ PB.accelerator_start_low pb' = PB.accelerator_start_low pb
    /\ PB.accelerator_end_high pb' = PB.accelerator_end_high pb
    /\ PB.accelerator_end_low pb' = PB.accelerator_end_low pb
    /\ PB.accelerator_current_high pb' = PB.accelerator_current_high pb
    /\ PB.accelerator_current_low pb' = PB.accelerator_current_low pb
    /\ exchange_words pb' = exchange_words pb.
Proof.
  intros Hp Hl. unfold ansnd_update_voice_pitch.
  rewrite (load_block _ _ _ _ Hp Hl). cbn [mbind option_bind]. cbv zeta.
  rewrite (store_block _ _ _ _ Hp). eexists. split; [reflexivity|].
  repeat split.
Qed.

(** The pitch step of [ansnd_sync_voice], done ahead of the rest. *)
Lemma sync_voice_pitch_first (hw : platform) (rate : Z) (v : V.t)
    (dram : list PB.t) (p : nat) (pb : PB.t) :
  V.parameter_block v = Some p ->
  dram !! p = Some pb ->
  flag_set (V.flags v) VOICE_FLAG_ERASED = false ->
  flag_set (V.flags v) VOICE_FLAG_INITIALIZED = true ->
  flag_set (V.flags v) VOICE_FLAG_PITCH_CHANGE = true ->
  exists pb1,
    ansnd_sync_voice hw rate v dram
    = ansnd_sync_voice hw rate
        (V.set_flags (flag_clear (V.flags v) VOICE_FLAG_PITCH_CHANGE) v) (<[p := pb1]> dram)
    /\ PB.flags pb1 = PB.flags pb
    /\ exchange_words pb1 = exchange_words pb
    /\ PB.accelerator_end_high pb1 = PB.accelerator_end_high pb
    /\ PB.accelerator_end_low pb1 = PB.accelerator_end_low pb
    /\ accelerator_start pb1 = accelerator_start pb
    /\ accelerator_current pb1 = accelerator_current pb.
Proof.
  intros Hp Hl He Hi Hpc.
  set (v1 := V.set_flags (flag_clear (V.flags v) VOICE_FLAG_PITCH_CHANGE) v).
  assert (He1 : flag_set (V.flags v1) VOICE_FLAG_ERASED = false)
    by (subst v1; simpl; flag_bits; now rewrite He).
  assert (Hi1 : flag_set (V.flags v1) VOICE_FLAG_INITIALIZED = true)
    by (subst v1; simpl; flag_bits; now rewrite Hi).
  assert (Hpc1 : flag_set (V.flags v1) VOICE_FLAG_PITCH_CHANGE = false)
    by (subst v1; simpl; flag_bits; reflexivity).
  assert (Hr1 : flag_set (V.flags v1) VOICE_FLAG_RUNNING
                = flag_set (V.flags v) VOICE_FLAG_RUNNING)
    by (subst v1; simpl; flag_bits; reflexivity).
  assert (Hpa1 : flag_set (V.flags v1) VOICE_FLAG_PAUSED
                 = flag_set (V.flags v) VOICE_FLAG_PAUSED)
    by (subst v1; simpl; flag_bits; reflexivity).
  unfold ansnd_sync_voice. rewrite He, He1. cbv zeta. rewrite Hi, Hi1, Hr1, Hpa1.
  cbn [negb mbind option_bind]. rewrite Hpc, Hpc1. cbn [mbind option_bind].
  rewrite (load_block _ _ _ _ Hp Hl). cbn [mbind option_bind].
  rewrite (store_block _ _ _ _ Hp).
  match goal with
  | |- context [<[p := ?b]> dram] => set (b0 := b)
  end.
  destruct (update_voice_pitch_keeps hw rate v (<[p := b0]> dram) p b0 Hp
              (lookup_block _ _ _ _ Hl))
    as (pb1 & -> & Hf & _ & _ & _ & _ & _ & _ & _ & Hsh & Hsl & Heh & Hel & Hch & Hcl & Hw).
  cbn [mbind option_bind]. rewrite list_insert_insert_eq.
  exists pb1. split; [reflexivity|].
  unfold accelerator_start, accelerator_current.
  subst b0. rewrite Hf, Hw, Heh, Hel, Hsh, Hsl, Hch, Hcl. now destruct (negb _).
Qed.

(** Synchronizing an initialized voice that is not being erased never
    faults when the voice has a block, and publishes the host flags to the
    device one way only: PAUSED is copied, RUNNING and LOOPED can be cleared
    on the device but never set, a FINISHED the device reported is
    acknowledged and stops the voice, and the callback is told the state. *)
Lemma sync_voice_published (hw : platform) (rate : Z) (v : V.t)
    (dram : list PB.t) (p : nat) (pb : PB.t) :
  V.parameter_block v = Some p ->
  dram !! p = Some pb ->
  flag_set (V.flags v) VOICE_FLAG_ERASED = false ->
  flag_set (V.flags v) VOICE_FLAG_INITIALIZED = true ->
  exists v' pb',
    ansnd_sync_voice hw rate v dram
    = Some (v', <[p := pb']> dram,
            call_voice_callback v
              (reported_state v (flag_set (PB.flags pb) VOICE_FLAG_FINISHED)))
    /\ published v pb v' pb'.
Proof.
  assert (Hmain : forall v dram pb,
    V.parameter_block v = Some p ->
    dram !! p = Some pb ->
    flag_set (V.flags v) VOICE_FLAG_ERASED = false ->
    flag_set (V.flags v) VOICE_FLAG_INITIALIZED = true ->
    flag_set (V.flags v) VOICE_FLAG_PITCH_CHANGE = false ->
    exists v' pb',
      ansnd_sync_voice hw rate v dram
      = Some (v', <[p := pb']> dram,
              call_voice_callback v
                (reported_state v (flag_set (PB.flags pb) VOICE_FLAG_FINISHED)))
      /\ published v pb v' pb').
  { clear v dram pb. intros v dram pb Hp Hl He Hi Hpc.
    unfold ansnd_sync_voice. rewrite He. cbv zeta. rewrite Hi.
    cbn [negb mbind option_bind]. rewrite Hpc. cbn [mbind option_bind].
    rewrite (load_block _ _ _ _ Hp Hl). cbn [mbind option_bind].
    match goal with
    | |- context [store _ ?w _] =>
        assert (Hpw : V.parameter_block w = Some p);
        [ repeat match goal with |- context [if ?c then _ else _] => destruct c end;
          now destruct v
        | rewrite (store_block _ w _ _ Hpw) ]
    end.
    eexists. eexists. split.
    { f_equal. f_equal.
      unfold call_voice_callback, reported_state.
      repeat match goal with |- context [if ?c then _ else _] => destruct c end;
        now destruct v. }
    clear Hpw. unfold published, accelerator_start, accelerator_current, exchange_words.
    cbv zeta.
    destruct (flag_set (PB.flags pb) VOICE_FLAG_FINISHED) eqn:Hfin; fields;
      repeat match goal with
      | |- context [if flag_set ?f ?X then _ else _] =>
          destruct (flag_set f X) eqn:?; fields
      | |- context [if flag_set ?f ?X && flag_set ?g ?Y then _ else _] =>
          destruct (flag_set f X) eqn:?; destruct (flag_set g Y) eqn:?; fields
      end.
    all: flag_bits;
      repeat match goal with
      | H : context [Z.testbit ?x ?k] |- _ =>
          let b := fresh "b" in
          set (b := Z.testbit x k) in *; clearbody b; destruct b;
          cbn [negb andb orb xorb] in *; try discriminate
      end;
      repeat split;
      repeat match goal with
      | |- context [Z.testbit ?x ?k] =>
          let b := fresh "b" in
          set (b := Z.testbit x k) in *; clearbody b; destruct b;
          cbn [negb andb orb xorb] in *
      end;
      reflexivity. }
  intros Hp Hl He Hi.
  destruct (flag_set (V.flags v) VOICE_FLAG_PITCH_CHANGE) eqn:Hpc;
    [|now apply Hmain].
  destruct (sync_voice_pitch_first hw rate v dram p pb Hp Hl He Hi Hpc)
    as (pb1 & -> & Hf1 & Hw1 & Heh1 & Hel1 & Has1 & Hac1).
  set (v1 := V.set_flags (flag_clear (V.flags v) VOICE_FLAG_PITCH_CHANGE) v).
  destruct (Hmain v1 (<[p := pb1]> dram) pb1) as (v' & pb' & -> & H).
  - now destruct v.
  - eapply lookup_block, Hl.
  - subst v1. simpl. flag_bits. now rewrite He.
  - subst v1. simpl. flag_bits. now rewrite Hi.
  - subst v1. simpl. flag_bits. reflexivity.
  - exists v', pb'. rewrite list_insert_insert_eq.
    assert (Hr1 : flag_set (V.flags v1) VOICE_FLAG_RUNNING
                  = flag_set (V.flags v) VOICE_FLAG_RUNNING)
      by (subst v1; simpl; flag_bits; reflexivity).
    assert (Hpa1 : flag_set (V.flags v1) VOICE_FLAG_PAUSED
                   = flag_set (V.flags v) VOICE_FLAG_PAUSED)
      by (subst v1; simpl; flag_bits; reflexivity).
    assert (Hlo1 : flag_set (V.flags v1) VOICE_FLAG_LOOPED
                   = flag_set (V.flags v) VOICE_FLAG_LOOPED)
      by (subst v1; simpl; flag_bits; reflexivity).
    assert (Hst1 : flag_set (V.flags v1) VOICE_FLAG_STREAMING
                   = flag_set (V.flags v) VOICE_FLAG_STREAMING)
      by (subst v1; simpl; flag_bits; reflexivity).
    unfold published in *. cbv zeta in *.
    rewrite Hr1, Hpa1, Hlo1, Hst1, Hf1, Hw1, Heh1, Hel1, Has1, Hac1 in H.
    split; [|exact H].
    unfold call_voice_callback, reported_state. rewrite Hr1, Hpa1, Hf1. now destruct v.
Qed.

(** ** The first synchronization of a voice *)

Lemma set_flags_same (v : V.t) : V.set_flags (V.flags v) v = v.
Proof. now destruct v. Qed.

Lemma pb_set_same (pb : PB.t) : PB.set_delay (PB.delay pb) (PB.set_flags (PB.flags pb) pb) = pb.
Proof. now destruct pb. Qed.

Lemma testbit_clear_other (f k : Z) :
  k <> 4 -> Z.testbit (flag_clear f VOICE_FLAG_DELAY) k = Z.testbit f k.
Proof.
  intros Hk. destruct (Z.ltb_spec k 0) as [Hneg|Hpos].
  - now rewrite !Z.testbit_neg_r.
  - rewrite testbit_flag_clear by lia. unfold VOICE_FLAG_DELAY.
    change 0x0010 with (2 ^ 4). rewrite Z.pow2_bits_eqb by lia.
    destruct (Z.eqb_spec 4 k); [lia|]. now rewrite andb_true_r.
Qed.

Lemma testbit_or_other (f k : Z) :
  k <> 4 -> Z.testbit (flag_or f VOICE_FLAG_DELAY) k = Z.testbit f k.
Proof.
  intros Hk. destruct (Z.ltb_spec k 0) as [Hneg|Hpos].
  - now rewrite !Z.testbit_neg_r.
  - rewrite testbit_flag_or. unfold VOICE_FLAG_DELAY.
    change 0x0010 with (2 ^ 4). rewrite Z.pow2_bits_eqb by lia.
    destruct (Z.eqb_spec 4 k); [lia|]. now rewrite orb_false_r.
Qed.

(** [ansnd_update_voice_delay] on a voice with a block touches the DELAY
    flag and the delay of the voice and of the block, nothing else. *)
Lemma update_voice_delay_keeps (hw : platform) (rate : Z) (v : V.t)
    (dram : list PB.t) (p : nat) (pb : PB.t) :
  V.parameter_block v = Some p -> dram !! p = Some pb ->
  exists f d f' d',
    ansnd_update_voice_delay hw rate v dram
    = Some (V.set_delay d (V.set_flags f v),
            <[p := PB.set_delay d' (PB.set_flags f' pb)]> dram)
    /\ (forall k, k <> 4 -> Z.testbit f k = Z.testbit (V.flags v) k)
    /\ (forall k, k <> 4 -> Z.testbit f' k = Z.testbit (PB.flags pb) k).
Proof.
  intros Hp Hl. unfold ansnd_update_voice_delay. cbv zeta.
  destruct (V.delay v <? _).
  - rewrite (load_block _ _ _ _ Hp Hl). cbn [mbind option_bind].
    rewrite (store_block _ _ _ _ Hp).
    exists (flag_clear (V.flags v) VOICE_FLAG_DELAY), 0,
           (flag_clear (PB.flags pb) VOICE_FLAG_DELAY).
    eexists. split; [reflexivity|].
    split; intros k Hk; now apply testbit_clear_other.
  - exists (V.flags v), (to_u32 (V.delay v - microseconds_per_cycle_of rate)),
           (PB.flags pb), (PB.delay pb).
    rewrite set_flags_same, pb_set_same, (list_insert_id _ _ _ Hl). auto.
Qed.

(** [ansnd_initialize_voice] on a voice with a block: the block it
    leaves does not depend on the block it found. *)
Lemma initialize_voice_block (hw : platform) (rate : Z) (v : V.t)
    (dram : list PB.t) (p : nat) (pb : PB.t) :
  V.parameter_block v = Some p ->
  dram !! p = Some pb ->
  addresses_typed v ->
  exists v' pb',
    (forall pb0, ansnd_initialize_voice hw rate v (<[p := pb0]> dram)
                 = Some (v', <[p := pb']> dram))
    /\ v' = V.set_delay (V.delay v') (V.set_flags (V.flags v') v)
    /\ flag_set (V.flags v') VOICE_FLAG_INITIALIZED = true
    /\ (forall k, k <> 4 -> k <> 9 -> Z.testbit (V.flags v') k = Z.testbit (V.flags v) k)
    /\ accelerator_start pb' = V.ram_buffer_start v
    /\ accelerator_current pb' = V.ram_buffer_first v
    /\ accelerator_end pb'
       = (if flag_set (V.flags v) VOICE_FLAG_LOOPED then V.loop_end v else V.ram_buffer_end v)
    /\ (if flag_set (V.flags v) VOICE_FLAG_LOOPED
        then block_loop_start pb' = V.loop_start v
        else slot_empty pb' = true)
    /\ PB.accelerator_format pb' = V.accelerator_format v
    /\ PB.accelerator_gain pb' = V.accelerator_gain v
    /\ PB.left_volume pb' = volume_word (V.left_volume v)
    /\ PB.right_volume pb' = volume_word (V.right_volume v)
    /\ PB.sample_buffer pb' = PB.zeros16
    /\ flag_set (PB.flags pb') VOICE_FLAG_RUNNING = flag_set (V.flags v) VOICE_FLAG_RUNNING
    /\ flag_set (PB.flags pb') VOICE_FLAG_FINISHED = flag_set (V.flags v) VOICE_FLAG_FINISHED
    /\ flag_set (PB.flags pb') VOICE_FLAG_PAUSED = flag_set (V.flags v) VOICE_FLAG_PAUSED
    /\ flag_set (PB.flags pb') VOICE_FLAG_LOOPED = flag_set (V.flags v) VOICE_FLAG_LOOPED
    /\ flag_set (PB.flags pb') VOICE_FLAG_ADPCM = flag_set (V.flags v) VOICE_FLAG_ADPCM
    /\ flag_set (PB.flags pb') VOICE_FLAG_STEREO = flag_set (V.flags v) VOICE_FLAG_STEREO
    /\ flag_set (PB.flags pb') VOICE_FLAG_STREAMING
       = flag_set (V.flags v) VOICE_FLAG_STREAMING
         && negb (flag_set (V.flags v) VOICE_FLAG_LOOPED).
Proof.
  intros Hp Hl (Hs & He & Hf & Hls & Hle).
  assert (Hl0 : <[p := PB.zero]> dram !! p = Some PB.zero) by (eapply lookup_block, Hl).
  destruct (update_voice_pitch_keeps hw rate v _ p PB.zero Hp Hl0)
    as (pb1 & Hpitch & Hf1 & Hsb1 & Hw1 & _ & _ & _ & _ & _ & _ & _ & _ & _ & _ & _ & Hx1).
  rewrite list_insert_insert_eq in Hpitch.
  assert (Hl1 : <[p := pb1]> dram !! p = Some pb1) by (eapply lookup_block, Hl).
  assert (Hdelay : exists f d f' d',
    (if negb (V.delay v =? 0) then
       pb ← load (<[p := pb1]> dram) v;
       ansnd_update_voice_delay hw rate
         (V.set_flags (flag_or (V.flags v) VOICE_FLAG_DELAY) v)
         (store (<[p := pb1]> dram) v
            (PB.set_flags (flag_or (PB.flags pb) VOICE_FLAG_DELAY) pb))
     else Some (v, <[p := pb1]> dram))
    = Some (V.set_delay d (V.set_flags f v),
            <[p := PB.set_delay d' (PB.set_flags f' pb1)]> dram)
    /\ (forall k, k <> 4 -> Z.testbit f k = Z.testbit (V.flags v) k)
    /\ (forall k, k <> 4 -> Z.testbit f' k = Z.testbit (PB.flags pb1) k)).
  { destruct (V.delay v =? 0); cbn [negb].
    - exists (V.flags v), (V.delay v), (PB.flags pb1), (PB.delay pb1).
      rewrite set_flags_same, pb_set_same.
      replace (V.set_delay (V.delay v) v) with v by (now destruct v). auto.
    - rewrite (load_block _ _ _ _ Hp Hl1). cbn [mbind option_bind].
      rewrite (store_block _ _ _ _ Hp), list_insert_insert_eq.
      set (v1 := V.set_flags (flag_or (V.flags v) VOICE_FLAG_DELAY) v).
      set (b1 := PB.set_flags (flag_or (PB.flags pb1) VOICE_FLAG_DELAY) pb1).
      assert (Hp1 : V.parameter_block v1 = Some p) by (now destruct v).
      assert (Hlb : <[p := b1]> dram !! p = Some b1) by (eapply lookup_block, Hl).
      destruct (update_voice_delay_keeps hw rate v1 _ p b1 Hp1 Hlb)
        as (f & d & f' & d' & -> & Hbf & Hbf').
      rewrite list_insert_insert_eq.
      exists f, d, f', d'. split.
      + replace (V.set_delay d (V.set_flags f v1))
          with (V.set_delay d (V.set_flags f v)) by (now destruct v).
        replace (PB.set_delay d' (PB.set_flags f' b1))
          with (PB.set_delay d' (PB.set_flags f' pb1)) by (now destruct pb1).
        reflexivity.
      + split; intros k Hk.
        * rewrite (Hbf k Hk). subst v1. simpl. now apply testbit_or_other.
        * rewrite (Hbf' k Hk). subst b1. simpl. now apply testbit_or_other. }
  destruct Hdelay as (f & d & f' & d' & Hdelay & Hbf & Hbf').
  eexists. eexists. split.
  { intros pb0. unfold ansnd_initialize_voice. cbv zeta.
    rewrite (load_block _ _ _ _ Hp (lookup_block _ _ _ pb0 Hl)). cbn [mbind option_bind].
    rewrite (store_block _ _ _ _ Hp), list_insert_insert_eq, Hpitch.
    cbn [mbind option_bind]. rewrite Hdelay. cbn [mbind option_bind].
    assert (Hp2 : V.parameter_block (V.set_delay d (V.set_flags f v)) = Some p)
      by (now destruct v).
    rewrite (load_block _ _ _ _ Hp2 (lookup_block _ _ _ _ Hl)). cbn [mbind option_bind].
    rewrite (store_block _ _ _ _ Hp2), list_insert_insert_eq. reflexivity. }
  assert (Hz : forall k, k <> 4 -> Z.testbit f' k = false).
  { intros k Hk. rewrite (Hbf' k Hk), Hf1. apply Z.testbit_0_l. }
  split; [now destruct v|].
  split; [simpl; flag_bits; reflexivity|].
  split.
  { intros k Hk4 Hk9. simpl. rewrite <- (Hbf k Hk4).
    destruct (Z.ltb_spec k 0) as [Hneg|Hpos]; [now rewrite !Z.testbit_neg_r|].
    rewrite testbit_flag_or. unfold VOICE_FLAG_INITIALIZED.
    change 0x0200 with (2 ^ 9). rewrite Z.pow2_bits_eqb by lia.
    destruct (Z.eqb_spec 9 k); [lia|]. now rewrite orb_false_r. }
  unfold accelerator_start, accelerator_current, accelerator_end, block_loop_start,
    slot_empty, PB.next_buffer_start_high, PB.next_buffer_start_low.
  unfold exchange_words in Hx1. injection Hx1 as Hw37 Hw38 _.
  cbn [V.flags V.set_flags V.set_delay V.loop_start V.loop_end V.ram_buffer_start
       V.ram_buffer_end V.ram_buffer_first V.left_volume V.right_volume
       V.accelerator_format V.accelerator_gain].
  assert (Hlo : flag_set f VOICE_FLAG_LOOPED = flag_set (V.flags v) VOICE_FLAG_LOOPED)
    by (flag_bits; now apply Hbf).
  rewrite <- Hlo.
  destruct (flag_set f VOICE_FLAG_ADPCM) eqn:Had;
    destruct (flag_set f VOICE_FLAG_LOOPED) eqn:Hloop; simpl;
    rewrite ?high_low by assumption; rewrite ?Hw37, ?Hw38, ?Hsb1; simpl;
    flag_bits; rewrite ?Hz, <- ?Hbf by lia; rewrite ?Had, ?Hloop; simpl;
    repeat split; try reflexivity; try lia.
Qed.

(** The initialization step of [ansnd_sync_voice], done ahead of the
    rest. *)
Lemma sync_voice_initialize_first (hw : platform) (rate : Z) (v v1 : V.t)
    (dram d1 : list PB.t) :
  flag_set (V.flags v) VOICE_FLAG_ERASED = false ->
  flag_set (V.flags v) VOICE_FLAG_INITIALIZED = false ->
  ansnd_initialize_voice hw rate v dram = Some (v1, d1) ->
  flag_set (V.flags v1) VOICE_FLAG_INITIALIZED = true ->
  (forall k, k <> 4 -> k <> 9 -> Z.testbit (V.flags v1) k = Z.testbit (V.flags v) k) ->
  ansnd_sync_voice hw rate v dram = ansnd_sync_voice hw rate v1 d1.
Proof.
  intros He Hi Hinit Hi1 Hbits.
  assert (He1 : flag_set (V.flags v1) VOICE_FLAG_ERASED = false)
    by (flag_bits; rewrite Hbits by lia; exact He).
  assert (Hr1 : flag_set (V.flags v1) VOICE_FLAG_RUNNING
                = flag_set (V.flags v) VOICE_FLAG_RUNNING)
    by (flag_bits; apply Hbits; lia).
  assert (Hpa1 : flag_set (V.flags v1) VOICE_FLAG_PAUSED
                 = flag_set (V.flags v) VOICE_FLAG_PAUSED)
    by (flag_bits; apply Hbits; lia).
  unfold ansnd_sync_voice. rewrite He, He1. cbv zeta. rewrite Hi, Hi1, <- Hr1, <- Hpa1.
  cbn [negb]. rewrite Hinit. reflexivity.
Qed.

(** X12: the first synchronization of a voice after it was configured
    or started rebuilds its block from the voice, whatever the block held:
    the accelerator is pointed at the buffer of the voice and at its first
    sample, a looped voice ends at the loop end and has the loop start in
    the block while any other has an empty exchange slot, and the flags of
    the voice are published, RUNNING included. *)
Theorem sync_initializes_voice (hw : platform) (rate : Z) (v : V.t)
    (dram : list PB.t) (p : nat) (pb : PB.t) :
  V.parameter_block v = Some p ->
  dram !! p = Some pb ->
  addresses_typed v ->
  flag_set (V.flags v) VOICE_FLAG_ERASED = false ->
  flag_set (V.flags v) VOICE_FLAG_INITIALIZED = false ->
  flag_set (V.flags v) VOICE_FLAG_FINISHED = false ->
  exists v' pb',
    ansnd_sync_voice hw rate v dram
    = Some (v', <[p := pb']> dram, call_voice_callback v (reported_state v false))
    /\ flag_set (V.flags v') VOICE_FLAG_INITIALIZED = true
    /\ flag_set (V.flags v') VOICE_FLAG_UPDATED = false
    /\ flag_set (V.flags v') VOICE_FLAG_RUNNING = flag_set (V.flags v) VOICE_FLAG_RUNNING
    /\ flag_set (PB.flags pb') VOICE_FLAG_RUNNING = flag_set (V.flags v) VOICE_FLAG_RUNNING
    /\ flag_set (PB.flags pb') VOICE_FLAG_PAUSED = flag_set (V.flags v) VOICE_FLAG_PAUSED
    /\ flag_set (PB.flags pb') VOICE_FLAG_LOOPED = flag_set (V.flags v) VOICE_FLAG_LOOPED
    /\ flag_set (PB.flags pb') VOICE_FLAG_STREAMING
       = flag_set (V.flags v) VOICE_FLAG_STREAMING
         && negb (flag_set (V.flags v) VOICE_FLAG_LOOPED)
    /\ accelerator_start pb' = V.ram_buffer_start v
    /\ accelerator_current pb' = V.ram_buffer_first v
    /\ accelerator_end pb'
       = (if flag_set (V.flags v) VOICE_FLAG_LOOPED then V.loop_end v else V.ram_buffer_end v)
    /\ (if flag_set (V.flags v) VOICE_FLAG_LOOPED
        then block_loop_start pb' = V.loop_start v
        else slot_empty pb' = true)
    /\ PB.left_volume pb' = volume_word (V.left_volume v)
    /\ PB.right_volume pb' = volume_word (V.right_volume v).
Proof.
  intros Hp Hl Hty He Hi Hfin.
  destruct (initialize_voice_block hw rate v dram p pb Hp Hl Hty)
    as (v1 & pb1 & Hinit & Hv1 & Hi1 & Hbits & Has & Hac & Hae & Hls & _ & _ & _ & _ & _
        & Hr & Hf & Hpa & Hlo & _ & _ & Hst).
  specialize (Hinit pb). rewrite (list_insert_id _ _ _ Hl) in Hinit.
  rewrite (sync_voice_initialize_first hw rate v v1 dram _ He Hi Hinit Hi1 Hbits).
  assert (Hp1 : V.parameter_block v1 = Some p) by (rewrite Hv1; now destruct v).
  assert (He1 : flag_set (V.flags v1) VOICE_FLAG_ERASED = false)
    by (flag_bits; rewrite Hbits by lia; exact He).
  destruct (sync_voice_published hw rate v1 (<[p := pb1]> dram) p pb1 Hp1
              (lookup_block _ _ _ _ Hl) He1 Hi1) as (v' & pb' & Hsync & Hpub).
  destruct (sync_voice_effect _ _ _ _ _ _ _ Hsync) as [_ Hkept].
  destruct (Hkept He1) as (_ & Hinit' & _).
  rewrite Hsync. clear Hsync Hkept.
  exists v', pb'. rewrite list_insert_insert_eq.
  assert (Hr1 : flag_set (V.flags v1) VOICE_FLAG_RUNNING
                = flag_set (V.flags v) VOICE_FLAG_RUNNING)
    by (flag_bits; apply Hbits; lia).
  assert (Hpa1 : flag_set (V.flags v1) VOICE_FLAG_PAUSED
                 = flag_set (V.flags v) VOICE_FLAG_PAUSED)
    by (flag_bits; apply Hbits; lia).
  assert (Hlo1 : flag_set (V.flags v1) VOICE_FLAG_LOOPED
                 = flag_set (V.flags v) VOICE_FLAG_LOOPED)
    by (flag_bits; apply Hbits; lia).
  assert (Hst1 : flag_set (V.flags v1) VOICE_FLAG_STREAMING
                 = flag_set (V.flags v) VOICE_FLAG_STREAMING)
    by (flag_bits; apply Hbits; lia).
  unfold published in Hpub. cbv zeta in Hpub.
  rewrite Hr1, Hpa1, Hlo1, Hst1, Hr, Hf, Hlo, Hst, Hfin in Hpub.
  rewrite xorb_nilpotent in Hpub. cbn [negb andb orb] in Hpub.
  rewrite andb_true_r, orb_false_r in Hpub.
  destruct Hpub as (Hr' & Hbr' & Hbp' & Hbl' & _ & Hbs' & Hu' & _ & Hlv & Hrv
                    & Heh & Hel & Has' & Hac' & Hw' & _).
  split.
  { f_equal. f_equal. unfold call_voice_callback, reported_state.
    rewrite Hf, Hfin, Hr1, Hpa1, Hv1. now destruct v. }
  assert (Hlv1 : V.left_volume v1 = V.left_volume v) by (rewrite Hv1; now destruct v).
  assert (Hrv1 : V.right_volume v1 = V.right_volume v) by (rewrite Hv1; now destruct v).
  rewrite Hlv1 in Hlv. rewrite Hrv1 in Hrv.
  assert (Hae' : accelerator_end pb' = accelerator_end pb1)
    by (unfold accelerator_end; now rewrite Heh, Hel).
  assert (Hls' : block_loop_start pb' = block_loop_start pb1
                 /\ slot_empty pb' = slot_empty pb1).
  { unfold block_loop_start, slot_empty, PB.next_buffer_start_high,
      PB.next_buffer_start_low. unfold exchange_words in Hw'.
    injection Hw' as -> -> _ _ -> -> _. now split. }
  destruct Hls' as [Hls1 Hls2].
  rewrite Hbr', Hr', Hbp', Hbl', Hbs', Has', Hac', Hae', Has, Hac, Hae, Hls1, Hls2.
  rewrite !andb_diag. repeat split; auto.
Qed.

(** ** The cycle seen from one voice *)

(** The loop of the cycle, seen from one voice [j]: iteration [j] starts
    from statics in which voice [j] and block [j] are as the loop found
    them, and what it leaves in them is what the loop leaves. *)
Lemma request_loop_local (hw : platform) (inp : cycle_input) (n : nat) :
  forall (i : nat) (s s' : St.t) (ev : list event),
  ansnd_request_loop hw inp n i s = Some (s', ev) ->
  (i + n <= length (St.ansnd_voices s))%nat ->
  own_blocks (St.ansnd_voices s) ->
  forall j, (i <= j < i + n)%nat ->
  exists s0 s1 evj,
    ansnd_request_voice hw inp j s0 = Some (s1, evj)
    /\ St.ansnd_voices s0 !!! j = St.ansnd_voices s !!! j
    /\ St.ansnd_dsp_dram_image s0 !! j = St.ansnd_dsp_dram_image s !! j
    /\ St.ansnd_output_samplerate s0 = St.ansnd_output_samplerate s
    /\ St.ansnd_voices s' !!! j = St.ansnd_voices s1 !!! j
    /\ St.ansnd_dsp_dram_image s' !! j = St.ansnd_dsp_dram_image s1 !! j
    /\ exists before after, ev = before ++ evj ++ after.
Proof.
  induction n as [|n IH]; intros i s s' ev H Hlen Hok j Hj; [lia|].
  cbn [ansnd_request_loop] in H.
  destruct (ansnd_request_voice hw inp i s) as [[s1 ev1]|] eqn:E1;
    [cbn [mbind option_bind] in H | discriminate H].
  destruct (ansnd_request_loop hw inp n (S i) s1) as [[s2 ev2]|] eqn:E2;
    [cbn [mbind option_bind] in H | discriminate H].
  injection H as <- <-.
  pose proof (request_voice_own_blocks _ _ _ _ _ _ E1 Hok) as Hok1.
  pose proof (request_voice_effect _ _ _ _ _ _ E1 ltac:(lia)) as (Hl1 & Hother1 & _).
  pose proof (request_voice_globals _ _ _ _ _ _ E1) as (_ & _ & _ & Hrate1 & _).
  pose proof (request_voice_blocks _ _ _ _ _ _ E1) as (Hf1 & _).
  assert (Hframe : forall k, k <> i ->
            St.ansnd_dsp_dram_image s1 !! k = St.ansnd_dsp_dram_image s !! k).
  { intros k Hk. apply Hf1. intros Heq. symmetry in Heq. apply Hok in Heq. lia. }
  destruct (decide (j = i)) as [->|Hne].
  - exists s, s1, ev1. split; [exact E1|]. split; [reflexivity|]. split; [reflexivity|].
    split; [reflexivity|]. split.
    + pose proof (request_loop_effect _ _ _ _ _ _ _ E2 ltac:(lia)) as (_ & Hother2 & _).
      apply Hother2. lia.
    + split.
      * pose proof (request_loop_blocks _ _ _ _ _ _ _ E2 ltac:(lia) Hok1) as (Hf2 & _).
        apply Hf2. lia.
      * exists [], ev2. reflexivity.
  - destruct (IH (S i) s1 s2 ev2 E2 ltac:(lia) Hok1 j ltac:(lia))
      as (s0 & s1' & evj & Hreq & Hv & Hd & Hr & Hv' & Hd' & before & after & ->).
    exists s0, s1', evj. split; [exact Hreq|].
    split; [rewrite Hv; now apply Hother1|].
    split; [rewrite Hd; now apply Hframe|].
    split; [congruence|]. split; [exact Hv'|]. split; [exact Hd'|].
    exists (ev1 ++ before), after. now rewrite <- !app_assoc.
Qed.

(** The same of a whole cycle. *)
Lemma request_callback_local (hw : platform) (inp : cycle_input)
    (s s' : St.t) (ev : list event) (j : nat) :
  ansnd_dsp_request_callback hw inp s = Some (s', ev) ->
  length (St.ansnd_voices s) = 48%nat ->
  own_blocks (St.ansnd_voices s) ->
  (j < 48)%nat ->
  exists s0 s1 evj,
    ansnd_request_voice hw inp j s0 = Some (s1, evj)
    /\ St.ansnd_voices s0 !!! j = St.ansnd_voices s !!! j
    /\ St.ansnd_dsp_dram_image s0 !! j = St.ansnd_dsp_dram_image s !! j
    /\ St.ansnd_output_samplerate s0 = St.ansnd_output_samplerate s
    /\ St.ansnd_voices s' !!! j = St.ansnd_voices s1 !!! j
    /\ St.ansnd_dsp_dram_image s' !! j = St.ansnd_dsp_dram_image s1 !! j
    /\ exists before after, ev = before ++ evj ++ after.
Proof.
  unfold ansnd_dsp_request_callback. cbv zeta. intros H Hlen Hok Hj.
  match type of H with
  | mbind _ (ansnd_request_loop _ _ _ _ ?t) = Some _ => set (t0 := t) in H
  end.
  assert (Hv0 : St.ansnd_voices t0 = St.ansnd_voices s) by (now destruct s).
  assert (Hd0 : St.ansnd_dsp_dram_image t0 = St.ansnd_dsp_dram_image s) by (now destruct s).
  assert (Hr0 : St.ansnd_output_samplerate t0 = St.ansnd_output_samplerate s)
    by (now destruct s).
  clearbody t0.
  destruct (ansnd_request_loop hw inp (Z.to_nat ANSND_MAX_VOICES) 0 t0)
    as [[s1 ev1]|] eqn:Hloop; [cbn [mbind option_bind] in H | discriminate H].
  injection H as <- <-.
  change (Z.to_nat ANSND_MAX_VOICES) with 48%nat in Hloop.
  destruct (request_loop_local hw inp 48 0 t0 s1 ev1 Hloop) with (j := j)
    as (s0 & s1' & evj & Hreq & Hv & Hd & Hr & Hv' & Hd' & before & after & ->);
    [rewrite Hv0; lia | now rewrite Hv0 | lia |].
  exists s0, s1', evj. rewrite <- Hv0, <- Hd0, <- Hr0.
  replace (St.ansnd_voices (St.set_ansnd_total_process_time _ s1)) with (St.ansnd_voices s1)
    by (now destruct s1).
  replace (St.ansnd_dsp_dram_image (St.set_ansnd_total_process_time _ s1))
    with (St.ansnd_dsp_dram_image s1) by (now destruct s1).
  split; [exact Hreq|]. split; [exact Hv|]. split; [exact Hd|]. split; [exact Hr|].
  split; [exact Hv'|]. split; [exact Hd'|].
  eexists before, _. rewrite <- !app_assoc. reflexivity.
Qed.

(** What an accepted [ansnd_deallocate_voice] leaves in the voice. *)
Lemma deallocate_marks (s s1 : St.t) (voice_id : Z) :
  length (St.ansnd_voices s) = 48%nat ->
  ansnd_deallocate_voice voice_id s = (ANSND_ERROR_OK, s1) ->
  0 <= voice_id < 48
  /\ length (St.ansnd_voices s1) = 48%nat
  /\ St.ansnd_dsp_dram_image s1 = St.ansnd_dsp_dram_image s
  /\ V.flags (voice s1 voice_id)
     = flag_or (flag_or (V.flags (voice s voice_id)) VOICE_FLAG_UPDATED) VOICE_FLAG_ERASED
  /\ V.parameter_block (voice s1 voice_id) = V.parameter_block (voice s voice_id)
  /\ V.voice_callback (voice s1 voice_id) = V.voice_callback (voice s voice_id)
  /\ V.user_pointer (voice s1 voice_id) = V.user_pointer (voice s voice_id).
Proof.
  intros Hlen H. unfold ansnd_deallocate_voice in H. accepted H.
  apply orb_false_iff in Hcheck0 as [Hlo Hhi].
  apply Z.ltb_ge in Hlo. apply Z.leb_gt in Hhi. unfold ANSND_MAX_VOICES in Hhi.
  cbv zeta in H. split; [lia|].
  destruct (V.linked_voice (voice s voice_id)) as [j|] eqn:Hl; injection H as <-.
  - unfold voice. rewrite ?voices_on_linked, ?voices_set_voice.
    split; [now rewrite !length_insert|]. split; [now destruct s|].
    rewrite list_lookup_total_insert. case_decide as Hj.
    + destruct Hj as [<- Hj]. rewrite length_insert in Hj.
      rewrite list_lookup_total_insert_eq by exact Hj. repeat split.
    + rewrite list_lookup_total_insert_eq by lia. repeat split.
  - unfold voice. rewrite voices_set_voice, list_lookup_total_insert_eq by lia.
    split; [now rewrite length_insert|]. split; [now destruct s|]. repeat split.
Qed.

(** An iteration on a voice marked for erasure that has no block. *)
Lemma request_voice_null (hw : platform) (inp : cycle_input) (j : nat) (s : St.t) :
  flag_set (V.flags (St.ansnd_voices s !!! j)) VOICE_FLAG_UPDATED = true ->
  flag_set (V.flags (St.ansnd_voices s !!! j)) VOICE_FLAG_ERASED = true ->
  V.parameter_block (St.ansnd_voices s !!! j) = None ->
  ansnd_request_voice hw inp j s = None.
Proof.
  intros Hu He Hp. unfold ansnd_request_voice. cbv zeta. rewrite Hu.
  cbn [mbind option_bind]. unfold ansnd_sync_voice. rewrite He.
  unfold ansnd_erase_voice, load. rewrite Hp. reflexivity.
Qed.

Lemma request_loop_null (hw : platform) (inp : cycle_input) (n : nat) :
  forall (i j : nat) (s : St.t),
  (i <= j < i + n)%nat ->
  flag_set (V.flags (St.ansnd_voices s !!! j)) VOICE_FLAG_UPDATED = true ->
  flag_set (V.flags (St.ansnd_voices s !!! j)) VOICE_FLAG_ERASED = true ->
  V.parameter_block (St.ansnd_voices s !!! j) = None ->
  ansnd_request_loop hw inp n i s = None.
Proof.
  induction n as [|n IH]; intros i j s Hj Hu He Hp; [lia|].
  cbn [ansnd_request_loop].
  destruct (decide (j = i)) as [->|Hne].
  - now rewrite request_voice_null.
  - destruct (ansnd_request_voice hw inp i s) as [[s1 ev1]|] eqn:E1; [|reflexivity].
    cbn [mbind option_bind].
    destruct (request_voice_voices _ _ _ _ _ _ E1) as [w Hw].
    rewrite (IH (S i) j s1); [reflexivity | lia | | |];
      rewrite Hw, list_lookup_total_insert_ne by auto; assumption.
Qed.

(** A voice that has no block is marked by its deallocation for a
    teardown that faults: the cycle passes its NULL [parameter_block] to
    [memset] in [ansnd_erase_voice], whatever the other voices are. *)
Lemma deallocate_unconfigured_faults (hw : platform) (inp : cycle_input)
    (s s1 : St.t) (voice_id : Z) :
  length (St.ansnd_voices s) = 48%nat ->
  V.parameter_block (voice s voice_id) = None ->
  ansnd_deallocate_voice voice_id s = (ANSND_ERROR_OK, s1) ->
  ansnd_dsp_request_callback hw inp s1 = None.
Proof.
  intros Hlen Hnull H.
  destruct (deallocate_marks s s1 voice_id Hlen H) as (Hid & Hlen1 & _ & Hfl & Hpb & _).
  unfold ansnd_dsp_request_callback. cbv zeta.
  rewrite (request_loop_null hw inp _ 0 (Z.to_nat voice_id)); [reflexivity | | | |].
  - change (Z.to_nat ANSND_MAX_VOICES) with 48%nat. lia.
  - replace (St.ansnd_voices _) with (St.ansnd_voices s1) by (now destruct s1).
    fold (voice s1 voice_id). rewrite Hfl. flag_bits. reflexivity.
  - replace (St.ansnd_voices _) with (St.ansnd_voices s1) by (now destruct s1).
    fold (voice s1 voice_id). rewrite Hfl. flag_bits. reflexivity.
  - replace (St.ansnd_voices _) with (St.ansnd_voices s1) by (now destruct s1).
    fold (voice s1 voice_id). now rewrite Hpb.
Qed.

(** ** A marked voice across a whole cycle *)

Lemma same_controls_refl (pb : PB.t) : same_controls pb pb.
Proof. now repeat split. Qed.

Lemma same_controls_trans (pb1 pb2 pb3 : PB.t) :
  same_controls pb1 pb2 -> same_controls pb2 pb3 -> same_controls pb1 pb3.
Proof.
  intros (Hf & ? & ? & ? & ? & ?) (Hf' & ? & ? & ? & ? & ?).
  repeat split; try congruence. intros k Hk. now rewrite Hf', Hf.
Qed.

(** [ansnd_update_stream_buffers] on a voice with a block writes the
    exchange words of the block and nothing else of it. *)
Lemma update_stream_buffers_keeps (hw : platform) (pcm : PcmBuf.t) (adpcm : AdpcmBuf.t)
    (v v' : V.t) (dram dram' : list PB.t) (ev : list event) (p : nat) (pb : PB.t) :
  V.parameter_block v = Some p -> dram !! p = Some pb ->
  ansnd_update_stream_buffers hw pcm adpcm v dram = Some (v', dram', ev) ->
  exists pb', dram' = <[p := pb']> dram /\ same_controls pb pb'.
Proof.
  intros Hp Hl H. unfold ansnd_update_stream_buffers in H.
  first_result H v1 ev1 Hfill.
  assert (Hp1 : V.parameter_block v1 = Some p).
  { destruct (V.next_buffer_start v =? 0).
    - unfold ansnd_fill_stream_buffers in Hfill.
      repeat step Hfill; injection Hfill as <- _; exact Hp.
    - now injection Hfill as <- _. }
  rewrite (load_block _ _ _ _ Hp1 Hl) in H. cbn [mbind option_bind] in H.
  destruct (_ && _).
  - unfold ansnd_write_stream_buffers in H.
    rewrite (load_block _ _ _ _ Hp1 Hl) in H. cbn [mbind option_bind] in H.
    rewrite (store_block _ _ _ _ Hp1) in H. injection H as _ <- _.
    eexists. split; [reflexivity|].
    unfold same_controls, accelerator_start, accelerator_current, accelerator_end.
    destruct (flag_set (V.flags v1) VOICE_FLAG_ADPCM); now repeat split.
  - injection H as _ <- _. exists pb. split; [now rewrite list_insert_id|].
    apply same_controls_refl.
Qed.

(** X13: a change a call has marked on an initialized voice reaches the
    device in the next cycle, whatever the other voices are: PAUSED and the
    volumes are copied into the block of the voice, RUNNING and LOOPED are
    only ever cleared there, a FINISHED the device reported is acknowledged
    and stops the voice, the accelerator start and current addresses are
    kept, and the voice is no longer marked UPDATED. *)
Theorem cycle_publishes_voice (hw : platform) (inp : cycle_input)
    (s s' : St.t) (ev : list event) (j : nat) (pb : PB.t) :
  ansnd_dsp_request_callback hw inp s = Some (s', ev) ->
  length (St.ansnd_voices s) = 48%nat ->
  own_blocks (St.ansnd_voices s) ->
  V.parameter_block (St.ansnd_voices s !!! j) = Some j ->
  St.ansnd_dsp_dram_image s !! j = Some pb ->
  flag_set (V.flags (St.ansnd_voices s !!! j)) VOICE_FLAG_UPDATED = true ->
  flag_set (V.flags (St.ansnd_voices s !!! j)) VOICE_FLAG_ERASED = false ->
  flag_set (V.flags (St.ansnd_voices s !!! j)) VOICE_FLAG_INITIALIZED = true ->
  let v := St.ansnd_voices s !!! j in
  let v' := St.ansnd_voices s' !!! j in
  exists pb',
    St.ansnd_dsp_dram_image s' !! j = Some pb'
    /\ flag_set (V.flags v') VOICE_FLAG_UPDATED = false
    /\ flag_set (V.flags v') VOICE_FLAG_RUNNING
       = flag_set (V.flags v) VOICE_FLAG_RUNNING
         && negb (flag_set (PB.flags pb) VOICE_FLAG_FINISHED)
    /\ flag_set (PB.flags pb') VOICE_FLAG_RUNNING
       = flag_set (PB.flags pb) VOICE_FLAG_RUNNING
         && flag_set (V.flags v') VOICE_FLAG_RUNNING
    /\ flag_set (PB.flags pb') VOICE_FLAG_PAUSED = flag_set (V.flags v) VOICE_FLAG_PAUSED
    /\ flag_set (PB.flags pb') VOICE_FLAG_LOOPED
       = flag_set (PB.flags pb) VOICE_FLAG_LOOPED && flag_set (V.flags v) VOICE_FLAG_LOOPED
    /\ flag_set (PB.flags pb') VOICE_FLAG_FINISHED = false
    /\ PB.left_volume pb' = volume_word (V.left_volume v)
    /\ PB.right_volume pb' = volume_word (V.right_volume v)
    /\ accelerator_start pb' = accelerator_start pb
    /\ accelerator_current pb' = accelerator_current pb.
Proof.
  intros H Hlen Hok Hp Hl Hu He Hi. cbv zeta.
  assert (Hj : (j < 48)%nat).
  { destruct (decide (j < 48)%nat) as [|Hge]; [assumption|].
    rewrite list_lookup_total_alt, lookup_ge_None_2 in Hp by lia. discriminate Hp. }
  destruct (request_callback_local hw inp s s' ev j H Hlen Hok Hj)
    as (s0 & s1 & evj & Hreq & Hv0 & Hd0 & Hr0 & Hv1 & Hd1 & _).
  rewrite Hv1, Hd1. rewrite <- Hv0 in *.
  rewrite <- Hd0 in Hl. clear Hv0 Hd0 Hv1 Hd1 H Hok Hlen.
  apply request_voice_inv in Hreq. cbv zeta in Hreq.
  destruct Hreq as (synced & v1 & d1 & ev1 & v2 & d2 & ev2 & v3 & d3 & Hn & Hsync & Hrest & _).
  unfold needs_sync in Hn. rewrite Hu in Hn. injection Hn as <-.
  destruct (sync_voice_published hw (St.ansnd_output_samplerate s0) _ _ j pb Hp Hl He Hi)
    as (w & pb1 & Hsync' & Hpub).
  rewrite Hsync' in Hsync. injection Hsync as <- <- _.
  assert (Hp1 : V.parameter_block w = Some j).
  { apply sync_voice_effect in Hsync' as [_ Hkept].
    destruct (Hkept He) as ((Hpb & _) & _). now rewrite Hpb. }
  assert (Hl1 : <[j := pb1]> (St.ansnd_dsp_dram_image s0) !! j = Some pb1)
    by (eapply lookup_block, Hl).
  assert (Hfinal : exists pb3,
            St.ansnd_dsp_dram_image s1 !! j = Some pb3 /\ same_controls pb1 pb3
            /\ flag_set (V.flags (St.ansnd_voices s1 !!! j)) VOICE_FLAG_RUNNING
               = flag_set (V.flags w) VOICE_FLAG_RUNNING
            /\ flag_set (V.flags (St.ansnd_voices s1 !!! j)) VOICE_FLAG_UPDATED
               = flag_set (V.flags w) VOICE_FLAG_UPDATED).
  { assert (Hj0 : (j < length (St.ansnd_voices s0))%nat).
    { destruct (decide (j < length (St.ansnd_voices s0))%nat) as [|Hge]; [assumption|].
      rewrite list_lookup_total_alt, lookup_ge_None_2 in Hp by lia. discriminate Hp. }
    destruct (flag_set (V.flags w) VOICE_FLAG_RUNNING) eqn:Hrun.
    - destruct Hrest as (Hstream & Hdelay & ->).
      assert (H2 : exists pb2, d2 = <[j := pb2]> (St.ansnd_dsp_dram_image s0)
                               /\ same_controls pb1 pb2
                               /\ V.parameter_block v2 = Some j
                               /\ V.flags v2 = V.flags w).
      { destruct (_ && _).
        - pose proof (update_stream_buffers_steady _ _ _ _ _ _ _ _ Hstream)
            as ((Hpb & _) & Hf).
          destruct (update_stream_buffers_keeps _ _ _ _ _ _ _ _ j pb1 Hp1 Hl1 Hstream)
            as (pb2 & -> & Hsc).
          exists pb2. rewrite list_insert_insert_eq. repeat split; try apply Hsc; congruence.
        - injection Hstream as <- <- _. exists pb1. repeat split; auto. }
      destruct H2 as (pb2 & -> & Hsc2 & Hp2 & Hf2).
      assert (Hl2 : <[j := pb2]> (St.ansnd_dsp_dram_image s0) !! j = Some pb2)
        by (eapply lookup_block, Hl).
      assert (H3 : exists pb3, d3 = <[j := pb3]> (St.ansnd_dsp_dram_image s0)
                               /\ same_controls pb2 pb3
                               /\ flag_set (V.flags v3) VOICE_FLAG_RUNNING
                                  = flag_set (V.flags v2) VOICE_FLAG_RUNNING
                               /\ flag_set (V.flags v3) VOICE_FLAG_UPDATED
                                  = flag_set (V.flags v2) VOICE_FLAG_UPDATED).
      { destruct (flag_set (V.flags v2) VOICE_FLAG_DELAY).
        - pose proof (update_voice_delay_steady _ _ _ _ _ _ Hdelay) as (_ & _ & Hr3 & Hu3).
          destruct (update_voice_delay_keeps hw (St.ansnd_output_samplerate s0) v2 _ j pb2
                      Hp2 Hl2) as (f & d & f' & d' & Hd & _ & Hbf').
          rewrite Hd in Hdelay. injection Hdelay as _ <-.
          eexists. rewrite list_insert_insert_eq. split; [reflexivity|].
          split; [|now split].
          unfold same_controls, accelerator_start, accelerator_current, accelerator_end.
          now repeat split.
        - injection Hdelay as <- <-. exists pb2.
          split; [reflexivity|]. split; [apply same_controls_refl | now split]. }
      destruct H3 as (pb3 & -> & Hsc3 & Hr3 & Hu3).
      exists pb3.
      replace (St.ansnd_dsp_dram_image (St.set_ansnd_active_voices _ _))
        with (<[j := pb3]> (St.ansnd_dsp_dram_image s0)) by (now destruct s0).
      replace (St.ansnd_voices (St.set_ansnd_active_voices _ _))
        with (<[j := v3]> (St.ansnd_voices s0)) by (now destruct s0).
      rewrite list_lookup_total_insert_eq by exact Hj0.
      split; [eapply lookup_block, Hl|].
      split; [eapply same_controls_trans; eassumption|].
      rewrite Hr3, Hu3, Hf2. now split.
    - destruct Hrest as (_ & _ & _ & _ & _ & ->). exists pb1.
      replace (St.ansnd_dsp_dram_image (St.set_ansnd_dsp_dram_image _ _))
        with (<[j := pb1]> (St.ansnd_dsp_dram_image s0)) by (now destruct s0).
      replace (St.ansnd_voices (St.set_ansnd_dsp_dram_image _ _))
        with (<[j := w]> (St.ansnd_voices s0)) by (now destruct s0).
      rewrite list_lookup_total_insert_eq by exact Hj0.
      split; [exact Hl1|]. split; [apply same_controls_refl|]. now split. }
  destruct Hfinal as (pb3 & Hl3 & (Hbits & Hlv & Hrv & Has & Hac & _) & Hr3 & Hu3).
  exists pb3. split; [exact Hl3|].
  unfold published in Hpub. cbv zeta in Hpub.
  destruct Hpub as (Hr' & Hbr' & Hbp' & Hbl' & Hbf' & _ & Hu' & _ & Hlv' & Hrv'
                    & _ & _ & Has' & Hac' & _).
  rewrite Hr3, Hu3, Hlv, Hrv, Has, Hac.
  assert (HX : forall X k, 0 <= k -> k <> 4 -> X = 2 ^ k ->
                flag_set (PB.flags pb3) X = flag_set (PB.flags pb1) X).
  { intros X k Hk Hk4 ->. rewrite !(flag_set_pow2 _ _ k) by auto. now apply Hbits. }
  rewrite (HX VOICE_FLAG_RUNNING 7), (HX VOICE_FLAG_PAUSED 5), (HX VOICE_FLAG_LOOPED 2),
    (HX VOICE_FLAG_FINISHED 6) by (reflexivity || lia).
  repeat split; assumption.
Qed.

(** X14: a voice marked for erasure that has a block is torn down by
    the next cycle, whatever the other voices are: its callback, if it has
    one, is told ERASED, its block is cleared and so is the voice itself,
    which frees the slot for the next allocation. *)
Theorem cycle_erases_voice (hw : platform) (inp : cycle_input)
    (s s' : St.t) (ev : list event) (j : nat) (pb : PB.t) :
  ansnd_dsp_request_callback hw inp s = Some (s', ev) ->
  length (St.ansnd_voices s) = 48%nat ->
  own_blocks (St.ansnd_voices s) ->
  V.parameter_block (St.ansnd_voices s !!! j) = Some j ->
  St.ansnd_dsp_dram_image s !! j = Some pb ->
  flag_set (V.flags (St.ansnd_voices s !!! j)) VOICE_FLAG_UPDATED = true ->
  flag_set (V.flags (St.ansnd_voices s !!! j)) VOICE_FLAG_ERASED = true ->
  St.ansnd_voices s' !!! j = V.zero
  /\ St.ansnd_dsp_dram_image s' !! j = Some PB.zero
  /\ flag_set (V.flags (St.ansnd_voices s' !!! j)) VOICE_FLAG_USED = false
  /\ forall fn, V.voice_callback (St.ansnd_voices s !!! j) = Some fn ->
       In (VoiceCallback fn (V.user_pointer (St.ansnd_voices s !!! j))
             ANSND_VOICE_STATE_ERASED) ev.
Proof.
  intros H Hlen Hok Hp Hl Hu He.
  assert (Hj : (j < 48)%nat).
  { destruct (decide (j < 48)%nat) as [|Hge]; [assumption|].
    rewrite list_lookup_total_alt, lookup_ge_None_2 in Hp by lia. discriminate Hp. }
  destruct (request_callback_local hw inp s s' ev j H Hlen Hok Hj)
    as (s0 & s1 & evj & Hreq & Hv0 & Hd0 & Hr0 & Hv1 & Hd1 & before & after & ->).
  rewrite Hv1, Hd1. rewrite <- Hv0 in *. rewrite <- Hd0 in Hl.
  clear Hv0 Hd0 Hv1 Hd1 H Hok Hlen.
  assert (Hj0 : (j < length (St.ansnd_voices s0))%nat).
  { destruct (decide (j < length (St.ansnd_voices s0))%nat) as [|Hge]; [assumption|].
    rewrite list_lookup_total_alt, lookup_ge_None_2 in Hp by lia. discriminate Hp. }
  unfold ansnd_request_voice in Hreq. cbv zeta in Hreq. rewrite Hu in Hreq.
  cbn [mbind option_bind] in Hreq.
  unfold ansnd_sync_voice in Hreq. rewrite He in Hreq.
  unfold ansnd_erase_voice in Hreq.
  rewrite (load_block _ _ _ _ Hp Hl), (store_block _ _ _ _ Hp) in Hreq.
  cbn [mbind option_bind] in Hreq.
  change (flag_set (V.flags V.zero) VOICE_FLAG_RUNNING) with false in Hreq.
  cbv iota in Hreq. injection Hreq as <- <-.
  replace (St.ansnd_voices (St.set_ansnd_dsp_dram_image _ _))
    with (<[j := V.zero]> (St.ansnd_voices s0)) by (now destruct s0).
  replace (St.ansnd_dsp_dram_image (St.set_ansnd_dsp_dram_image _ _))
    with (<[j := PB.zero]> (St.ansnd_dsp_dram_image s0)) by (now destruct s0).
  rewrite list_lookup_total_insert_eq by exact Hj0.
  split; [reflexivity|]. split; [eapply lookup_block, Hl|]. split; [reflexivity|].
  intros fn Hfn. apply in_or_app. right. apply in_or_app. left.
  unfold call_voice_callback. rewrite Hfn. now left.
Qed.

(** ** The delay of a voice *)

Lemma delay_cycles_app (hw : platform) (rate : Z) (m n : nat) :
  forall v dram,
  delay_cycles hw rate (m + n) v dram
  = '(v, dram) ← delay_cycles hw rate m v dram; delay_cycles hw rate n v dram.
Proof.
  induction m as [|m IH]; intros v dram; [reflexivity|].
  cbn [Nat.add delay_cycles].
  destruct (if flag_set _ _ then _ else _) as [[v1 d1]|]; [|reflexivity].
  cbn [mbind option_bind]. apply IH.
Qed.

(** While the delay is at least the threshold, a cycle takes its length off
    the delay and leaves the blocks alone. *)
Lemma delay_cycles_waiting (hw : platform) (rate : Z) (dram : list PB.t) (m : nat) :
  forall v,
  0 < microseconds_per_cycle_of rate <= delay_threshold rate ->
  flag_set (V.flags v) VOICE_FLAG_DELAY = true ->
  (m = 0%nat
   \/ delay_threshold rate + (Z.of_nat m - 1) * microseconds_per_cycle_of rate <= V.delay v) ->
  V.delay v < 2 ^ 32 ->
  delay_cycles hw rate m v dram
  = Some (V.set_delay (V.delay v - Z.of_nat m * microseconds_per_cycle_of rate) v, dram).
Proof.
  induction m as [|m IH]; intros v Hus Hd Hge Hlt.
  - cbn [delay_cycles]. rewrite Z.sub_0_r. now destruct v.
  - cbn [delay_cycles]. rewrite Hd. unfold ansnd_update_voice_delay. cbv zeta.
    fold (delay_threshold rate).
    destruct Hge as [Hge|Hge]; [discriminate Hge|].
    destruct (Z.ltb_spec (V.delay v) (delay_threshold rate)) as [Hlow|_]; [nia|].
    cbn [mbind option_bind].
    rewrite IH; try assumption.
    + f_equal. f_equal. cbn [V.delay V.set_delay].
      unfold to_u32. rewrite Z.mod_small by lia.
      replace (V.delay v - microseconds_per_cycle_of rate
               - Z.of_nat m * microseconds_per_cycle_of rate)
        with (V.delay v - Z.of_nat (S m) * microseconds_per_cycle_of rate) by lia.
      now destruct v.
    + cbn [V.delay V.set_delay]. unfold to_u32. rewrite Z.mod_small by lia.
      destruct m; [now left | right; lia].
    + cbn [V.delay V.set_delay]. unfold to_u32. rewrite Z.mod_small by lia. lia.
Qed.

Lemma delay_threshold_rates (rate : Z) :
  rate = ANSND_OUTPUT_SAMPLERATE_32KHZ \/ rate = ANSND_OUTPUT_SAMPLERATE_48KHZ ->
  0 < microseconds_per_cycle_of rate <= delay_threshold rate.
Proof. intros [-> | ->]; vm_compute; split; congruence. Qed.

(** X15: a voice that waits for its delay is released after exactly
    [cycles_of_delay] cycles: until then every cycle takes its length off
    the delay and leaves the block alone; the last one hands a rest below
    the threshold to the DSP, as a count of output samples, and clears
    DELAY in the voice and in the block. *)
Theorem delay_counts_down (hw : platform) (rate : Z) (v : V.t)
    (dram : list PB.t) (p : nat) (pb : PB.t) :
  rate = ANSND_OUTPUT_SAMPLERATE_32KHZ \/ rate = ANSND_OUTPUT_SAMPLERATE_48KHZ ->
  V.parameter_block v = Some p ->
  dram !! p = Some pb ->
  flag_set (V.flags v) VOICE_FLAG_DELAY = true ->
  0 <= V.delay v < 2 ^ 32 ->
  (forall m, (m < cycles_of_delay rate (V.delay v))%nat ->
     delay_cycles hw rate m v dram
     = Some (V.set_delay (V.delay v - Z.of_nat m * microseconds_per_cycle_of rate) v, dram))
  /\ exists v' pb',
       delay_cycles hw rate (cycles_of_delay rate (V.delay v)) v dram
       = Some (v', <[p := pb']> dram)
       /\ flag_set (V.flags v') VOICE_FLAG_DELAY = false
       /\ V.delay v' = 0
       /\ flag_set (PB.flags pb') VOICE_FLAG_DELAY = false
       /\ PB.delay pb'
          = to_u16 (F32.trunc
              (F32.div (F32.mul
                          (F32.of_Z (V.delay v
                                     - (Z.of_nat (cycles_of_delay rate (V.delay v)) - 1)
                                       * microseconds_per_cycle_of rate))
                          (dsp_frequency_of hw rate))
                       (F32.of_Z 1000000)))
       /\ same_controls pb pb'.
Proof.
  intros Hrate Hp Hl Hd Hrange.
  pose proof (delay_threshold_rates rate Hrate) as Hus.
  set (us := microseconds_per_cycle_of rate) in *.
  set (T := delay_threshold rate) in *.
  set (n := cycles_of_delay rate (V.delay v)).
  assert (Hn : (1 <= n)%nat /\ (n = 1%nat \/ T + (Z.of_nat n - 2) * us <= V.delay v)
               /\ V.delay v - (Z.of_nat n - 1) * us < T
               /\ 0 <= V.delay v - (Z.of_nat n - 1) * us).
  { subst n. unfold cycles_of_delay. fold T us.
    destruct (Z.ltb_spec (V.delay v) T) as [Hlow|Hhigh].
    - cbn. split; [lia|]. split; [now left | lia].
    - pose proof (Z.div_pos (V.delay v - T) us ltac:(lia) ltac:(lia)) as Hq.
      pose proof (Z.mul_div_le (V.delay v - T) us ltac:(lia)) as Hle.
      pose proof (Z.mul_succ_div_gt (V.delay v - T) us ltac:(lia)) as Hgt.
      rewrite Z2Nat.id by lia. split; [lia|]. split; [right; lia | nia]. }
  destruct Hn as (Hn1 & Hn2 & Hn3 & Hn4). clearbody n.
  split.
  - intros m Hm. apply delay_cycles_waiting; try assumption; try lia.
    fold T us. destruct m; [now left | right; nia].
  - assert (Hwait : (n - 1 = 0)%nat
                     \/ T + (Z.of_nat (n - 1) - 1) * us <= V.delay v)
      by (destruct Hn2 as [-> | Hn2]; [now left | right; nia]).
    pose proof (delay_cycles_waiting hw rate dram (n - 1) v Hus Hd Hwait ltac:(lia)) as Hw.
    assert (Hsplit : delay_cycles hw rate n v dram
                     = delay_cycles hw rate ((n - 1) + 1) v dram) by (f_equal; lia).
    rewrite Hsplit, delay_cycles_app, Hw.
    cbn [mbind option_bind delay_cycles]. fields. rewrite Hd.
    unfold ansnd_update_voice_delay. cbv zeta. fields. fold T us.
    replace (Z.of_nat (n - 1)) with (Z.of_nat n - 1) by lia.
    destruct (Z.ltb_spec (V.delay v - (Z.of_nat n - 1) * us) (to_u32 (32767 * us) / 240))
      as [_|Hhigh]; [|unfold T, delay_threshold in Hn3; fold us in Hn3; lia].
    cbn [mbind option_bind].
    unfold load, store. fields. rewrite Hp, Hl. cbn [mbind option_bind].
    eexists. eexists. split; [reflexivity|]. fields.
    split; [flag_bits; reflexivity|]. split; [reflexivity|].
    split; [flag_bits; reflexivity|]. split; [reflexivity|].
    unfold same_controls, accelerator_start, accelerator_current, accelerator_end. fields.
    split; [|now repeat split]. intros k Hk. now apply testbit_clear_other.
Qed.

(** ** One audio frame *)

Lemma call_voice_callback_events (v : V.t) (voice_state : Z) :
  forallb voice_event (call_voice_callback v voice_state) = true.
Proof. unfold call_voice_callback. now destruct (V.voice_callback v). Qed.

Lemma sync_voice_events (hw : platform) (rate : Z) (v v' : V.t)
    (dram dram' : list PB.t) (ev : list event) :
  ansnd_sync_voice hw rate v dram = Some (v', dram', ev) ->
  forallb voice_event ev = true.
Proof.
  unfold ansnd_sync_voice. cbv zeta. intros H.
  repeat step H; injection H as _ _ <-; apply call_voice_callback_events.
Qed.

Lemma update_stream_buffers_events (hw : platform) (pcm : PcmBuf.t) (adpcm : AdpcmBuf.t)
    (v v' : V.t) (dram dram' : list PB.t) (ev : list event) :
  ansnd_update_stream_buffers hw pcm adpcm v dram = Some (v', dram', ev) ->
  forallb voice_event ev = true.
Proof.
  unfold ansnd_update_stream_buffers. intros H.
  first_result H v1 ev1 Hfill.
  assert (H1 : forallb voice_event ev1 = true).
  { destruct (V.next_buffer_start v =? 0).
    - unfold ansnd_fill_stream_buffers in Hfill.
      repeat step Hfill; now injection Hfill as _ <-.
    - now injection Hfill as _ <-. }
  repeat step H; now injection H as _ _ <-.
Qed.

Lemma request_voice_events (hw : platform) (inp : cycle_input) (i : nat)
    (s s' : St.t) (ev : list event) :
  ansnd_request_voice hw inp i s = Some (s', ev) ->
  forallb voice_event ev = true.
Proof.
  intros H. apply request_voice_inv in H. cbv zeta in H.
  destruct H as (synced & v1 & d1 & ev1 & v2 & d2 & ev2 & v3 & d3 & _ & Hsync & Hrest & ->).
  rewrite forallb_app. apply andb_true_iff. split.
  - destruct synced; [eapply sync_voice_events, Hsync | now injection Hsync as _ _ <-].
  - destruct (flag_set (V.flags v1) VOICE_FLAG_RUNNING).
    + destruct Hrest as (Hstream & _). destruct (_ && _).
      * eapply update_stream_buffers_events, Hstream.
      * now injection Hstream as _ _ <-.
    + now destruct Hrest as (_ & _ & -> & _).
Qed.

Lemma request_loop_events (hw : platform) (inp : cycle_input) (n : nat) :
  forall (i : nat) (s s' : St.t) (ev : list event),
  ansnd_request_loop hw inp n i s = Some (s', ev) ->
  forallb voice_event ev = true.
Proof.
  induction n as [|n IH]; intros i s s' ev H; cbn [ansnd_request_loop] in H.
  - now injection H as _ <-.
  - destruct (ansnd_request_voice hw inp i s) as [[s1 ev1]|] eqn:E1;
      [cbn [mbind option_bind] in H | discriminate H].
    destruct (ansnd_request_loop hw inp n (S i) s1) as [[s2 ev2]|] eqn:E2;
      [cbn [mbind option_bind] in H | discriminate H].
    injection H as _ <-. rewrite forallb_app.
    now rewrite (request_voice_events _ _ _ _ _ _ E1), (IH _ _ _ _ E2).
Qed.

(** The DMA interrupt when the DSP has finished mixing. *)
Lemma dma_callback_done (dinp : dma_input) (s : St.t) :
  St.ansnd_dsp_done_mixing s = true ->
  exists s1,
    ansnd_audio_dma_callback dinp s
    = (s1,
       ((if dma_task_next dinp then [AssertTask] else [])
        ++ (if dma_task_running dinp
            then [SendMailTo (Z.lor DSP_MAIL_COMMAND DSP_MAIL_NEXT)] else []))
       ++ [InitDMA (OutBuffer (St.ansnd_next_audio_buffer s)) ANSND_SOUND_BUFFER_SIZE])
    /\ St.ansnd_next_audio_buffer s1 = to_u8 (Z.lxor (St.ansnd_next_audio_buffer s) 1)
    /\ St.ansnd_audio_callback s1 = St.ansnd_audio_callback s
    /\ St.ansnd_audio_callback_arguments s1 = St.ansnd_audio_callback_arguments s
    /\ St.ansnd_voices s1 = St.ansnd_voices s
    /\ St.ansnd_dsp_dram_image s1 = St.ansnd_dsp_dram_image s.
Proof.
  intros Hdone. unfold ansnd_audio_dma_callback. rewrite Hdone. cbn [negb].
  eexists. split; [rewrite <- app_assoc; reflexivity|]. now destruct s.
Qed.

(** The statics the cycle leaves, from those it found. *)
Lemma request_callback_globals (hw : platform) (inp : cycle_input)
    (s s' : St.t) (ev : list event) :
  ansnd_dsp_request_callback hw inp s = Some (s', ev) ->
  St.ansnd_next_audio_buffer s' = St.ansnd_next_audio_buffer s
  /\ St.ansnd_dsp_done_mixing s' = true
  /\ exists evs,
       ev = evs
            ++ SendMailTo (Z.lor DSP_MAIL_COMMAND
                             (if task_next inp then DSP_MAIL_YIELD else DSP_MAIL_PREPARE))
            :: match St.ansnd_audio_callback s with
               | Some fn => [AudioCallback fn (St.ansnd_next_audio_buffer s)
                               ANSND_SOUND_BUFFER_SIZE
                               (St.ansnd_audio_callback_arguments s)]
               | None => []
               end
       /\ forallb voice_event evs = true.
Proof.
  unfold ansnd_dsp_request_callback. cbv zeta. intros H.
  match type of H with
  | mbind _ (ansnd_request_loop _ _ _ _ ?t) = Some _ => set (t0 := t) in H
  end.
  assert (Hg0 : St.ansnd_next_audio_buffer t0 = St.ansnd_next_audio_buffer s
                /\ St.ansnd_audio_callback t0 = St.ansnd_audio_callback s
                /\ St.ansnd_audio_callback_arguments t0 = St.ansnd_audio_callback_arguments s
                /\ St.ansnd_dsp_done_mixing t0 = true)
    by (now destruct s).
  clearbody t0.
  destruct (ansnd_request_loop hw inp (Z.to_nat ANSND_MAX_VOICES) 0 t0)
    as [[s1 ev1]|] eqn:Hloop; [cbn [mbind option_bind] in H | discriminate H].
  injection H as <- <-.
  pose proof (request_loop_globals _ _ _ _ _ _ _ Hloop)
    as (Hcb & Harg & Hnext & _ & _ & Hdm & _).
  destruct Hg0 as (Hn0 & Hcb0 & Harg0 & Hdm0).
  replace (St.ansnd_next_audio_buffer (St.set_ansnd_total_process_time _ s1))
    with (St.ansnd_next_audio_buffer s1) by (now destruct s1).
  replace (St.ansnd_dsp_done_mixing (St.set_ansnd_total_process_time _ s1))
    with (St.ansnd_dsp_done_mixing s1) by (now destruct s1).
  split; [congruence|]. split; [congruence|].
  exists ev1. split; [|eapply request_loop_events, Hloop].
  rewrite Hcb, Hcb0, Harg, Harg0, Hnext, Hn0. reflexivity.
Qed.

(** X16: one audio frame.  When the DSP has finished mixing, the DMA
    interrupt sends the output buffer [n] to the audio interface, once, and
    flips the index; the cycle that follows calls callbacks of voices only,
    then mails the DSP once, then hands the registered audio callback the
    other buffer, [1 - n], which is the one the next DMA interrupt will
    send. *)
Theorem audio_frame (hw : platform) (dinp : dma_input) (inp : cycle_input)
    (s s2 : St.t) (ev2 : list event) :
  St.ansnd_dsp_done_mixing s = true ->
  St.ansnd_next_audio_buffer s = 0 \/ St.ansnd_next_audio_buffer s = 1 ->
  ansnd_dsp_request_callback hw inp (fst (ansnd_audio_dma_callback dinp s))
  = Some (s2, ev2) ->
  let n := St.ansnd_next_audio_buffer s in
  (exists pre,
     snd (ansnd_audio_dma_callback dinp s)
     = pre ++ [InitDMA (OutBuffer n) ANSND_SOUND_BUFFER_SIZE]
     /\ forall b l, ~ In (InitDMA b l) pre)
  /\ St.ansnd_next_audio_buffer s2 = 1 - n
  /\ St.ansnd_dsp_done_mixing s2 = true
  /\ exists evs,
       ev2 = evs
             ++ SendMailTo (Z.lor DSP_MAIL_COMMAND
                              (if task_next inp then DSP_MAIL_YIELD else DSP_MAIL_PREPARE))
             :: match St.ansnd_audio_callback s with
                | Some fn => [AudioCallback fn (1 - n) ANSND_SOUND_BUFFER_SIZE
                                (St.ansnd_audio_callback_arguments s)]
                | None => []
                end
       /\ forallb voice_event evs = true.
Proof.
  intros Hdone Hn H. cbv zeta.
  assert (Hflip : to_u8 (Z.lxor (St.ansnd_next_audio_buffer s) 1)
                  = 1 - St.ansnd_next_audio_buffer s)
    by (destruct Hn as [-> | ->]; reflexivity).
  destruct (dma_callback_done dinp s Hdone) as (s1 & Hdma & Hn1 & Hcb1 & Harg1 & _).
  rewrite Hdma in H |- *. cbn [fst snd] in H |- *.
  split.
  { eexists. split; [reflexivity|].
    intros b l Hin. apply in_app_or in Hin as [Hin | Hin].
    - destruct (dma_task_next dinp); [destruct Hin as [Hin|[]]; discriminate Hin | exact Hin].
    - destruct (dma_task_running dinp); [destruct Hin as [Hin|[]]; discriminate Hin | exact Hin]. }
  destruct (request_callback_globals _ _ _ _ _ H) as (Hn2 & Hdm2 & evs & Hev & Hvoice).
  rewrite Hn2, Hn1, Hflip. split; [reflexivity|]. split; [exact Hdm2|].
  exists evs. rewrite Hcb1, Harg1, Hn1, Hflip in Hev. now split.
Qed.

(** ** The buffer a streaming callback supplies *)

Lemma high_low_words (x h l : Z) :
  0 <= x < 2 ^ 32 -> h = HIGH x -> l = LOW x -> h * 65536 + l = x.
Proof. intros Hx -> ->. now apply high_low. Qed.

(** X17: the buffer a PCM streaming callback supplies is in the exchange
    slot of the block in the same cycle, as sample addresses: a 16-bit
    buffer is addressed in halfwords.  When the callback supplies nothing
    the slot stays empty and the staging fields of the voice stay clear, so
    the callback is called again in the next cycle. *)
Theorem pcm_stream_reaches_slot (hw : platform) (pcm : PcmBuf.t) (adpcm : AdpcmBuf.t)
    (v : V.t) (dram : list PB.t) (p : nat) (pb : PB.t) (fn : nat) :
  V.parameter_block v = Some p ->
  dram !! p = Some pb ->
  V.stream_callback v = Some fn ->
  flag_set (V.flags v) VOICE_FLAG_ADPCM = false ->
  V.next_buffer_start v = 0 ->
  slot_empty pb = true ->
  0 <= PcmBuf.frame_data_ptr pcm < 2 ^ 32 ->
  let start := if V.accelerator_gain v =? DSP_ACCL_GAIN_16BIT
               then PcmBuf.frame_data_ptr pcm / 2 else PcmBuf.frame_data_ptr pcm in
  let channels := if flag_set (V.flags v) VOICE_FLAG_STEREO then 2 else 1 in
  exists v' pb',
    ansnd_update_stream_buffers hw pcm adpcm v dram
    = Some (v', <[p := pb']> dram, [PcmStreamCallback fn (V.user_pointer v)])
    /\ V.next_buffer_start v' = 0
    /\ V.flags v' = V.flags v
    /\ same_controls pb pb'
    /\ if supplied hw (PcmBuf.frame_data_ptr pcm) (PcmBuf.frame_count pcm)
       then slot_start pb' = start
            /\ slot_end pb' = to_u32 (start + PcmBuf.frame_count pcm * channels - 1)
            /\ slot_current pb' = start
       else slot_empty pb' = true.
Proof.
  intros Hp Hl Hcb Hpcm Hs0 Hempty Hptr. cbv zeta.
  unfold ansnd_update_stream_buffers. rewrite Hs0. cbn [Z.eqb].
  unfold ansnd_fill_stream_buffers. rewrite Hcb. cbn [mbind option_bind]. rewrite Hpcm.
  cbv zeta. unfold supplied.
  assert (Hstart : 0 <= (if V.accelerator_gain v =? DSP_ACCL_GAIN_16BIT
                         then PcmBuf.frame_data_ptr pcm / 2
                         else PcmBuf.frame_data_ptr pcm) < 2 ^ 32).
  { destruct (_ =? _); [|exact Hptr]. split; [apply Z.div_pos; lia|].
    apply Z.div_lt_upper_bound; lia. }
  assert (Hshift : Z.shiftr (PcmBuf.frame_data_ptr pcm)
                     (if V.accelerator_gain v =? DSP_ACCL_GAIN_16BIT then 1 else 0)
                   = (if V.accelerator_gain v =? DSP_ACCL_GAIN_16BIT
                      then PcmBuf.frame_data_ptr pcm / 2
                      else PcmBuf.frame_data_ptr pcm)).
  { destruct (_ =? _); [now rewrite Z.shiftr_div_pow2 by lia | apply Z.shiftr_0_r]. }
  rewrite Hshift.
  set (start := if V.accelerator_gain v =? DSP_ACCL_GAIN_16BIT
                then PcmBuf.frame_data_ptr pcm / 2 else PcmBuf.frame_data_ptr pcm) in *.
  clearbody start.
  unfold slot_empty in Hempty. fold (slot_empty pb) in Hempty.
  destruct ((PcmBuf.frame_data_ptr pcm =? 0) || (PcmBuf.frame_count pcm =? 0)) eqn:Hnull;
    [|destruct (invalid_memory hw (PcmBuf.frame_data_ptr pcm)) eqn:Hinv];
    cbn [negb andb mbind option_bind];
    unfold load; fields; rewrite Hp, Hl; cbn [mbind option_bind];
    fold (slot_empty pb); rewrite Hempty;
    unfold ansnd_write_stream_buffers, load, store; fields; rewrite Hp, Hl;
    cbn [mbind option_bind]; cbv zeta; fields; rewrite ?Hpcm;
    (eexists; eexists; split; [reflexivity|]); fields;
    (split; [reflexivity|]); (split; [reflexivity|]);
    (split; [unfold same_controls, accelerator_start, accelerator_current, accelerator_end;
             now repeat split|]).
  all: unfold slot_start, slot_end, slot_current, slot_empty,
         PB.next_buffer_start_high, PB.next_buffer_start_low, PB.next_buffer_end_high,
         PB.next_buffer_end_low, PB.next_buffer_current_high, PB.next_buffer_current_low,
         V.next_buffer_first, V.set_next_buffer_first, V.next_buffer_start,
         V.set_next_buffer_start, V.next_buffer_end, V.set_next_buffer_end; fields.
  all: unfold V.next_buffer_start in Hs0.
  - rewrite Hs0. reflexivity.
  - rewrite Hs0. reflexivity.
  - rewrite !high_low by (try assumption; unfold to_u32; apply Z.mod_pos_bound; lia).
    now repeat split.
Qed.

(** X18: the buffer an ADPCM streaming callback supplies is in the
    exchange slot of the block in the same cycle, as nibble addresses,
    together with the decoder state the callback gave for it; the first
    sample follows the frame header.  When the callback supplies nothing
    the slot stays empty. *)
Theorem adpcm_stream_reaches_slot (hw : platform) (pcm : PcmBuf.t) (adpcm : AdpcmBuf.t)
    (v : V.t) (dram : list PB.t) (p : nat) (pb : PB.t) (fn : nat) :
  V.parameter_block v = Some p ->
  dram !! p = Some pb ->
  V.stream_callback v = Some fn ->
  flag_set (V.flags v) VOICE_FLAG_ADPCM = true ->
  V.next_buffer_start v = 0 ->
  slot_empty pb = true ->
  let start := to_u32 (Z.shiftl (AdpcmBuf.data_ptr adpcm) 1) in
  exists v' pb',
    ansnd_update_stream_buffers hw pcm adpcm v dram
    = Some (v', <[p := pb']> dram, [AdpcmStreamCallback fn (V.user_pointer v)])
    /\ V.next_buffer_start v' = 0
    /\ V.flags v' = V.flags v
    /\ same_controls pb pb'
    /\ if supplied hw (AdpcmBuf.data_ptr adpcm) (AdpcmBuf.sample_count adpcm)
       then slot_start pb' = start
            /\ slot_end pb'
               = to_u32 (start + SAMPLES_TO_NIBBLES (AdpcmBuf.sample_count adpcm))
            /\ slot_current pb' = to_u32 (start + 2)
            /\ PB.next_buffer_predictor_scale pb' = AdpcmBuf.predictor_scale adpcm
            /\ PB.next_buffer_sample_history_1 pb' = AdpcmBuf.sample_history_1 adpcm
            /\ PB.next_buffer_sample_history_2 pb' = AdpcmBuf.sample_history_2 adpcm
       else slot_empty pb' = true.
Proof.
  intros Hp Hl Hcb Hadpcm Hs0 Hempty. cbv zeta.
  unfold ansnd_update_stream_buffers. rewrite Hs0. cbn [Z.eqb].
  unfold ansnd_fill_stream_buffers. rewrite Hcb. cbn [mbind option_bind]. rewrite Hadpcm.
  cbv zeta. unfold supplied.
  change (SAMPLES_TO_NIBBLES 0) with 2.
  set (start := to_u32 (Z.shiftl (AdpcmBuf.data_ptr adpcm) 1)).
  assert (Hstart : 0 <= start < 2 ^ 32) by (apply Z.mod_pos_bound; lia).
  clearbody start.
  generalize (SAMPLES_TO_NIBBLES (AdpcmBuf.sample_count adpcm)). intros nibbles.
  destruct ((AdpcmBuf.data_ptr adpcm =? 0) || (AdpcmBuf.sample_count adpcm =? 0)) eqn:Hnull;
    [|destruct (invalid_memory hw (AdpcmBuf.data_ptr adpcm)) eqn:Hinv];
    cbv beta iota delta [mbind option_bind];
    unfold load; fields; rewrite Hp, Hl; cbn [mbind option_bind];
    fold (slot_empty pb); rewrite Hempty;
    unfold ansnd_write_stream_buffers, load, store; fields; rewrite Hp, Hl;
    cbn [mbind option_bind]; cbv zeta; fields; rewrite ?Hadpcm;
    (eexists; eexists; split; [reflexivity|]); fields;
    (split; [reflexivity|]); (split; [reflexivity|]);
    (split; [unfold same_controls, accelerator_start, accelerator_current, accelerator_end;
             now repeat split|]).
  all: cbn [negb andb orb].
  all: unfold slot_start, slot_end, slot_current, slot_empty,
         PB.next_buffer_start_high, PB.next_buffer_start_low, PB.next_buffer_end_high,
         PB.next_buffer_end_low, PB.next_buffer_current_high, PB.next_buffer_current_low,
         PB.next_buffer_predictor_scale, PB.next_buffer_sample_history_1,
         PB.next_buffer_sample_history_2,
         V.next_buffer_first, V.set_next_buffer_first, V.next_buffer_start,
         V.set_next_buffer_start, V.next_buffer_end, V.set_next_buffer_end,
         V.next_buffer_predictor_scale, V.set_next_buffer_predictor_scale,
         V.next_buffer_sample_history_1, V.set_next_buffer_sample_history_1,
         V.next_buffer_sample_history_2, V.set_next_buffer_sample_history_2; fields.
  all: unfold V.next_buffer_start in Hs0.
  - rewrite Hs0. reflexivity.
  - rewrite Hs0. reflexivity.
  - rewrite (high_low (to_u32 (start + 2)))
      by (unfold to_u32; apply Z.mod_pos_bound; lia).
    rewrite !high_low by (try assumption; unfold to_u32; apply Z.mod_pos_bound; lia).
    now repeat split.
Qed.

(** ** Ending a loop, restarting the library, unlinking, volumes *)

(** X19: once [ansnd_stop_looping] has cleared LOOPED in an initialized
    voice whose block still loops, the next synchronization clears LOOPED
    in the block and points the end of the accelerator back at the end of
    the buffer; a voice with a streaming callback turns into a streaming
    voice, with STREAMING set in the block and nothing staged.  The
    exchange words, the start and the current address are not touched. *)
Theorem sync_ends_loop (hw : platform) (rate : Z) (v : V.t)
    (dram : list PB.t) (p : nat) (pb : PB.t) :
  V.parameter_block v = Some p ->
  dram !! p = Some pb ->
  flag_set (V.flags v) VOICE_FLAG_ERASED = false ->
  flag_set (V.flags v) VOICE_FLAG_INITIALIZED = true ->
  flag_set (PB.flags pb) VOICE_FLAG_LOOPED = true ->
  0 <= V.ram_buffer_end v < 2 ^ 32 ->
  exists v' pb' ev,
    ansnd_sync_voice hw rate (stop_looping_flags v) dram = Some (v', <[p := pb']> dram, ev)
    /\ flag_set (V.flags v') VOICE_FLAG_LOOPED = false
    /\ flag_set (PB.flags pb') VOICE_FLAG_LOOPED = false
    /\ accelerator_end pb' = V.ram_buffer_end v
    /\ accelerator_start pb' = accelerator_start pb
    /\ accelerator_current pb' = accelerator_current pb
    /\ exchange_words pb' = exchange_words pb
    /\ (flag_set (V.flags v) VOICE_FLAG_STREAMING = true ->
        flag_set (PB.flags pb') VOICE_FLAG_STREAMING = true
        /\ V.next_buffer_start v' = 0).
Proof.
  intros Hp Hl He Hi Hlo Hend.
  set (v0 := stop_looping_flags v).
  assert (Hp0 : V.parameter_block v0 = Some p) by (now destruct v).
  assert (He0 : flag_set (V.flags v0) VOICE_FLAG_ERASED = false)
    by (subst v0; unfold stop_looping_flags; fields; flag_bits; now rewrite He).
  assert (Hi0 : flag_set (V.flags v0) VOICE_FLAG_INITIALIZED = true)
    by (subst v0; unfold stop_looping_flags; fields; flag_bits; now rewrite Hi).
  assert (Hlo0 : flag_set (V.flags v0) VOICE_FLAG_LOOPED = false)
    by (subst v0; unfold stop_looping_flags; fields; flag_bits; reflexivity).
  assert (Hst0 : flag_set (V.flags v0) VOICE_FLAG_STREAMING
                 = flag_set (V.flags v) VOICE_FLAG_STREAMING)
    by (subst v0; unfold stop_looping_flags; fields; flag_bits; reflexivity).
  destruct (sync_voice_published hw rate v0 dram p pb Hp0 Hl He0 Hi0)
    as (v' & pb' & Hsync & Hpub).
  exists v', pb'. eexists. split; [exact Hsync|].
  unfold published in Hpub. cbv zeta in Hpub.
  rewrite Hlo0, Hlo, Hst0 in Hpub. cbn [xorb andb orb negb] in Hpub.
  destruct Hpub as (_ & _ & _ & Hbl & _ & Hbs & _ & _ & _ & _ & Heh & Hel & Has & Hac
                    & Hw & Hnb & _ & Hvl & _).
  split; [exact Hvl|]. split; [exact Hbl|].
  split.
  { unfold accelerator_end. rewrite Heh, Hel.
    replace (V.ram_buffer_end v0) with (V.ram_buffer_end v) by (now destruct v).
    now apply high_low. }
  split; [exact Has|]. split; [exact Hac|]. split; [exact Hw|].
  intros Hst. rewrite Hst in Hbs, Hnb. rewrite orb_true_r in Hbs. now split.
Qed.

(** X20: restarting the library frees everything but the registered
    audio callback: after [ansnd_uninitialize] and an accepted
    [ansnd_initialize_samplerate] every voice and every block is clear,
    the stall and done-mixing flags are clear, and the next allocation
    yields voice 0.  Initializing a library that is already initialized
    changes the output rate and nothing else: the voices and the blocks
    stay as they are. *)
Theorem library_restart (s : St.t) (rate rate' : Z) :
  rate = ANSND_OUTPUT_SAMPLERATE_32KHZ \/ rate = ANSND_OUTPUT_SAMPLERATE_48KHZ ->
  rate' = ANSND_OUTPUT_SAMPLERATE_32KHZ \/ rate' = ANSND_OUTPUT_SAMPLERATE_48KHZ ->
  let s1 := snd (ansnd_initialize_samplerate rate (ansnd_uninitialize s)) in
  fst (ansnd_initialize_samplerate rate (ansnd_uninitialize s)) = ANSND_ERROR_OK
  /\ St.ansnd_library_initialized s1 = true
  /\ St.ansnd_output_samplerate s1 = rate
  /\ St.ansnd_voices s1 = replicate 48 V.zero
  /\ St.ansnd_dsp_dram_image s1 = replicate 48 PB.zero
  /\ St.ansnd_dsp_stalled s1 = false
  /\ St.ansnd_dsp_done_mixing s1 = false
  /\ St.ansnd_audio_callback s1 = St.ansnd_audio_callback s
  /\ St.ansnd_audio_callback_arguments s1 = St.ansnd_audio_callback_arguments s
  /\ St.ansnd_next_audio_buffer s1 = St.ansnd_next_audio_buffer s
  /\ fst (ansnd_allocate_voice s1) = 0
  /\ forall t, St.ansnd_library_initialized t = true ->
       ansnd_initialize_samplerate rate' t
       = (ANSND_ERROR_OK, St.set_ansnd_output_samplerate rate' t).
Proof.
  intros Hrate Hrate'. cbv zeta.
  assert (Hvalid : forall r,
            r = ANSND_OUTPUT_SAMPLERATE_32KHZ \/ r = ANSND_OUTPUT_SAMPLERATE_48KHZ ->
            (r =? ANSND_OUTPUT_SAMPLERATE_32KHZ) || (r =? ANSND_OUTPUT_SAMPLERATE_48KHZ)
            = true) by (intros r [-> | ->]; reflexivity).
  assert (Hun : St.ansnd_library_initialized (ansnd_uninitialize s) = false).
  { unfold ansnd_uninitialize.
    destruct (St.ansnd_library_initialized s) eqn:E; [now destruct s | exact E]. }
  unfold ansnd_initialize_samplerate. rewrite (Hvalid rate Hrate). cbv zeta.
  replace (St.ansnd_library_initialized
             (St.set_ansnd_output_samplerate rate (ansnd_uninitialize s)))
    with (St.ansnd_library_initialized (ansnd_uninitialize s)) by (now destruct (ansnd_uninitialize s)).
  rewrite Hun. cbn [negb fst snd].
  assert (Hkeep : St.ansnd_audio_callback (ansnd_uninitialize s) = St.ansnd_audio_callback s
                  /\ St.ansnd_audio_callback_arguments (ansnd_uninitialize s)
                     = St.ansnd_audio_callback_arguments s
                  /\ St.ansnd_next_audio_buffer (ansnd_uninitialize s)
                     = St.ansnd_next_audio_buffer s).
  { unfold ansnd_uninitialize. destruct (St.ansnd_library_initialized s); now destruct s. }
  destruct Hkeep as (Hk1 & Hk2 & Hk3). rewrite <- Hk1, <- Hk2, <- Hk3.
  generalize (ansnd_uninitialize s). intros u.
  split; [reflexivity|]. split; [now destruct u|]. split; [now destruct u|].
  split; [now destruct u|]. split; [now destruct u|]. split; [now destruct u|].
  split; [now destruct u|]. split; [now destruct u|]. split; [now destruct u|].
  split; [now destruct u|]. split; [now destruct u|].
  intros t Ht. rewrite (Hvalid rate' Hrate').
  replace (St.ansnd_library_initialized (St.set_ansnd_output_samplerate rate' t))
    with (St.ansnd_library_initialized t) by (now destruct t).
  now rewrite Ht.
Qed.

Lemma set_linked_voice_back (v : V.t) (l : option nat) :
  V.linked_voice v = None -> V.set_linked_voice None (V.set_linked_voice l v) = v.
Proof. destruct v. cbn. now intros ->. Qed.

(** X21: [ansnd_unlink_voice] undoes [ansnd_link_voices]: when the first
    voice is configured, unlinking it straight after an accepted link gives
    back the statics as they were before the link.  [ansnd_link_voices]
    does not ask for configured voices, though: when the first voice is not
    configured the link is made all the same, and [ansnd_unlink_voice]
    refuses to remove it. *)
Theorem unlink_undoes_link (s s1 : St.t) (a b : Z) :
  length (St.ansnd_voices s) = 48%nat ->
  ansnd_link_voices a b s = (ANSND_ERROR_OK, s1) ->
  V.linked_voice (voice s1 a) = Some (Z.to_nat b)
  /\ V.linked_voice (voice s1 b) = Some (Z.to_nat a)
  /\ ansnd_unlink_voice a s1
     = if flag_set (V.flags (voice s a)) VOICE_FLAG_CONFIGURED
       then (ANSND_ERROR_OK, s) else (ANSND_ERROR_VOICE_NOT_CONFIGURED, s1).
Proof.
  intros Hlen H. unfold ansnd_link_voices in H. call_accepted H.
  repeat match goal with
  | E : negb _ = false |- _ => apply negb_false_iff in E
  | E : bool_decide _ = false |- _ => apply bool_decide_eq_false in E
  | E : (_ =? _) = false |- _ => apply Z.eqb_neq in E
  | E : (_ <? _) = false |- _ => apply Z.ltb_ge in E
  | E : (_ <=? _) = false |- _ => apply Z.leb_gt in E
  end.
  unfold ANSND_MAX_VOICES in *.
  assert (Hinit : St.ansnd_library_initialized s = true) by assumption.
  assert (Hua : flag_set (V.flags (voice s a)) VOICE_FLAG_USED = true) by assumption.
  assert (Hla : V.linked_voice (voice s a) = None).
  { destruct (V.linked_voice (voice s a)) eqn:E; [|reflexivity].
    exfalso. match goal with E' : ~ is_Some (Some _) |- _ => apply E' end. eauto. }
  assert (Hlb : V.linked_voice (voice s b) = None).
  { destruct (V.linked_voice (voice s b)) eqn:E; [|reflexivity].
    exfalso. match goal with E' : ~ is_Some (Some _) |- _ => apply E' end. eauto. }
  cbv zeta in H. injection H as <-.
  assert (Hne : Z.to_nat a <> Z.to_nat b) by lia.
  unfold voice in *. rewrite !voices_set_voice.
  rewrite (list_lookup_total_insert_ne _ (Z.to_nat a) (Z.to_nat b)) by auto.
  assert (Hva : <[Z.to_nat b := V.set_linked_voice (Some (Z.to_nat a))
                                  (St.ansnd_voices s !!! Z.to_nat b)]>
                  (<[Z.to_nat a := V.set_linked_voice (Some (Z.to_nat b))
                                     (St.ansnd_voices s !!! Z.to_nat a)]>
                     (St.ansnd_voices s)) !!! Z.to_nat a
                = V.set_linked_voice (Some (Z.to_nat b)) (St.ansnd_voices s !!! Z.to_nat a)).
  { rewrite list_lookup_total_insert_ne by auto.
    apply list_lookup_total_insert_eq. lia. }
  assert (Hvb : <[Z.to_nat b := V.set_linked_voice (Some (Z.to_nat a))
                                  (St.ansnd_voices s !!! Z.to_nat b)]>
                  (<[Z.to_nat a := V.set_linked_voice (Some (Z.to_nat b))
                                     (St.ansnd_voices s !!! Z.to_nat a)]>
                     (St.ansnd_voices s)) !!! Z.to_nat b
                = V.set_linked_voice (Some (Z.to_nat a)) (St.ansnd_voices s !!! Z.to_nat b)).
  { apply list_lookup_total_insert_eq. rewrite length_insert. lia. }
  rewrite Hva, Hvb. split; [reflexivity|]. split; [reflexivity|].
  unfold ansnd_unlink_voice.
  replace (St.ansnd_library_initialized (set_voice _ _ (set_voice _ _ s)))
    with (St.ansnd_library_initialized s) by (now destruct s).
  rewrite Hinit. cbn [negb].
  assert (Hr : (a <? 0) || (ANSND_MAX_VOICES <=? a) = false) by (apply in_range; lia).
  rewrite Hr. unfold voice. rewrite !voices_set_voice, Hva.
  fields. unfold voice in Hua. rewrite Hua. cbn [negb].
  destruct (flag_set (V.flags (St.ansnd_voices s !!! Z.to_nat a)) VOICE_FLAG_CONFIGURED);
    [|reflexivity].
  cbn [negb on_linked]. f_equal.
  rewrite !voices_set_voice.
  rewrite (list_lookup_total_insert_ne _ (Z.to_nat a) (Z.to_nat b)) by auto.
  rewrite Hvb.
  rewrite !set_linked_voice_back by assumption.
  rewrite (set_voice_commute _ (Z.to_nat a) (Z.to_nat b)) by auto.
  rewrite !set_voice_set_voice, !set_voice_same. reflexivity.
Qed.

(** X22: [ansnd_set_voice_volume] on a configured voice refuses a pair
    of volumes exactly when one of them compares below -1 or above 1, and
    then changes nothing; otherwise it stores both and marks the voice
    UPDATED.  Both bounds are accepted, and so is a NaN, which compares
    neither below nor above. *)
Theorem volume_validation (s : St.t) (voice_id : Z) (left_volume right_volume : f32) :
  St.ansnd_library_initialized s = true ->
  0 <= voice_id < ANSND_MAX_VOICES ->
  flag_set (V.flags (voice s voice_id)) VOICE_FLAG_USED = true ->
  flag_set (V.flags (voice s voice_id)) VOICE_FLAG_CONFIGURED = true ->
  let refused (l r : f32) : Prop :=
    F32.ltb l (F32.of_Z (-1)) = true \/ F32.ltb (F32.of_Z 1) l = true
    \/ F32.ltb r (F32.of_Z (-1)) = true \/ F32.ltb (F32.of_Z 1) r = true in
  (refused left_volume right_volume ->
   ansnd_set_voice_volume voice_id left_volume right_volume s = (ANSND_ERROR_INVALID_INPUT, s))
  /\ (~ refused left_volume right_volume ->
      fst (ansnd_set_voice_volume voice_id left_volume right_volume s) = ANSND_ERROR_OK
      /\ V.left_volume (voice (snd (ansnd_set_voice_volume voice_id left_volume
                                     right_volume s)) voice_id) = left_volume
      /\ V.right_volume (voice (snd (ansnd_set_voice_volume voice_id left_volume
                                      right_volume s)) voice_id) = right_volume
      /\ flag_set (V.flags (voice (snd (ansnd_set_voice_volume voice_id left_volume
                                          right_volume s)) voice_id))
                  VOICE_FLAG_UPDATED = true)
  /\ ~ refused S754_nan S754_nan
  /\ ~ refused (F32.of_Z 1) (F32.of_Z (-1)).
Proof.
  intros Hinit Hid Hu Hc refused. subst refused. cbv beta.
  assert (Hr : (voice_id <? 0) || (ANSND_MAX_VOICES <=? voice_id) = false).
  { apply orb_false_iff. split; [apply Z.ltb_ge | apply Z.leb_gt]; lia. }
  unfold ansnd_set_voice_volume. rewrite Hinit, Hr, Hu, Hc. cbn [negb].
  assert (Hlen : (Z.to_nat voice_id < length (St.ansnd_voices s))%nat).
  { destruct (decide (Z.to_nat voice_id < length (St.ansnd_voices s))%nat) as [|Hge];
      [assumption|].
    unfold voice in Hu. rewrite list_lookup_total_alt, lookup_ge_None_2 in Hu by lia.
    discriminate Hu. }
  unfold invalid_volume, F32.gtb, F32.ltb.
  split; [|split; [|split]].
  - intros [H | [H | [H | H]]]; rewrite H; cbn [orb]; rewrite ?orb_true_r;
      repeat match goal with |- context [if ?c then _ else _] => destruct c end;
      reflexivity.
  - intros Hok.
    destruct (SFltb left_volume (F32.of_Z (-1))) eqn:E1; [exfalso; auto|].
    destruct (SFltb (F32.of_Z 1) left_volume) eqn:E2; [exfalso; auto|].
    destruct (SFltb right_volume (F32.of_Z (-1))) eqn:E3; [exfalso; auto|].
    destruct (SFltb (F32.of_Z 1) right_volume) eqn:E4; [exfalso; auto 6|].
    cbn [orb fst snd]. cbv zeta. split; [reflexivity|].
    unfold voice. rewrite voices_set_voice.
    rewrite list_lookup_total_insert_eq by exact Hlen.
    fields. repeat split. flag_bits. reflexivity.
  - vm_compute. intros [H | [H | [H | H]]]; discriminate H.
  - vm_compute. intros [H | [H | [H | H]]]; discriminate H.
Qed.

(** ** The properties at concrete states *)

Lemma allocate_lowest_free_witness :
  St.ansnd_library_initialized one_voice_allocated = true
  /\ length (St.ansnd_voices one_voice_allocated) = 48%nat
  /\ fst (ansnd_allocate_voice one_voice_allocated) = 1
  /\ St.ansnd_library_initialized all_voices_allocated = true
  /\ length (St.ansnd_voices all_voices_allocated) = 48%nat
  /\ ansnd_allocate_voice all_voices_allocated
     = (ANSND_ERROR_ALL_VOICES_USED, all_voices_allocated).
Proof.
  assert (H1 : St.ansnd_library_initialized one_voice_allocated = true) by reflexivity.
  assert (H2 : length (St.ansnd_voices one_voice_allocated) = 48%nat) by reflexivity.
  assert (H3 : St.ansnd_library_initialized all_voices_allocated = true)
    by (vm_compute; reflexivity).
  assert (H4 : length (St.ansnd_voices all_voices_allocated) = 48%nat)
    by (vm_compute; reflexivity).
  split; [exact H1 | split; [exact H2 | split; [| split; [exact H3 | split; [exact H4|]]]]].
  - destruct (allocate_lowest_free one_voice_allocated H1 H2)
      as [(k & Hk & Hfree & Hused & ->) | [Hall _]].
    + destruct k as [|[|k]].
      * vm_compute in Hfree. discriminate Hfree.
      * reflexivity.
      * specialize (Hused 1%nat ltac:(lia)). vm_compute in Hused. discriminate Hused.
    + specialize (Hall 1%nat ltac:(lia)). vm_compute in Hall. discriminate Hall.
  - destruct (allocate_lowest_free all_voices_allocated H3 H4)
      as [(k & Hk & Hfree & _) | [_ Hfull]]; [|exact Hfull].
    exfalso.
    do 48 (destruct k as [|k]; [vm_compute in Hfree; discriminate Hfree|]). lia.
Defined.

Lemma deallocate_twice_witness :
  length (St.ansnd_voices voice_0_configured) = 48%nat
  /\ exists s1,
       ansnd_deallocate_voice 0 voice_0_configured = (ANSND_ERROR_OK, s1)
       /\ ansnd_deallocate_voice 0 s1 = (ANSND_ERROR_OK, s1).
Proof.
  assert (H1 : length (St.ansnd_voices voice_0_configured) = 48%nat) by reflexivity.
  split; [exact H1|].
  exists (snd (ansnd_deallocate_voice 0 voice_0_configured)).
  assert (H2 : ansnd_deallocate_voice 0 voice_0_configured
               = (ANSND_ERROR_OK, snd (ansnd_deallocate_voice 0 voice_0_configured)))
    by (vm_compute; reflexivity).
  split; [exact H2|].
  exact (proj2 (proj2 (proj2 (proj2 (deallocate_twice _ _ 0 H1 H2))))).
Defined.

Lemma configure_resets_voice_witness :
  length (St.ansnd_voices one_voice_allocated) = 48%nat
  /\ (exists s',
        ansnd_configure_pcm_voice HW_RVL 0 (Some (pcm_config 48000 0 0 None))
          one_voice_allocated = (ANSND_ERROR_OK, s')
        /\ just_configured (voice s' 0))
  /\ (exists s',
        ansnd_configure_adpcm_voice HW_RVL 0 (Some adpcm_config) one_voice_allocated
        = (ANSND_ERROR_OK, s')
        /\ just_configured (voice s' 0)
        /\ V.parameter_block (voice s' 0) = Some 0%nat).
Proof.
  assert (H1 : length (St.ansnd_voices one_voice_allocated) = 48%nat) by reflexivity.
  split; [exact H1|]. split.
  - exists voice_0_configured.
    assert (H2 : ansnd_configure_pcm_voice HW_RVL 0 (Some (pcm_config 48000 0 0 None))
                   one_voice_allocated = (ANSND_ERROR_OK, voice_0_configured))
      by (vm_compute; reflexivity).
    split; [exact H2|].
    refine (proj1 (proj2 (configure_resets_voice HW_RVL _ _ 0 H1 _))).
    left. eexists. exact H2.
  - exists (snd (ansnd_configure_adpcm_voice HW_RVL 0 (Some adpcm_config)
                   one_voice_allocated)).
    assert (H2 : ansnd_configure_adpcm_voice HW_RVL 0 (Some adpcm_config) one_voice_allocated
                 = (ANSND_ERROR_OK,
                    snd (ansnd_configure_adpcm_voice HW_RVL 0 (Some adpcm_config)
                           one_voice_allocated)))
      by (vm_compute; reflexivity).
    split; [exact H2|].
    refine ((fun H => conj (proj1 (proj2 H)) (proj1 (proj2 (proj2 H))))
              (configure_resets_voice HW_RVL _ _ 0 H1 _)).
    right. eexists. exact H2.
Defined.

Lemma pcm_buffer_layout_witness :
  length (St.ansnd_voices one_voice_allocated) = 48%nat
  /\ pcm_config_typed (pcm_config 48000 0 0 None)
  /\ exists s',
       ansnd_configure_pcm_voice HW_RVL 0 (Some (pcm_config 48000 0 0 None))
         one_voice_allocated = (ANSND_ERROR_OK, s')
       /\ V.ram_buffer_end (voice s' 0) = 0x1000 + 999.
Proof.
  assert (H1 : length (St.ansnd_voices one_voice_allocated) = 48%nat) by reflexivity.
  assert (H2 : pcm_config_typed (pcm_config 48000 0 0 None))
    by (unfold pcm_config_typed; repeat split; vm_compute; congruence).
  split; [exact H1 | split; [exact H2|]]. exists voice_0_configured.
  assert (H3 : ansnd_configure_pcm_voice HW_RVL 0 (Some (pcm_config 48000 0 0 None))
                 one_voice_allocated = (ANSND_ERROR_OK, voice_0_configured))
    by (vm_compute; reflexivity).
  split; [exact H3|].
  destruct (pcm_buffer_layout HW_RVL _ _ 0 _ H1 H2 H3) as (_ & _ & _ & -> & _).
  vm_compute. reflexivity.
Defined.

Lemma adpcm_buffer_layout_witness :
  length (St.ansnd_voices one_voice_allocated) = 48%nat
  /\ (exists s',
        ansnd_configure_adpcm_voice HW_RVL 0 (Some adpcm_config) one_voice_allocated
        = (ANSND_ERROR_OK, s')
        /\ V.ram_buffer_start (voice s' 0) = 0x2000
        /\ V.ram_buffer_end (voice s' 0) = 0x2000 + 1602)
  /\ (exists s',
        ansnd_configure_adpcm_voice HW_RVL 0 (Some looped_adpcm_config) one_voice_allocated
        = (ANSND_ERROR_OK, s')
        /\ AdpcmCfg.loop_flag looped_adpcm_config <> 0
        /\ flag_set (V.flags (voice s' 0)) VOICE_FLAG_LOOPED = true
        /\ V.loop_start (voice s' 0) = 0x2000 + 18
        /\ V.loop_end (voice s' 0) = 0x2000 + 162
        /\ V.loop_predictor_scale (voice s' 0) = 3).
Proof.
  assert (H1 : length (St.ansnd_voices one_voice_allocated) = 48%nat) by reflexivity.
  split; [exact H1|]. split.
  - exists (snd (ansnd_configure_adpcm_voice HW_RVL 0 (Some adpcm_config)
                   one_voice_allocated)).
    assert (H2 : ansnd_configure_adpcm_voice HW_RVL 0 (Some adpcm_config) one_voice_allocated
                 = (ANSND_ERROR_OK,
                    snd (ansnd_configure_adpcm_voice HW_RVL 0 (Some adpcm_config)
                           one_voice_allocated)))
      by (vm_compute; reflexivity).
    split; [exact H2|].
    destruct (adpcm_buffer_layout HW_RVL _ _ 0 _ H1 H2) as (-> & -> & _).
    split; vm_compute; reflexivity.
  - exists (snd (ansnd_configure_adpcm_voice HW_RVL 0 (Some looped_adpcm_config)
                   one_voice_allocated)).
    assert (H2 : ansnd_configure_adpcm_voice HW_RVL 0 (Some looped_adpcm_config)
                   one_voice_allocated
                 = (ANSND_ERROR_OK,
                    snd (ansnd_configure_adpcm_voice HW_RVL 0 (Some looped_adpcm_config)
                           one_voice_allocated)))
      by (vm_compute; reflexivity).
    assert (H3 : AdpcmCfg.loop_flag looped_adpcm_config <> 0) by (vm_compute; congruence).
    split; [exact H2 | split; [exact H3|]].
    destruct (adpcm_buffer_layout HW_RVL _ _ 0 _ H1 H2)
      as (_ & _ & _ & _ & _ & -> & Hloop & _).
    destruct (Hloop H3) as (-> & -> & -> & _).
    repeat split; vm_compute; reflexivity.
Defined.

Lemma later_call_overrides_witness :
  length (St.ansnd_voices pair_linked) = 48%nat
  /\ (forall b, V.linked_voice (voice pair_linked 0) = Some b ->
        b <> Z.to_nat 0 /\ (b < 48)%nat)
  /\ fst (ansnd_pause_voice 0 pair_linked) = ANSND_ERROR_OK
  /\ fst (ansnd_unpause_voice 0 pair_linked) = ANSND_ERROR_OK
  /\ fst (ansnd_stop_voice 0 pair_linked) = ANSND_ERROR_OK
  /\ fst (ansnd_start_voice 0 pair_linked) = ANSND_ERROR_OK
  /\ ansnd_unpause_voice 0 (snd (ansnd_pause_voice 0 pair_linked))
     = ansnd_unpause_voice 0 pair_linked
  /\ ansnd_pause_voice 0 (snd (ansnd_unpause_voice 0 pair_linked))
     = ansnd_pause_voice 0 pair_linked
  /\ ansnd_start_voice 0 (snd (ansnd_stop_voice 0 pair_linked))
     = ansnd_start_voice 0 pair_linked.
Proof.
  assert (H1 : length (St.ansnd_voices pair_linked) = 48%nat) by (vm_compute; reflexivity).
  assert (H2 : forall b, V.linked_voice (voice pair_linked 0) = Some b ->
                 b <> Z.to_nat 0 /\ (b < 48)%nat).
  { intros b Hb. vm_compute in Hb. injection Hb as <-. split; [discriminate | lia]. }
  assert (Hp : fst (ansnd_pause_voice 0 pair_linked) = ANSND_ERROR_OK)
    by (vm_compute; reflexivity).
  assert (Hu : fst (ansnd_unpause_voice 0 pair_linked) = ANSND_ERROR_OK)
    by (vm_compute; reflexivity).
  assert (Hs : fst (ansnd_stop_voice 0 pair_linked) = ANSND_ERROR_OK)
    by (vm_compute; reflexivity).
  assert (Hg : fst (ansnd_start_voice 0 pair_linked) = ANSND_ERROR_OK)
    by (vm_compute; reflexivity).
  split; [exact H1 | split; [exact H2|]].
  split; [exact Hp | split; [exact Hu | split; [exact Hs | split; [exact Hg|]]]].
  destruct (later_call_overrides pair_linked 0 H1 H2) as (Ha & Hb & Hc).
  split; [exact (Ha Hp Hu) | split; [exact (Hb Hu Hp) | exact (Hc Hs Hg)]].
Defined.

Lemma pitch_through_partner_witness :
  length (St.ansnd_voices pair_linked) = 48%nat
  /\ V.linked_voice (voice pair_linked 0) = Some 1%nat
  /\ invalid_samplerate HW_RVL (St.ansnd_output_samplerate pair_linked)
       (V.samplerate (St.ansnd_voices pair_linked !!! 1%nat)) pitch_3_2 = true
  /\ fst (ansnd_set_voice_pitch HW_RVL 0 pitch_3_2 pair_linked) = ANSND_ERROR_OK
  /\ fst (ansnd_set_voice_pitch HW_RVL 1 pitch_3_2 pair_linked)
     = ANSND_ERROR_INVALID_SAMPLERATE
  /\ V.pitch (St.ansnd_voices (snd (ansnd_set_voice_pitch HW_RVL 0 pitch_3_2 pair_linked))
              !!! 1%nat) = pitch_3_2.
Proof.
  assert (H1 : length (St.ansnd_voices pair_linked) = 48%nat) by (vm_compute; reflexivity).
  assert (H2 : V.linked_voice (voice pair_linked 0) = Some 1%nat)
    by (vm_compute; reflexivity).
  assert (H3 : invalid_samplerate HW_RVL (St.ansnd_output_samplerate pair_linked)
                 (V.samplerate (St.ansnd_voices pair_linked !!! 1%nat)) pitch_3_2 = true)
    by (vm_compute; reflexivity).
  assert (H4 : fst (ansnd_set_voice_pitch HW_RVL 0 pitch_3_2 pair_linked) = ANSND_ERROR_OK)
    by (vm_compute; reflexivity).
  split; [exact H1 | split; [exact H2 | split; [exact H3 | split; [exact H4|]]]].
  split; [vm_compute; reflexivity|].
  refine (proj1 (proj2 (pitch_through_partner HW_RVL pair_linked 0 1 pitch_3_2 H1 H2 _ _ _ _
                          (or_intror H3) H4))).
  - discriminate.
  - lia.
  - vm_compute. reflexivity.
  - vm_compute. reflexivity.
Defined.

Lemma linked_calls_reach_partner_witness :
  (length (St.ansnd_voices pair_linked) = 48%nat
   /\ V.linked_voice (voice pair_linked 0) = Some 1%nat
   /\ (exists s',
         ansnd_pause_voice 0 pair_linked = (ANSND_ERROR_OK, s')
         /\ flag_set (V.flags (St.ansnd_voices s' !!! 1%nat)) VOICE_FLAG_PAUSED = true)
   /\ (exists s',
         ansnd_set_voice_pitch HW_RVL 0 pitch_3_2 pair_linked = (ANSND_ERROR_OK, s')
         /\ V.pitch (St.ansnd_voices s' !!! 1%nat) = pitch_3_2))
  /\ (length (St.ansnd_voices pair_playing) = 48%nat
      /\ V.linked_voice (voice pair_playing 0) = Some 1%nat
      /\ flag_set (V.flags (St.ansnd_voices pair_playing !!! 1%nat)) VOICE_FLAG_RUNNING = true
      /\ flag_set (V.flags (St.ansnd_voices pair_playing !!! 1%nat)) VOICE_FLAG_LOOPED = true
      /\ (exists s',
            ansnd_stop_voice 0 pair_playing = (ANSND_ERROR_OK, s')
            /\ flag_set (V.flags (St.ansnd_voices s' !!! 1%nat)) VOICE_FLAG_RUNNING = false)
      /\ (exists s',
            ansnd_stop_looping 0 pair_playing = (ANSND_ERROR_OK, s')
            /\ flag_set (V.flags (St.ansnd_voices s' !!! 1%nat)) VOICE_FLAG_LOOPED = false)
      /\ (exists s',
            ansnd_set_voice_volume 0 F32.zero F32.one pair_playing = (ANSND_ERROR_OK, s')
            /\ V.left_volume (voice s' 0) = F32.zero
            /\ St.ansnd_voices s' !!! 1%nat = St.ansnd_voices pair_playing !!! 1%nat))
  /\ (length (St.ansnd_voices (snd (ansnd_pause_voice 0 pair_playing))) = 48%nat
      /\ V.linked_voice (voice (snd (ansnd_pause_voice 0 pair_playing)) 0) = Some 1%nat
      /\ flag_set (V.flags (St.ansnd_voices (snd (ansnd_pause_voice 0 pair_playing))
                            !!! 1%nat)) VOICE_FLAG_PAUSED = true
      /\ exists s',
           ansnd_unpause_voice 0 (snd (ansnd_pause_voice 0 pair_playing))
           = (ANSND_ERROR_OK, s')
           /\ flag_set (V.flags (St.ansnd_voices s' !!! 1%nat)) VOICE_FLAG_PAUSED = false).
Proof.
  split; [|split].
  - assert (H1 : length (St.ansnd_voices pair_linked) = 48%nat)
      by (vm_compute; reflexivity).
    assert (H2 : V.linked_voice (voice pair_linked 0) = Some 1%nat)
      by (vm_compute; reflexivity).
    split; [exact H1 | split; [exact H2|]]. split.
    + exists (snd (ansnd_pause_voice 0 pair_linked)).
      assert (H3 : ansnd_pause_voice 0 pair_linked
                   = (ANSND_ERROR_OK, snd (ansnd_pause_voice 0 pair_linked)))
        by (vm_compute; reflexivity).
      split; [exact H3|].
      destruct (linked_calls_reach_partner HW_RVL pair_linked
                  (snd (ansnd_pause_voice 0 pair_linked)) 0 1 H1 H2
                  ltac:(discriminate) ltac:(lia)) as (_ & Hpause & _).
      destruct (Hpause H3) as (_ & -> & _). vm_compute. reflexivity.
    + exists (snd (ansnd_set_voice_pitch HW_RVL 0 pitch_3_2 pair_linked)).
      assert (H3 : ansnd_set_voice_pitch HW_RVL 0 pitch_3_2 pair_linked
                   = (ANSND_ERROR_OK, snd (ansnd_set_voice_pitch HW_RVL 0 pitch_3_2
                                             pair_linked)))
        by (vm_compute; reflexivity).
      split; [exact H3|].
      destruct (linked_calls_reach_partner HW_RVL pair_linked
                  (snd (ansnd_set_voice_pitch HW_RVL 0 pitch_3_2 pair_linked)) 0 1 H1 H2
                  ltac:(discriminate) ltac:(lia)) as (_ & _ & _ & _ & Hpitch & _).
      destruct (Hpitch pitch_3_2 H3) as (_ & -> & _). reflexivity.
  - assert (H1 : length (St.ansnd_voices pair_playing) = 48%nat)
      by (vm_compute; reflexivity).
    assert (H2 : V.linked_voice (voice pair_playing 0) = Some 1%nat)
      by (vm_compute; reflexivity).
    split; [exact H1 | split; [exact H2|]].
    split; [vm_compute; reflexivity|]. split; [vm_compute; reflexivity|].
    split; [|split].
    + exists (snd (ansnd_stop_voice 0 pair_playing)).
      assert (H3 : ansnd_stop_voice 0 pair_playing
                   = (ANSND_ERROR_OK, snd (ansnd_stop_voice 0 pair_playing)))
        by (vm_compute; reflexivity).
      split; [exact H3|].
      destruct (linked_calls_reach_partner HW_RVL pair_playing
                  (snd (ansnd_stop_voice 0 pair_playing)) 0 1 H1 H2
                  ltac:(discriminate) ltac:(lia)) as (Hstop & _).
      destruct (Hstop H3) as (_ & -> & _). vm_compute. reflexivity.
    + exists (snd (ansnd_stop_looping 0 pair_playing)).
      assert (H3 : ansnd_stop_looping 0 pair_playing
                   = (ANSND_ERROR_OK, snd (ansnd_stop_looping 0 pair_playing)))
        by (vm_compute; reflexivity).
      split; [exact H3|].
      destruct (linked_calls_reach_partner HW_RVL pair_playing
                  (snd (ansnd_stop_looping 0 pair_playing)) 0 1 H1 H2
                  ltac:(discriminate) ltac:(lia)) as (_ & _ & _ & Hloop & _).
      destruct (Hloop H3) as (_ & -> & _). vm_compute. reflexivity.
    + exists (snd (ansnd_set_voice_volume 0 F32.zero F32.one pair_playing)).
      assert (H3 : ansnd_set_voice_volume 0 F32.zero F32.one pair_playing
                   = (ANSND_ERROR_OK,
                      snd (ansnd_set_voice_volume 0 F32.zero F32.one pair_playing)))
        by (vm_compute; reflexivity).
      split; [exact H3|].
      destruct (linked_calls_reach_partner HW_RVL pair_playing
                  (snd (ansnd_set_voice_volume 0 F32.zero F32.one pair_playing)) 0 1 H1 H2
                  ltac:(discriminate) ltac:(lia)) as (_ & _ & _ & _ & _ & Hvol).
      destruct (Hvol F32.zero F32.one H3) as (-> & Hrest).
      split; [reflexivity | apply Hrest; discriminate].
  - assert (H1 : length (St.ansnd_voices (snd (ansnd_pause_voice 0 pair_playing))) = 48%nat)
      by (vm_compute; reflexivity).
    assert (H2 : V.linked_voice (voice (snd (ansnd_pause_voice 0 pair_playing)) 0)
                 = Some 1%nat) by (vm_compute; reflexivity).
    split; [exact H1 | split; [exact H2|]]. split; [vm_compute; reflexivity|].
    exists (snd (ansnd_unpause_voice 0 (snd (ansnd_pause_voice 0 pair_playing)))).
    assert (H3 : ansnd_unpause_voice 0 (snd (ansnd_pause_voice 0 pair_playing))
                 = (ANSND_ERROR_OK,
                    snd (ansnd_unpause_voice 0 (snd (ansnd_pause_voice 0 pair_playing)))))
      by (vm_compute; reflexivity).
    split; [exact H3|].
    destruct (linked_calls_reach_partner HW_RVL (snd (ansnd_pause_voice 0 pair_playing))
                (snd (ansnd_unpause_voice 0 (snd (ansnd_pause_voice 0 pair_playing)))) 0 1
                H1 H2 ltac:(discriminate) ltac:(lia)) as (_ & _ & Hun & _).
    destruct (Hun H3) as (_ & -> & _). vm_compute. reflexivity.
Defined.

Lemma own_blocks_stream_in_flight : own_blocks (St.ansnd_voices stream_in_flight).
Proof.
  unfold stream_in_flight.
  destruct (ansnd_dsp_request_callback HW_RVL feeding_cycle stream_started)
    as [[s1 ev1]|] eqn:E1.
  - eapply request_callback_own_blocks; [exact E1|].
    apply run_calls_own_blocks, own_blocks_initial.
  - apply run_calls_own_blocks, own_blocks_initial.
Qed.

Lemma pause_own_blocks (s : St.t) (voice_id : Z) :
  own_blocks (St.ansnd_voices s) ->
  own_blocks (St.ansnd_voices (snd (ansnd_pause_voice voice_id s))).
Proof. exact (run_call_own_blocks HW_RVL (PauseVoice voice_id) s). Qed.

Lemma deallocate_own_blocks (s : St.t) (voice_id : Z) :
  own_blocks (St.ansnd_voices s) ->
  own_blocks (St.ansnd_voices (snd (ansnd_deallocate_voice voice_id s))).
Proof. exact (run_call_own_blocks HW_RVL (DeallocateVoice voice_id) s). Qed.

Lemma cycle_counts_running_voices_witness :
  length (St.ansnd_voices stream_started) = Z.to_nat ANSND_MAX_VOICES
  /\ St.ansnd_library_initialized stream_started = true
  /\ exists s' ev,
       ansnd_dsp_request_callback HW_RVL quiet_cycle stream_started = Some (s', ev)
       /\ St.ansnd_active_voices s' = running_voices (St.ansnd_voices s')
       /\ ansnd_get_total_active_voices_out (Some 0) s' = (ANSND_ERROR_OK, Some 1).
Proof.
  assert (H1 : length (St.ansnd_voices stream_started) = Z.to_nat ANSND_MAX_VOICES)
    by (vm_compute; reflexivity).
  assert (H2 : St.ansnd_library_initialized stream_started = true)
    by (vm_compute; reflexivity).
  split; [exact H1 | split; [exact H2|]].
  destruct (ansnd_dsp_request_callback HW_RVL quiet_cycle stream_started)
    as [[s' ev]|] eqn:E; [|vm_compute in E; discriminate E].
  exists s', ev. split; [reflexivity|].
  destruct (cycle_counts_running_voices HW_RVL quiet_cycle stream_started s' ev H1 E)
    as (Hcount & Hget & _).
  split; [exact Hcount|]. rewrite (Hget H2 0).
  vm_compute in E. injection E as <- _. vm_compute. reflexivity.
Defined.

Lemma cycle_publishes_voice_witness :
  length (St.ansnd_voices paused_in_flight) = 48%nat
  /\ own_blocks (St.ansnd_voices paused_in_flight)
  /\ V.parameter_block (St.ansnd_voices paused_in_flight !!! 0%nat) = Some 0%nat
  /\ flag_set (V.flags (St.ansnd_voices paused_in_flight !!! 0%nat)) VOICE_FLAG_UPDATED = true
  /\ flag_set (V.flags (St.ansnd_voices paused_in_flight !!! 0%nat)) VOICE_FLAG_ERASED = false
  /\ flag_set (V.flags (St.ansnd_voices paused_in_flight !!! 0%nat)) VOICE_FLAG_INITIALIZED
     = true
  /\ exists s' ev pb',
       ansnd_dsp_request_callback HW_RVL quiet_cycle paused_in_flight = Some (s', ev)
       /\ St.ansnd_dsp_dram_image s' !! 0%nat = Some pb'
       /\ flag_set (PB.flags pb') VOICE_FLAG_PAUSED = true.
Proof.
  assert (H1 : length (St.ansnd_voices paused_in_flight) = 48%nat)
    by (vm_compute; reflexivity).
  assert (H2 : own_blocks (St.ansnd_voices paused_in_flight)).
  { unfold paused_in_flight. apply pause_own_blocks, own_blocks_stream_in_flight. }
  assert (H3 : V.parameter_block (St.ansnd_voices paused_in_flight !!! 0%nat) = Some 0%nat)
    by (vm_compute; reflexivity).
  assert (H4 : flag_set (V.flags (St.ansnd_voices paused_in_flight !!! 0%nat))
                 VOICE_FLAG_UPDATED = true) by (vm_compute; reflexivity).
  assert (H5 : flag_set (V.flags (St.ansnd_voices paused_in_flight !!! 0%nat))
                 VOICE_FLAG_ERASED = false) by (vm_compute; reflexivity).
  assert (H6 : flag_set (V.flags (St.ansnd_voices paused_in_flight !!! 0%nat))
                 VOICE_FLAG_INITIALIZED = true) by (vm_compute; reflexivity).
  split; [exact H1 | split; [exact H2 | split; [exact H3 | split; [exact H4 |
    split; [exact H5 | split; [exact H6|]]]]]].
  destruct (St.ansnd_dsp_dram_image paused_in_flight !! 0%nat) as [pb|] eqn:Hl;
    [|vm_compute in Hl; discriminate Hl].
  destruct (ansnd_dsp_request_callback HW_RVL quiet_cycle paused_in_flight)
    as [[s' ev]|] eqn:E; [|vm_compute in E; discriminate E].
  destruct (cycle_publishes_voice HW_RVL quiet_cycle paused_in_flight s' ev 0 pb
              E H1 H2 H3 Hl H4 H5 H6) as (pb' & Hl' & _ & _ & _ & Hpaused & _).
  exists s', ev, pb'. split; [reflexivity|]. split; [exact Hl'|].
  rewrite Hpaused. vm_compute. reflexivity.
Defined.

Lemma cycle_erases_voice_witness :
  (length (St.ansnd_voices deallocated_in_flight) = 48%nat
   /\ own_blocks (St.ansnd_voices deallocated_in_flight)
   /\ V.parameter_block (St.ansnd_voices deallocated_in_flight !!! 0%nat) = Some 0%nat
   /\ flag_set (V.flags (St.ansnd_voices deallocated_in_flight !!! 0%nat)) VOICE_FLAG_UPDATED
      = true
   /\ flag_set (V.flags (St.ansnd_voices deallocated_in_flight !!! 0%nat)) VOICE_FLAG_ERASED
      = true
   /\ exists s' ev,
        ansnd_dsp_request_callback HW_RVL quiet_cycle deallocated_in_flight = Some (s', ev)
        /\ St.ansnd_voices s' !!! 0%nat = V.zero
        /\ St.ansnd_dsp_dram_image s' !! 0%nat = Some PB.zero)
  /\ (length (St.ansnd_voices watched_deallocated) = 48%nat
      /\ own_blocks (St.ansnd_voices watched_deallocated)
      /\ V.parameter_block (St.ansnd_voices watched_deallocated !!! 0%nat) = Some 0%nat
      /\ flag_set (V.flags (St.ansnd_voices watched_deallocated !!! 0%nat)) VOICE_FLAG_UPDATED
         = true
      /\ flag_set (V.flags (St.ansnd_voices watched_deallocated !!! 0%nat)) VOICE_FLAG_ERASED
         = true
      /\ V.voice_callback (St.ansnd_voices watched_deallocated !!! 0%nat) = Some 7%nat
      /\ exists s' ev,
           ansnd_dsp_request_callback HW_RVL quiet_cycle watched_deallocated = Some (s', ev)
           /\ In (VoiceCallback 7 9 ANSND_VOICE_STATE_ERASED) ev).
Proof.
  split.
  - assert (H1 : length (St.ansnd_voices deallocated_in_flight) = 48%nat)
      by (vm_compute; reflexivity).
    assert (H2 : own_blocks (St.ansnd_voices deallocated_in_flight)).
    { unfold deallocated_in_flight.
      apply deallocate_own_blocks, own_blocks_stream_in_flight. }
    assert (H3 : V.parameter_block (St.ansnd_voices deallocated_in_flight !!! 0%nat)
                 = Some 0%nat) by (vm_compute; reflexivity).
    assert (H4 : flag_set (V.flags (St.ansnd_voices deallocated_in_flight !!! 0%nat))
                   VOICE_FLAG_UPDATED = true) by (vm_compute; reflexivity).
    assert (H5 : flag_set (V.flags (St.ansnd_voices deallocated_in_flight !!! 0%nat))
                   VOICE_FLAG_ERASED = true) by (vm_compute; reflexivity).
    split; [exact H1 | split; [exact H2 | split; [exact H3 | split; [exact H4 |
      split; [exact H5|]]]]].
    destruct (St.ansnd_dsp_dram_image deallocated_in_flight !! 0%nat) as [pb|] eqn:Hl;
      [|vm_compute in Hl; discriminate Hl].
    destruct (ansnd_dsp_request_callback HW_RVL quiet_cycle deallocated_in_flight)
      as [[s' ev]|] eqn:E; [|vm_compute in E; discriminate E].
    destruct (cycle_erases_voice HW_RVL quiet_cycle deallocated_in_flight s' ev 0 pb
                E H1 H2 H3 Hl H4 H5) as (Hv & Hb & _).
    exists s', ev. split; [reflexivity | split; [exact Hv | exact Hb]].
  - assert (H1 : length (St.ansnd_voices watched_deallocated) = 48%nat)
      by (vm_compute; reflexivity).
    assert (H2 : own_blocks (St.ansnd_voices watched_deallocated))
      by (apply run_calls_own_blocks, own_blocks_initial).
    assert (H3 : V.parameter_block (St.ansnd_voices watched_deallocated !!! 0%nat)
                 = Some 0%nat) by (vm_compute; reflexivity).
    assert (H4 : flag_set (V.flags (St.ansnd_voices watched_deallocated !!! 0%nat))
                   VOICE_FLAG_UPDATED = true) by (vm_compute; reflexivity).
    assert (H5 : flag_set (V.flags (St.ansnd_voices watched_deallocated !!! 0%nat))
                   VOICE_FLAG_ERASED = true) by (vm_compute; reflexivity).
    assert (H6 : V.voice_callback (St.ansnd_voices watched_deallocated !!! 0%nat)
                 = Some 7%nat) by (vm_compute; reflexivity).
    split; [exact H1 | split; [exact H2 | split; [exact H3 | split; [exact H4 |
      split; [exact H5 | split; [exact H6|]]]]]].
    destruct (St.ansnd_dsp_dram_image watched_deallocated !! 0%nat) as [pb|] eqn:Hl;
      [|vm_compute in Hl; discriminate Hl].
    destruct (ansnd_dsp_request_callback HW_RVL quiet_cycle watched_deallocated)
      as [[s' ev]|] eqn:E; [|vm_compute in E; discriminate E].
    destruct (cycle_erases_voice HW_RVL quiet_cycle watched_deallocated s' ev 0 pb
                E H1 H2 H3 Hl H4 H5) as (_ & _ & _ & Hcb).
    exists s', ev. split; [reflexivity|]. exact (Hcb 7%nat H6).
Defined.

Lemma sync_initializes_voice_witness :
  V.parameter_block (voice stream_started 0) = Some 0%nat
  /\ St.ansnd_dsp_dram_image stream_started !! 0%nat = Some PB.zero
  /\ addresses_typed (voice stream_started 0)
  /\ flag_set (V.flags (voice stream_started 0)) VOICE_FLAG_ERASED = false
  /\ flag_set (V.flags (voice stream_started 0)) VOICE_FLAG_INITIALIZED = false
  /\ flag_set (V.flags (voice stream_started 0)) VOICE_FLAG_FINISHED = false
  /\ exists v' pb' ev,
       ansnd_sync_voice HW_RVL ANSND_OUTPUT_SAMPLERATE_48KHZ (voice stream_started 0)
         (St.ansnd_dsp_dram_image stream_started) = Some (v', <[0%nat := pb']> (St.ansnd_dsp_dram_image stream_started), ev)
       /\ flag_set (PB.flags pb') VOICE_FLAG_RUNNING = true
       /\ accelerator_current pb' = 0x1000.
Proof.
  assert (H1 : V.parameter_block (voice stream_started 0) = Some 0%nat)
    by (vm_compute; reflexivity).
  assert (H2 : St.ansnd_dsp_dram_image stream_started !! 0%nat = Some PB.zero)
    by (vm_compute; reflexivity).
  assert (H3 : addresses_typed (voice stream_started 0))
    by (unfold addresses_typed; repeat split; vm_compute; congruence).
  assert (H4 : flag_set (V.flags (voice stream_started 0)) VOICE_FLAG_ERASED = false)
    by (vm_compute; reflexivity).
  assert (H5 : flag_set (V.flags (voice stream_started 0)) VOICE_FLAG_INITIALIZED = false)
    by (vm_compute; reflexivity).
  assert (H6 : flag_set (V.flags (voice stream_started 0)) VOICE_FLAG_FINISHED = false)
    by (vm_compute; reflexivity).
  split; [exact H1 | split; [exact H2 | split; [exact H3 | split; [exact H4 |
    split; [exact H5 | split; [exact H6|]]]]]].
  destruct (sync_initializes_voice HW_RVL ANSND_OUTPUT_SAMPLERATE_48KHZ _ _ 0 _ H1 H2 H3 H4 H5 H6)
    as (v' & pb' & Hsync & _ & _ & _ & Hrun & _ & _ & _ & _ & Hcur & _).
  exists v', pb'. eexists. split; [exact Hsync|].
  rewrite Hrun, Hcur. split; vm_compute; reflexivity.
Defined.

Lemma delay_counts_down_witness :
  V.parameter_block delayed_voice = Some 0%nat
  /\ flag_set (V.flags delayed_voice) VOICE_FLAG_DELAY = true
  /\ 0 <= V.delay delayed_voice < 2 ^ 32
  /\ cycles_of_delay ANSND_OUTPUT_SAMPLERATE_48KHZ (V.delay delayed_voice) = 5%nat
  /\ (exists v,
        delay_cycles HW_RVL ANSND_OUTPUT_SAMPLERATE_48KHZ 4 delayed_voice
          (replicate 48 PB.zero) = Some (v, replicate 48 PB.zero)
        /\ flag_set (V.flags v) VOICE_FLAG_DELAY = true
        /\ 0 < V.delay v < V.delay delayed_voice)
  /\ exists v' pb',
       delay_cycles HW_RVL ANSND_OUTPUT_SAMPLERATE_48KHZ 5 delayed_voice (replicate 48 PB.zero)
       = Some (v', <[0%nat := pb']> (replicate 48 PB.zero))
       /\ flag_set (V.flags v') VOICE_FLAG_DELAY = false.
Proof.
  assert (H1 : V.parameter_block delayed_voice = Some 0%nat) by reflexivity.
  assert (H2 : flag_set (V.flags delayed_voice) VOICE_FLAG_DELAY = true) by reflexivity.
  assert (H3 : 0 <= V.delay delayed_voice < 2 ^ 32) by (vm_compute; split; congruence).
  assert (H4 : cycles_of_delay ANSND_OUTPUT_SAMPLERATE_48KHZ (V.delay delayed_voice) = 5%nat)
    by (vm_compute; reflexivity).
  split; [exact H1 | split; [exact H2 | split; [exact H3 | split; [exact H4|]]]].
  destruct (delay_counts_down HW_RVL ANSND_OUTPUT_SAMPLERATE_48KHZ delayed_voice (replicate 48 PB.zero) 0 PB.zero
              (or_intror eq_refl) H1 eq_refl H2 H3) as (Hwait & v' & pb' & Hrun & Hd & _).
  split.
  - eexists. split; [apply Hwait; rewrite H4; lia|].
    split; [reflexivity | vm_compute; split; reflexivity].
  - rewrite H4 in Hrun. exists v', pb'. split; [exact Hrun | exact Hd].
Defined.

Lemma audio_frame_witness :
  St.ansnd_dsp_done_mixing stream_in_flight = true
  /\ (St.ansnd_next_audio_buffer stream_in_flight = 0
      \/ St.ansnd_next_audio_buffer stream_in_flight = 1)
  /\ exists s2 ev2,
       ansnd_dsp_request_callback HW_RVL quiet_cycle
         (fst (ansnd_audio_dma_callback (mk_dma_input false true 0 0) stream_in_flight))
       = Some (s2, ev2)
       /\ St.ansnd_next_audio_buffer s2 = 1.
Proof.
  assert (H1 : St.ansnd_dsp_done_mixing stream_in_flight = true)
    by (vm_compute; reflexivity).
  assert (H2 : St.ansnd_next_audio_buffer stream_in_flight = 0
               \/ St.ansnd_next_audio_buffer stream_in_flight = 1)
    by (left; vm_compute; reflexivity).
  split; [exact H1 | split; [exact H2|]].
  destruct (ansnd_dsp_request_callback HW_RVL quiet_cycle
              (fst (ansnd_audio_dma_callback (mk_dma_input false true 0 0)
                      stream_in_flight)))
    as [[s2 ev2]|] eqn:E; [|vm_compute in E; discriminate E].
  exists s2, ev2. split; [reflexivity|].
  destruct (audio_frame HW_RVL _ quiet_cycle stream_in_flight s2 ev2 H1 H2 E)
    as (_ & -> & _).
  vm_compute. reflexivity.
Defined.

Lemma pcm_stream_reaches_slot_witness :
  V.parameter_block idle_streaming_voice = Some 0%nat
  /\ V.stream_callback idle_streaming_voice = Some 1%nat
  /\ flag_set (V.flags idle_streaming_voice) VOICE_FLAG_ADPCM = false
  /\ V.next_buffer_start idle_streaming_voice = 0
  /\ slot_empty PB.zero = true
  /\ (exists v' pb',
        ansnd_update_stream_buffers HW_RVL (PcmBuf.mk 0x2000 100) AdpcmBuf.zero
          idle_streaming_voice (replicate 48 PB.zero)
        = Some (v', <[0%nat := pb']> (replicate 48 PB.zero),
                [PcmStreamCallback 1 (V.user_pointer idle_streaming_voice)])
        /\ slot_start pb' = 0x2000
        /\ slot_end pb' = 0x2000 + 99)
  /\ (exists v' pb',
        ansnd_update_stream_buffers HW_RVL (PcmBuf.mk 0x2000 0) AdpcmBuf.zero
          idle_streaming_voice (replicate 48 PB.zero)
        = Some (v', <[0%nat := pb']> (replicate 48 PB.zero),
                [PcmStreamCallback 1 (V.user_pointer idle_streaming_voice)])
        /\ slot_empty pb' = true).
Proof.
  assert (H1 : V.parameter_block idle_streaming_voice = Some 0%nat) by reflexivity.
  assert (H2 : V.stream_callback idle_streaming_voice = Some 1%nat) by reflexivity.
  assert (H3 : flag_set (V.flags idle_streaming_voice) VOICE_FLAG_ADPCM = false)
    by reflexivity.
  assert (H4 : V.next_buffer_start idle_streaming_voice = 0) by reflexivity.
  assert (H5 : slot_empty PB.zero = true) by reflexivity.
  split; [exact H1 | split; [exact H2 | split; [exact H3 | split; [exact H4 |
    split; [exact H5|]]]]].
  split.
  - destruct (pcm_stream_reaches_slot HW_RVL (PcmBuf.mk 0x2000 100) AdpcmBuf.zero
                idle_streaming_voice (replicate 48 PB.zero) 0 PB.zero 1 H1 eq_refl H2 H3 H4 H5
                ltac:(vm_compute; split; congruence))
      as (v' & pb' & Hrun & _ & _ & _ & Hslot).
    exists v', pb'. split; [exact Hrun|].
    change (supplied HW_RVL (PcmBuf.frame_data_ptr (PcmBuf.mk 0x2000 100))
              (PcmBuf.frame_count (PcmBuf.mk 0x2000 100))) with true in Hslot.
    destruct Hslot as (-> & -> & _). split; vm_compute; reflexivity.
  - destruct (pcm_stream_reaches_slot HW_RVL (PcmBuf.mk 0x2000 0) AdpcmBuf.zero
                idle_streaming_voice (replicate 48 PB.zero) 0 PB.zero 1 H1 eq_refl H2 H3 H4 H5
                ltac:(vm_compute; split; congruence))
      as (v' & pb' & Hrun & _ & _ & _ & Hslot).
    exists v', pb'. split; [exact Hrun|].
    change (supplied HW_RVL (PcmBuf.frame_data_ptr (PcmBuf.mk 0x2000 0))
              (PcmBuf.frame_count (PcmBuf.mk 0x2000 0))) with false in Hslot.
    exact Hslot.
Defined.

Lemma adpcm_stream_reaches_slot_witness :
  V.parameter_block (V.set_flags VOICE_FLAG_ADPCM idle_streaming_voice) = Some 0%nat
  /\ V.stream_callback (V.set_flags VOICE_FLAG_ADPCM idle_streaming_voice) = Some 1%nat
  /\ flag_set (V.flags (V.set_flags VOICE_FLAG_ADPCM idle_streaming_voice)) VOICE_FLAG_ADPCM
     = true
  /\ V.next_buffer_start (V.set_flags VOICE_FLAG_ADPCM idle_streaming_voice) = 0
  /\ slot_empty PB.zero = true
  /\ (exists v' pb' ev,
        ansnd_update_stream_buffers HW_RVL PcmBuf.zero (AdpcmBuf.mk 0x2000 1400 0 0 0)
          (V.set_flags VOICE_FLAG_ADPCM idle_streaming_voice) (replicate 48 PB.zero)
        = Some (v', <[0%nat := pb']> (replicate 48 PB.zero), ev)
        /\ slot_start pb' = 0x4000
        /\ slot_current pb' = 0x4002)
  /\ (exists v' pb' ev,
        ansnd_update_stream_buffers HW_RVL PcmBuf.zero AdpcmBuf.zero
          (V.set_flags VOICE_FLAG_ADPCM idle_streaming_voice) (replicate 48 PB.zero)
        = Some (v', <[0%nat := pb']> (replicate 48 PB.zero), ev)
        /\ slot_empty pb' = true).
Proof.
  set (v := V.set_flags VOICE_FLAG_ADPCM idle_streaming_voice).
  assert (H1 : V.parameter_block v = Some 0%nat) by reflexivity.
  assert (H2 : V.stream_callback v = Some 1%nat) by reflexivity.
  assert (H3 : flag_set (V.flags v) VOICE_FLAG_ADPCM = true) by reflexivity.
  assert (H4 : V.next_buffer_start v = 0) by reflexivity.
  assert (H5 : slot_empty PB.zero = true) by reflexivity.
  split; [exact H1 | split; [exact H2 | split; [exact H3 | split; [exact H4 |
    split; [exact H5|]]]]].
  split.
  - destruct (adpcm_stream_reaches_slot HW_RVL PcmBuf.zero (AdpcmBuf.mk 0x2000 1400 0 0 0)
                v (replicate 48 PB.zero) 0 PB.zero 1 H1 eq_refl H2 H3 H4 H5)
      as (v' & pb' & Hrun & _ & _ & _ & Hslot).
    exists v', pb'. eexists. split; [exact Hrun|].
    change (supplied HW_RVL (AdpcmBuf.data_ptr (AdpcmBuf.mk 0x2000 1400 0 0 0))
              (AdpcmBuf.sample_count (AdpcmBuf.mk 0x2000 1400 0 0 0))) with true in Hslot.
    destruct Hslot as (-> & _ & -> & _). split; vm_compute; reflexivity.
  - destruct (adpcm_stream_reaches_slot HW_RVL PcmBuf.zero AdpcmBuf.zero
                v (replicate 48 PB.zero) 0 PB.zero 1 H1 eq_refl H2 H3 H4 H5)
      as (v' & pb' & Hrun & _ & _ & _ & Hslot).
    exists v', pb'. eexists. split; [exact Hrun|].
    change (supplied HW_RVL (AdpcmBuf.data_ptr AdpcmBuf.zero)
              (AdpcmBuf.sample_count AdpcmBuf.zero)) with false in Hslot.
    exact Hslot.
Defined.

Lemma sync_ends_loop_witness :
  (V.parameter_block (voice loop_playing 0) = Some 0%nat
   /\ flag_set (V.flags (voice loop_playing 0)) VOICE_FLAG_ERASED = false
   /\ flag_set (V.flags (voice loop_playing 0)) VOICE_FLAG_INITIALIZED = true
   /\ 0 <= V.ram_buffer_end (voice loop_playing 0) < 2 ^ 32
   /\ exists pb v' pb' ev,
        St.ansnd_dsp_dram_image loop_playing !! 0%nat = Some pb
        /\ flag_set (PB.flags pb) VOICE_FLAG_LOOPED = true
        /\ accelerator_end pb = 0x1000 + 99
        /\ ansnd_sync_voice HW_RVL ANSND_OUTPUT_SAMPLERATE_48KHZ (stop_looping_flags (voice loop_playing 0))
             (St.ansnd_dsp_dram_image loop_playing)
           = Some (v', <[0%nat := pb']> (St.ansnd_dsp_dram_image loop_playing), ev)
        /\ flag_set (PB.flags pb') VOICE_FLAG_LOOPED = false
        /\ accelerator_end pb' = 0x1000 + 999)
  /\ (V.parameter_block (voice looped_stream_playing 0) = Some 0%nat
      /\ flag_set (V.flags (voice looped_stream_playing 0)) VOICE_FLAG_ERASED = false
      /\ flag_set (V.flags (voice looped_stream_playing 0)) VOICE_FLAG_INITIALIZED = true
      /\ flag_set (V.flags (voice looped_stream_playing 0)) VOICE_FLAG_STREAMING = true
      /\ 0 <= V.ram_buffer_end (voice looped_stream_playing 0) < 2 ^ 32
      /\ exists pb v' pb' ev,
           St.ansnd_dsp_dram_image looped_stream_playing !! 0%nat = Some pb
           /\ flag_set (PB.flags pb) VOICE_FLAG_LOOPED = true
           /\ flag_set (PB.flags pb) VOICE_FLAG_STREAMING = false
           /\ ansnd_sync_voice HW_RVL ANSND_OUTPUT_SAMPLERATE_48KHZ
                (stop_looping_flags (voice looped_stream_playing 0))
                (St.ansnd_dsp_dram_image looped_stream_playing)
              = Some (v', <[0%nat := pb']> (St.ansnd_dsp_dram_image looped_stream_playing), ev)
           /\ flag_set (PB.flags pb') VOICE_FLAG_STREAMING = true
           /\ V.next_buffer_start v' = 0).
Proof.
  split.
  - assert (H1 : V.parameter_block (voice loop_playing 0) = Some 0%nat)
      by (vm_compute; reflexivity).
    assert (H2 : flag_set (V.flags (voice loop_playing 0)) VOICE_FLAG_ERASED = false)
      by (vm_compute; reflexivity).
    assert (H3 : flag_set (V.flags (voice loop_playing 0)) VOICE_FLAG_INITIALIZED = true)
      by (vm_compute; reflexivity).
    assert (H4 : 0 <= V.ram_buffer_end (voice loop_playing 0) < 2 ^ 32)
      by (vm_compute; split; congruence).
    split; [exact H1 | split; [exact H2 | split; [exact H3 | split; [exact H4|]]]].
    destruct (St.ansnd_dsp_dram_image loop_playing !! 0%nat) as [pb|] eqn:Hl;
      [|vm_compute in Hl; discriminate Hl].
    assert (H5 : flag_set (PB.flags pb) VOICE_FLAG_LOOPED = true).
    { vm_compute in Hl. injection Hl as <-. reflexivity. }
    assert (H6 : accelerator_end pb = 0x1000 + 99).
    { vm_compute in Hl. injection Hl as <-. reflexivity. }
    destruct (sync_ends_loop HW_RVL ANSND_OUTPUT_SAMPLERATE_48KHZ (voice loop_playing 0)
                (St.ansnd_dsp_dram_image loop_playing) 0 pb H1 Hl H2 H3 H5 H4)
      as (v' & pb' & ev & Hsync & _ & Hlo & Hend & _).
    exists pb, v', pb', ev. split; [reflexivity|]. split; [exact H5|]. split; [exact H6|].
    split; [exact Hsync|]. split; [exact Hlo|]. rewrite Hend. vm_compute. reflexivity.
  - assert (H1 : V.parameter_block (voice looped_stream_playing 0) = Some 0%nat)
      by (vm_compute; reflexivity).
    assert (H2 : flag_set (V.flags (voice looped_stream_playing 0)) VOICE_FLAG_ERASED = false)
      by (vm_compute; reflexivity).
    assert (H3 : flag_set (V.flags (voice looped_stream_playing 0)) VOICE_FLAG_INITIALIZED
                 = true) by (vm_compute; reflexivity).
    assert (Hs : flag_set (V.flags (voice looped_stream_playing 0)) VOICE_FLAG_STREAMING
                 = true) by (vm_compute; reflexivity).
    assert (H4 : 0 <= V.ram_buffer_end (voice looped_stream_playing 0) < 2 ^ 32)
      by (vm_compute; split; congruence).
    split; [exact H1 | split; [exact H2 | split; [exact H3 | split; [exact Hs |
      split; [exact H4|]]]]].
    destruct (St.ansnd_dsp_dram_image looped_stream_playing !! 0%nat) as [pb|] eqn:Hl;
      [|vm_compute in Hl; discriminate Hl].
    assert (H5 : flag_set (PB.flags pb) VOICE_FLAG_LOOPED = true).
    { vm_compute in Hl. injection Hl as <-. reflexivity. }
    assert (H6 : flag_set (PB.flags pb) VOICE_FLAG_STREAMING = false).
    { vm_compute in Hl. injection Hl as <-. reflexivity. }
    destruct (sync_ends_loop HW_RVL ANSND_OUTPUT_SAMPLERATE_48KHZ
                (voice looped_stream_playing 0)
                (St.ansnd_dsp_dram_image looped_stream_playing) 0 pb H1 Hl H2 H3 H5 H4)
      as (v' & pb' & ev & Hsync & _ & _ & _ & _ & _ & _ & Hstream).
    exists pb, v', pb', ev. split; [reflexivity|]. split; [exact H5|]. split; [exact H6|].
    split; [exact Hsync|]. exact (Hstream Hs).
Defined.

Lemma library_restart_witness :
  fst (ansnd_allocate_voice
         (snd (ansnd_initialize_samplerate ANSND_OUTPUT_SAMPLERATE_32KHZ
                 (ansnd_uninitialize stream_in_flight)))) = 0
  /\ St.ansnd_voices (snd (ansnd_initialize_samplerate ANSND_OUTPUT_SAMPLERATE_32KHZ
                             (ansnd_uninitialize stream_in_flight)))
     = replicate 48 V.zero
  /\ St.ansnd_library_initialized stream_in_flight = true
  /\ St.ansnd_output_samplerate stream_in_flight = ANSND_OUTPUT_SAMPLERATE_48KHZ
  /\ ansnd_initialize_samplerate ANSND_OUTPUT_SAMPLERATE_32KHZ stream_in_flight
     = (ANSND_ERROR_OK,
        St.set_ansnd_output_samplerate ANSND_OUTPUT_SAMPLERATE_32KHZ stream_in_flight).
Proof.
  assert (H1 : St.ansnd_library_initialized stream_in_flight = true)
    by (vm_compute; reflexivity).
  destruct (library_restart stream_in_flight ANSND_OUTPUT_SAMPLERATE_32KHZ
              ANSND_OUTPUT_SAMPLERATE_32KHZ (or_introl eq_refl) (or_introl eq_refl))
    as (_ & _ & _ & Hvoices & _ & _ & _ & _ & _ & _ & Hfirst & Hagain).
  split; [exact Hfirst | split; [exact Hvoices | split; [exact H1|]]].
  split; [vm_compute; reflexivity | exact (Hagain stream_in_flight H1)].
Defined.

Lemma unlink_undoes_link_witness :
  (length (St.ansnd_voices two_allocated) = 48%nat
   /\ flag_set (V.flags (voice two_allocated 0)) VOICE_FLAG_CONFIGURED = true
   /\ exists s1,
        ansnd_link_voices 0 1 two_allocated = (ANSND_ERROR_OK, s1)
        /\ ansnd_unlink_voice 0 s1 = (ANSND_ERROR_OK, two_allocated))
  /\ (length (St.ansnd_voices two_fresh) = 48%nat
      /\ flag_set (V.flags (voice two_fresh 0)) VOICE_FLAG_CONFIGURED = false
      /\ exists s1,
           ansnd_link_voices 0 1 two_fresh = (ANSND_ERROR_OK, s1)
           /\ V.linked_voice (voice s1 0) = Some 1%nat
           /\ V.linked_voice (voice s1 1) = Some 0%nat
           /\ ansnd_unlink_voice 0 s1 = (ANSND_ERROR_VOICE_NOT_CONFIGURED, s1)).
Proof.
  split.
  - assert (H1 : length (St.ansnd_voices two_allocated) = 48%nat)
      by (vm_compute; reflexivity).
    assert (H2 : flag_set (V.flags (voice two_allocated 0)) VOICE_FLAG_CONFIGURED = true)
      by (vm_compute; reflexivity).
    split; [exact H1 | split; [exact H2|]].
    exists (snd (ansnd_link_voices 0 1 two_allocated)).
    assert (H3 : ansnd_link_voices 0 1 two_allocated
                 = (ANSND_ERROR_OK, snd (ansnd_link_voices 0 1 two_allocated)))
      by (vm_compute; reflexivity).
    split; [exact H3|].
    rewrite (proj2 (proj2 (unlink_undoes_link _ _ 0 1 H1 H3))), H2. reflexivity.
  - assert (H1 : length (St.ansnd_voices two_fresh) = 48%nat)
      by (vm_compute; reflexivity).
    assert (H2 : flag_set (V.flags (voice two_fresh 0)) VOICE_FLAG_CONFIGURED = false)
      by (vm_compute; reflexivity).
    split; [exact H1 | split; [exact H2|]].
    exists (snd (ansnd_link_voices 0 1 two_fresh)).
    assert (H3 : ansnd_link_voices 0 1 two_fresh
                 = (ANSND_ERROR_OK, snd (ansnd_link_voices 0 1 two_fresh)))
      by (vm_compute; reflexivity).
    split; [exact H3|].
    destruct (unlink_undoes_link _ _ 0 1 H1 H3) as (Ha & Hb & Hun).
    split; [exact Ha | split; [exact Hb|]]. rewrite Hun, H2. reflexivity.
Defined.

Lemma volume_validation_witness :
  St.ansnd_library_initialized voice_0_configured = true
  /\ 0 <= 0 < ANSND_MAX_VOICES
  /\ flag_set (V.flags (voice voice_0_configured 0)) VOICE_FLAG_USED = true
  /\ flag_set (V.flags (voice voice_0_configured 0)) VOICE_FLAG_CONFIGURED = true
  /\ ansnd_set_voice_volume 0 (F32.of_Z 2) F32.one voice_0_configured
     = (ANSND_ERROR_INVALID_INPUT, voice_0_configured)
  /\ fst (ansnd_set_voice_volume 0 F32.zero (F32.of_Z (-1)) voice_0_configured)
     = ANSND_ERROR_OK
  /\ V.left_volume (voice (snd (ansnd_set_voice_volume 0 F32.zero (F32.of_Z (-1))
                                  voice_0_configured)) 0) = F32.zero
  /\ V.right_volume (voice (snd (ansnd_set_voice_volume 0 F32.zero (F32.of_Z (-1))
                                   voice_0_configured)) 0) = F32.of_Z (-1).
Proof.
  assert (H1 : St.ansnd_library_initialized voice_0_configured = true) by reflexivity.
  assert (H2 : 0 <= 0 < ANSND_MAX_VOICES) by (unfold ANSND_MAX_VOICES; lia).
  assert (H3 : flag_set (V.flags (voice voice_0_configured 0)) VOICE_FLAG_USED = true)
    by (vm_compute; reflexivity).
  assert (H4 : flag_set (V.flags (voice voice_0_configured 0)) VOICE_FLAG_CONFIGURED = true)
    by (vm_compute; reflexivity).
  split; [exact H1 | split; [exact H2 | split; [exact H3 | split; [exact H4|]]]].
  split.
  - refine (proj1 (volume_validation voice_0_configured 0 (F32.of_Z 2) F32.one H1 H2 H3 H4) _).
    right. left. vm_compute. reflexivity.
  - destruct (volume_validation voice_0_configured 0 F32.zero (F32.of_Z (-1)) H1 H2 H3 H4)
      as (_ & Hacc & _).
    destruct Hacc as (Hok & Hl & Hr & _).
    + intros [H|[H|[H|H]]]; vm_compute in H; discriminate H.
    + split; [exact Hok | split; [exact Hl | exact Hr]].
Defined.

(** ** A stream in service *)

Lemma insert_initialized (l : list V.t) (i n : nat) (x : V.t) :
  initialized_stream (l !!! n) ->
  (i = n -> initialized_stream x) ->
  initialized_stream (<[i := x]> l !!! n).
Proof.
  intros Hn Hx. rewrite list_lookup_total_insert.
  case_decide as Hd; [apply Hx; tauto | exact Hn].
Qed.

Lemma in_service_same (s s' : St.t) (voice_id : Z) :
  St.ansnd_library_initialized s' = St.ansnd_library_initialized s ->
  St.ansnd_voices s' = St.ansnd_voices s ->
  stream_in_service s voice_id -> stream_in_service s' voice_id.
Proof.
  intros Hi Hv (H1 & H2 & H3 & H4). unfold stream_in_service, voice in *.
  now rewrite Hi, Hv.
Qed.

Lemma in_service_set_voice (s : St.t) (voice_id : Z) (i : nat) (x : V.t) :
  stream_in_service s voice_id ->
  (i = Z.to_nat voice_id -> initialized_stream x) ->
  stream_in_service (set_voice i x s) voice_id.
Proof.
  intros (H1 & H2 & H3 & H4) Hx. unfold stream_in_service, voice in *.
  rewrite voices_set_voice, length_insert.
  split; [now destruct s|]. split; [exact H2|]. split; [exact H3|].
  now apply insert_initialized.
Qed.

Lemma in_service_on_linked (s : St.t) (voice_id : Z) (l : option nat) (f : V.t -> V.t) :
  stream_in_service s voice_id ->
  (l = Some (Z.to_nat voice_id) ->
   forall w, initialized_stream w -> initialized_stream (f w)) ->
  stream_in_service (on_linked l f s) voice_id.
Proof.
  intros Hs Hf. destruct l as [j|]; [|exact Hs]. cbn [on_linked].
  apply in_service_set_voice; [exact Hs|].
  intros ->. apply Hf; [reflexivity|]. now destruct Hs as (_ & _ & _ & H).
Qed.

(** The flag updates of the calls other than start keep such a voice. *)
Ltac keeps_stream :=
  intros w (Hu & Hc & Hs & Hi & He); unfold initialized_stream;
  cbn [V.flags V.set_flags V.set_pitch V.set_linked_voice V.set_left_volume
       V.set_right_volume];
  flag_bits; rewrite ?Hu, ?Hc, ?Hs, ?Hi, ?He; repeat split.

Lemma initialized_stop_flags (w : V.t) :
  initialized_stream w -> initialized_stream (stop_flags w).
Proof. revert w. unfold stop_flags. keeps_stream. Qed.

Lemma initialized_pause_flags (w : V.t) :
  initialized_stream w -> initialized_stream (pause_flags w).
Proof. revert w. unfold pause_flags. keeps_stream. Qed.

Lemma initialized_unpause_flags (w : V.t) :
  initialized_stream w -> initialized_stream (unpause_flags w).
Proof. revert w. unfold unpause_flags. keeps_stream. Qed.

Lemma initialized_stop_looping_flags (w : V.t) :
  initialized_stream w -> initialized_stream (stop_looping_flags w).
Proof. revert w. unfold stop_looping_flags. keeps_stream. Qed.

Lemma initialized_pitch_flags (pitch : f32) (w : V.t) :
  initialized_stream w -> initialized_stream (pitch_flags pitch w).
Proof. revert w. unfold pitch_flags. keeps_stream. Qed.

Lemma initialized_set_linked_voice (l : option nat) (w : V.t) :
  initialized_stream w -> initialized_stream (V.set_linked_voice l w).
Proof. now destruct w. Qed.

Lemma to_nat_voice_id (i voice_id : Z) :
  (i <? 0) || (ANSND_MAX_VOICES <=? i) = false ->
  0 <= voice_id ->
  Z.to_nat i = Z.to_nat voice_id -> i = voice_id.
Proof.
  intros H Hv E. apply orb_false_iff in H as [Hlo _]. apply Z.ltb_ge in Hlo. lia.
Qed.

(** A call that is not one of those keeps the voice in service. *)
Lemma run_call_in_service (hw : platform) (c : call) (s : St.t) (voice_id : Z) :
  stream_in_service s voice_id ->
  ends_service voice_id s (Call c) = false ->
  stream_in_service (snd (run_call hw c s)) voice_id.
Proof.
  intros Hs Hkeep.
  pose proof Hs as (Hinit & Hlen & Hid & Hflags).
  pose proof Hflags as (Hu & Hc & Hst & Hi & He).
  assert (Hv0 : 0 <= voice_id) by lia.
  destruct c; cbn [run_call ends_service] in *; try discriminate Hkeep.
  - (* ansnd_initialize_samplerate *)
    unfold ansnd_initialize_samplerate. destruct (_ || _); [|exact Hs]. cbn [snd].
    replace (St.ansnd_library_initialized (St.set_ansnd_output_samplerate _ s))
      with true by (now destruct s).
    cbn [negb]. eapply in_service_same; [| |exact Hs]; now destruct s.
  - (* ansnd_allocate_voice *)
    unfold ansnd_allocate_voice. repeat refusal_by ltac:(exact Hs). cbn [snd].
    change (Z.to_nat ANSND_MAX_VOICES) with 48%nat in *.
    rewrite (take_ge (St.ansnd_voices s) 48) in * by lia.
    apply Z.ltb_ge in Hcheck0.
    destruct (first_unused_found (St.ansnd_voices s) 0 _ ltac:(lia) eq_refl Hcheck0)
      as [_ Hun].
    rewrite Z.sub_0_r in Hun.
    apply in_service_set_voice; [exact Hs|].
    intros E. rewrite E in Hun. unfold voice in Hu. congruence.
  - (* ansnd_deallocate_voice *)
    apply Z.eqb_neq in Hkeep.
    unfold ansnd_deallocate_voice. repeat refusal_by ltac:(exact Hs). cbv zeta.
    assert (Hne : Z.to_nat voice_id0 <> Z.to_nat voice_id)
      by (intros E; apply Hkeep; now apply to_nat_voice_id).
    destruct (V.linked_voice (voice s voice_id0)) as [j|]; cbn [snd].
    + apply in_service_on_linked.
      * apply in_service_set_voice; [exact Hs | contradiction].
      * intros _ w. apply initialized_set_linked_voice.
    + apply in_service_set_voice; [exact Hs | contradiction].
  - (* ansnd_configure_pcm_voice *)
    apply Z.eqb_neq in Hkeep.
    unfold ansnd_configure_pcm_voice. repeat refusal_by ltac:(exact Hs). cbv zeta.
    apply in_service_set_voice; [exact Hs|].
    intros E. exfalso. apply Hkeep. now apply to_nat_voice_id.
  - (* ansnd_configure_adpcm_voice *)
    apply Z.eqb_neq in Hkeep.
    unfold ansnd_configure_adpcm_voice. repeat refusal_by ltac:(exact Hs). cbv zeta.
    repeat refusal_by ltac:(exact Hs).
    apply in_service_set_voice; [exact Hs|].
    intros E. exfalso. apply Hkeep. now apply to_nat_voice_id.
  - (* ansnd_link_voices *)
    unfold ansnd_link_voices. repeat refusal_by ltac:(exact Hs). cbv zeta. cbn [snd].
    set (s1 := set_voice (Z.to_nat voice_id_1) _ s).
    assert (H1 : stream_in_service s1 voice_id).
    { apply in_service_set_voice; [exact Hs|].
      intros E. rewrite E. apply initialized_set_linked_voice. exact Hflags. }
    apply in_service_set_voice; [exact H1|].
    intros E. apply initialized_set_linked_voice.
    destruct H1 as (_ & _ & _ & H). unfold voice in H. now rewrite E.
  - (* ansnd_unlink_voice *)
    unfold ansnd_unlink_voice. repeat refusal_by ltac:(exact Hs). cbn [snd].
    apply in_service_on_linked.
    + apply in_service_set_voice; [exact Hs|].
      intros E. apply initialized_set_linked_voice. unfold voice. rewrite E. exact Hflags.
    + intros _ w. apply initialized_set_linked_voice.
  - (* ansnd_start_voice *)
    unfold ansnd_start_voice. repeat refusal_by ltac:(exact Hs). cbv zeta. cbn [snd].
    assert (Hne : Z.to_nat voice_id0 <> Z.to_nat voice_id).
    { intros E. unfold voice in *. rewrite E, Hst, Hi in *. discriminate. }
    assert (Hl : V.linked_voice (voice s voice_id0) <> Some (Z.to_nat voice_id)).
    { apply orb_false_iff in Hcheck1 as [Hlo Hhi].
      apply Z.ltb_ge in Hlo. apply Z.leb_gt in Hhi.
      destruct (Z.leb_spec 0 voice_id0); [|lia].
      destruct (Z.ltb_spec voice_id0 ANSND_MAX_VOICES); [|lia].
      cbn [andb] in Hkeep. now apply bool_decide_eq_false in Hkeep. }
    apply in_service_on_linked; [|contradiction].
    apply in_service_set_voice; [exact Hs | contradiction].
  - (* ansnd_stop_voice *)
    unfold ansnd_stop_voice. repeat refusal_by ltac:(exact Hs). cbv zeta. cbn [snd].
    apply in_service_on_linked; [|intros _ w; apply initialized_stop_flags].
    apply in_service_set_voice; [exact Hs|].
    intros E. unfold voice. rewrite E. now apply initialized_stop_flags.
  - (* ansnd_pause_voice *)
    unfold ansnd_pause_voice. repeat refusal_by ltac:(exact Hs). cbv zeta. cbn [snd].
    apply in_service_on_linked; [|intros _ w; apply initialized_pause_flags].
    apply in_service_set_voice; [exact Hs|].
    intros E. unfold voice. rewrite E. now apply initialized_pause_flags.
  - (* ansnd_unpause_voice *)
    unfold ansnd_unpause_voice. repeat refusal_by ltac:(exact Hs). cbv zeta. cbn [snd].
    apply in_service_on_linked; [|intros _ w; apply initialized_unpause_flags].
    apply in_service_set_voice; [exact Hs|].
    intros E. unfold voice. rewrite E. now apply initialized_unpause_flags.
  - (* ansnd_stop_looping *)
    unfold ansnd_stop_looping. repeat refusal_by ltac:(exact Hs). cbv zeta. cbn [snd].
    apply in_service_on_linked; [|intros _ w; apply initialized_stop_looping_flags].
    apply in_service_set_voice; [exact Hs|].
    intros E. unfold voice. rewrite E. now apply initialized_stop_looping_flags.
  - (* ansnd_set_voice_volume *)
    unfold ansnd_set_voice_volume. repeat refusal_by ltac:(exact Hs). cbv zeta. cbn [snd].
    apply in_service_set_voice; [exact Hs|].
    intros E. unfold voice. rewrite E. fold (voice s voice_id).
    revert Hflags. clear. generalize (voice s voice_id). keeps_stream.
  - (* ansnd_set_voice_pitch *)
    unfold ansnd_set_voice_pitch. repeat refusal_by ltac:(exact Hs). cbv zeta.
    repeat refusal_by ltac:(exact Hs). cbn [snd].
    apply in_service_on_linked; [|intros _ w; apply initialized_pitch_flags].
    apply in_service_set_voice; [exact Hs|].
    intros E. unfold voice. rewrite E. now apply initialized_pitch_flags.
  - unfold ansnd_get_dsp_usage_percent. repeat refusal_by ltac:(exact Hs). exact Hs.
  - unfold ansnd_get_total_usage_percent. repeat refusal_by ltac:(exact Hs). exact Hs.
  - unfold ansnd_get_total_active_voices. repeat refusal_by ltac:(exact Hs). exact Hs.
  - (* ansnd_register_audio_callback *)
    eapply in_service_same; [| |exact Hs]; now destruct s.
Qed.

(** A cycle that completes and the DMA interrupt keep it too. *)
Lemma run_action_in_service (hw : platform) (a : action) (s s1 : St.t) (voice_id : Z) :
  stream_in_service s voice_id ->
  ends_service voice_id s a = false ->
  run_action hw a s = Some s1 ->
  stream_in_service s1 voice_id.
Proof.
  intros Hs Hkeep Hrun. destruct a as [c|inp|inp]; cbn [run_action] in Hrun.
  - injection Hrun as <-. now apply run_call_in_service.
  - destruct (ansnd_dsp_request_callback hw inp s) as [[s' ev]|] eqn:E;
      [|discriminate Hrun].
    cbn in Hrun. injection Hrun as <-.
    destruct Hs as (Hinit & Hlen & Hid & Hu & Hc & Hst & Hi & He).
    pose proof (request_callback_flags hw inp s s' ev E) as (_ & _ & Hinit' & _).
    apply request_callback_effect in E as [Hlen' Hcycled]; [|exact Hlen].
    assert (Hnat : (Z.to_nat voice_id < 48)%nat) by (unfold ANSND_MAX_VOICES in Hid; lia).
    destruct (Hcycled _ Hnat) as [_ Hkept].
    destruct (Hkept He) as [(_ & _ & _ & Hu' & Hc' & He' & Hst' & Hi') _].
    unfold stream_in_service, initialized_stream, voice in *.
    rewrite Hinit', Hu', Hc', He', Hst'. repeat split; auto; lia.
  - injection Hrun as <-. eapply in_service_same; [| |exact Hs];
      unfold ansnd_audio_dma_callback; destruct (negb _); now destruct s.
Qed.

Lemma run_actions_in_service (hw : platform) (l : list action) :
  forall (s s' : St.t) (voice_id : Z),
  stream_in_service s voice_id ->
  service_kept hw voice_id l s ->
  run_actions hw l s = Some s' ->
  stream_in_service s' voice_id.
Proof.
  induction l as [|a l IH]; intros s s' voice_id Hs Hkept Hrun.
  - injection Hrun as <-. exact Hs.
  - cbn [run_actions service_kept] in *. destruct Hkept as [Ha Hl].
    destruct (run_action hw a s) as [s1|] eqn:E; [|discriminate Hrun].
    cbn in Hrun. eapply IH; [|exact Hl|exact Hrun].
    eapply run_action_in_service; eassumption.
Qed.

(** [ansnd_start_voice] on a voice in service is refused. *)
Lemma start_in_service (s : St.t) (voice_id : Z) :
  stream_in_service s voice_id ->
  ansnd_start_voice voice_id s
  = (if St.ansnd_dsp_stalled s
     then ANSND_ERROR_DSP_STALLED else ANSND_ERROR_VOICE_NOT_CONFIGURED, s).
Proof.
  intros (Hinit & _ & Hid & Hu & Hc & Hs & Hi & _). unfold ansnd_start_voice.
  rewrite Hinit, Hu, Hc, Hs, Hi. cbn [negb andb].
  destruct (St.ansnd_dsp_stalled s); [reflexivity|].
  destruct (Z.ltb_spec voice_id 0); [lia|].
  destruct (Z.leb_spec ANSND_MAX_VOICES voice_id); [lia | reflexivity].
Qed.

(** ** Starting a stream again *)

(** C9, amended: a voice configured with a streaming callback carries
    STREAMING.  A start clears INITIALIZED and the next synchronization
    cycle sets it; from then on the voice is in service, and
    [ansnd_start_voice] on it returns VoiceNotConfigured (DspStalled while
    the DSP is flagged as stalled) and changes nothing.  The voice stays in
    service, and the start stays refused, through every later cycle, DMA
    interrupt and public call other than [ansnd_uninitialize], a
    configuration or a deallocation of that voice, and a start of the
    voice that is linked to it. *)
Theorem started_stream_not_restartable (hw : platform) :
  (forall s voice_id,
     St.ansnd_library_initialized s = true ->
     St.ansnd_dsp_stalled s = false ->
     0 <= voice_id < ANSND_MAX_VOICES ->
     flag_set (V.flags (voice s voice_id)) VOICE_FLAG_USED = true ->
     flag_set (V.flags (voice s voice_id)) VOICE_FLAG_CONFIGURED = true ->
     flag_set (V.flags (voice s voice_id)) VOICE_FLAG_STREAMING = true ->
     flag_set (V.flags (voice s voice_id)) VOICE_FLAG_INITIALIZED = true ->
     ansnd_start_voice voice_id s = (ANSND_ERROR_VOICE_NOT_CONFIGURED, s))
  /\ (forall s voice_id c s1,
        length (St.ansnd_voices s) = 48%nat ->
        PcmCfg.stream_callback c <> None ->
        ansnd_configure_pcm_voice hw voice_id (Some c) s = (ANSND_ERROR_OK, s1) ->
        length (St.ansnd_voices s1) = 48%nat
        /\ flag_set (V.flags (voice s1 voice_id)) VOICE_FLAG_STREAMING = true
        /\ flag_set (V.flags (voice s1 voice_id)) VOICE_FLAG_ERASED = false
        /\ flag_set (V.flags (voice s1 voice_id)) VOICE_FLAG_INITIALIZED = false)
  /\ (forall s voice_id c s1,
        length (St.ansnd_voices s) = 48%nat ->
        AdpcmCfg.stream_callback c <> None ->
        ansnd_configure_adpcm_voice hw voice_id (Some c) s = (ANSND_ERROR_OK, s1) ->
        length (St.ansnd_voices s1) = 48%nat
        /\ flag_set (V.flags (voice s1 voice_id)) VOICE_FLAG_STREAMING = true
        /\ flag_set (V.flags (voice s1 voice_id)) VOICE_FLAG_ERASED = false
        /\ flag_set (V.flags (voice s1 voice_id)) VOICE_FLAG_INITIALIZED = false)
  /\ (forall s1 voice_id s2 inp s3 ev,
        length (St.ansnd_voices s1) = 48%nat ->
        flag_set (V.flags (voice s1 voice_id)) VOICE_FLAG_STREAMING = true ->
        flag_set (V.flags (voice s1 voice_id)) VOICE_FLAG_ERASED = false ->
        ansnd_start_voice voice_id s1 = (ANSND_ERROR_OK, s2) ->
        flag_set (V.flags (voice s2 voice_id)) VOICE_FLAG_INITIALIZED = false
        /\ (ansnd_dsp_request_callback hw inp s2 = Some (s3, ev) ->
            flag_set (V.flags (voice s3 voice_id)) VOICE_FLAG_INITIALIZED = true
            /\ stream_in_service s3 voice_id
            /\ ansnd_start_voice voice_id s3 = (ANSND_ERROR_VOICE_NOT_CONFIGURED, s3)))
  /\ (forall s voice_id l s',
        stream_in_service s voice_id ->
        service_kept hw voice_id l s ->
        run_actions hw l s = Some s' ->
        stream_in_service s' voice_id
        /\ ansnd_start_voice voice_id s'
           = (if St.ansnd_dsp_stalled s'
              then ANSND_ERROR_DSP_STALLED else ANSND_ERROR_VOICE_NOT_CONFIGURED, s')).
Proof.
  assert (Hrefused : forall s voice_id,
     St.ansnd_library_initialized s = true ->
     St.ansnd_dsp_stalled s = false ->
     0 <= voice_id < ANSND_MAX_VOICES ->
     flag_set (V.flags (voice s voice_id)) VOICE_FLAG_USED = true ->
     flag_set (V.flags (voice s voice_id)) VOICE_FLAG_CONFIGURED = true ->
     flag_set (V.flags (voice s voice_id)) VOICE_FLAG_STREAMING = true ->
     flag_set (V.flags (voice s voice_id)) VOICE_FLAG_INITIALIZED = true ->
     ansnd_start_voice voice_id s = (ANSND_ERROR_VOICE_NOT_CONFIGURED, s)).
  { intros s voice_id Hinit Hstall Hid Hu Hc Hs Hi. unfold ansnd_start_voice.
    rewrite Hinit, Hstall, Hu, Hc, Hs, Hi. simpl.
    destruct (Z.ltb_spec voice_id 0); [lia|].
    destruct (Z.leb_spec ANSND_MAX_VOICES voice_id); [lia | reflexivity]. }
  split; [exact Hrefused|]. split; [|split; [|split]].
  - intros s voice_id c s1 Hlen Hcb H.
    unfold ansnd_configure_pcm_voice in H. accepted H. cbv zeta in H. injection H as <-.
    pose proof (in_range_nat _ Hcheck0) as Hid.
    split; [now rewrite voices_set_voice, length_insert|].
    rewrite voice_set_voice_eq by lia.
    destruct (PcmCfg.stream_callback c); [|contradiction].
    destruct (V.linked_voice (voice s voice_id));
      destruct (PcmCfg.format c =? ANSND_VOICE_PCM_FORMAT_SIGNED_8_PCM);
      destruct (PcmCfg.format c =? ANSND_VOICE_PCM_FORMAT_SIGNED_16_PCM);
      destruct (PcmCfg.channels c =? 2);
      destruct (negb (PcmCfg.loop_start_offset c =? 0)
                || negb (PcmCfg.loop_end_offset c =? 0));
      repeat split.
  - intros s voice_id c s1 Hlen Hcb H.
    unfold ansnd_configure_adpcm_voice in H. accepted H. cbv zeta in H. accepted H.
    injection H as <-.
    pose proof (in_range_nat _ Hcheck0) as Hid.
    split; [now rewrite voices_set_voice, length_insert|].
    rewrite voice_set_voice_eq by lia.
    destruct (AdpcmCfg.stream_callback c); [|contradiction].
    destruct (V.linked_voice (voice s voice_id));
      destruct (AdpcmCfg.adpcm_format c =? DSP_ACCL_FMT_ADPCM);
      destruct (negb (AdpcmCfg.loop_flag c =? 0));
      repeat split.
  - intros s1 voice_id s2 inp s3 ev Hlen Hstream Herased Hstart.
    destruct (start_accepted s1 s2 voice_id Hlen Hstart)
      as (Hinit2 & Hlen2 & Hnat & Hid & Hused & Hconf & w & Hw & Hcase).
    assert (Hbits : flag_set (V.flags w) VOICE_FLAG_USED = true
                    /\ flag_set (V.flags w) VOICE_FLAG_CONFIGURED = true
                    /\ flag_set (V.flags w) VOICE_FLAG_STREAMING = true
                    /\ flag_set (V.flags w) VOICE_FLAG_ERASED = false).
    { destruct Hcase as [-> | ->]; [now repeat split|].
      destruct (start_flags_bits (voice s1 voice_id)) as (-> & -> & -> & -> & _).
      now repeat split. }
    destruct Hbits as (Hu & Hc & Hs & He).
    destruct (start_flags_bits w) as (Hu2 & Hc2 & Hs2 & He2 & Hupd2).
    rewrite <- Hw in Hu2, Hc2, Hs2, He2, Hupd2.
    split.
    { rewrite Hw. unfold start_flags. simpl. flag_bits. reflexivity. }
    intros Hcycle.
    pose proof (request_callback_flags hw inp s2 s3 ev Hcycle)
      as (Hstall3 & _ & Hinit3 & _).
    apply request_callback_effect in Hcycle as [Hlen3 Hcycled]; [|exact Hlen2].
    destruct (Hcycled _ Hnat) as [_ Hkept].
    fold (voice s2 voice_id) in Hkept. fold (voice s3 voice_id) in Hkept.
    destruct Hkept as [(_ & _ & _ & Hu3 & Hc3 & He3 & Hs3 & _) Hi3]; [congruence|].
    assert (Hinit : flag_set (V.flags (voice s3 voice_id)) VOICE_FLAG_INITIALIZED = true)
      by (apply Hi3; exact Hupd2).
    split; [exact Hinit|]. split.
    { unfold stream_in_service, initialized_stream. repeat split; try congruence; lia. }
    apply Hrefused; try congruence.
  - intros s voice_id l s' Hs Hkept Hrun.
    pose proof (run_actions_in_service hw l s s' voice_id Hs Hkept Hrun) as Hs'.
    split; [exact Hs' | now apply start_in_service].
Qed.

(** The theorem at voice 0: configured for streaming, PCM or ADPCM, then
    started, synchronized by a cycle, and played on. *)
Lemma started_stream_not_restartable_witness :
  length (St.ansnd_voices one_voice_allocated) = 48%nat
  /\ (exists s1,
        ansnd_configure_adpcm_voice HW_RVL 0 (Some adpcm_stream_config) one_voice_allocated
        = (ANSND_ERROR_OK, s1)
        /\ flag_set (V.flags (voice s1 0)) VOICE_FLAG_STREAMING = true)
  /\ ansnd_configure_pcm_voice HW_RVL 0 (Some (pcm_config 48000 0 0 (Some 1%nat)))
       one_voice_allocated = (ANSND_ERROR_OK, streaming_configured)
  /\ flag_set (V.flags (voice streaming_configured 0)) VOICE_FLAG_STREAMING = true
  /\ flag_set (V.flags (voice streaming_configured 0)) VOICE_FLAG_ERASED = false
  /\ ansnd_start_voice 0 streaming_configured = (ANSND_ERROR_OK, stream_started)
  /\ (exists ev,
        ansnd_dsp_request_callback HW_RVL feeding_cycle stream_started
        = Some (stream_in_flight, ev))
  /\ ansnd_start_voice 0 stream_in_flight
     = (ANSND_ERROR_VOICE_NOT_CONFIGURED, stream_in_flight)
  /\ service_kept HW_RVL 0 stream_played_on stream_in_flight
  /\ exists s',
       run_actions HW_RVL stream_played_on stream_in_flight = Some s'
       /\ flag_set (V.flags (voice s' 1)) VOICE_FLAG_RUNNING = true
       /\ ansnd_start_voice 0 s' = (ANSND_ERROR_VOICE_NOT_CONFIGURED, s').
Proof.
  destruct (started_stream_not_restartable HW_RVL)
    as (Hguard & Hpcm & Hadpcm & Hcycle & Hlater).
  assert (H0 : length (St.ansnd_voices one_voice_allocated) = 48%nat) by reflexivity.
  assert (Ha : ansnd_configure_adpcm_voice HW_RVL 0 (Some adpcm_stream_config)
                 one_voice_allocated
               = (ANSND_ERROR_OK,
                  snd (ansnd_configure_adpcm_voice HW_RVL 0 (Some adpcm_stream_config)
                         one_voice_allocated)))
    by (vm_compute; reflexivity).
  assert (Hp : ansnd_configure_pcm_voice HW_RVL 0 (Some (pcm_config 48000 0 0 (Some 1%nat)))
                 one_voice_allocated = (ANSND_ERROR_OK, streaming_configured))
    by (vm_compute; reflexivity).
  destruct (Hadpcm one_voice_allocated 0 adpcm_stream_config _ H0 ltac:(discriminate) Ha)
    as (_ & Hsa & _).
  destruct (Hpcm one_voice_allocated 0 (pcm_config 48000 0 0 (Some 1%nat)) _ H0
              ltac:(discriminate) Hp) as (H1 & H2 & H3 & _).
  assert (H4 : ansnd_start_voice 0 streaming_configured = (ANSND_ERROR_OK, stream_started))
    by (vm_compute; reflexivity).
  assert (H5 : exists ev,
             ansnd_dsp_request_callback HW_RVL feeding_cycle stream_started
             = Some (stream_in_flight, ev))
    by (eexists; vm_compute; reflexivity).
  assert (H6 : service_kept HW_RVL 0 stream_played_on stream_in_flight)
    by (vm_compute; repeat split).
  split; [exact H0|]. split; [eexists; split; [exact Ha | exact Hsa]|].
  split; [exact Hp | split; [exact H2 | split; [exact H3 | split; [exact H4 |]]]].
  split; [exact H5|].
  destruct H5 as [ev H5].
  destruct (Hcycle _ 0 _ feeding_cycle stream_in_flight ev H1 H2 H3 H4) as [_ Hafter].
  destruct (Hafter H5) as (Hi & Hservice & _).
  pose proof Hservice as (Hinit & _ & Hid & Hu & Hc & Hs & _).
  assert (Hrefused : ansnd_start_voice 0 stream_in_flight
                     = (ANSND_ERROR_VOICE_NOT_CONFIGURED, stream_in_flight)).
  { apply Hguard; try assumption; vm_compute; reflexivity. }
  split; [exact Hrefused | split; [exact H6|]].
  destruct (run_actions HW_RVL stream_played_on stream_in_flight) as [s'|] eqn:E;
    [|vm_compute in E; discriminate E].
  exists s'. split; [reflexivity|].
  destruct (Hlater stream_in_flight 0 stream_played_on s' Hservice H6 E) as [_ Hstart].
  split; [vm_compute in E; injection E as <-; vm_compute; reflexivity|].
  rewrite Hstart.
  replace (St.ansnd_dsp_stalled s') with false
    by (vm_compute in E; injection E as <-; reflexivity).
  reflexivity.
Defined.

(** The start of the voice a stream is linked to is one of the actions set
    apart above: [ansnd_start_voice] clears INITIALIZED in the linked voice
    without the test it makes on the voice it is called for, so the stream
    that refuses its own start is started again through its partner. *)
Remark partner_start_restarts_stream :
  exists s s1,
    linked_stream_in_flight = Some s
    /\ stream_in_service s 0
    /\ ansnd_start_voice 0 s = (ANSND_ERROR_VOICE_NOT_CONFIGURED, s)
    /\ ends_service 0 s (Call (StartVoice 1)) = true
    /\ ansnd_start_voice 1 s = (ANSND_ERROR_OK, s1)
    /\ flag_set (V.flags (voice s1 0)) VOICE_FLAG_INITIALIZED = false
    /\ fst (ansnd_start_voice 0 s1) = ANSND_ERROR_OK.
Proof.
  eexists. eexists. split; [vm_compute; reflexivity|].
  split; [unfold stream_in_service, initialized_stream; vm_compute; repeat split;
          discriminate|].
  split; [vm_compute; reflexivity|]. split; [vm_compute; reflexivity|].
  split; [vm_compute; reflexivity|]. split; vm_compute; reflexivity.
Qed.

(** ** The exchange slot of a voice that is initialized again *)

(** C2, as stated, fails across a cycle for a voice that the cycle
    initializes again: [ansnd_initialize_voice] clears the block before the
    slot is tested, so the slot reads empty and the buffer in flight at
    0x2000, which the DSP has not taken, is replaced by the next one at
    0x3000.  A running stream is initialized again after it has been
    configured anew and started, and after the voice it is linked to has
    been started. *)
Lemma reinitialized_stream_restaged :
  (exists s1 s2,
     run_actions HW_RVL stream_configured_anew stream_in_flight = Some s1
     /\ flag_set (V.flags (voice s1 0)) VOICE_FLAG_STREAMING = true
     /\ flag_set (V.flags (voice s1 0)) VOICE_FLAG_LOOPED = false
     /\ flag_set (V.flags (voice s1 0)) VOICE_FLAG_RUNNING = true
     /\ slot_0 stream_in_flight = Some 0x2000
     /\ slot_0 s1 = Some 0x2000
     /\ run_action HW_RVL (Cycle next_feeding_cycle) s1 = Some s2
     /\ slot_0 s2 = Some 0x3000)
  /\ (exists s s1 s2,
        linked_stream_in_flight = Some s
        /\ ansnd_start_voice 1 s = (ANSND_ERROR_OK, s1)
        /\ flag_set (V.flags (voice s1 0)) VOICE_FLAG_STREAMING = true
        /\ flag_set (V.flags (voice s1 0)) VOICE_FLAG_LOOPED = false
        /\ flag_set (V.flags (voice s1 0)) VOICE_FLAG_RUNNING = true
        /\ slot_0 s = Some 0x2000
        /\ slot_0 s1 = Some 0x2000
        /\ run_action HW_RVL (Cycle next_feeding_cycle) s1 = Some s2
        /\ slot_0 s2 = Some 0x3000).
Proof.
  split.
  - eexists. eexists. split; [vm_compute; reflexivity|].
    repeat (split; [vm_compute; reflexivity|]). vm_compute; reflexivity.
  - eexists. eexists. eexists. split; [vm_compute; reflexivity|].
    repeat (split; [vm_compute; reflexivity|]). vm_compute; reflexivity.
Qed.

(** ** Deallocating a voice that was never configured *)

(** Deallocating a voice of a library in which every slot holds a freshly
    allocated voice, and the cycle that follows. *)
Lemma filled_deallocation_faults (hw : platform) (inp : cycle_input)
    (t : St.t) (voice_id : Z) :
  filled 48 t ->
  0 <= voice_id < ANSND_MAX_VOICES ->
  fst (ansnd_deallocate_voice voice_id t) = ANSND_ERROR_OK
  /\ flag_set (V.flags (voice (snd (ansnd_deallocate_voice voice_id t)) voice_id))
              VOICE_FLAG_USED = true
  /\ flag_set (V.flags (voice (snd (ansnd_deallocate_voice voice_id t)) voice_id))
              VOICE_FLAG_ERASED = true
  /\ flag_set (V.flags (voice (snd (ansnd_deallocate_voice voice_id t)) voice_id))
              VOICE_FLAG_UPDATED = true
  /\ V.parameter_block (voice (snd (ansnd_deallocate_voice voice_id t)) voice_id) = None
  /\ ansnd_allocate_voice (snd (ansnd_deallocate_voice voice_id t))
     = (ANSND_ERROR_ALL_VOICES_USED, snd (ansnd_deallocate_voice voice_id t))
  /\ ansnd_dsp_request_callback hw inp (snd (ansnd_deallocate_voice voice_id t)) = None.
Proof.
  intros (Hinit & Hlen & Hlow & _) Hid.
  assert (Hnat : (Z.to_nat voice_id < 48)%nat) by (unfold ANSND_MAX_VOICES in Hid; lia).
  assert (Hused : forall j, (j < 48)%nat ->
            flag_set (V.flags (St.ansnd_voices t !!! j)) VOICE_FLAG_USED = true).
  { intros j Hj. now rewrite Hlow. }
  assert (Hnull : V.parameter_block (voice t voice_id) = None).
  { unfold voice. now rewrite Hlow. }
  destruct (deallocate_flags t voice_id Hinit Hlen Hid (Hused _ Hnat))
    as (Hok & Hinit1 & Hlen1 & Hfl).
  destruct (ansnd_deallocate_voice voice_id t) as [r t1] eqn:Hde.
  cbn [fst snd] in *. subst r.
  destruct (deallocate_marks t t1 voice_id Hlen Hde) as (_ & _ & _ & Hself & Hpb & _).
  assert (Hused1 : forall j, (j < 48)%nat ->
            flag_set (V.flags (St.ansnd_voices t1 !!! j)) VOICE_FLAG_USED = true).
  { intros j Hj. rewrite Hfl. destruct (decide _).
    - pose proof (Hused _ Hnat) as Hu. unfold voice in *. flag_bits. now rewrite Hu.
    - now apply Hused. }
  split; [reflexivity|].
  split; [now apply Hused1|].
  split; [rewrite Hself; flag_bits; reflexivity|].
  split; [rewrite Hself; flag_bits; reflexivity|].
  split; [congruence|]. split; [now apply allocate_full|].
  exact (deallocate_unconfigured_faults hw inp t t1 voice_id Hlen Hnull Hde).
Qed.

(** C1: on a freshly initialized library the 48 first calls of
    [ansnd_allocate_voice] return the ids 0 to 47 in turn and the 49th
    returns AllVoicesUsed.  Deallocating one of these voices marks its slot
    ERASED and UPDATED and leaves it USED, so allocation is still refused.
    The voice was never configured, so its [parameter_block] is NULL: the
    synchronization cycle that is to tear it down passes that pointer to
    [memset] in [ansnd_erase_voice] and faults, on either platform and
    whatever the inputs of the cycle are.  The slot is never freed, and no
    further allocation succeeds. *)
Theorem deallocated_fresh_voice_faults (hw : platform) (inp : cycle_input)
    (output_samplerate : Z) (s0 : St.t) (voice_id : Z) :
  St.ansnd_library_initialized s0 = false ->
  fst (ansnd_initialize_samplerate output_samplerate s0) = ANSND_ERROR_OK ->
  0 <= voice_id < ANSND_MAX_VOICES ->
  let s := snd (ansnd_initialize_samplerate output_samplerate s0) in
  let t := run_calls hw (repeat AllocateVoice 48) s in
  let t1 := snd (ansnd_deallocate_voice voice_id t) in
  (forall k, (k < 48)%nat ->
     fst (ansnd_allocate_voice (run_calls hw (repeat AllocateVoice k) s)) = Z.of_nat k)
  /\ ansnd_allocate_voice t = (ANSND_ERROR_ALL_VOICES_USED, t)
  /\ fst (ansnd_deallocate_voice voice_id t) = ANSND_ERROR_OK
  /\ flag_set (V.flags (voice t1 voice_id)) VOICE_FLAG_USED = true
  /\ flag_set (V.flags (voice t1 voice_id)) VOICE_FLAG_ERASED = true
  /\ flag_set (V.flags (voice t1 voice_id)) VOICE_FLAG_UPDATED = true
  /\ V.parameter_block (voice t1 voice_id) = None
  /\ ansnd_allocate_voice t1 = (ANSND_ERROR_ALL_VOICES_USED, t1)
  /\ ansnd_dsp_request_callback hw inp t1 = None.
Proof.
  intros Hinit0 Hok0 Hid. cbv zeta.
  assert (Hf : filled 0 (snd (ansnd_initialize_samplerate output_samplerate s0)))
    by (now apply filled_initialize).
  assert (Hk : forall k, (k <= 48)%nat ->
            filled k (run_calls hw (repeat AllocateVoice k)
                        (snd (ansnd_initialize_samplerate output_samplerate s0)))).
  { intros k Hk. apply (filled_allocations hw k 0 _ Hf). lia. }
  pose proof (Hk 48%nat ltac:(lia)) as H48.
  revert H48. generalize (run_calls hw (repeat AllocateVoice 48)
                            (snd (ansnd_initialize_samplerate output_samplerate s0))).
  intros t H48.
  split.
  { intros k Hk'. now destruct (filled_allocate k _ (Hk k ltac:(lia)) Hk'). }
  split.
  { destruct H48 as (Hinit & Hlen & Hlow & _). apply allocate_full; auto.
    intros j Hj. now rewrite Hlow. }
  now apply filled_deallocation_faults.
Qed.

(** The theorem at program start, voice 5 and a quiet cycle. *)
Lemma deallocated_fresh_voice_faults_witness :
  St.ansnd_library_initialized initial_state = false
  /\ fst (ansnd_initialize_samplerate ANSND_OUTPUT_SAMPLERATE_48KHZ initial_state)
     = ANSND_ERROR_OK
  /\ 0 <= 5 < ANSND_MAX_VOICES
  /\ fst (ansnd_deallocate_voice 5 all_voices_allocated) = ANSND_ERROR_OK
  /\ ansnd_dsp_request_callback HW_RVL quiet_cycle
       (snd (ansnd_deallocate_voice 5 all_voices_allocated)) = None.
Proof.
  assert (H1 : St.ansnd_library_initialized initial_state = false) by reflexivity.
  assert (H2 : fst (ansnd_initialize_samplerate ANSND_OUTPUT_SAMPLERATE_48KHZ initial_state)
               = ANSND_ERROR_OK) by reflexivity.
  assert (H3 : 0 <= 5 < ANSND_MAX_VOICES) by (unfold ANSND_MAX_VOICES; lia).
  split; [exact H1 | split; [exact H2 | split; [exact H3 |]]].
  destruct (deallocated_fresh_voice_faults HW_RVL quiet_cycle
              ANSND_OUTPUT_SAMPLERATE_48KHZ initial_state 5 H1 H2 H3)
    as (_ & _ & Hok & _ & _ & _ & _ & _ & Hfault).
  split; [exact Hok | exact Hfault].
Defined.

(** ** A link to a deallocated voice *)

(** C3: the link relation does not stay symmetric.  A voice stays USED
    from its deallocation to the next synchronization cycle, so
    [ansnd_link_voices] still accepts it; the cycle then tears it down and
    leaves its partner pointing at the free slot.  Once that slot is
    allocated again and linked to a third voice, three voices hang
    together: voice 0 points at voice 1, which is paired with voice 2. *)
Theorem link_to_deallocated_voice_dangles :
  registry_ok (run_calls HW_RVL linked_to_deallocated initial_state)
  /\ option_map
       (fun r : St.t * list event =>
          (V.linked_voice (St.ansnd_voices (fst r) !!! 0%nat),
           V.linked_voice (St.ansnd_voices (fst r) !!! 1%nat)))
       (ansnd_dsp_request_callback HW_RVL quiet_cycle
          (run_calls HW_RVL linked_to_deallocated initial_state))
     = Some (Some 1%nat, None)
  /\ fst (ansnd_link_voices 0 1 (run_calls HW_RVL (take 5 linked_to_deallocated) initial_state))
     = ANSND_ERROR_OK
  /\ exists s,
       run_actions HW_RVL relinked_after_teardown initial_state = Some s
       /\ V.linked_voice (voice s 0) = Some 1%nat
       /\ V.linked_voice (voice s 1) = Some 2%nat
       /\ V.linked_voice (voice s 2) = Some 1%nat
       /\ flag_set (V.flags (voice s 0)) VOICE_FLAG_USED = true
       /\ flag_set (V.flags (voice s 1)) VOICE_FLAG_USED = true
       /\ flag_set (V.flags (voice s 2)) VOICE_FLAG_USED = true.
Proof.
  split; [apply run_calls_registry_ok, registry_ok_initial|].
  split; [vm_compute; reflexivity|]. split; [vm_compute; reflexivity|].
  eexists. split; [vm_compute; reflexivity|]. vm_compute. repeat split.
Qed.

(** ** The link relation under the public calls *)

(** When [ansnd_unlink_voice] refuses a voice, [ansnd_start_voice] on that
    voice touches no other voice: a linked voice is refused by a test the
    two functions share. *)
Lemma unlink_refused_start (s : St.t) (a : Z) :
  fst (ansnd_unlink_voice a s) <> ANSND_ERROR_OK ->
  snd (ansnd_unlink_voice a s) = s
  /\ forall j : nat,
       j <> Z.to_nat a ->
       St.ansnd_voices (snd (ansnd_start_voice a s)) !!! j = St.ansnd_voices s !!! j.
Proof.
  intros H. unfold ansnd_unlink_voice in *. unfold ansnd_start_voice.
  destruct (negb (St.ansnd_library_initialized s)); [split; reflexivity|].
  destruct ((a <? 0) || (ANSND_MAX_VOICES <=? a));
    [split; [reflexivity | now destruct (St.ansnd_dsp_stalled s)]|].
  destruct (negb (flag_set (V.flags (voice s a)) VOICE_FLAG_USED));
    [split; [reflexivity | now destruct (St.ansnd_dsp_stalled s)]|].
  destruct (negb (flag_set (V.flags (voice s a)) VOICE_FLAG_CONFIGURED));
    [split; [reflexivity | now destruct (St.ansnd_dsp_stalled s)]|].
  destruct (V.linked_voice (voice s a)) as [b|]; [exfalso; apply H; reflexivity|].
  split; [reflexivity|]. intros j Hj.
  destruct (St.ansnd_dsp_stalled s); [reflexivity|].
  destruct (_ && _); [reflexivity|].
  cbn [snd on_linked]. rewrite voices_set_voice.
  now rewrite list_lookup_total_insert_ne by auto.
Qed.

(** X23: after any sequence of public calls from program start, with no
    synchronization cycle in between, the link relation is symmetric and
    irreflexive and stays inside the registry, so a voice belongs to at
    most one pair.  In such a state, a successful link of [a] and [b]
    followed by a successful start of [a] leaves [b] running; after a
    successful unlink of [a], [a] has no link and starting [a] changes no
    voice other than [a]; and whatever [ansnd_unlink_voice] returns for
    [a], a start of [a] after it changes no voice other than [a]. *)
Theorem links_stay_symmetric (hw : platform) (cs : list call) :
  let s := run_calls hw cs initial_state in
  (forall a b : nat,
     (a < 48)%nat ->
     V.linked_voice (St.ansnd_voices s !!! a) = Some b ->
     b <> a /\ (b < 48)%nat
     /\ V.linked_voice (St.ansnd_voices s !!! b) = Some a
     /\ (forall c : nat,
           (c < 48)%nat -> V.linked_voice (St.ansnd_voices s !!! c) = Some a -> c = b))
  /\ (forall (a b : Z) (s1 s2 : St.t),
        ansnd_link_voices a b s = (ANSND_ERROR_OK, s1) ->
        ansnd_start_voice a s1 = (ANSND_ERROR_OK, s2) ->
        flag_set (V.flags (voice s2 b)) VOICE_FLAG_RUNNING = true)
  /\ (forall (a : Z) (b : nat) (s1 : St.t),
        V.linked_voice (voice s a) = Some b ->
        ansnd_unlink_voice a s = (ANSND_ERROR_OK, s1) ->
        V.linked_voice (voice s1 a) = None
        /\ St.ansnd_voices (snd (ansnd_start_voice a s1)) !!! b = St.ansnd_voices s1 !!! b
        /\ forall j : nat,
             j <> Z.to_nat a ->
             St.ansnd_voices (snd (ansnd_start_voice a s1)) !!! j
             = St.ansnd_voices s1 !!! j)
  /\ (forall (a : Z) (j : nat),
        j <> Z.to_nat a ->
        St.ansnd_voices (snd (ansnd_start_voice a (snd (ansnd_unlink_voice a s)))) !!! j
        = St.ansnd_voices (snd (ansnd_unlink_voice a s)) !!! j).
Proof.
  intros s.
  assert (Hok : registry_ok s) by apply run_calls_registry_ok, registry_ok_initial.
  destruct Hok as [Hlen Hsym].
  repeat match goal with |- _ /\ _ => split end.
  - intros a b Ha Hl. destruct (Hsym a b Ha Hl) as (Hne & Hb & Hback & _).
    repeat split; auto.
    intros c Hc Hlc. destruct (Hsym c a Hc Hlc) as (_ & _ & Hac & _). congruence.
  - intros a b s1 s2 Hlink Hstart.
    now destruct (link_then_start s s1 s2 a b Hlen Hlink Hstart) as (_ & _ & _ & H).
  - intros a b s1 Hl Hun.
    pose proof (unlink_then_start s s1 a Hlen Hun) as Hothers.
    assert (Ha : (Z.to_nat a < 48)%nat).
    { unfold ansnd_unlink_voice in Hun. accepted Hun. now apply in_range_nat. }
    destruct (Hsym _ b Ha Hl) as (Hne & _).
    split; [|split; [now apply Hothers | exact Hothers]].
    unfold ansnd_unlink_voice in Hun. accepted Hun. rewrite Hl in Hun.
    injection Hun as <-. unfold voice.
    rewrite !voices_set_voice.
    rewrite list_lookup_total_insert_ne by auto.
    rewrite list_lookup_total_insert_eq by lia. reflexivity.
  - intros a j Hj.
    destruct (Z.eq_dec (fst (ansnd_unlink_voice a s)) ANSND_ERROR_OK) as [Hacc|Href].
    + apply (unlink_then_start s _ a Hlen); [|exact Hj].
      rewrite <- Hacc. apply surjective_pairing.
    + destruct (unlink_refused_start s a Href) as [-> Hsame]. now apply Hsame.
Qed.

(** The theorem at two configured voices: linked, voice 0 started; and
    linked, then unlinked, voice 0 started. *)
Lemma links_stay_symmetric_witness :
  (exists s1 s2,
     ansnd_link_voices 0 1 (run_calls HW_RVL pair_configured initial_state)
     = (ANSND_ERROR_OK, s1)
     /\ V.linked_voice (St.ansnd_voices s1 !!! 0%nat) = Some 1%nat
     /\ V.linked_voice (St.ansnd_voices s1 !!! 1%nat) = Some 0%nat
     /\ flag_set (V.flags (voice s1 1)) VOICE_FLAG_RUNNING = false
     /\ ansnd_start_voice 0 s1 = (ANSND_ERROR_OK, s2)
     /\ flag_set (V.flags (voice s2 1)) VOICE_FLAG_RUNNING = true)
  /\ (exists s1,
        V.linked_voice
          (voice (run_calls HW_RVL (pair_configured ++ [LinkVoices 0 1]) initial_state) 0)
        = Some 1%nat
        /\ ansnd_unlink_voice 0
             (run_calls HW_RVL (pair_configured ++ [LinkVoices 0 1]) initial_state)
           = (ANSND_ERROR_OK, s1)
        /\ V.linked_voice (voice s1 0) = None
        /\ V.linked_voice (voice s1 1) = None
        /\ fst (ansnd_start_voice 0 s1) = ANSND_ERROR_OK
        /\ flag_set (V.flags (voice (snd (ansnd_start_voice 0 s1)) 0)) VOICE_FLAG_RUNNING
           = true
        /\ St.ansnd_voices (snd (ansnd_start_voice 0 s1)) !!! 1%nat
           = St.ansnd_voices s1 !!! 1%nat).
Proof.
  split.
  - destruct (links_stay_symmetric HW_RVL pair_configured) as (_ & Hstart & _).
    assert (H1 : ansnd_link_voices 0 1 (run_calls HW_RVL pair_configured initial_state)
                 = (ANSND_ERROR_OK,
                    run_calls HW_RVL (pair_configured ++ [LinkVoices 0 1]) initial_state))
      by (vm_compute; reflexivity).
    assert (H2 : ansnd_start_voice 0
                   (run_calls HW_RVL (pair_configured ++ [LinkVoices 0 1]) initial_state)
                 = (ANSND_ERROR_OK,
                    run_calls HW_RVL (pair_configured ++ [LinkVoices 0 1; StartVoice 0])
                      initial_state))
      by (vm_compute; reflexivity).
    eexists. eexists. split; [exact H1|].
    split; [vm_compute; reflexivity|]. split; [vm_compute; reflexivity|].
    split; [vm_compute; reflexivity|]. split; [exact H2|].
    exact (Hstart 0 1 _ _ H1 H2).
  - destruct (links_stay_symmetric HW_RVL (pair_configured ++ [LinkVoices 0 1]))
      as (_ & _ & Hunlink & _).
    assert (H1 : V.linked_voice
                   (voice (run_calls HW_RVL (pair_configured ++ [LinkVoices 0 1])
                             initial_state) 0) = Some 1%nat)
      by (vm_compute; reflexivity).
    assert (H2 : ansnd_unlink_voice 0
                   (run_calls HW_RVL (pair_configured ++ [LinkVoices 0 1]) initial_state)
                 = (ANSND_ERROR_OK,
                    run_calls HW_RVL (pair_configured ++ [LinkVoices 0 1; UnlinkVoice 0])
                      initial_state))
      by (vm_compute; reflexivity).
    destruct (Hunlink 0 1%nat _ H1 H2) as (Hnone & Hpartner & _).
    eexists. split; [exact H1|]. split; [exact H2|].
    split; [exact Hnone|]. split; [vm_compute; reflexivity|].
    split; [vm_compute; reflexivity|]. split; [vm_compute; reflexivity|].
    exact Hpartner.
Defined.
